(** * Frontend_Monitoreo_Latrina: route guard, report aggregation, paginated
    CRUD pages and their submit handlers

  A shallow embedding of the TypeScript sources of the dashboard:
  - [routes/Router] and [routes/RoleProtectedRoute.tsx];
  - [views/reportes/Reportes] (filtering and chart aggregation);
  - [views/dispositivos/Dispositivos.tsx] (pagination, Traccar integration);
  - [views/programar-salida/ProgramarSalida.tsx] (pagination, validation);
  - [views/conductores/EntregaObservacion.tsx] and the monitoring panel.

  React state is a record, a handler is a function from the state of the
  render it closes over to the state after its updates, together with the
  trace of dialogs and HTTP requests it issued.  The answers of the outside
  world (dialog answers, HTTP responses) are an explicit [World]. *)

From Stdlib Require Import List String Ascii Bool Arith ZArith NArith Lia DecimalString.
From Stdlib Require Import Permutation Sorted.
From Stdlib Require Import Floats.SpecFloat.
From Stdlib Require DecimalPos.
Import ListNotations.

(* ===================================================================== *)
(** * JavaScript values used by the pages *)
(* ===================================================================== *)

Module Js.

Local Open Scope string_scope.

(** A JS string is truthy when it is not empty. *)
Definition truthy (s : string) : bool := negb (s =? "").

(** [value ?? ''] followed by a truthiness test: [undefined], [null] and
    [''] are the falsy ones. *)
Definition truthy_opt (o : option string) : bool :=
  match o with
  | Some s => truthy s
  | None => false
  end.

(** [a < b] and [a >= b] on strings: lexicographic on code units, which
    for the ASCII strings compared by the pages (dates) are the characters. *)
Definition str_lt (a b : string) : bool := String.ltb a b.
Definition str_ge (a b : string) : bool := negb (String.ltb a b).

(** The strings of the pages are sequences of bytes, the UTF-8 encoding of
    the JavaScript strings.  White space removed by [String.prototype.trim]
    is WhiteSpace and LineTerminator of ECMAScript: in one byte TAB, LF, VT,
    FF, CR and SP; in two bytes U+00A0; in three bytes U+1680, U+2000 to
    U+200A, U+2028, U+2029, U+202F, U+205F, U+3000 and U+FEFF. *)
Definition is_space (c : ascii) : bool :=
  let n := nat_of_ascii c in
  (n =? 32)%nat || ((9 <=? n)%nat && (n <=? 13)%nat).

Definition is_space2 (c1 c2 : ascii) : bool :=
  ((nat_of_ascii c1 =? 194) && (nat_of_ascii c2 =? 160))%nat.

Definition is_space3 (c1 c2 c3 : ascii) : bool :=
  let n1 := nat_of_ascii c1 in
  let n2 := nat_of_ascii c2 in
  let n3 := nat_of_ascii c3 in
  (((n1 =? 225) && (n2 =? 154) && (n3 =? 128))
   || ((n1 =? 226) && (n2 =? 128)
       && (((128 <=? n3) && (n3 <=? 138)) || (n3 =? 168) || (n3 =? 169) || (n3 =? 175)))
   || ((n1 =? 226) && (n2 =? 129) && (n3 =? 159))
   || ((n1 =? 227) && (n2 =? 128) && (n3 =? 128))
   || ((n1 =? 239) && (n2 =? 187) && (n3 =? 191)))%nat.

Fixpoint trimStart (s : string) : string :=
  match s with
  | EmptyString => EmptyString
  | String c1 r1 =>
      if is_space c1 then trimStart r1
      else
        match r1 with
        | EmptyString => s
        | String c2 r2 =>
            if is_space2 c1 c2 then trimStart r2
            else
              match r2 with
              | EmptyString => s
              | String c3 r3 => if is_space3 c1 c2 c3 then trimStart r3 else s
              end
        end
  end.

(** Nothing but white space. *)
Definition blank (s : string) : bool :=
  match trimStart s with
  | EmptyString => true
  | String _ _ => false
  end.

Fixpoint trimEnd (s : string) : string :=
  match s with
  | EmptyString => EmptyString
  | String c r => if blank s then EmptyString else String c (trimEnd r)
  end.

Definition trim (s : string) : string := trimEnd (trimStart s).

(** The same white space by code point: WhiteSpace (TAB, VT, FF, SP, NBSP,
    ZWNBSP and the space separators of Unicode) and LineTerminator (LF, CR,
    LS, PS). *)
Definition WhiteSpace : list N :=
  [9; 10; 11; 12; 13; 32; 160; 5760;
   8192; 8193; 8194; 8195; 8196; 8197; 8198; 8199; 8200; 8201; 8202;
   8232; 8233; 8239; 8287; 12288; 65279]%N.

(** The UTF-8 bytes of a code point below U+10000. *)
Definition utf8 (cp : N) : string :=
  if (cp <? 128)%N then String (ascii_of_N cp) ""
  else if (cp <? 2048)%N then
    String (ascii_of_N (192 + cp / 64)) (String (ascii_of_N (128 + cp mod 64)) "")
  else
    String (ascii_of_N (224 + cp / 4096))
      (String (ascii_of_N (128 + (cp / 64) mod 64))
         (String (ascii_of_N (128 + cp mod 64)) "")).

(** A text of white space only. *)
Inductive espacios : string -> Prop :=
| espacios_nil : espacios ""
| espacios_cons (cp : N) (r : string) :
    In cp WhiteSpace -> espacios r -> espacios (utf8 cp ++ r).

(** A text with no white space at its start nor at its end. *)
Definition recortado (t : string) : Prop :=
  forall cp r, In cp WhiteSpace -> t <> utf8 cp ++ r /\ t <> r ++ utf8 cp.

(** [const sanitize = (value?: string | null): string => (value ?? '').trim()] *)
Definition sanitize (value : option string) : string :=
  trim (match value with Some v => v | None => "" end).

Definition is_digit (c : ascii) : bool :=
  let n := nat_of_ascii c in (48 <=? n)%nat && (n <=? 57)%nat.

(** The match of [/^(\d{4})-(\d{2})-(\d{2})/]: the first ten characters,
    when they have the shape yyyy-MM-dd. *)
Definition iso_prefix (s : string) : option string :=
  match s with
  | String y1 (String y2 (String y3 (String y4 (String h1
      (String m1 (String m2 (String h2 (String d1 (String d2 _))))))))) =>
      if is_digit y1 && is_digit y2 && is_digit y3 && is_digit y4
         && Ascii.eqb h1 "-" && is_digit m1 && is_digit m2
         && Ascii.eqb h2 "-" && is_digit d1 && is_digit d2
      then Some (substring 0 10 s)
      else None
  | _ => None
  end.

(** The test [/^\d{4}-\d{2}-\d{2}$/]. *)
Definition is_iso_date (s : string) : bool :=
  match iso_prefix s with
  | Some _ => (String.length s =? 10)%nat
  | None => false
  end.

(** The calendar date of a yyyy-MM-dd string: year, month and day. *)
Definition digit_value (c : ascii) : nat := nat_of_ascii c - 48.

Definition date_of_iso (s : string) : option (nat * nat * nat) :=
  if is_iso_date s then
    match s with
    | String y1 (String y2 (String y3 (String y4 (String _
        (String m1 (String m2 (String _ (String d1 (String d2 _))))))))) =>
        Some (1000 * digit_value y1 + 100 * digit_value y2
                + 10 * digit_value y3 + digit_value y4,
              10 * digit_value m1 + digit_value m2,
              10 * digit_value d1 + digit_value d2)%nat
    | _ => None
    end
  else None.

(** One calendar date is before another. *)
Definition date_ltb (a b : nat * nat * nat) : bool :=
  let '(y, m, d) := a in
  let '(y', m', d') := b in
  ((y <? y') || ((y =? y') && ((m <? m') || ((m =? m') && (d <? d')))))%nat.

(** The date [a] is earlier than the date [b], both written yyyy-MM-dd. *)
Definition fecha_anterior_a (a b : string) : Prop :=
  exists da db, date_of_iso a = Some da /\ date_of_iso b = Some db /\ date_ltb da db = true.

(** [Number(s)] on a string of decimal digits; used where an example needs
    the built-in at identifiers such as '12'.  Other strings are NaN here. *)
Fixpoint digits_value (acc : Z) (s : string) : option Z :=
  match s with
  | EmptyString => Some acc
  | String c r =>
      if is_digit c
      then digits_value (10 * acc + (Z.of_nat (nat_of_ascii c) - 48))%Z r
      else None
  end.

Definition Number_decimal (s : string) : option Z := digits_value 0 s.

(** [String(n)] for an integer. *)
Definition String_of_Z (n : Z) : string := NilZero.string_of_int (Z.to_int n).

(** A value of type [number | string]; the numbers that occur are
    integer identifiers. *)
Inductive Scalar : Type :=
| Num (n : Z)
| Str (s : string).

(** The truthiness of a value declared [number | string | null]. *)
Definition truthy_scalar (v : option Scalar) : bool :=
  match v with
  | None => false
  | Some (Num n) => negb (n =? 0)%Z
  | Some (Str s) => truthy s
  end.

(** The names a plain object inherits from [Object.prototype]: a read of
    one of them on an object that has no such key of its own gives the
    inherited member, a function or, for ['__proto__'], the prototype. *)
Definition Object_prototype_names : list string :=
  ["constructor"; "__defineGetter__"; "__defineSetter__"; "hasOwnProperty";
   "__lookupGetter__"; "__lookupSetter__"; "isPrototypeOf"; "propertyIsEnumerable";
   "toString"; "valueOf"; "__proto__"; "toLocaleString"].

Definition inherited (name : string) : bool :=
  existsb (String.eqb name) Object_prototype_names.

End Js.

(* ===================================================================== *)
(** * routes/RoleProtectedRoute.tsx *)
(* ===================================================================== *)

Module RoleProtectedRoute.

Local Open Scope string_scope.

(** [type AllowedRole = 'administrador' | 'conductor'] *)
Inductive AllowedRole : Type := administrador | conductor.

(** The string a role is at run time. *)
Definition AllowedRole_name (r : AllowedRole) : string :=
  match r with
  | administrador => "administrador"
  | conductor => "conductor"
  end.

(** [const ROLE_DEFAULT_PATH: Record<AllowedRole, string>] *)
Definition ROLE_DEFAULT_PATH (r : AllowedRole) : string :=
  match r with
  | administrador => "/menu/reportes"
  | conductor => "/menu/entregas"
  end.

(** The names the object literal inherits, being a plain object. *)
Definition inherited (name : string) : bool := Js.inherited name.

(** The target of a redirect: a path, or the member of [Object.prototype]
    of the given name (a function or, for ['__proto__'], an object). *)
Inductive Target : Type :=
| ToPath (path : string)
| ToMember (name : string).

(** [ROLE_DEFAULT_PATH[role]] for a run-time string: the object literal has
    the two keys of [AllowedRole] and, being a plain object, answers for the
    names it inherits as well; [None] is [undefined]. *)
Definition ROLE_DEFAULT_PATH_get (role : string) : option Target :=
  if role =? AllowedRole_name administrador
  then Some (ToPath (ROLE_DEFAULT_PATH administrador))
  else if role =? AllowedRole_name conductor
  then Some (ToPath (ROLE_DEFAULT_PATH conductor))
  else if inherited role then Some (ToMember role)
  else None.

(** The part of [useAuth().auth] the pages read.  [roleName] is the role
    string, or [None] for [null]/[undefined]. *)
Record AuthState : Type := mkAuth {
  isAuthenticated : bool;
  roleName : option string;
  userId : option Js.Scalar
}.

(** What the guard renders.  [NavigateMember name replace] is
    [<Navigate to={v} replace />] for [v] the member of [Object.prototype] of
    that name, which is not a path. *)
Inductive Rendered (E : Type) : Type :=
| SessionClosedMessage
| Navigate (to : string) (replace : bool)
| NavigateMember (name : string) (replace : bool)
| Children (children : E).

Arguments SessionClosedMessage {E}.
Arguments Navigate {E} to replace.
Arguments NavigateMember {E} name replace.
Arguments Children {E} children.

(** [allowedRoles.includes(role)] *)
Definition includes (allowedRoles : list AllowedRole) (role : string) : bool :=
  existsb (fun a => AllowedRole_name a =? role) allowedRoles.

(** [!role || !allowedRoles.includes(role)] *)
Definition role_rejected (allowedRoles : list AllowedRole) (role : option string) : bool :=
  match role with
  | None => true
  | Some r => negb (Js.truthy r) || negb (includes allowedRoles r)
  end.

(** [role ? ROLE_DEFAULT_PATH[role] ?? '/inicio' : '/inicio'] *)
Definition fallback (role : option string) : Target :=
  match role with
  | None => ToPath "/inicio"
  | Some r =>
      if Js.truthy r then
        match ROLE_DEFAULT_PATH_get r with
        | Some found => found
        | None => ToPath "/inicio"
        end
      else ToPath "/inicio"
  end.

Definition RoleProtectedRoute {E : Type}
    (auth : AuthState) (allowedRoles : list AllowedRole) (children : E) : Rendered E :=
  if negb (isAuthenticated auth) then SessionClosedMessage
  else
    let role := roleName auth in
    if (0 <? List.length allowedRoles)%nat && role_rejected allowedRoles role
    then match fallback role with
         | ToPath to => Navigate to true
         | ToMember name => NavigateMember name true
         end
    else Children children.

(** The default path of a role, in the words of the specification. *)
Definition ruta_por_defecto (role : option string) : string :=
  match role with
  | Some r =>
      if r =? "administrador" then "/menu/reportes"
      else if r =? "conductor" then "/menu/entregas"
      else "/inicio"
  | None => "/inicio"
  end.

(** The role is absent: [null], [undefined] or the empty string. *)
Definition rol_ausente (role : option string) : Prop :=
  role = None \/ role = Some "".

(** The role is one of the allowed ones. *)
Definition rol_permitido (allowedRoles : list AllowedRole) (role : option string) : Prop :=
  exists a, In a allowedRoles /\ role = Some (AllowedRole_name a).

End RoleProtectedRoute.

(* ===================================================================== *)
(** * routes/Router *)
(* ===================================================================== *)

Module Router.

Import RoleProtectedRoute.
Local Open Scope string_scope.

(** A page component: [Loadable(lazy(() => import(path)))], a module
    imported eagerly, or react-router's [Navigate]. *)
Inductive Component : Type :=
| Loadable_lazy (importPath : string)
| Imported (importPath : string)
| NavigateTo (to : string).

(** A React element of the table: [<C />], or the guard around one. *)
Inductive Element : Type :=
| El (c : Component)
| Guarded (allowedRoles : list AllowedRole) (child : Element).

Definition FullLayout := Loadable_lazy "../layouts/full/FullLayout".
Definition BlankLayout := Loadable_lazy "../layouts/blank/BlankLayout".
Definition Home := Imported "../views/home/Home".
Definition Welcome := Loadable_lazy "../views/landing/Welcome".
Definition Typography := Loadable_lazy "../views/typography/Typography".
Definition Table := Loadable_lazy "../views/tables/Table".
Definition Form := Loadable_lazy "../views/forms/Form".
Definition Alert := Loadable_lazy "../views/alerts/Alerts".
Definition Buttons := Loadable_lazy "../views/buttons/Buttons".
Definition Solar := Loadable_lazy "../views/icons/Solar".
Definition Vehiculos := Loadable_lazy "../views/vehiculos/Vehiculos".
Definition VehiculoForm := Loadable_lazy "../views/vehiculos/VehiculoForm".
Definition Dispositivos := Loadable_lazy "../views/dispositivos/Dispositivos".
Definition Conductores := Loadable_lazy "../views/conductores/Conductores".
Definition Entregas := Loadable_lazy "../views/conductores/Entregas".
Definition ProgramacionSalidas := Loadable_lazy "../views/conductores/ProgramacionSalidas".
Definition EntregaDetalle := Loadable_lazy "../views/conductores/EntregaDetalle".
Definition EntregaObservacion := Loadable_lazy "../views/conductores/EntregaObservacion".
Definition ProgramarSalida := Loadable_lazy "../views/programar-salida/ProgramarSalida".
Definition PanelMonitoreo := Loadable_lazy "../views/monitoreo/PanelMonitoreo".
Definition SalidaDetalle := Loadable_lazy "../views/monitoreo/SalidaDetalle".
Definition NotaSalidaDetalle := Loadable_lazy "../views/monitoreo/NotaSalidaDetalle".
Definition RecorridoMapa := Loadable_lazy "../views/monitoreo/RecorridoMapa".
Definition Perfil := Loadable_lazy "../views/profile/Profile".
Definition Reportes := Loadable_lazy "../views/reportes/Reportes".
Definition Login := Loadable_lazy "../views/auth/login/Login".
Definition Register := Loadable_lazy "../views/auth/register/Register".
Definition SamplePage := Loadable_lazy "../views/sample-page/SamplePage".
Definition Error := Loadable_lazy "../views/auth/error/Error".

(** [withRoleGuard(element, roles)] *)
Definition withRoleGuard (element : Element) (roles : list AllowedRole) : Element :=
  Guarded roles element.

(** A route object; [exact] is [None] where the literal omits it. *)
#[warnings="-register-all"]
Inductive RouteObject : Type :=
| Route (path : string) (exact : option bool) (element : Element)
        (children : list RouteObject).

Definition path (r : RouteObject) : string := let 'Route p _ _ _ := r in p.
Definition element (r : RouteObject) : Element := let 'Route _ _ e _ := r in e.
Definition children (r : RouteObject) : list RouteObject := let 'Route _ _ _ c := r in c.

Definition leaf (p : string) (exact : option bool) (e : Element) : RouteObject :=
  Route p exact e [].

Definition Router : list RouteObject :=
  [ Route "/" None (El BlankLayout)
      [ leaf "/" (Some true) (El Welcome);
        leaf "/auth/login" None (El Login);
        leaf "/auth/register" None (El Register);
        leaf "404" None (El Error);
        leaf "/auth/404" None (El Error) ];
    Route "/" None (El FullLayout)
      [ leaf "/inicio" (Some true) (El Home);
        leaf "/ui/typography" (Some true) (El Typography);
        leaf "/ui/table" (Some true) (El Table);
        leaf "/ui/form" (Some true) (El Form);
        leaf "/ui/alert" (Some true) (El Alert);
        leaf "/ui/buttons" (Some true) (El Buttons);
        leaf "/icons/solar" (Some true) (El Solar);
        leaf "/menu/vehiculos" (Some true) (withRoleGuard (El Vehiculos) [administrador]);
        leaf "/menu/vehiculos/nuevo" (Some true) (withRoleGuard (El VehiculoForm) [administrador]);
        leaf "/menu/dispositivos" (Some true) (withRoleGuard (El Dispositivos) [administrador]);
        leaf "/menu/conductores" (Some true) (withRoleGuard (El Conductores) [administrador]);
        leaf "/menu/entregas" (Some true)
          (withRoleGuard (El Entregas) [administrador; conductor]);
        leaf "/menu/entregas/:id/salidas" (Some true)
          (withRoleGuard (El ProgramacionSalidas) [administrador; conductor]);
        leaf "/menu/entregas/:id" (Some true)
          (withRoleGuard (El EntregaDetalle) [administrador; conductor]);
        leaf "/menu/entregas/:id/observacion/:productoId" (Some true)
          (withRoleGuard (El EntregaObservacion) [administrador; conductor]);
        leaf "/menu/programar-salida" (Some true) (withRoleGuard (El ProgramarSalida) [administrador]);
        leaf "/menu/panel-monitoreo" (Some true) (withRoleGuard (El PanelMonitoreo) [administrador]);
        leaf "/menu/panel-monitoreo/salidas/:id" (Some true)
          (withRoleGuard (El SalidaDetalle) [administrador]);
        leaf "/menu/panel-monitoreo/salidas/:id/recorrido" (Some true)
          (withRoleGuard (El RecorridoMapa) [administrador]);
        leaf "/menu/panel-monitoreo/salidas/:id/detalle/:notaId" (Some true)
          (withRoleGuard (El NotaSalidaDetalle) [administrador]);
        leaf "/menu/perfil" (Some true) (El Perfil);
        leaf "/menu/reportes" (Some true) (withRoleGuard (El Reportes) [administrador]);
        leaf "/sample-page" (Some true) (El SamplePage);
        leaf "*" None (El (NavigateTo "/auth/404")) ] ].

(** Every route object of a table: the entries and, below each, the
    entries of its [children]. *)
Fixpoint routes_of (r : RouteObject) : list RouteObject :=
  match r with
  | Route _ _ _ cs =>
      r :: (fix go (l : list RouteObject) : list RouteObject :=
              match l with
              | [] => []
              | c :: l' => (routes_of c ++ go l')%list
              end) cs
  end.

Definition all_routes (table : list RouteObject) : list RouteObject :=
  flat_map routes_of table.

(** The element is a lazily-loaded page behind the guard with a non-empty
    role list. *)
Definition lazy_behind_guard (e : Element) : Prop :=
  exists roles importPath,
    e = withRoleGuard (El (Loadable_lazy importPath)) roles /\ roles <> [].

Definition is_guarded (e : Element) : bool :=
  match e with Guarded _ _ => true | El _ => false end.

Definition is_lazy (e : Element) : bool :=
  match e with El (Loadable_lazy _) => true | _ => false end.

(** The paths of the application pages: those under [/menu/]. *)
Definition under_menu (p : string) : bool := String.prefix "/menu/" p.

End Router.

(* ===================================================================== *)
(** * JavaScript numbers: IEEE 754 binary64 *)
(* ===================================================================== *)

Module Number.

Local Open Scope Z_scope.

(** A JS number is a double; its operations are those of the binary64
    format (53 bits of precision, round to nearest even). *)
Definition number : Type := spec_float.
Definition prec : Z := 53.
Definition emax : Z := 1024.

(** The double of an integer literal or counter. *)
Definition of_Z (z : Z) : number := binary_normalize prec emax z 0 false.
Definition of_nat (n : nat) : number := of_Z (Z.of_nat n).

(** [a / b] and [a * b] *)
Definition div (a b : number) : number := SFdiv prec emax a b.
Definition mul (a b : number) : number := SFmul prec emax a b.

(** [Math.round(x)]: the integer nearest to [x], a tie going up; a double
    with a non-negative exponent is an integer already, and NaN and the
    infinities are returned as they are.  For [x = +-m * 2^e] with [e < 0]
    the result is [floor (x + 1/2)], computed exactly; a zero result keeps
    the sign of [x]. *)
Definition Math_round (x : number) : number :=
  match x with
  | S754_finite s m e =>
      if 0 <=? e then x
      else
        let k := - e in
        let twice := if s then - (2 * Zpos m) else 2 * Zpos m in
        let r := (twice + 2 ^ k) / 2 ^ (k + 1) in
        if r =? 0 then S754_zero s else of_Z r
  | _ => x
  end.

(** Two doubles are the same value of the format. *)
Definition number_eq_dec (x y : number) : {x = y} + {x <> y}.
Proof.
  decide equality; try apply Bool.bool_dec; try apply Z.eq_dec; apply Pos.eq_dec.
Defined.

(** Rounding half up of the exact quotient [100 * a / b], for [0 < b]. *)
Definition round_exact_pct (a b : Z) : Z := (200 * a + b) / (2 * b).

End Number.

(* ===================================================================== *)
(** * Handlers: dialogs, HTTP requests and exceptions *)
(* ===================================================================== *)

Module Effects.

Local Open Scope string_scope.

(** A JSON value, as handed to [JSON.stringify] or read by
    [response.json()].  The numbers that occur are integers (identifiers,
    counts, status codes) and an object has each property name once. *)
#[warnings="-register-all"]
Inductive Json : Type :=
| JNull
| JBool (b : bool)
| JNum (n : Z)
| JStr (s : string)
| JArr (items : list Json)
| JObj (fields : list (string * Json)).

Definition json_of_scalar (v : Js.Scalar) : Json :=
  match v with
  | Js.Num n => JNum n
  | Js.Str s => JStr s
  end.

(** [object.name]: the property of an object, [None] for [undefined]. *)
Definition field (name : string) (j : Json) : option Json :=
  match j with
  | JObj fields =>
      (fix get (l : list (string * Json)) : option Json :=
         match l with
         | [] => None
         | (k, v) :: t => if k =? name then Some v else get t
         end) fields
  | _ => None
  end.

(** [a ?? b] *)
Definition nullish_or (a : option Json) (b : Json) : Json :=
  match a with
  | Some JNull | None => b
  | Some v => v
  end.

(** A property of an object literal: [JSON.stringify] leaves it out when
    its value is [undefined]. *)
Definition opt_field (name : string) (v : option Json) : list (string * Json) :=
  match v with
  | Some j => [(name, j)]
  | None => []
  end.

(** The truthiness of a value. *)
Definition json_truthy (j : Json) : bool :=
  match j with
  | JNull => false
  | JBool b => b
  | JNum n => negb (n =? 0)%Z
  | JStr s => Js.truthy s
  | JArr _ | JObj _ => true
  end.

(** [json?.code && json.code !== 200]: a code that is truthy and is not
    the number 200. *)
Definition code_rejected (json : Json) : bool :=
  match field "code" json with
  | Some code =>
      json_truthy code
      && negb (match code with JNum 200 => true | _ => false end)
  | None => false
  end.

(** [typeof v === 'number'], [typeof v === 'boolean'], and a property
    declared [string | null]. *)
Definition as_number (v : option Json) : option Z :=
  match v with Some (JNum n) => Some n | _ => None end.

Definition as_bool (v : option Json) : option bool :=
  match v with Some (JBool b) => Some b | _ => None end.

Definition as_string (v : option Json) : option string :=
  match v with Some (JStr s) => Some s | _ => None end.

(** [String(v)] for a value of a response.  An array is joined with
    commas, where [null] gives the empty text; an object gives
    '[object Object]'. *)
Fixpoint String_value (j : Json) : string :=
  match j with
  | JNull => "null"
  | JBool true => "true"
  | JBool false => "false"
  | JNum n => Js.String_of_Z n
  | JStr s => s
  | JArr items =>
      String.concat ","
        (map (fun item => match item with
                          | JNull => ""
                          | _ => String_value item
                          end)
             items)
  | JObj _ => "[object Object]"
  end.

(** [String(object.name)]: a property that is not there is [undefined]. *)
Definition String_json (v : option Json) : string :=
  match v with
  | None => "undefined"
  | Some j => String_value j
  end.

(** An identifier declared [id?: number | string | null], as it arrives:
    [IdOther] is a value of another type, which the page takes for an
    identifier as well. *)
Inductive Id : Type :=
| IdUndefined
| IdNull
| IdNum (n : Z)
| IdStr (s : string)
| IdOther (j : Json).

Definition id_of_field (v : option Json) : Id :=
  match v with
  | None => IdUndefined
  | Some JNull => IdNull
  | Some (JNum n) => IdNum n
  | Some (JStr s) => IdStr s
  | Some j => IdOther j
  end.

(** [id === undefined || id === null || id === ''] *)
Definition id_missing (i : Id) : bool :=
  match i with
  | IdUndefined | IdNull => true
  | IdStr s => s =? ""
  | IdNum _ | IdOther _ => false
  end.

(** [String(id)] *)
Definition String_id (i : Id) : string :=
  match i with
  | IdUndefined => "undefined"
  | IdNull => "null"
  | IdNum n => Js.String_of_Z n
  | IdStr s => s
  | IdOther j => String_value j
  end.

(** [authorizedFetch] talks to the backend, [traccarFetch] to Traccar. *)
Inductive Api : Type := Backend | Traccar.

Inductive Method : Type := GET | POST | PUT | DELETE.

(** One call of a fetch function; [body] is the value that was
    stringified. *)
Record Request : Type := mkRequest {
  api : Api;
  method : Method;
  url : string;
  body : option Json
}.

(** A thrown [Error]: its [name] and [message]. *)
Record JsError : Type := mkError {
  err_name : string;
  err_message : string
}.

(** [new Error(message)] *)
Definition Error_ (message : string) : JsError := mkError "Error" message.

(** A response that arrived; reading its body may still fail. *)
Record Response : Type := mkResponse {
  ok : bool;
  status : Z;
  text : JsError + string;
  json : JsError + Json
}.

(** What the page does to the outside, in order. *)
Inductive Event : Type :=
| EvConfirm (message : string)
| EvAlert (message : string)
| EvRequest (r : Request)
| EvNavigate (delta : Z).

Definition Trace : Type := list Event.

(** The outside world: what the user answers to a dialog and what a fetch
    yields (a rejection or a response), given everything done so far. *)
Record World : Type := mkWorld {
  confirm_answer : Trace -> string -> bool;
  fetch_answer : Trace -> Request -> JsError + Response
}.

(** A handler over a component state [St]: it runs in a world, from a state
    and the trace so far, and ends with a value or a thrown error. *)
Definition M (St A : Type) : Type :=
  World -> St -> Trace -> (JsError + A) * St * Trace.

Section Monad.
Context {St : Type}.

Definition ret {A : Type} (a : A) : M St A :=
  fun _ s tr => (inr a, s, tr).

Definition bind {A B : Type} (m : M St A) (k : A -> M St B) : M St B :=
  fun w s tr =>
    match m w s tr with
    | (inr a, s', tr') => k a w s' tr'
    | (inl e, s', tr') => (inl e, s', tr')
    end.

(** [throw e] *)
Definition throw {A : Type} (e : JsError) : M St A :=
  fun _ s tr => (inl e, s, tr).

(** [try { m } catch (error) { handler error }] *)
Definition try_catch {A : Type} (m : M St A) (handler : JsError -> M St A) : M St A :=
  fun w s tr =>
    match m w s tr with
    | (inr a, s', tr') => (inr a, s', tr')
    | (inl e, s', tr') => handler e w s' tr'
    end.

(** [try { m } finally { f }] *)
Definition finally {A : Type} (m : M St A) (f : M St unit) : M St A :=
  fun w s tr =>
    match m w s tr with
    | (r, s', tr') =>
        match f w s' tr' with
        | (inr _, s'', tr'') => (r, s'', tr'')
        | (inl e, s'', tr'') => (inl e, s'', tr'')
        end
    end.

(** A state setter: [setX(value)] or [setX((prev) => ...)]. *)
Definition set (f : St -> St) : M St unit :=
  fun _ s tr => (inr tt, f s, tr).

(** [window.confirm(message)] *)
Definition confirm (message : string) : M St bool :=
  fun w s tr => (inr (confirm_answer w tr message), s, (tr ++ [EvConfirm message])%list).

(** [alert(message)] *)
Definition alert (message : string) : M St unit :=
  fun _ s tr => (inr tt, s, (tr ++ [EvAlert message])%list).

(** [navigate(delta)] *)
Definition navigate (delta : Z) : M St unit :=
  fun _ s tr => (inr tt, s, (tr ++ [EvNavigate delta])%list).

(** [await fetch(...)]: the request is issued, then the promise settles. *)
Definition fetch (r : Request) : M St Response :=
  fun w s tr =>
    match fetch_answer w tr r with
    | inr resp => (inr resp, s, (tr ++ [EvRequest r])%list)
    | inl e => (inl e, s, (tr ++ [EvRequest r])%list)
    end.

(** [await p] for a body-reading promise that is already determined. *)
Definition await {A : Type} (p : JsError + A) : M St A :=
  match p with
  | inr a => ret a
  | inl e => throw e
  end.

(** [await p.catch(() => fallback)] *)
Definition await_catch {A : Type} (p : JsError + A) (fallback : A) : M St A :=
  match p with
  | inr a => ret a
  | inl _ => ret fallback
  end.

(** Run a handler of the render whose state is [s]. *)
Definition run {A : Type} (handler : M St A) (w : World) (s : St)
    : (JsError + A) * St * Trace :=
  handler w s [].

Definition final_state {A : Type} (handler : M St A) (w : World) (s : St) : St :=
  snd (fst (run handler w s)).

Definition trace_of {A : Type} (handler : M St A) (w : World) (s : St) : Trace :=
  snd (run handler w s).

End Monad.

(** The HTTP requests of a trace, in order. *)
Definition requests (tr : Trace) : list Request :=
  flat_map (fun e => match e with EvRequest r => [r] | _ => [] end) tr.

Declare Scope handler_scope.
Delimit Scope handler_scope with handler.

Notation "x <- m ;; k" := (bind m (fun x => k))
  (at level 61, m at next level, right associativity) : handler_scope.
Notation "m ;;; k" := (bind m (fun _ => k))
  (at level 61, right associativity) : handler_scope.

(** [text || fallback] *)
Definition or_else (s fallback : string) : string :=
  if Js.truthy s then s else fallback.

End Effects.

(* ===================================================================== *)
(** * Values of a response read without a check of their type *)
(* ===================================================================== *)

Module Valores.
Import Effects.
Local Open Scope string_scope.

(** A [TypeError], as thrown by a property read on [null] or by a call of
    [trim] on a value that is not a string; its message depends on the
    engine. *)
Definition TypeError : JsError := mkError "TypeError" "".

(** [sanitize(value)] on a property as it arrived: [trim] exists on
    strings only. *)
Definition sanitize_value (value : option Json) : JsError + string :=
  match value with
  | None | Some JNull => inr ""
  | Some (JStr s) => inr (Js.trim s)
  | Some _ => inl TypeError
  end.

(** The evaluation threw. *)
Definition is_thrown {A : Type} (r : JsError + A) : bool :=
  match r with inl _ => true | inr _ => false end.

(** [parts.filter(Boolean).join(' - ')] *)
Definition join_truthy (parts : list string) : string :=
  String.concat " - " (filter Js.truthy parts).

(** [items.map(f)] for a callback that may throw: the first element that
    throws ends the map. *)
Fixpoint map_throwing {A : Type} (f : Json -> JsError + A) (items : list Json)
    : JsError + list A :=
  match items with
  | [] => inr []
  | item :: rest =>
      match f item with
      | inl e => inl e
      | inr a =>
          match map_throwing f rest with
          | inl e => inl e
          | inr l => inr (a :: l)
          end
      end
  end.

(** [value.split(sep)] for a separator of one character. *)
Fixpoint split (sep : ascii) (value : string) : list string :=
  match value with
  | EmptyString => [EmptyString]
  | String c rest =>
      if Ascii.eqb c sep then EmptyString :: split sep rest
      else match split sep rest with
           | part :: parts => String c part :: parts
           | [] => [String c EmptyString]
           end
  end.

End Valores.

(* ===================================================================== *)
(** * views/reportes/Reportes *)
(* ===================================================================== *)

Module Reportes.

Local Open Scope string_scope.

(** [type EstadoReporte = 'entregado' | 'en_proceso' | 'no_entregado'] *)
Inductive EstadoReporte : Type := entregado | en_proceso | no_entregado.

(** [type Estado = 'todos' | EstadoReporte] *)
Inductive Estado : Type :=
| todos
| solo (e : EstadoReporte).

Definition EstadoReporte_eqb (a b : EstadoReporte) : bool :=
  match a, b with
  | entregado, entregado | en_proceso, en_proceso | no_entregado, no_entregado => true
  | _, _ => false
  end.

Record Programacion : Type := mkProgramacion {
  id : string;
  estado : EstadoReporte;
  conductorId : option string;
  conductorNombre : string;
  fechaEntrega : option string
}.

(** [const ESTADO_ORDER: EstadoReporte[] = ['entregado', 'en_proceso', 'no_entregado']] *)
Definition ESTADO_ORDER : list EstadoReporte := [entregado; en_proceso; no_entregado].

(** [getEstadoFromApi]: 2 is delivered, 3 is not delivered, anything else
    (also a missing value) is in process. *)
Definition getEstadoFromApi (value : option Z) : EstadoReporte :=
  match value with
  | Some 2%Z => entregado
  | Some 3%Z => no_entregado
  | _ => en_proceso
  end.

(** [item.estado !== estado] for [estado : Estado]. *)
Definition estado_neq (item : EstadoReporte) (f : Estado) : bool :=
  match f with
  | todos => true
  | solo e => negb (EstadoReporte_eqb item e)
  end.

Definition is_todos (f : Estado) : bool :=
  match f with todos => true | solo _ => false end.

(** [item.conductorId !== conductor] for [conductorId : string | null]. *)
Definition conductorId_neq (cid : option string) (conductor : string) : bool :=
  match cid with
  | Some c => negb (c =? conductor)
  | None => true
  end.

(** The callback handed to [programaciones.filter]. *)
Definition filtro (estado0 : Estado) (conductor : string) (item : Programacion) : bool :=
  if negb (is_todos estado0) && estado_neq (estado item) estado0 then false
  else if negb (conductor =? "todos") && conductorId_neq (conductorId item) conductor then false
  else true.

Definition filteredProgramaciones
    (programaciones : list Programacion) (estado0 : Estado) (conductor : string)
    : list Programacion :=
  filter (filtro estado0 conductor) programaciones.

(** The condition of the specification, in its own words. *)
Definition cumple (estado0 : Estado) (conductor : string) (r : Programacion) : Prop :=
  (estado0 = todos \/ solo (estado r) = estado0) /\
  (conductor = "todos" \/ conductorId r = Some conductor).

(** ** The [charts] memo *)

(** [Record<EstadoReporte, number>]: one counter per estado. *)
Record Counts : Type := mkCounts {
  n_entregado : nat;
  n_en_proceso : nat;
  n_no_entregado : nat
}.

Definition zero_counts : Counts := mkCounts 0 0 0.

(** [counts[estado]] *)
Definition get_count (c : Counts) (e : EstadoReporte) : nat :=
  match e with
  | entregado => n_entregado c
  | en_proceso => n_en_proceso c
  | no_entregado => n_no_entregado c
  end.

(** [counts[estado] += 1] *)
Definition incr_count (e : EstadoReporte) (c : Counts) : Counts :=
  match e with
  | entregado => mkCounts (S (n_entregado c)) (n_en_proceso c) (n_no_entregado c)
  | en_proceso => mkCounts (n_entregado c) (S (n_en_proceso c)) (n_no_entregado c)
  | no_entregado => mkCounts (n_entregado c) (n_en_proceso c) (S (n_no_entregado c))
  end.

Definition sum_counts (c : Counts) : nat :=
  n_entregado c + n_en_proceso c + n_no_entregado c.

(** [ESTADO_INFO[estado].label] *)
Definition ESTADO_INFO_label (e : EstadoReporte) : string :=
  match e with
  | entregado => "Entregado"
  | en_proceso => "En proceso"
  | no_entregado => "No entregado"
  end.

(** A bucket of [dateBuckets]. *)
Record DateBucket : Type := mkDateBucket {
  label : string;
  sortKey : string;
  counts : Counts
}.

(** An entry of [driverTotals]. *)
Record DriverTotal : Type := mkDriverTotal {
  nombre : string;
  total : nat;
  entregados : nat
}.

(** The object [dateBuckets] and the [Map] [driverTotals] keep their keys
    in insertion order: association lists in that order.  (The keys of
    [dateBuckets] are dates produced by [toDateOnly], or 'sin-fecha': never
    array indices, which an object would list first.) *)
Section Assoc.
Context {V : Type}.

Fixpoint assoc_get (k : string) (l : list (string * V)) : option V :=
  match l with
  | [] => None
  | (k', v) :: t => if k' =? k then Some v else assoc_get k t
  end.

(** Change in place the value stored under [k]. *)
Fixpoint assoc_modify (k : string) (f : V -> V) (l : list (string * V)) : list (string * V) :=
  match l with
  | [] => []
  | (k', v) :: t => if k' =? k then (k', f v) :: t else (k', v) :: assoc_modify k f t
  end.

(** Add a new key, after the ones present. *)
Definition assoc_add (k : string) (v : V) (l : list (string * V)) : list (string * V) :=
  (l ++ [(k, v)])%list.

End Assoc.

(** [Array.prototype.sort(compare)]: a stable sort; [compare a b <= 0]
    leaves [a] before [b]. *)
Section Sort.
Context {A : Type}.
Variable compare : A -> A -> Z.

Fixpoint sort_insert (x : A) (sorted : list A) : list A :=
  match sorted with
  | [] => [x]
  | y :: t => if (compare x y <=? 0)%Z then x :: y :: t else y :: sort_insert x t
  end.

Definition js_sort (l : list A) : list A := fold_right sort_insert [] l.

End Sort.

(** What [forEach] accumulates. *)
Record Acc : Type := mkAcc {
  acc_statusTotals : Counts;
  acc_dateBuckets : list (string * DateBucket);
  acc_driverTotals : list (string * DriverTotal)
}.

Definition acc_init : Acc := mkAcc zero_counts [] [].

Section Charts.

(** [formatShortDateLabel], which formats through [Intl.DateTimeFormat]. *)
Variable formatShortDateLabel : string -> string.

(** [item.fechaEntrega ?? 'sin-fecha'] *)
Definition dateKey_of (item : Programacion) : string :=
  match fechaEntrega item with Some d => d | None => "sin-fecha" end.

(** [item.fechaEntrega ?? '9999-12-31'] *)
Definition sortKey_of (item : Programacion) : string :=
  match fechaEntrega item with Some d => d | None => "9999-12-31" end.

(** [item.fechaEntrega ? formatShortDateLabel(item.fechaEntrega) : 'Sin fecha'] *)
Definition label_of (item : Programacion) : string :=
  match fechaEntrega item with
  | Some d => if Js.truthy d then formatShortDateLabel d else "Sin fecha"
  | None => "Sin fecha"
  end.

(** [item.conductorId ?? item.conductorNombre] *)
Definition driverKey_of (item : Programacion) : string :=
  match conductorId item with Some c => c | None => conductorNombre item end.

Definition deliveredIncrement (item : Programacion) : nat :=
  if EstadoReporte_eqb (estado item) entregado then 1 else 0.

(** [dateBuckets] is a plain object, which answers to the names it inherits
    from [Object.prototype] as well as to its own keys.  For a [dateKey]
    that is one of those names, [!dateBuckets[dateKey]] finds the inherited
    member, no bucket is made, and the read
    [dateBuckets[dateKey].counts[item.estado]] throws a [TypeError]: the
    member has no [counts]. *)
Definition forEach_throws (item : Programacion) : bool :=
  Js.inherited (dateKey_of item).

(** The body of [filteredProgramaciones.forEach((item) => ...)] for an item
    on which it does not throw. *)
Definition forEach_body (acc : Acc) (item : Programacion) : Acc :=
  let statusTotals := incr_count (estado item) (acc_statusTotals acc) in
  let driverKey := driverKey_of item in
  let driverTotals :=
    match assoc_get driverKey (acc_driverTotals acc) with
    | Some _ =>
        assoc_modify driverKey
          (fun d => mkDriverTotal (nombre d) (total d + 1)
                                  (entregados d + deliveredIncrement item))
          (acc_driverTotals acc)
    | None =>
        assoc_add driverKey
          (mkDriverTotal (conductorNombre item) 1 (deliveredIncrement item))
          (acc_driverTotals acc)
    end in
  let dateKey := dateKey_of item in
  let created :=
    match assoc_get dateKey (acc_dateBuckets acc) with
    | Some _ => acc_dateBuckets acc
    | None =>
        assoc_add dateKey (mkDateBucket (label_of item) (sortKey_of item) zero_counts)
          (acc_dateBuckets acc)
    end in
  let dateBuckets :=
    assoc_modify dateKey
      (fun b => mkDateBucket (label b) (sortKey b) (incr_count (estado item) (counts b)))
      created in
  mkAcc statusTotals dateBuckets driverTotals.

Definition aggregate (filtered : list Programacion) : Acc :=
  fold_left forEach_body filtered acc_init.

(** [Math.round((part / totalRegistros) * 100)], 0 for no record. *)
Definition porcentaje (part totalRegistros : nat) : Number.number :=
  if (totalRegistros =? 0)%nat then Number.of_Z 0
  else Number.Math_round
         (Number.mul (Number.div (Number.of_nat part) (Number.of_nat totalRegistros))
                     (Number.of_Z 100)).

(** The comparison handed to [Object.keys(dateBuckets).sort]: it orders two
    keys by the [sortKey] of their buckets. *)
Definition compare_sortKey (a b : string * DateBucket) : Z :=
  let sortA := sortKey (snd a) in
  let sortB := sortKey (snd b) in
  if sortA =? sortB then 0%Z
  else if Js.str_lt sortA sortB then (-1)%Z else 1%Z.

(** The keys of [dateBuckets] in the sorted order, each with its bucket. *)
Definition sortedDateEntries (acc : Acc) : list (string * DateBucket) :=
  js_sort compare_sortKey (acc_dateBuckets acc).

Definition sortedDateKeys (acc : Acc) : list string := map fst (sortedDateEntries acc).

(** The comparison of [driverEntries]: more deliveries first, then more
    programaciones. *)
Definition compare_driver (a b : DriverTotal) : Z :=
  if negb (entregados b =? entregados a)%nat
  then (Z.of_nat (entregados b) - Z.of_nat (entregados a))%Z
  else (Z.of_nat (total b) - Z.of_nat (total a))%Z.

(** The value of the memo when no item throws (the chart options, which
    only restate the categories and fixed colours, are left out). *)
Record ChartsResult : Type := mkCharts {
  statusTotals : Counts;
  totalRegistros : nat;
  porcentajeEntregado : Number.number;
  porcentajeAtrasos : Number.number;
  stackedCategories : list string;
  stackedSeries : list (string * list nat);
  donutSeries : list nat;
  driverCategories : list string;
  productividadSeries : string * list nat;
  productividadLabel : string
}.

Definition charts (filtered : list Programacion) : ChartsResult :=
  let acc := aggregate filtered in
  let st := acc_statusTotals acc in
  let totalRegistros := (n_entregado st + n_en_proceso st + n_no_entregado st)%nat in
  let sorted := sortedDateEntries acc in
  let hasDateData := (0 <? List.length sorted)%nat in
  let stackedCategories :=
    if hasDateData then map (fun kb => label (snd kb)) sorted else ["Sin datos"] in
  let stackedSeries :=
    map (fun estadoKey =>
           (ESTADO_INFO_label estadoKey,
            if hasDateData
            then map (fun kb => get_count (counts (snd kb)) estadoKey) sorted
            else [0%nat]))
        ESTADO_ORDER in
  let donutSeries := map (get_count st) ESTADO_ORDER in
  let driverEntries := js_sort compare_driver (map snd (acc_driverTotals acc)) in
  let hasDeliveredData := existsb (fun entry => (0 <? entregados entry)%nat) driverEntries in
  let driverCategories :=
    if (0 <? List.length driverEntries)%nat then map nombre driverEntries
    else ["Sin registros"] in
  let productividadData :=
    if (0 <? List.length driverEntries)%nat
    then map (fun entry => if hasDeliveredData then entregados entry else total entry)
             driverEntries
    else [0%nat] in
  mkCharts st totalRegistros
    (porcentaje (n_entregado st) totalRegistros)
    (porcentaje (n_no_entregado st) totalRegistros)
    stackedCategories stackedSeries donutSeries driverCategories
    (if hasDeliveredData then "Entregas completadas" else "Programaciones registradas",
     productividadData)
    (if hasDeliveredData
     then "La productividad considera unicamente las entregas completadas por cada conductor."
     else "Aun no hay entregas completadas en este rango; se muestran las programaciones registradas por conductor.").

(** The memo as it evaluates: the first item whose date key is an inherited
    name ends it with the [TypeError]. *)
Definition charts_memo (filtered : list Programacion) : Effects.JsError + ChartsResult :=
  if existsb forEach_throws filtered then inl Valores.TypeError
  else inr (charts filtered).

End Charts.

(** Every delivery date present passes the test of [toDateOnly],
    [/^\d{4}-\d{2}-\d{2}$/]. *)
Definition fechas_iso (l : list Programacion) : Prop :=
  forall r d, In r l -> fechaEntrega r = Some d -> Js.is_iso_date d = true.

(** The number of records of a list with a given estado. *)
Definition count_estado (e : EstadoReporte) (l : list Programacion) : nat :=
  List.length (filter (fun r => EstadoReporte_eqb (estado r) e) l).

(** The percentage of the specification: [100 * part / total] rounded to the
    nearest integer, 0 for an empty list. *)
Definition porcentaje_spec (part totalRegistros : nat) : Z :=
  if (totalRegistros =? 0)%nat then 0%Z
  else Number.round_exact_pct (Z.of_nat part) (Z.of_nat totalRegistros).

End Reportes.

(* ===================================================================== *)
(** * views/dispositivos/Dispositivos.tsx *)
(* ===================================================================== *)

Module Dispositivos.
Import Effects.
Local Open Scope string_scope.
Local Open Scope Z_scope.
Local Open Scope handler_scope.

Record Dispositivo : Type := mkDispositivo {
  d_id : string;
  d_codigo : string;
  d_modelo : string;
  d_activo : option Z;
  d_status : option Z
}.

(** [mapDispositivo], on an element of the response: reading a property of
    [null] throws, and so does [sanitize] on a [codigo] or [modelo] that is
    neither a string nor missing. *)
Definition mapDispositivo (dispositivo : Json) : JsError + Dispositivo :=
  match dispositivo with
  | JNull => inl Valores.TypeError
  | _ =>
      match Valores.sanitize_value (field "codigo" dispositivo),
            Valores.sanitize_value (field "modelo" dispositivo) with
      | inr codigo, inr modelo =>
          inr (mkDispositivo
                 (String_json (field "idDispositivo" dispositivo))
                 codigo
                 modelo
                 (as_number (field "activo" dispositivo))
                 (as_number (field "status" dispositivo)))
      | inl e, _ => inl e
      | _, inl e => inl e
      end
  end.

Inductive FeedbackType : Type := success | error_.

Record FeedbackMessage : Type := mkFeedback {
  fb_type : FeedbackType;
  fb_message : string
}.

(** [const PAGE_SIZES = [5, 10, 15, 20] as const] *)
Definition PAGE_SIZES : list Z := [5; 10; 15; 20].

(** The state of the component: one field per [useState]. *)
Record State : Type := mkState {
  query : string;
  searchTerm : string;
  reloadKey : Z;
  dispositivos : list Dispositivo;
  selectedDispositivo : option Dispositivo;
  loading : bool;
  error : option string;
  nuevoCodigo : string;
  nuevoModelo : string;
  isSubmitting : bool;
  submitError : option string;
  submitSuccess : option string;
  page : Z;
  size : Z;
  totalElements : Z;
  totalPages : Z;
  isFirstPage : bool;
  isLastPage : bool;
  deletingId : option string;
  deleteFeedback : option FeedbackMessage
}.

Definition set_query (v : string) (s : State) : State :=
  mkState v (searchTerm s) (reloadKey s) (dispositivos s) (selectedDispositivo s)
    (loading s) (error s) (nuevoCodigo s) (nuevoModelo s) (isSubmitting s) (submitError
    s) (submitSuccess s) (page s) (size s) (totalElements s) (totalPages s) (isFirstPage
    s) (isLastPage s) (deletingId s) (deleteFeedback s).

Definition set_searchTerm (v : string) (s : State) : State :=
  mkState (query s) v (reloadKey s) (dispositivos s) (selectedDispositivo s) (loading s)
    (error s) (nuevoCodigo s) (nuevoModelo s) (isSubmitting s) (submitError s)
    (submitSuccess s) (page s) (size s) (totalElements s) (totalPages s) (isFirstPage s)
    (isLastPage s) (deletingId s) (deleteFeedback s).

Definition set_reloadKey (v : Z) (s : State) : State :=
  mkState (query s) (searchTerm s) v (dispositivos s) (selectedDispositivo s) (loading
    s) (error s) (nuevoCodigo s) (nuevoModelo s) (isSubmitting s) (submitError s)
    (submitSuccess s) (page s) (size s) (totalElements s) (totalPages s) (isFirstPage s)
    (isLastPage s) (deletingId s) (deleteFeedback s).

Definition set_dispositivos (v : list Dispositivo) (s : State) : State :=
  mkState (query s) (searchTerm s) (reloadKey s) v (selectedDispositivo s) (loading s)
    (error s) (nuevoCodigo s) (nuevoModelo s) (isSubmitting s) (submitError s)
    (submitSuccess s) (page s) (size s) (totalElements s) (totalPages s) (isFirstPage s)
    (isLastPage s) (deletingId s) (deleteFeedback s).

Definition set_selectedDispositivo (v : option Dispositivo) (s : State) : State :=
  mkState (query s) (searchTerm s) (reloadKey s) (dispositivos s) v (loading s) (error
    s) (nuevoCodigo s) (nuevoModelo s) (isSubmitting s) (submitError s) (submitSuccess
    s) (page s) (size s) (totalElements s) (totalPages s) (isFirstPage s) (isLastPage s)
    (deletingId s) (deleteFeedback s).

Definition set_loading (v : bool) (s : State) : State :=
  mkState (query s) (searchTerm s) (reloadKey s) (dispositivos s) (selectedDispositivo
    s) v (error s) (nuevoCodigo s) (nuevoModelo s) (isSubmitting s) (submitError s)
    (submitSuccess s) (page s) (size s) (totalElements s) (totalPages s) (isFirstPage s)
    (isLastPage s) (deletingId s) (deleteFeedback s).

Definition set_error (v : option string) (s : State) : State :=
  mkState (query s) (searchTerm s) (reloadKey s) (dispositivos s) (selectedDispositivo
    s) (loading s) v (nuevoCodigo s) (nuevoModelo s) (isSubmitting s) (submitError s)
    (submitSuccess s) (page s) (size s) (totalElements s) (totalPages s) (isFirstPage s)
    (isLastPage s) (deletingId s) (deleteFeedback s).

Definition set_nuevoCodigo (v : string) (s : State) : State :=
  mkState (query s) (searchTerm s) (reloadKey s) (dispositivos s) (selectedDispositivo
    s) (loading s) (error s) v (nuevoModelo s) (isSubmitting s) (submitError s)
    (submitSuccess s) (page s) (size s) (totalElements s) (totalPages s) (isFirstPage s)
    (isLastPage s) (deletingId s) (deleteFeedback s).

Definition set_nuevoModelo (v : string) (s : State) : State :=
  mkState (query s) (searchTerm s) (reloadKey s) (dispositivos s) (selectedDispositivo
    s) (loading s) (error s) (nuevoCodigo s) v (isSubmitting s) (submitError s)
    (submitSuccess s) (page s) (size s) (totalElements s) (totalPages s) (isFirstPage s)
    (isLastPage s) (deletingId s) (deleteFeedback s).

Definition set_isSubmitting (v : bool) (s : State) : State :=
  mkState (query s) (searchTerm s) (reloadKey s) (dispositivos s) (selectedDispositivo
    s) (loading s) (error s) (nuevoCodigo s) (nuevoModelo s) v (submitError s)
    (submitSuccess s) (page s) (size s) (totalElements s) (totalPages s) (isFirstPage s)
    (isLastPage s) (deletingId s) (deleteFeedback s).

Definition set_submitError (v : option string) (s : State) : State :=
  mkState (query s) (searchTerm s) (reloadKey s) (dispositivos s) (selectedDispositivo
    s) (loading s) (error s) (nuevoCodigo s) (nuevoModelo s) (isSubmitting s) v
    (submitSuccess s) (page s) (size s) (totalElements s) (totalPages s) (isFirstPage s)
    (isLastPage s) (deletingId s) (deleteFeedback s).

Definition set_submitSuccess (v : option string) (s : State) : State :=
  mkState (query s) (searchTerm s) (reloadKey s) (dispositivos s) (selectedDispositivo
    s) (loading s) (error s) (nuevoCodigo s) (nuevoModelo s) (isSubmitting s)
    (submitError s) v (page s) (size s) (totalElements s) (totalPages s) (isFirstPage s)
    (isLastPage s) (deletingId s) (deleteFeedback s).

Definition set_page (v : Z) (s : State) : State :=
  mkState (query s) (searchTerm s) (reloadKey s) (dispositivos s) (selectedDispositivo
    s) (loading s) (error s) (nuevoCodigo s) (nuevoModelo s) (isSubmitting s)
    (submitError s) (submitSuccess s) v (size s) (totalElements s) (totalPages s)
    (isFirstPage s) (isLastPage s) (deletingId s) (deleteFeedback s).

Definition set_size (v : Z) (s : State) : State :=
  mkState (query s) (searchTerm s) (reloadKey s) (dispositivos s) (selectedDispositivo
    s) (loading s) (error s) (nuevoCodigo s) (nuevoModelo s) (isSubmitting s)
    (submitError s) (submitSuccess s) (page s) v (totalElements s) (totalPages s)
    (isFirstPage s) (isLastPage s) (deletingId s) (deleteFeedback s).

Definition set_totalElements (v : Z) (s : State) : State :=
  mkState (query s) (searchTerm s) (reloadKey s) (dispositivos s) (selectedDispositivo
    s) (loading s) (error s) (nuevoCodigo s) (nuevoModelo s) (isSubmitting s)
    (submitError s) (submitSuccess s) (page s) (size s) v (totalPages s) (isFirstPage s)
    (isLastPage s) (deletingId s) (deleteFeedback s).

Definition set_totalPages (v : Z) (s : State) : State :=
  mkState (query s) (searchTerm s) (reloadKey s) (dispositivos s) (selectedDispositivo
    s) (loading s) (error s) (nuevoCodigo s) (nuevoModelo s) (isSubmitting s)
    (submitError s) (submitSuccess s) (page s) (size s) (totalElements s) v (isFirstPage
    s) (isLastPage s) (deletingId s) (deleteFeedback s).

Definition set_isFirstPage (v : bool) (s : State) : State :=
  mkState (query s) (searchTerm s) (reloadKey s) (dispositivos s) (selectedDispositivo
    s) (loading s) (error s) (nuevoCodigo s) (nuevoModelo s) (isSubmitting s)
    (submitError s) (submitSuccess s) (page s) (size s) (totalElements s) (totalPages s)
    v (isLastPage s) (deletingId s) (deleteFeedback s).

Definition set_isLastPage (v : bool) (s : State) : State :=
  mkState (query s) (searchTerm s) (reloadKey s) (dispositivos s) (selectedDispositivo
    s) (loading s) (error s) (nuevoCodigo s) (nuevoModelo s) (isSubmitting s)
    (submitError s) (submitSuccess s) (page s) (size s) (totalElements s) (totalPages s)
    (isFirstPage s) v (deletingId s) (deleteFeedback s).

Definition set_deletingId (v : option string) (s : State) : State :=
  mkState (query s) (searchTerm s) (reloadKey s) (dispositivos s) (selectedDispositivo
    s) (loading s) (error s) (nuevoCodigo s) (nuevoModelo s) (isSubmitting s)
    (submitError s) (submitSuccess s) (page s) (size s) (totalElements s) (totalPages s)
    (isFirstPage s) (isLastPage s) v (deleteFeedback s).

Definition set_deleteFeedback (v : option FeedbackMessage) (s : State) : State :=
  mkState (query s) (searchTerm s) (reloadKey s) (dispositivos s) (selectedDispositivo
    s) (loading s) (error s) (nuevoCodigo s) (nuevoModelo s) (isSubmitting s)
    (submitError s) (submitSuccess s) (page s) (size s) (totalElements s) (totalPages s)
    (isFirstPage s) (isLastPage s) (deletingId s) v.

(** The state of the first render. *)
Definition initial_state : State :=
  mkState "" "all" 0 [] None false None "" "" false None None 0 10 0 0 true true None None.

(** [Math.ceil(a / b)] for a positive [b]; on counts and page sizes,
    integers far below 2^53, the ceiling of the quotient of the doubles is
    the ceiling of the exact quotient. *)
Definition Math_ceil_div (a b : Z) : Z := - ((- a) / b).

(** What the effect reads from the body of the response: the items and the
    four page figures. *)
Record Pagina : Type := mkPagina {
  itemsSource : list Json;
  totalRegistros : Z;
  totalPaginas : Z;
  firstFlag : bool;
  lastFlag : bool
}.

(** The block of [obtenerDispositivos] from [const data = json?.data] to the
    test of the page: [data] is an array, a page object, or anything else. *)
Definition leer_pagina (data : option Json) (safePage size0 : Z) : Pagina :=
  match data with
  | Some (JArr items) =>
      mkPagina items (Z.of_nat (List.length items))
               (if (0 <? List.length items)%nat then 1 else 0) true true
  | Some (JObj _ as pageData) =>
      let items :=
        match field "content" pageData with
        | Some (JArr content) => content
        | _ => []
        end in
      let n := Z.of_nat (List.length items) in
      let totalRegistros :=
        match as_number (field "totalElements" pageData) with
        | Some t => t
        | None => n
        end in
      let totalPaginas :=
        match as_number (field "totalPages" pageData) with
        | Some t => t
        | None =>
            if (0 <? totalRegistros) && (0 <? size0)
            then Math_ceil_div totalRegistros size0
            else if 0 <? n then 1 else 0
        end in
      let firstFlag :=
        match as_bool (field "first" pageData) with
        | Some b => b
        | None => safePage <=? 0
        end in
      let lastFlag :=
        match as_bool (field "last" pageData) with
        | Some b => b
        | None =>
            if negb (totalPaginas =? 0) then totalPaginas - 1 <=? safePage
            else n <? size0
        end in
      mkPagina items totalRegistros totalPaginas firstFlag lastFlag
  | _ => mkPagina [] 0 0 (safePage <=? 0) true
  end.

(** The state after a failed load, and without a token. *)
Definition sin_datos (s : State) : State :=
  set_isLastPage true (set_isFirstPage true (set_totalPages 0 (set_totalElements 0
    (set_selectedDispositivo None (set_dispositivos [] s))))).

(** [setSelectedDispositivo((prev) => prev && items.some(...) ? prev : null)] *)
Definition mantener_seleccion (items : list Dispositivo) (prev : option Dispositivo)
    : option Dispositivo :=
  match prev with
  | Some p => if existsb (fun item => d_id item =? d_id p)%string items then Some p else None
  | None => None
  end.

Section Handlers.

(** The built-ins [encodeURIComponent] and [Number] (on a string; [None]
    is NaN) and the token of [useAuthorizedApi]. *)
Variable encodeURIComponent : string -> string.
Variable Number_ : string -> option Z.
Variable token : option string.

(** [Math.max(page, 0)] *)
Definition safePage_of (s : State) : Z := Z.max (page s) 0.

(** The request of the list effect. *)
Definition list_request (s0 : State) : Request :=
  let term :=
    if (Js.trim (searchTerm s0) =? "")%string then "all" else Js.trim (searchTerm s0) in
  mkRequest Backend GET
    ("/api/v1/dispositivosGps/" ++ encodeURIComponent term
       ++ "?page=" ++ Js.String_of_Z (safePage_of s0)
       ++ "&size=" ++ Js.String_of_Z (size s0))
    None.

(** The effect that loads the list, for the render with state [s0]; the
    component stays mounted and the request is not aborted. *)
Definition obtenerDispositivos (s0 : State) : M State unit :=
  let safePage := safePage_of s0 in
  set (set_loading true) ;;;
  set (set_error None) ;;;
  finally
    (try_catch
       (response <- fetch (list_request s0) ;;
        json <- await_catch (Effects.json response) JNull ;;
        if negb (ok response) then
          throw (Error_ (or_else (match as_string (field "message" json) with
                                  | Some m => m
                                  | None => ""
                                  end)
                                 ("Error al obtener dispositivos ("
                                    ++ Js.String_of_Z (Effects.status response) ++ ").")))
        else if code_rejected json then
          throw (Error_ (or_else (match as_string (field "message" json) with
                                  | Some m => m
                                  | None => ""
                                  end)
                                 "Error al obtener dispositivos."))
        else
          let p := leer_pagina (field "data" json) safePage (size s0) in
          if (0 <? totalPaginas p) && (totalPaginas p <=? safePage) then
            set (set_page (Z.max (totalPaginas p - 1) 0))
          else
            items <- await (Valores.map_throwing mapDispositivo (itemsSource p)) ;;
            set (set_dispositivos items) ;;;
            set (set_totalElements (totalRegistros p)) ;;;
            set (set_totalPages (totalPaginas p)) ;;;
            set (set_isFirstPage (firstFlag p)) ;;;
            set (set_isLastPage (lastFlag p)) ;;;
            set (fun s => set_selectedDispositivo
                            (mantener_seleccion items (selectedDispositivo s)) s))
       (fun _ =>
          set (set_error (Some "No se pudieron cargar los dispositivos. Intenta nuevamente.")) ;;;
          set sin_datos))
    (set (set_loading false)).

(** The body of the [useEffect]: without a token nothing is requested. *)
Definition efecto_lista (s0 : State) : M State unit :=
  if negb (Js.truthy_opt token) then set sin_datos
  else obtenerDispositivos s0.

Definition handleSearch (s0 : State) : M State unit :=
  let normalized := Js.trim (query s0) in
  set (set_searchTerm (or_else normalized "all")) ;;;
  set (set_page 0).

Definition handleClear (s0 : State) : M State unit :=
  set (set_query "") ;;;
  set (set_searchTerm "all") ;;;
  set (set_selectedDispositivo None) ;;;
  set (set_page 0).

Definition handleNextPage (s0 : State) : M State unit :=
  if isLastPage s0 || loading s0 then ret tt
  else set (fun s => set_page (page s + 1) s).

Definition handlePreviousPage (s0 : State) : M State unit :=
  if isFirstPage s0 || loading s0 then ret tt
  else set (fun s => set_page (Z.max (page s - 1) 0) s).

Definition handlePageSizeChange (value : string) (s0 : State) : M State unit :=
  match Number_ value with
  | None => ret tt
  | Some parsed =>
      if parsed <=? 0 then ret tt
      else set (set_size parsed) ;;; set (set_page 0)
  end.

(** [resetForm] *)
Definition resetForm : M State unit :=
  set (set_nuevoCodigo "") ;;; set (set_nuevoModelo "").

(** The body sent to Traccar: [category: modelo || undefined] is dropped by
    [JSON.stringify] when it is undefined. *)
Definition traccarDevicePayload (codigo modelo : string) : Json :=
  JObj ([("name", JStr codigo); ("uniqueId", JStr codigo)]
        ++ (if Js.truthy modelo then [("category", JStr modelo)] else []))%list.

Definition traccar_post (codigo modelo : string) : Request :=
  mkRequest Traccar POST "/api/devices" (Some (traccarDevicePayload codigo modelo)).

(** [`${codigo}${modelo ? `, ${modelo}` : ''}`] *)
Definition modeloAlmacenado (codigo modelo : string) : string :=
  codigo ++ (if Js.truthy modelo then ", " ++ modelo else "").

Definition backend_payload (traccarDeviceId : Id) (codigo modelo : string) : Json :=
  JObj [("idDispositivo", JNull);
        ("codigo", JStr (String_id traccarDeviceId));
        ("modelo", JStr (modeloAlmacenado codigo modelo));
        ("activo", JNum 1);
        ("status", JNum 1)].

Definition backend_post (traccarDeviceId : Id) (codigo modelo : string) : Request :=
  mkRequest Backend POST "/api/v1/dispositivosGps/add"
            (Some (backend_payload traccarDeviceId codigo modelo)).

Definition traccar_delete (traccarDeviceId : Id) : Request :=
  mkRequest Traccar DELETE
            ("/api/devices/" ++ encodeURIComponent (String_id traccarDeviceId)) None.

(** The [catch] block of [handleGuardarNuevo], for the value the local
    [traccarDeviceId] has when the error is thrown: the registration in
    Traccar is reverted (a failure of that request is only logged), then the
    error is shown. *)
Definition guardar_catch (traccarDeviceId : Id) (error : JsError) : M State unit :=
  (match traccarDeviceId with
   | IdUndefined | IdNull => ret tt
   | _ => try_catch (_ <- fetch (traccar_delete traccarDeviceId) ;; ret tt)
                    (fun _ => ret tt)
   end) ;;;
  set (set_submitError (Some (err_message error))).

(** The [try] block up to the assignment of [traccarDeviceId]: until then
    the local is [undefined]. *)
Definition registrar_en_traccar (codigo modelo : string) : M State Id :=
  traccarResponse <- fetch (traccar_post codigo modelo) ;;
  (if negb (ok traccarResponse) then
     text <- await (Effects.text traccarResponse) ;;
     throw (Error_ (or_else text
                      ("Error al registrar el dispositivo en Traccar ("
                         ++ Js.String_of_Z (Effects.status traccarResponse) ++ ").")))
   else ret tt) ;;;
  traccarDevice <- await (Effects.json traccarResponse) ;;
  ret (id_of_field (field "id" traccarDevice)).

(** The rest of the [try] block, with [traccarDeviceId] assigned. *)
Definition registrar_en_backend (traccarDeviceId : Id) (codigo modelo : string)
    : M State unit :=
  if id_missing traccarDeviceId then
    throw (Error_ "Traccar no devolvio un identificador para el dispositivo registrado.")
  else
    response <- fetch (backend_post traccarDeviceId codigo modelo) ;;
    (if negb (ok response) then
       text <- await (Effects.text response) ;;
       throw (Error_ (or_else text
                        ("Error al registrar el dispositivo ("
                           ++ Js.String_of_Z (Effects.status response) ++ ").")))
     else ret tt) ;;;
    set (set_submitSuccess (Some "Dispositivo registrado correctamente.")) ;;;
    resetForm ;;;
    set (set_query "") ;;;
    set (set_searchTerm "all") ;;;
    set (set_page 0) ;;;
    set (fun s => set_reloadKey (reloadKey s + 1) s).

(** [handleGuardarNuevo].  The one [try]/[catch] of the source is written as
    its two parts, before and after the assignment of the local
    [traccarDeviceId], each with the [catch] block at the value the local
    has there. *)
Definition handleGuardarNuevo (s0 : State) : M State unit :=
  if negb (Js.truthy_opt token) then
    set (set_submitError (Some "No se encontro un token de autenticacion."))
  else
    set (set_submitError None) ;;;
    set (set_submitSuccess None) ;;;
    let codigo := Js.sanitize (Some (nuevoCodigo s0)) in
    let modelo := Js.sanitize (Some (nuevoModelo s0)) in
    if negb (Js.truthy codigo) || negb (Js.truthy modelo) then
      set (set_submitError (Some "Completa el codigo y el modelo del dispositivo."))
    else
      set (set_isSubmitting true) ;;;
      finally
        (assigned <- try_catch
                       (traccarDeviceId <- registrar_en_traccar codigo modelo ;;
                        ret (Some traccarDeviceId))
                       (fun error => guardar_catch IdUndefined error ;;; ret None) ;;
         match assigned with
         | None => ret tt
         | Some traccarDeviceId =>
             try_catch (registrar_en_backend traccarDeviceId codigo modelo)
                       (guardar_catch traccarDeviceId)
         end)
        (set (set_isSubmitting false)).

End Handlers.

End Dispositivos.

(* ===================================================================== *)
(** * views/programar-salida/ProgramarSalida.tsx *)
(* ===================================================================== *)

Module ProgramarSalida.
Import Effects.
Local Open Scope string_scope.
Local Open Scope Z_scope.
Local Open Scope handler_scope.

(** [type PedidoUbicacion]; [raw] is the location as it was received. *)
Record PedidoUbicacion : Type := mkPedidoUbicacion {
  u_id : string;
  u_nombre : string;
  u_raw : option Json
}.

(** [type Pedido]; [rawNota] is the order as it was received. *)
Record Pedido : Type := mkPedido {
  p_id : string;
  nroSalida : string;
  nroPedido : string;
  cliente : string;
  clienteInfo : option Json;
  ubicaciones : list PedidoUbicacion;
  ubicacionSeleccionada : option string;
  seleccionado : option bool;
  rawNota : Json
}.

Record VehiculoOption : Type := mkVehiculoOption { v_id : string; descripcion : string }.
Record ConductorOption : Type := mkConductorOption { c_id : string; c_nombre : string }.

(** [const PEDIDOS_PAGE_SIZES = [5, 8, 10, 15] as const] *)
Definition PEDIDOS_PAGE_SIZES : list Z := [5; 8; 10; 15].

(** The state of the component: one field per [useState]. *)
Record State : Type := mkState {
  fechaEntrega : string;
  vehiculoId : string;
  conductorId : string;
  vehiculos : list VehiculoOption;
  conductores : list ConductorOption;
  pedidos : list Pedido;
  pedidosPage : Z;
  pedidosSize : Z;
  pedidosTotalPages : Z;
  pedidosTotalElements : Z;
  isLoadingPedidos : bool;
  pedidosError : option string;
  esUltimaPaginaPedidos : bool;
  isSubmitting : bool;
  submitError : option string;
  submitSuccess : option string
}.

Definition set_pedidos (v : list Pedido) (s : State) : State :=
  mkState (fechaEntrega s) (vehiculoId s) (conductorId s) (vehiculos s) (conductores s)
    v (pedidosPage s) (pedidosSize s) (pedidosTotalPages s) (pedidosTotalElements s)
    (isLoadingPedidos s) (pedidosError s) (esUltimaPaginaPedidos s) (isSubmitting s)
    (submitError s) (submitSuccess s).

Definition set_pedidosPage (v : Z) (s : State) : State :=
  mkState (fechaEntrega s) (vehiculoId s) (conductorId s) (vehiculos s) (conductores s)
    (pedidos s) v (pedidosSize s) (pedidosTotalPages s) (pedidosTotalElements s)
    (isLoadingPedidos s) (pedidosError s) (esUltimaPaginaPedidos s) (isSubmitting s)
    (submitError s) (submitSuccess s).

Definition set_pedidosSize (v : Z) (s : State) : State :=
  mkState (fechaEntrega s) (vehiculoId s) (conductorId s) (vehiculos s) (conductores s)
    (pedidos s) (pedidosPage s) v (pedidosTotalPages s) (pedidosTotalElements s)
    (isLoadingPedidos s) (pedidosError s) (esUltimaPaginaPedidos s) (isSubmitting s)
    (submitError s) (submitSuccess s).

Definition set_pedidosTotalPages (v : Z) (s : State) : State :=
  mkState (fechaEntrega s) (vehiculoId s) (conductorId s) (vehiculos s) (conductores s)
    (pedidos s) (pedidosPage s) (pedidosSize s) v (pedidosTotalElements s)
    (isLoadingPedidos s) (pedidosError s) (esUltimaPaginaPedidos s) (isSubmitting s)
    (submitError s) (submitSuccess s).

Definition set_pedidosTotalElements (v : Z) (s : State) : State :=
  mkState (fechaEntrega s) (vehiculoId s) (conductorId s) (vehiculos s) (conductores s)
    (pedidos s) (pedidosPage s) (pedidosSize s) (pedidosTotalPages s) v
    (isLoadingPedidos s) (pedidosError s) (esUltimaPaginaPedidos s) (isSubmitting s)
    (submitError s) (submitSuccess s).

Definition set_isLoadingPedidos (v : bool) (s : State) : State :=
  mkState (fechaEntrega s) (vehiculoId s) (conductorId s) (vehiculos s) (conductores s)
    (pedidos s) (pedidosPage s) (pedidosSize s) (pedidosTotalPages s)
    (pedidosTotalElements s) v (pedidosError s) (esUltimaPaginaPedidos s) (isSubmitting
    s) (submitError s) (submitSuccess s).

Definition set_pedidosError (v : option string) (s : State) : State :=
  mkState (fechaEntrega s) (vehiculoId s) (conductorId s) (vehiculos s) (conductores s)
    (pedidos s) (pedidosPage s) (pedidosSize s) (pedidosTotalPages s)
    (pedidosTotalElements s) (isLoadingPedidos s) v (esUltimaPaginaPedidos s)
    (isSubmitting s) (submitError s) (submitSuccess s).

Definition set_esUltimaPaginaPedidos (v : bool) (s : State) : State :=
  mkState (fechaEntrega s) (vehiculoId s) (conductorId s) (vehiculos s) (conductores s)
    (pedidos s) (pedidosPage s) (pedidosSize s) (pedidosTotalPages s)
    (pedidosTotalElements s) (isLoadingPedidos s) (pedidosError s) v (isSubmitting s)
    (submitError s) (submitSuccess s).

Definition set_isSubmitting (v : bool) (s : State) : State :=
  mkState (fechaEntrega s) (vehiculoId s) (conductorId s) (vehiculos s) (conductores s)
    (pedidos s) (pedidosPage s) (pedidosSize s) (pedidosTotalPages s)
    (pedidosTotalElements s) (isLoadingPedidos s) (pedidosError s)
    (esUltimaPaginaPedidos s) v (submitError s) (submitSuccess s).

Definition set_submitError (v : option string) (s : State) : State :=
  mkState (fechaEntrega s) (vehiculoId s) (conductorId s) (vehiculos s) (conductores s)
    (pedidos s) (pedidosPage s) (pedidosSize s) (pedidosTotalPages s)
    (pedidosTotalElements s) (isLoadingPedidos s) (pedidosError s)
    (esUltimaPaginaPedidos s) (isSubmitting s) v (submitSuccess s).

Definition set_submitSuccess (v : option string) (s : State) : State :=
  mkState (fechaEntrega s) (vehiculoId s) (conductorId s) (vehiculos s) (conductores s)
    (pedidos s) (pedidosPage s) (pedidosSize s) (pedidosTotalPages s)
    (pedidosTotalElements s) (isLoadingPedidos s) (pedidosError s)
    (esUltimaPaginaPedidos s) (isSubmitting s) (submitError s) v.

(** [isUbicacionValida] *)
Definition isUbicacionValida (ubicacion : Json) : bool :=
  match ubicacion with
  | JObj _ =>
      match field "idUbicacionCliente" ubicacion with
      | None | Some JNull => false
      | Some _ => true
      end
  | _ => false
  end.

(** [nota.ubicaciones ?? []] *)
Definition ubicaciones_de (nota : Json) : list Json :=
  match field "ubicaciones" nota with
  | Some (JArr l) => l
  | _ => []
  end.

(** The order the callback of [listaNotas.map] builds from a nota, when
    none of its reads throws. *)
Definition mapNota (nota : Json) : Pedido :=
  let ubicacionesLimpias :=
    map (fun ubicacion =>
           mkPedidoUbicacion
             (String_json (field "idUbicacionCliente" ubicacion))
             (or_else (Js.sanitize (as_string (field "nombreDireccion" ubicacion)))
                      "Sin direccion")
             (Some ubicacion))
        (filter isUbicacionValida (ubicaciones_de nota)) in
  mkPedido
    (String_json (field "idNotaSalida" nota))
    (String_json (Some (nullish_or (field "nroSalida" nota) (JStr ""))))
    (String_json (Some (nullish_or (field "codigoPedido" nota) (JStr ""))))
    (or_else (Js.sanitize (match field "cliente" nota with
                           | Some c => as_string (field "nombre" c)
                           | None => None
                           end))
             "Sin cliente")
    (match field "cliente" nota with
     | Some JNull | None => None
     | Some c => Some c
     end)
    ubicacionesLimpias
    None
    (Some false)
    nota.

(** The reads of the callback that throw a [TypeError]: a property of a
    [null] nota, [filter] on [ubicaciones] that is neither an array nor
    missing, and [sanitize] on a [nombreDireccion] of a kept location or on
    the [nombre] of the client that is neither a string nor missing. *)
Definition mapNota_throws (nota : Json) : bool :=
  match nota with
  | JNull => true
  | _ =>
      negb (match field "ubicaciones" nota with
            | None | Some JNull | Some (JArr _) => true
            | Some _ => false
            end)
      || existsb (fun ubicacion =>
                    Valores.is_thrown (Valores.sanitize_value (field "nombreDireccion" ubicacion)))
                 (filter isUbicacionValida (ubicaciones_de nota))
      || Valores.is_thrown (Valores.sanitize_value
                      (match field "cliente" nota with
                       | Some c => field "nombre" c
                       | None => None
                       end))
  end.

(** The callback of [listaNotas.map]. *)
Definition mapNota_callback (nota : Json) : JsError + Pedido :=
  if mapNota_throws nota then inl Valores.TypeError else inr (mapNota nota).

(** What the effect reads from the body of the response. *)
Record Pagina : Type := mkPagina {
  listaNotas : list Json;
  totalPaginas : Z;
  totalRegistros : Z;
  ultimaPagina : bool
}.

(** The block of [obtenerNotasSalida] from [const data = json?.data] to the
    test of the page. *)
Definition leer_pagina (data : option Json) (safePage : Z) : Pagina :=
  match data with
  | Some (JArr items) =>
      mkPagina items (if (0 <? List.length items)%nat then 1 else 0)
               (Z.of_nat (List.length items)) true
  | Some (JObj _ as pageData) =>
      let items :=
        match field "content" pageData with
        | Some (JArr content) => content
        | _ => []
        end in
      let totalPaginas :=
        match as_number (field "totalPages" pageData) with
        | Some t => t
        | None => if (0 <? List.length items)%nat then 1 else 0
        end in
      let totalRegistros :=
        match as_number (field "totalElements" pageData) with
        | Some t => t
        | None => Z.of_nat (List.length items)
        end in
      let ultimaPagina :=
        match as_bool (field "last" pageData) with
        | Some b => b
        | None =>
            if negb (totalPaginas =? 0) then totalPaginas - 1 <=? safePage else true
        end in
      mkPagina items totalPaginas totalRegistros ultimaPagina
  | _ => mkPagina [] 0 0 true
  end.

(** The state after a failed load, and without a token. *)
Definition sin_pedidos (s : State) : State :=
  set_esUltimaPaginaPedidos true (set_pedidosTotalPages 0 (set_pedidosTotalElements 0
    (set_pedidos [] s))).

(** [parseMaybeNumber] *)
Definition parseMaybeNumber (Number_ : string -> option Z) (value : option Json) : option Z :=
  match value with
  | Some (JNum n) => Some n
  | Some (JStr s) => Number_ s
  | _ => None
  end.

(** [extractProgramacionId]: the id of the object itself, or else of its
    [data], or else of its [programacion]. *)
Fixpoint extractProgramacionId (Number_ : string -> option Z) (payload : Json) : option Z :=
  match payload with
  | JObj fields =>
      let directId :=
        parseMaybeNumber Number_
          (match field "idProgramacion" payload with
           | Some JNull | None => field "id_programacion" payload
           | v => v
           end) in
      match directId with
      | Some n => Some n
      | None =>
          let nested (name : string) : option Z :=
            (fix find (l : list (string * Json)) : option Z :=
               match l with
               | [] => None
               | (k, v) :: t =>
                   if (k =? name)%string
                   then (if json_truthy v then extractProgramacionId Number_ v else None)
                   else find t
               end) fields in
          match nested "data" with
          | Some n => Some n
          | None => nested "programacion"
          end
      end
  | _ => None
  end.

(** The element of [salidasPayload] for one pedido; it throws when the
    chosen location is not among the locations of the pedido. *)
Definition salida_de (pedido : Pedido) : JsError + Json :=
  match find (fun u => match ubicacionSeleccionada pedido with
                       | Some sel => (u_id u =? sel)%string
                       | None => false
                       end)
             (ubicaciones pedido) with
  | Some (mkPedidoUbicacion _ _ (Some raw)) =>
      if json_truthy raw then
        inr (JObj (opt_field "idNotaSalida" (field "idNotaSalida" (rawNota pedido))
                   ++ [("cliente", nullish_or (field "cliente" (rawNota pedido)) JNull);
                       ("ubicaciones", raw);
                       ("nroSalida", nullish_or (field "nroSalida" (rawNota pedido)) JNull);
                       ("codigoPedido", nullish_or (field "codigoPedido" (rawNota pedido)) JNull);
                       ("fechaSalidaAprobada",
                        nullish_or (field "fechaSalidaAprobada" (rawNota pedido)) JNull);
                       ("fechaSalida", nullish_or (field "fechaSalida" (rawNota pedido)) JNull)])%list)
      else inl (Error_ ("No se encontro la ubicacion seleccionada para el pedido "
                          ++ nroPedido pedido ++ "."))
  | _ => inl (Error_ ("No se encontro la ubicacion seleccionada para el pedido "
                        ++ nroPedido pedido ++ "."))
  end.

(** [seleccionados.map((pedido) => ...)]: the first pedido that throws
    ends the map. *)
Fixpoint salidasPayload (seleccionados : list Pedido) : JsError + list Json :=
  match seleccionados with
  | [] => inr []
  | pedido :: rest =>
      match salida_de pedido with
      | inl e => inl e
      | inr j =>
          match salidasPayload rest with
          | inl e => inl e
          | inr js => inr (j :: js)
          end
      end
  end.

(** [p.seleccionado], as a condition. *)
Definition esta_seleccionado (p : Pedido) : bool :=
  match seleccionado p with Some b => b | None => false end.

Section Handlers.

(** The built-in [Number] on a string ([None] is NaN); the values of
    [useAuth], [useAuthorizedApi], the memo [today], and the text of
    [formatAsLocalDateTime(new Date())] at the time of the submission. *)
Variable Number_ : string -> option Z.
Variable auth : RoleProtectedRoute.AuthState.
Variable token : option string.
Variable today : string.
Variable now : string.

(** [coerceStringIdToNumber] *)
Definition coerceStringIdToNumber (value : string) : option Z := Number_ value.

(** [useMemo(() => pedidos.filter(p => p.seleccionado), [pedidos])] *)
Definition pedidosSeleccionados (s : State) : list Pedido :=
  filter esta_seleccionado (pedidos s).

Definition notas_request (s0 : State) : Request :=
  mkRequest Backend GET
    ("/api/v1/notas-salidas/obtener?page=" ++ Js.String_of_Z (Z.max 0 (pedidosPage s0))
       ++ "&size=" ++ Js.String_of_Z (pedidosSize s0))
    None.

(** The effect that loads the orders, for the render with state [s0]; the
    component stays mounted and the request is not aborted. *)
Definition obtenerNotasSalida (s0 : State) : M State unit :=
  set (set_isLoadingPedidos true) ;;;
  set (set_pedidosError None) ;;;
  let safePage := Z.max 0 (pedidosPage s0) in
  finally
    (try_catch
       (response <- fetch (notas_request s0) ;;
        json <- await_catch (Effects.json response) JNull ;;
        if negb (ok response) then
          throw (Error_ (match as_string (field "message" json) with
                         | Some m => m
                         | None => "Respuesta inesperada ("
                                     ++ Js.String_of_Z (Effects.status response) ++ ")"
                         end))
        else if code_rejected json then
          throw (Error_ (or_else (match as_string (field "message" json) with
                                  | Some m => m
                                  | None => ""
                                  end)
                                 "Error al obtener notas de salida."))
        else
          let p := leer_pagina (field "data" json) safePage in
          if (0 <? totalPaginas p) && (totalPaginas p <=? safePage) then
            set (set_pedidosPage (Z.max (totalPaginas p - 1) 0))
          else
            pedidosMapeados <- await (Valores.map_throwing mapNota_callback
                                                            (listaNotas p)) ;;
            set (set_pedidos pedidosMapeados) ;;;
            set (set_pedidosTotalElements (totalRegistros p)) ;;;
            set (set_pedidosTotalPages (totalPaginas p)) ;;;
            set (set_esUltimaPaginaPedidos (ultimaPagina p)))
       (fun error =>
          if (err_name error =? "AbortError")%string then ret tt
          else
            set (set_pedidos []) ;;;
            set (set_pedidosError (Some (err_message error))) ;;;
            set (set_pedidosTotalElements 0) ;;;
            set (set_pedidosTotalPages 0) ;;;
            set (set_esUltimaPaginaPedidos true)))
    (set (set_isLoadingPedidos false)).

Definition efecto_pedidos (s0 : State) : M State unit :=
  if negb (Js.truthy_opt token) then set sin_pedidos
  else obtenerNotasSalida s0.

Definition actualizarUbicacion (id ubicacionId : string) : M State unit :=
  set (fun s =>
         set_pedidos
           (map (fun p =>
                   if (p_id p =? id)%string
                   then mkPedido (p_id p) (nroSalida p) (nroPedido p) (cliente p)
                                 (clienteInfo p) (ubicaciones p) (Some ubicacionId)
                                 (seleccionado p) (rawNota p)
                   else p)
                (pedidos s))
           s).

Definition toggleSeleccion (id : string) : M State unit :=
  set (fun s =>
         set_pedidos
           (map (fun p =>
                   if (p_id p =? id)%string
                   then mkPedido (p_id p) (nroSalida p) (nroPedido p) (cliente p)
                                 (clienteInfo p) (ubicaciones p) (ubicacionSeleccionada p)
                                 (Some (negb (esta_seleccionado p))) (rawNota p)
                   else p)
                (pedidos s))
           s).

(** [Math.ceil(a / b)] for a positive [b]. *)
Definition Math_ceil_div (a b : Z) : Z := - ((- a) / b).

(** [totalPaginasVisibles] *)
Definition totalPaginasVisibles (s : State) : Z :=
  Z.max (if 0 <? pedidosTotalPages s then pedidosTotalPages s
         else let c := Math_ceil_div (pedidosTotalElements s) (pedidosSize s) in
              if c =? 0 then 1 else c)
        1.

Definition isFirstPedidosPage (s : State) : bool := pedidosPage s <=? 0.

Definition isLastPedidosPage (s : State) : bool :=
  if 0 <? pedidosTotalPages s then pedidosTotalPages s - 1 <=? pedidosPage s
  else esUltimaPaginaPedidos s
       || (Z.of_nat (List.length (pedidos s)) <? pedidosSize s).

Definition handleNextPedidosPage (s0 : State) : M State unit :=
  if isLastPedidosPage s0 || isLoadingPedidos s0 then ret tt
  else set (fun s => set_pedidosPage (pedidosPage s + 1) s).

Definition handlePreviousPedidosPage (s0 : State) : M State unit :=
  if isFirstPedidosPage s0 || isLoadingPedidos s0 then ret tt
  else set (fun s => set_pedidosPage (Z.max (pedidosPage s - 1) 0) s).

Definition handlePedidosPageSizeChange (value : string) (s0 : State) : M State unit :=
  match Number_ value with
  | None => ret tt
  | Some newSize =>
      if newSize <=? 0 then ret tt
      else set (set_pedidosSize newSize) ;;; set (set_pedidosPage 0)
  end.

Definition programacionPayload (idVehiculo idConductor : Z) (idAdministrador : Js.Scalar)
    (s0 : State) : Json :=
  JObj [("idProgramacion", JNull);
        ("idVehiculo", JNum idVehiculo);
        ("idConductor", JNum idConductor);
        ("idAdministrador", json_of_scalar idAdministrador);
        ("fechaCreacion", JStr now);
        ("estadoEntrega", JNum 1);
        ("fechaEntrega", JStr (fechaEntrega s0));
        ("status", JNum 1)].

Definition programacion_post (idVehiculo idConductor : Z) (idAdministrador : Js.Scalar)
    (s0 : State) : Request :=
  mkRequest Backend POST "/api/v1/programacion-distribucion/add"
            (Some (programacionPayload idVehiculo idConductor idAdministrador s0)).

Definition salidas_post (programacionId : Z) (payload : list Json) : Request :=
  mkRequest Backend POST
            ("/api/v1/salidas-programadas/add/" ++ Js.String_of_Z programacionId)
            (Some (JArr payload)).

(** The [try] block of [guardarProgramacion]. *)
Definition registrar (idVehiculo idConductor : Z) (idAdministrador : Js.Scalar)
    (seleccionados : list Pedido) (s0 : State) : M State unit :=
  set (set_isSubmitting true) ;;;
  programacionResponse <-
    fetch (programacion_post idVehiculo idConductor idAdministrador s0) ;;
  (if negb (ok programacionResponse) then
     errorText <- await (Effects.text programacionResponse) ;;
     throw (Error_ (if Js.truthy errorText
                    then "Error al registrar la programacion: " ++ errorText
                    else "Error al registrar la programacion ("
                           ++ Js.String_of_Z (Effects.status programacionResponse) ++ ")."))
   else ret tt) ;;;
  programacionJson <- await_catch (Effects.json programacionResponse) JNull ;;
  match extractProgramacionId Number_ programacionJson with
  | None => throw (Error_ "La API no devolvio el identificador de la programacion.")
  | Some programacionId =>
      payload <- await (salidasPayload seleccionados) ;;
      salidasResponse <- fetch (salidas_post programacionId payload) ;;
      (if negb (ok salidasResponse) then
         errorText <- await (Effects.text salidasResponse) ;;
         throw (Error_ (if Js.truthy errorText
                        then "Error al registrar las salidas: " ++ errorText
                        else "Error al registrar las salidas ("
                               ++ Js.String_of_Z (Effects.status salidasResponse) ++ ")."))
       else ret tt) ;;;
      set (set_submitSuccess (Some "Programacion registrada correctamente.")) ;;;
      set (fun s =>
             set_pedidos
               (map (fun pedido =>
                       mkPedido (p_id pedido) (nroSalida pedido) (nroPedido pedido)
                                (cliente pedido) (clienteInfo pedido) (ubicaciones pedido)
                                None (Some false) (rawNota pedido))
                    (pedidos s))
               s)
  end.

(** [guardarProgramacion], the submit handler of the form, for the render
    with state [s0].  The page runs in a browser, where [window] is
    defined, so the dialog is always shown. *)
Definition guardarProgramacion (s0 : State) : M State unit :=
  if isSubmitting s0 then ret tt
  else
    set (set_submitError None) ;;;
    set (set_submitSuccess None) ;;;
    if negb (Js.truthy (fechaEntrega s0)) then
      set (set_submitError (Some "Selecciona una fecha de entrega."))
    else if Js.str_lt (fechaEntrega s0) today then
      set (set_submitError (Some "La fecha de entrega no puede ser anterior a hoy."))
    else if negb (Js.truthy (vehiculoId s0)) then
      set (set_submitError (Some "Selecciona un vehiculo."))
    else if negb (Js.truthy (conductorId s0)) then
      set (set_submitError (Some "Selecciona un conductor."))
    else
      let seleccionados := pedidosSeleccionados s0 in
      if (List.length seleccionados =? 0)%nat then
        set (set_submitError (Some "Selecciona al menos un pedido para programar."))
      else
        let pendientesDeUbicacion :=
          filter (fun p => negb (Js.truthy_opt (ubicacionSeleccionada p))) seleccionados in
        if negb (List.length pendientesDeUbicacion =? 0)%nat then
          set (set_submitError (Some "Selecciona una ubicacion para cada pedido marcado."))
        else
          match coerceStringIdToNumber (vehiculoId s0) with
          | None => set (set_submitError (Some "El identificador del vehiculo no es valido."))
          | Some idVehiculo =>
              match coerceStringIdToNumber (conductorId s0) with
              | None =>
                  set (set_submitError (Some "El identificador del conductor no es valido."))
              | Some idConductor =>
                  match RoleProtectedRoute.userId auth with
                  | None =>
                      set (set_submitError
                             (Some "No se encontro el identificador del administrador."))
                  | Some idAdministrador =>
                      if negb (Js.truthy_opt token) then
                        set (set_submitError
                               (Some "No se encontro un token de autenticacion. Inicia sesion e intentalo nuevamente."))
                      else
                        confirmado <- confirm "Estas seguro de crear la nueva programacion?" ;;
                        if negb confirmado then ret tt
                        else
                          finally
                            (try_catch
                               (registrar idVehiculo idConductor idAdministrador
                                          seleccionados s0)
                               (fun error => set (set_submitError (Some (err_message error)))))
                            (set (set_isSubmitting false))
                  end
              end
          end.

End Handlers.

End ProgramarSalida.

(* ===================================================================== *)
(** * views/conductores/EntregaObservacion.tsx *)
(* ===================================================================== *)

Module EntregaObservacion.
Import Effects.
Local Open Scope string_scope.
Local Open Scope Z_scope.
Local Open Scope handler_scope.

(** [type EstadoEntregaSelect = 'Entregado' | 'No Entregado'] *)
Inductive EstadoEntregaSelect : Type := Entregado | No_Entregado.

(** [mapEstadoToValue] *)
Definition mapEstadoToValue (estado : EstadoEntregaSelect) : Z :=
  match estado with
  | Entregado => 2
  | No_Entregado => 1
  end.

(** The state of the component: one field per [useState]. *)
Record State : Type := mkState {
  observacion : string;
  estado : EstadoEntregaSelect;
  isSubmitting : bool
}.

Definition set_isSubmitting (v : bool) (s : State) : State :=
  mkState (observacion s) (estado s) v.

Definition initial_state : State := mkState "" No_Entregado false.

Section Handlers.

(** The built-in [Number] on a string ([None] is NaN), [auth.userId], the
    route parameter [productoId] and [location.state.notaId]. *)
Variable Number_ : string -> option Z.
Variable conductorId : option Js.Scalar.
Variable productoId : option string.
Variable notaId : option string.

(** [productoId ?? state.notaId ?? ''] *)
Definition salidaDetalleId : string :=
  match productoId with
  | Some p => p
  | None => match notaId with Some n => n | None => "" end
  end.

(** [Boolean(conductorId && salidaDetalleId && observacion.trim())] *)
Definition canSubmit (s : State) : bool :=
  Js.truthy_scalar conductorId
  && Js.truthy salidaDetalleId
  && Js.truthy (Js.trim (observacion s)).

Definition payload (s0 : State) : Json :=
  JObj (opt_field "idConductor" (option_map json_of_scalar conductorId)
        ++ [("idSalidasProgramadasDetalle",
             match Number_ salidaDetalleId with Some n => JNum n | None => JNull end);
            ("observacion", JStr (Js.trim (observacion s0)));
            ("estadoEntrega", JNum (mapEstadoToValue (estado s0)));
            ("status", JNum 1)])%list.

Definition observacion_post (s0 : State) : Request :=
  mkRequest Backend POST "/api/v1/observacion-entregas/add" (Some (payload s0)).

(** [onSubmit], for the render with state [s0]. *)
Definition onSubmit (s0 : State) : M State unit :=
  if negb (canSubmit s0) || isSubmitting s0 then ret tt
  else
    confirmed <- confirm "Esta seguro de registrar la observacion?" ;;
    if negb confirmed then ret tt
    else
      finally
        (try_catch
           (set (set_isSubmitting true) ;;;
            response <- fetch (observacion_post s0) ;;
            (if negb (ok response) then
               text <- await (Effects.text response) ;;
               throw (Error_ (or_else text
                                ("Error al registrar la observación ("
                                   ++ Js.String_of_Z (Effects.status response) ++ ").")))
             else ret tt) ;;;
            navigate (-1))
           (fun _ => alert "No se pudo registrar la observación. Intente nuevamente."))
        (set (set_isSubmitting false)).

End Handlers.

End EntregaObservacion.

(* ===================================================================== *)
(** * views/monitoreo/PanelMonitoreo *)
(* ===================================================================== *)

Module PanelMonitoreo.
Import Effects.
Local Open Scope string_scope.
Local Open Scope Z_scope.
Local Open Scope handler_scope.

Record ProgramacionItem : Type := mkItem {
  id : string;
  fechaEntrega : option string;
  estadoEntrega : option Z;
  vehiculoDescripcion : string;
  conductorNombre : string;
  dispositivoId : option string
}.

Record SearchParams : Type := mkSearchParams {
  sp_nro : string;
  sp_desde : string;
  sp_hasta : string
}.

Inductive StatusType : Type := success | error_.

Record ActionStatus : Type := mkActionStatus {
  as_type : StatusType;
  as_message : string
}.

(** [normalizeIsoDateString]: [null] for a missing or blank value, the
    yyyy-MM-dd prefix when there is one, else the trimmed value. *)
Definition normalizeIsoDateString (value : option string) : option string :=
  match value with
  | None => None
  | Some v =>
      let trimmed := Js.trim v in
      if negb (Js.truthy trimmed) then None
      else match Js.iso_prefix trimmed with
           | Some ymd => Some ymd
           | None => Some trimmed
           end
  end.

(** [isEstadoEntregado], for [estado: number | string | null | undefined];
    [Number_] is the built-in [Number] on a string. *)
Definition isEstadoEntregado (Number_ : string -> option Z) (estado : option Js.Scalar) : bool :=
  match estado with
  | None => false
  | Some (Js.Num n) => n =? 2
  | Some (Js.Str s) =>
      match Number_ s with
      | Some n => n =? 2
      | None => false
      end
  end.

(** The state of the component: one field per [useState]. *)
Record State : Type := mkState {
  nro : string;
  desde : string;
  hasta : string;
  searchParams : SearchParams;
  items : list ProgramacionItem;
  loading : bool;
  error : option string;
  editingProgramacion : option ProgramacionItem;
  editFecha : string;
  editSubmitting : bool;
  deleteInProgress : option string;
  mutationError : option string;
  actionStatus : option ActionStatus
}.

Definition set_nro (v : string) (s : State) : State :=
  mkState v (desde s) (hasta s) (searchParams s) (items s) (loading s) (error s)
    (editingProgramacion s) (editFecha s) (editSubmitting s) (deleteInProgress s)
    (mutationError s) (actionStatus s).

Definition set_desde (v : string) (s : State) : State :=
  mkState (nro s) v (hasta s) (searchParams s) (items s) (loading s) (error s)
    (editingProgramacion s) (editFecha s) (editSubmitting s) (deleteInProgress s)
    (mutationError s) (actionStatus s).

Definition set_hasta (v : string) (s : State) : State :=
  mkState (nro s) (desde s) v (searchParams s) (items s) (loading s) (error s)
    (editingProgramacion s) (editFecha s) (editSubmitting s) (deleteInProgress s)
    (mutationError s) (actionStatus s).

Definition set_searchParams (v : SearchParams) (s : State) : State :=
  mkState (nro s) (desde s) (hasta s) v (items s) (loading s) (error s)
    (editingProgramacion s) (editFecha s) (editSubmitting s) (deleteInProgress s)
    (mutationError s) (actionStatus s).

Definition set_items (v : list ProgramacionItem) (s : State) : State :=
  mkState (nro s) (desde s) (hasta s) (searchParams s) v (loading s) (error s)
    (editingProgramacion s) (editFecha s) (editSubmitting s) (deleteInProgress s)
    (mutationError s) (actionStatus s).

Definition set_loading (v : bool) (s : State) : State :=
  mkState (nro s) (desde s) (hasta s) (searchParams s) (items s) v (error s)
    (editingProgramacion s) (editFecha s) (editSubmitting s) (deleteInProgress s)
    (mutationError s) (actionStatus s).

Definition set_error (v : option string) (s : State) : State :=
  mkState (nro s) (desde s) (hasta s) (searchParams s) (items s) (loading s) v
    (editingProgramacion s) (editFecha s) (editSubmitting s) (deleteInProgress s)
    (mutationError s) (actionStatus s).

Definition set_editingProgramacion (v : option ProgramacionItem) (s : State) : State :=
  mkState (nro s) (desde s) (hasta s) (searchParams s) (items s) (loading s) (error s) v
    (editFecha s) (editSubmitting s) (deleteInProgress s) (mutationError s)
    (actionStatus s).

Definition set_editFecha (v : string) (s : State) : State :=
  mkState (nro s) (desde s) (hasta s) (searchParams s) (items s) (loading s) (error s)
    (editingProgramacion s) v (editSubmitting s) (deleteInProgress s) (mutationError s)
    (actionStatus s).

Definition set_editSubmitting (v : bool) (s : State) : State :=
  mkState (nro s) (desde s) (hasta s) (searchParams s) (items s) (loading s) (error s)
    (editingProgramacion s) (editFecha s) v (deleteInProgress s) (mutationError s)
    (actionStatus s).

Definition set_deleteInProgress (v : option string) (s : State) : State :=
  mkState (nro s) (desde s) (hasta s) (searchParams s) (items s) (loading s) (error s)
    (editingProgramacion s) (editFecha s) (editSubmitting s) v (mutationError s)
    (actionStatus s).

Definition set_mutationError (v : option string) (s : State) : State :=
  mkState (nro s) (desde s) (hasta s) (searchParams s) (items s) (loading s) (error s)
    (editingProgramacion s) (editFecha s) (editSubmitting s) (deleteInProgress s) v
    (actionStatus s).

Definition set_actionStatus (v : option ActionStatus) (s : State) : State :=
  mkState (nro s) (desde s) (hasta s) (searchParams s) (items s) (loading s) (error s)
    (editingProgramacion s) (editFecha s) (editSubmitting s) (deleteInProgress s)
    (mutationError s) v.

Definition initial_state : State :=
  mkState "" "" "" (mkSearchParams "" "" "") [] false None None "" false None None None.

(** [{ ...item, fechaEntrega: normalizedDate }] *)
Definition with_fechaEntrega (normalizedDate : string) (item : ProgramacionItem)
    : ProgramacionItem :=
  mkItem (id item) (Some normalizedDate) (estadoEntrega item) (vehiculoDescripcion item)
         (conductorNombre item) (dispositivoId item).

(** [editingProgramacion?.id === programacion.id] *)
Definition is_editing (s : State) (programacion : ProgramacionItem) : bool :=
  match editingProgramacion s with
  | Some e => (id e =? id programacion)%string
  | None => false
  end.

Section Handlers.

(** The built-in [Number] on a string and the memo [todayIsoDate]. *)
Variable Number_ : string -> option Z.
Variable todayIsoDate : string.

Definition closeEditForm : M State unit :=
  set (set_editingProgramacion None) ;;;
  set (set_editFecha "") ;;;
  set (set_mutationError None).

Definition openEditForm (programacion : ProgramacionItem) (s0 : State) : M State unit :=
  if isEstadoEntregado Number_ (option_map Js.Num (estadoEntrega programacion)) then ret tt
  else if is_editing s0 programacion then closeEditForm
  else
    set (set_actionStatus None) ;;;
    set (set_mutationError None) ;;;
    let normalizedProgramacionDate := normalizeIsoDateString (fechaEntrega programacion) in
    let initialDate :=
      match normalizedProgramacionDate with
      | Some d => if Js.str_ge d todayIsoDate then d else todayIsoDate
      | None => todayIsoDate
      end in
    set (set_editingProgramacion (Some programacion)) ;;;
    set (set_editFecha initialDate).

Definition delete_request (programacion : ProgramacionItem) : Request :=
  mkRequest Backend DELETE
            ("/api/v1/programacion-distribucion/delete/" ++ id programacion) None.

(** [handleDelete]; in a browser [window] is defined and the dialog is
    shown. *)
Definition handleDelete (programacion : ProgramacionItem) (s0 : State) : M State unit :=
  confirmed <- confirm ("¿Deseas eliminar la programación " ++ id programacion
                          ++ "? Esta acción no se puede deshacer.") ;;
  if negb confirmed then ret tt
  else
    set (set_actionStatus None) ;;;
    set (set_deleteInProgress (Some (id programacion))) ;;;
    finally
      (try_catch
         (response <- fetch (delete_request programacion) ;;
          (if negb (ok response) then
             text <- await (Effects.text response) ;;
             throw (Error_ (or_else text
                              ("No se pudo eliminar (status "
                                 ++ Js.String_of_Z (Effects.status response) ++ ").")))
           else ret tt) ;;;
          set (fun s =>
                 set_items (filter (fun item => negb (id item =? id programacion)%string)
                                   (items s)) s) ;;;
          (if is_editing s0 programacion then closeEditForm else ret tt) ;;;
          set (set_actionStatus
                 (Some (mkActionStatus success "Programación eliminada correctamente."))))
         (fun _ =>
            set (set_actionStatus
                   (Some (mkActionStatus error_
                            "No se pudo eliminar la programación seleccionada. Intenta nuevamente.")))))
      (set (set_deleteInProgress None)).

Definition update_request (editing : ProgramacionItem) (normalizedDate : string) : Request :=
  mkRequest Backend PUT
            ("/api/v1/programacion-distribucion/updateFecha/" ++ id editing ++ "/"
               ++ normalizedDate)
            None.

Definition handleEditSubmit (s0 : State) : M State unit :=
  match editingProgramacion s0 with
  | None => ret tt
  | Some editing =>
      match normalizeIsoDateString (Some (editFecha s0)) with
      | None =>
          set (set_mutationError
                 (Some "Selecciona una fecha válida con el formato yyyy-MM-dd."))
      | Some normalizedDate =>
          if Js.str_lt normalizedDate todayIsoDate then
            set (set_mutationError
                   (Some "Selecciona una fecha igual o posterior a la fecha actual."))
          else
            set (set_actionStatus None) ;;;
            set (set_mutationError None) ;;;
            set (set_editSubmitting true) ;;;
            finally
              (try_catch
                 (response <- fetch (update_request editing normalizedDate) ;;
                  (if negb (ok response) then
                     text <- await (Effects.text response) ;;
                     throw (Error_ (or_else text
                                      ("No se pudo actualizar la fecha (status "
                                         ++ Js.String_of_Z (Effects.status response) ++ ").")))
                   else ret tt) ;;;
                  set (fun s =>
                         set_items
                           (map (fun item =>
                                   if (id item =? id editing)%string
                                   then with_fechaEntrega normalizedDate item
                                   else item)
                                (items s))
                           s) ;;;
                  set (set_actionStatus
                         (Some (mkActionStatus success "Fecha actualizada correctamente."))) ;;;
                  closeEditForm)
                 (fun editError =>
                    set (set_mutationError (Some (err_message editError))) ;;;
                    set (set_actionStatus
                           (Some (mkActionStatus error_
                                    "No se pudo actualizar la fecha. Intenta nuevamente.")))))
              (set (set_editSubmitting false))
      end
  end.

End Handlers.

End PanelMonitoreo.

(* ===================================================================== *)
(** * views/reportes/Reportes: the dates, the mapping and the loading *)
(* ===================================================================== *)

Module ReportesDatos.
Import Effects.
Local Open Scope string_scope.
Local Open Scope Z_scope.
Local Open Scope handler_scope.

(** A [Date], as the page reads it: its local year, month (0 to 11) and
    day of the month. *)
Record Date : Type := mkDate {
  getFullYear : Z;
  getMonth : Z;
  getDate : Z
}.

(** [text.padStart(2, '0')] *)
Definition padStart2 (text : string) : string :=
  match text with
  | EmptyString => "00"
  | String _ EmptyString => "0" ++ text
  | _ => text
  end.

(** [formatDateInput] *)
Definition formatDateInput (date : Date) : string :=
  let year := getFullYear date in
  let month := padStart2 (Js.String_of_Z (getMonth date + 1)) in
  let day := padStart2 (Js.String_of_Z (getDate date)) in
  Js.String_of_Z year ++ "-" ++ month ++ "-" ++ day.

Definition is_leap_year (year : Z) : bool :=
  ((year mod 4 =? 0) && negb (year mod 100 =? 0)) || (year mod 400 =? 0).

(** The number of days of a month (0 to 11) of a year. *)
Definition days_in_month (year month : Z) : Z :=
  if month =? 1 then (if is_leap_year year then 29 else 28)
  else if (month =? 3) || (month =? 5) || (month =? 8) || (month =? 10) then 30
  else 31.

(** [new Date(year, monthIndex, day)] for a year from 100 on and the days
    the page passes: a day of the month, or 0 for the last day of the month
    before.  A month index outside 0 to 11 is carried into the year. *)
Definition new_Date (year monthIndex day : Z) : Date :=
  let y := year + monthIndex / 12 in
  let m := monthIndex mod 12 in
  if day =? 0 then
    let y' := if m =? 0 then y - 1 else y in
    let m' := if m =? 0 then 11 else m - 1 in
    mkDate y' m' (days_in_month y' m')
  else mkDate y m day.

(** [{ desde, hasta }] *)
Record Range : Type := mkRange {
  r_desde : string;
  r_hasta : string
}.

(** [getMonthRangeForOffset]; [today] is [new Date()]. *)
Definition getMonthRangeForOffset (today : Date) (offsetMonths : Z) : Range :=
  let reference := new_Date (getFullYear today) (getMonth today + offsetMonths) 1 in
  let start := new_Date (getFullYear reference) (getMonth reference) 1 in
  let end_ := new_Date (getFullYear reference) (getMonth reference + 1) 0 in
  mkRange (formatDateInput start) (formatDateInput end_).

Definition getLastMonthRange (today : Date) : Range := getMonthRangeForOffset today (-1).

Definition getCurrentMonthRange (today : Date) : Range := getMonthRangeForOffset today 0.

Record ConductorOption : Type := mkConductorOption {
  c_id : string;
  c_nombre : string
}.

(** The state of the component: one field per [useState]. *)
Record State : Type := mkState {
  estado : Reportes.Estado;
  desde : string;
  hasta : string;
  conductor : string;
  programaciones : list Reportes.Programacion;
  conductores : list ConductorOption;
  isLoadingReport : bool;
  reportError : option string;
  conductoresError : option string;
  isLoadingConductores : bool
}.

Definition set_estado (v : Reportes.Estado) (s : State) : State :=
  mkState v (desde s) (hasta s) (conductor s) (programaciones s) (conductores s)
    (isLoadingReport s) (reportError s) (conductoresError s) (isLoadingConductores s).

Definition set_desde (v : string) (s : State) : State :=
  mkState (estado s) v (hasta s) (conductor s) (programaciones s) (conductores s)
    (isLoadingReport s) (reportError s) (conductoresError s) (isLoadingConductores s).

Definition set_hasta (v : string) (s : State) : State :=
  mkState (estado s) (desde s) v (conductor s) (programaciones s) (conductores s)
    (isLoadingReport s) (reportError s) (conductoresError s) (isLoadingConductores s).

Definition set_conductor (v : string) (s : State) : State :=
  mkState (estado s) (desde s) (hasta s) v (programaciones s) (conductores s)
    (isLoadingReport s) (reportError s) (conductoresError s) (isLoadingConductores s).

Definition set_programaciones (v : list Reportes.Programacion) (s : State) : State :=
  mkState (estado s) (desde s) (hasta s) (conductor s) v (conductores s)
    (isLoadingReport s) (reportError s) (conductoresError s) (isLoadingConductores s).

Definition set_conductores (v : list ConductorOption) (s : State) : State :=
  mkState (estado s) (desde s) (hasta s) (conductor s) (programaciones s) v
    (isLoadingReport s) (reportError s) (conductoresError s) (isLoadingConductores s).

Definition set_isLoadingReport (v : bool) (s : State) : State :=
  mkState (estado s) (desde s) (hasta s) (conductor s) (programaciones s) (conductores
    s) v (reportError s) (conductoresError s) (isLoadingConductores s).

Definition set_reportError (v : option string) (s : State) : State :=
  mkState (estado s) (desde s) (hasta s) (conductor s) (programaciones s) (conductores
    s) (isLoadingReport s) v (conductoresError s) (isLoadingConductores s).



Section Carga.

(** [new Date(value)] for a string: the local date it denotes, [None] for
    an invalid date.  [generated n] is the text of
    [`programacion-${Date.now()}-${Math.random()...}`] at the [n]-th call.
    [localeCompare] is [a.localeCompare(b, 'es', { sensitivity: 'base' })].
    [token] is the token of [useAuthorizedApi] and [initialRange] the memo
    of the first render. *)
Variable Date_parse : string -> option Date.
Variable generated : nat -> string.
Variable localeCompare : string -> string -> Z.
Variable token : option string.
Variable initialRange : Range.

(** The state of the first render. *)
Definition initial_state : State :=
  mkState Reportes.todos (r_desde initialRange) (r_hasta initialRange) "todos" [] []
          false None None false.

(** [toDateOnly] *)
Definition toDateOnly (value : option string) : option string :=
  match value with
  | None => None
  | Some v =>
      if negb (Js.truthy v) then None
      else
        let dateOnly := hd "" (Valores.split "T" v) in
        if Js.truthy dateOnly && Js.is_iso_date dateOnly then Some dateOnly
        else match Date_parse v with
             | None => None
             | Some parsed => Some (formatDateInput parsed)
             end
  end.

(** [mapProgramacion], at its [n]-th call; the properties of [item] have
    the types the response declares. *)
Definition mapProgramacion (n : nat) (item : Json) : Reportes.Programacion :=
  let idValue :=
    match field "idProgramacion" item with
    | Some JNull | None => JStr (generated n)
    | Some v => v
    end in
  let fechaEntrega := toDateOnly (as_string (field "fechaEntrega" item)) in
  let conductorId :=
    match field "conductor" item with
    | Some c =>
        if json_truthy c then
          match field "idUsuario" c with
          | Some idUsuario => Some (String_json (Some idUsuario))
          | None => None
          end
        else None
    | None => None
    end in
  let conductorNombre :=
    or_else (Js.sanitize (match field "conductor" item with
                          | Some c => as_string (field "nombreCompleto" c)
                          | None => None
                          end))
            "Sin asignar" in
  Reportes.mkProgramacion
    (String_json (Some idValue))
    (Reportes.getEstadoFromApi (as_number (field "estadoEntrega" item)))
    conductorId
    conductorNombre
    fechaEntrega.

(** [data.map(mapProgramacion)] *)
Fixpoint map_mapProgramacion (n : nat) (data : list Json) : list Reportes.Programacion :=
  match data with
  | [] => []
  | item :: rest => mapProgramacion n item :: map_mapProgramacion (S n) rest
  end.

Definition report_request (range : Range) : Request :=
  mkRequest Backend GET
    ("/api/v1/programacion-distribucion/report/" ++ r_desde range ++ "/" ++ r_hasta range)
    None.

(** [json?.code !== 200] *)
Definition code_not_200 (json : Json) : bool :=
  match as_number (field "code" json) with
  | Some c => negb (c =? 200)
  | None => true
  end.

(** [fetchReport]; the request is not aborted by a later one. *)
Definition fetchReport (range : Range) : M State unit :=
  if negb (Js.truthy_opt token) then
    set (set_programaciones []) ;;;
    set (set_reportError (Some "No se encontro la sesion de usuario."))
  else if negb (Js.truthy (r_desde range)) || negb (Js.truthy (r_hasta range)) then
    set (set_reportError (Some "Debes seleccionar la fecha inicial y final."))
  else if Js.str_lt (r_hasta range) (r_desde range) then
    set (set_reportError (Some "La fecha inicial no puede ser mayor a la final."))
  else
    set (set_isLoadingReport true) ;;;
    set (set_reportError None) ;;;
    finally
      (try_catch
         (response <- fetch (report_request range) ;;
          json <- await_catch (Effects.json response) JNull ;;
          if negb (ok response) || code_not_200 json then
            throw (Error_ (match as_string (field "message" json) with
                           | Some message => message
                           | None => "No se pudo obtener el reporte ("
                                       ++ Js.String_of_Z (Effects.status response) ++ ")."
                           end))
          else
            let items :=
              match field "data" json with
              | Some (JArr data) => map_mapProgramacion 0 data
              | _ => []
              end in
            set (set_programaciones items))
         (fun error =>
            if (err_name error =? "AbortError")%string then ret tt
            else
              set (set_programaciones []) ;;;
              set (set_reportError
                     (Some (or_else (err_message error)
                                    "Error al obtener los datos del reporte.")))))
      (set (set_isLoadingReport false)).

(** The element of [conductores] for an element of the response. *)
Definition conductor_option (item : Json) : ConductorOption :=
  mkConductorOption
    (match field "idUsuario" item with
     | Some JNull | None => ""
     | Some idUsuario => String_json (Some idUsuario)
     end)
    (or_else (Js.sanitize (as_string (field "nombreCompleto" item))) "Sin nombre").

Definition conductores_request : Request :=
  mkRequest Backend GET "/api/v1/usuarios/conductores" None.



Definition handleApplyFilters (s0 : State) : M State unit :=
  fetchReport (mkRange (desde s0) (hasta s0)).

Definition handleApplyShortcutRange (range : Range) : M State unit :=
  set (set_desde (r_desde range)) ;;;
  set (set_hasta (r_hasta range)) ;;;
  fetchReport range.

(** [today] is [new Date()] at the click. *)
Definition handleSelectCurrentMonth (today : Date) : M State unit :=
  handleApplyShortcutRange (getCurrentMonthRange today).

Definition handleSelectPreviousMonth (today : Date) : M State unit :=
  handleApplyShortcutRange (getLastMonthRange today).

Definition handleResetFilters : M State unit :=
  set (set_estado Reportes.todos) ;;;
  set (set_conductor "todos") ;;;
  set (set_desde (r_desde initialRange)) ;;;
  set (set_hasta (r_hasta initialRange)) ;;;
  fetchReport initialRange.

End Carga.

End ReportesDatos.

(* ===================================================================== *)
(** * views/dispositivos/Dispositivos.tsx: the table, its footer and the
      removal of a device *)
(* ===================================================================== *)

Module DispositivosTabla.
Import Effects.
Import Dispositivos.
Local Open Scope string_scope.
Local Open Scope Z_scope.
Local Open Scope handler_scope.

(** [availabilityLabel] *)
Definition availabilityLabel (value : option Z) : string :=
  match value with
  | Some 1 => "Disponible"
  | Some 2 => "Asignado"
  | _ => "Sin estado"
  end.

(** [availabilityBadgeColor] *)
Definition availabilityBadgeColor (value : option Z) : string :=
  match value with
  | Some 1 => "lightsuccess"
  | Some 2 => "lightwarning"
  | _ => "lightsecondary"
  end.

(** [badgeClass], in the row of the table. *)
Definition badgeClass (dispositivo : Dispositivo) : string :=
  match d_activo dispositivo with
  | Some 1 => "border-success text-success"
  | Some 2 => "border-warning text-warning"
  | _ => "border-secondary text-dark/70"
  end.

(** [statusLabel] *)
Definition statusLabel (value : option Z) : string :=
  match value with
  | Some 1 => "Activo"
  | Some 0 => "Inactivo"
  | _ => "Sin registro"
  end.

(** The footer of the table, for the render with state [s]. *)
Definition startIndex (s : State) : Z :=
  if (0 <? List.length (dispositivos s))%nat then page s * size s + 1 else 0.

Definition endIndex (s : State) : Z :=
  if (0 <? List.length (dispositivos s))%nat
  then startIndex s + Z.of_nat (List.length (dispositivos s)) - 1
  else 0.

Definition resumen (s : State) : string :=
  if (0 <? totalElements s) && negb (startIndex s =? 0) && negb (endIndex s =? 0) then
    "Mostrando " ++ Js.String_of_Z (startIndex s) ++ "-" ++ Js.String_of_Z (endIndex s)
      ++ " de " ++ Js.String_of_Z (totalElements s) ++ " dispositivos"
  else if 0 <? totalElements s then
    "Total de dispositivos: " ++ Js.String_of_Z (totalElements s)
  else "".

(** [Math.ceil(totalElements / size) || 1] is taken for a positive total
    and a positive size. *)
Definition computedTotalPages (s : State) : Z :=
  if 0 <? totalPages s then totalPages s
  else if (0 <? totalElements s) && (0 <? size s) then
    let c := Math_ceil_div (totalElements s) (size s) in
    if c =? 0 then 1 else c
  else 1.

Definition currentPageLabel (s : State) : Z :=
  Z.min (page s + 1) (computedTotalPages s).

(** [toggleDetalle] *)
Definition toggleDetalle (dispositivo : Dispositivo) : M State unit :=
  set (fun s =>
         set_selectedDispositivo
           (match selectedDispositivo s with
            | Some prev =>
                if (d_id prev =? d_id dispositivo)%string then None else Some dispositivo
            | None => Some dispositivo
            end)
           s).

Section Eliminar.

Variable encodeURIComponent : string -> string.
Variable token : option string.

(** The dialog of [handleEliminarDispositivo]. *)
Definition confirmMessage (dispositivo : Dispositivo) : string :=
  "Â¿Deseas eliminar el dispositivo "
    ++ or_else (d_modelo dispositivo) (or_else (d_codigo dispositivo) "")
    ++ "? Esta accion no se puede deshacer.".

Definition traccar_delete_request (traccarId : string) : Request :=
  mkRequest Traccar DELETE ("/api/devices/" ++ encodeURIComponent traccarId) None.

Definition backend_delete_request (dispositivo : Dispositivo) : Request :=
  mkRequest Backend DELETE
    ("/api/v1/dispositivosGps/delete/" ++ encodeURIComponent (d_id dispositivo)) None.

(** [backendJson?.message], a property declared [string]. *)
Definition message_of (backendJson : Json) : option string :=
  as_string (field "message" backendJson).

(** [handleEliminarDispositivo]; in a browser [window] is defined and the
    dialog is shown. *)
Definition handleEliminarDispositivo (dispositivo : Dispositivo) : M State unit :=
  if negb (Js.truthy_opt token) then
    set (set_deleteFeedback
           (Some (mkFeedback error_ "No se encontro un token de autenticacion.")))
  else
    let traccarId := Js.sanitize (Some (d_codigo dispositivo)) in
    if negb (Js.truthy traccarId) then
      set (set_deleteFeedback
             (Some (mkFeedback error_
                      "El dispositivo no tiene un identificador valido en Traccar.")))
    else
      confirmed <- confirm (confirmMessage dispositivo) ;;
      if negb confirmed then ret tt
      else
        set (set_deletingId (Some (d_id dispositivo))) ;;;
        set (set_deleteFeedback None) ;;;
        finally
          (try_catch
             (traccarResponse <- fetch (traccar_delete_request traccarId) ;;
              (if negb (ok traccarResponse) then
                 text <- await (Effects.text traccarResponse) ;;
                 throw (Error_ (or_else text
                                  ("No se pudo eliminar el dispositivo en Traccar ("
                                     ++ Js.String_of_Z (Effects.status traccarResponse)
                                     ++ ").")))
               else ret tt) ;;;
              backendResponse <- fetch (backend_delete_request dispositivo) ;;
              backendJson <- await_catch (Effects.json backendResponse) JNull ;;
              if negb (ok backendResponse) then
                throw (Error_ (or_else (match message_of backendJson with
                                        | Some m => m
                                        | None => ""
                                        end)
                                       ("No se pudo eliminar el dispositivo ("
                                          ++ Js.String_of_Z (Effects.status backendResponse)
                                          ++ ").")))
              else if code_rejected backendJson then
                throw (Error_ (or_else (match message_of backendJson with
                                        | Some m => m
                                        | None => ""
                                        end)
                                       "No se pudo eliminar el dispositivo."))
              else
                set (set_deleteFeedback
                       (Some (mkFeedback success
                                (match message_of backendJson with
                                 | Some m => m
                                 | None => "Dispositivo GPS eliminado correctamente."
                                 end)))) ;;;
                set (fun s => set_reloadKey (reloadKey s + 1) s) ;;;
                set (fun s =>
                       set_selectedDispositivo
                         (match selectedDispositivo s with
                          | Some prev =>
                              if (d_id prev =? d_id dispositivo)%string
                              then None else Some prev
                          | None => None
                          end)
                         s))
             (fun error =>
                set (set_deleteFeedback
                       (Some (mkFeedback error_
                                (or_else (err_message error)
                                   "Hubo un problema al eliminar el dispositivo. Intenta nuevamente."))))))
          (set (set_deletingId None)).

End Eliminar.

End DispositivosTabla.

(* ===================================================================== *)
(** * views/programar-salida/ProgramarSalida.tsx: the vehicles and drivers
      on offer, and the footer of the table *)
(* ===================================================================== *)

Module ProgramarSalidaDisponibles.
Import Effects.
Import ProgramarSalida.
Import Valores.
Local Open Scope string_scope.
Local Open Scope Z_scope.
Local Open Scope handler_scope.

Definition set_fechaEntrega (v : string) (s : State) : State :=
  mkState v (vehiculoId s) (conductorId s) (vehiculos s) (conductores s) (pedidos s)
    (pedidosPage s) (pedidosSize s) (pedidosTotalPages s) (pedidosTotalElements s)
    (isLoadingPedidos s) (pedidosError s) (esUltimaPaginaPedidos s) (isSubmitting s)
    (submitError s) (submitSuccess s).

Definition set_vehiculoId (v : string) (s : State) : State :=
  mkState (fechaEntrega s) v (conductorId s) (vehiculos s) (conductores s) (pedidos s)
    (pedidosPage s) (pedidosSize s) (pedidosTotalPages s) (pedidosTotalElements s)
    (isLoadingPedidos s) (pedidosError s) (esUltimaPaginaPedidos s) (isSubmitting s)
    (submitError s) (submitSuccess s).

Definition set_conductorId (v : string) (s : State) : State :=
  mkState (fechaEntrega s) (vehiculoId s) v (vehiculos s) (conductores s) (pedidos s)
    (pedidosPage s) (pedidosSize s) (pedidosTotalPages s) (pedidosTotalElements s)
    (isLoadingPedidos s) (pedidosError s) (esUltimaPaginaPedidos s) (isSubmitting s)
    (submitError s) (submitSuccess s).

Definition set_vehiculos (v : list VehiculoOption) (s : State) : State :=
  mkState (fechaEntrega s) (vehiculoId s) (conductorId s) v (conductores s) (pedidos s)
    (pedidosPage s) (pedidosSize s) (pedidosTotalPages s) (pedidosTotalElements s)
    (isLoadingPedidos s) (pedidosError s) (esUltimaPaginaPedidos s) (isSubmitting s)
    (submitError s) (submitSuccess s).

Definition set_conductores (v : list ConductorOption) (s : State) : State :=
  mkState (fechaEntrega s) (vehiculoId s) (conductorId s) (vehiculos s) v (pedidos s)
    (pedidosPage s) (pedidosSize s) (pedidosTotalPages s) (pedidosTotalElements s)
    (isLoadingPedidos s) (pedidosError s) (esUltimaPaginaPedidos s) (isSubmitting s)
    (submitError s) (submitSuccess s).

(** The callback of [vehiculosJson.data.map]. *)
Definition vehiculo_option (vehiculo : Json) : JsError + VehiculoOption :=
  match vehiculo with
  | JNull => inl TypeError
  | _ =>
      match sanitize_value (field "marca" vehiculo),
            sanitize_value (field "modelo" vehiculo),
            sanitize_value (field "placa" vehiculo) with
      | inr marca, inr modelo, inr placa =>
          inr (mkVehiculoOption
                 (String_json (field "idVehiculo" vehiculo))
                 (or_else (join_truthy [marca; modelo; placa])
                          ("Vehiculo " ++ String_json (field "idVehiculo" vehiculo))))
      | inl e, _, _ => inl e
      | _, inl e, _ => inl e
      | _, _, inl e => inl e
      end
  end.

(** The callback of [conductoresJson.data.map]. *)
Definition conductor_option (conductor : Json) : JsError + ConductorOption :=
  match conductor with
  | JNull => inl TypeError
  | _ =>
      match sanitize_value (field "nombreCompleto" conductor) with
      | inr nombre =>
          inr (mkConductorOption (String_json (field "idUsuario" conductor))
                                 (or_else nombre "Sin nombre"))
      | inl e => inl e
      end
  end.

(** [Array.isArray(json.data) ? json.data.map(f) : []]; reading [data] of
    [null] throws. *)
Definition options_of {A : Type} (f : Json -> JsError + A) (json : Json) : JsError + list A :=
  match json with
  | JNull => inl TypeError
  | _ =>
      match field "data" json with
      | Some (JArr data) => map_throwing f data
      | _ => inr []
      end
  end.

(** [fetch(...)] without [await]: the request is issued and its promise is
    kept. *)
Definition fetch_promise (r : Request) : M State (JsError + Response) :=
  fun w s tr => (inr (fetch_answer w tr r), s, (tr ++ [EvRequest r])%list).

(** [await Promise.all([p, q])]; the [catch] block of the page does not
    look at the error, so which of two rejections is thrown is left to the
    order of the array. *)
Definition await_all {A B : Type} (p : JsError + A) (q : JsError + B) : M State (A * B) :=
  match p, q with
  | inr a, inr b => ret (a, b)
  | inl e, _ => throw e
  | _, inl e => throw e
  end.

Section Efectos.

Variable token : option string.
Variable today : string.

(** [fechaEntrega && fechaEntrega >= today ? fechaEntrega : today] *)
Definition fechaConsulta (s0 : State) : string :=
  if Js.truthy (fechaEntrega s0) && Js.str_ge (fechaEntrega s0) today
  then fechaEntrega s0 else today.

Definition vehiculos_request (s0 : State) : Request :=
  mkRequest Backend GET ("/api/v1/vehiculos/disponibles/" ++ fechaConsulta s0) None.

Definition conductores_request (s0 : State) : Request :=
  mkRequest Backend GET
    ("/api/v1/usuarios/conductores/disponibles/" ++ fechaConsulta s0) None.

(** [obtenerDisponibles], for the render with state [s0]; the component
    stays mounted. *)
Definition obtenerDisponibles (s0 : State) : M State unit :=
  try_catch
    (vehiculosPromise <- fetch_promise (vehiculos_request s0) ;;
     conductoresPromise <- fetch_promise (conductores_request s0) ;;
     responses <- await_all vehiculosPromise conductoresPromise ;;
     let '(vehiculosResp, conductoresResp) := responses in
     if negb (ok vehiculosResp) then
       throw (Error_ ("Error al obtener vehiculos ("
                        ++ Js.String_of_Z (Effects.status vehiculosResp) ++ ")"))
     else if negb (ok conductoresResp) then
       throw (Error_ ("Error al obtener conductores ("
                        ++ Js.String_of_Z (Effects.status conductoresResp) ++ ")"))
     else
       jsons <- await_all (Effects.json vehiculosResp) (Effects.json conductoresResp) ;;
       let '(vehiculosJson, conductoresJson) := jsons in
       vehiculosOptions <- await (options_of vehiculo_option vehiculosJson) ;;
       conductoresOptions <- await (options_of conductor_option conductoresJson) ;;
       set (set_vehiculos vehiculosOptions) ;;;
       set (set_conductores conductoresOptions) ;;;
       set (fun s =>
              set_vehiculoId
                (if existsb (fun v => (v_id v =? vehiculoId s)%string) vehiculosOptions
                 then vehiculoId s else "")
                s) ;;;
       set (fun s =>
              set_conductorId
                (if existsb (fun c => (c_id c =? conductorId s)%string) conductoresOptions
                 then conductorId s else "")
                s))
    (fun _ =>
       set (set_vehiculos []) ;;;
       set (set_conductores []) ;;;
       set (set_vehiculoId "") ;;;
       set (set_conductorId "")).

(** The body of the [useEffect]: without a token nothing is requested. *)
Definition efecto_disponibles (s0 : State) : M State unit :=
  if negb (Js.truthy_opt token) then ret tt
  else obtenerDisponibles s0.

(** The effect on a change of [fechaEntrega]. *)
Definition efecto_fecha : M State unit :=
  set (set_vehiculoId "") ;;;
  set (set_conductorId "").

End Efectos.

(** The footer of the table, for the render with state [s]. *)
Definition registrosInicio (s : State) : Z :=
  if (0 <? List.length (pedidos s))%nat then pedidosPage s * pedidosSize s + 1 else 0.

Definition registrosFin (s : State) : Z :=
  if (0 <? List.length (pedidos s))%nat
  then registrosInicio s + Z.of_nat (List.length (pedidos s)) - 1
  else 0.

Definition currentPedidosPageLabel (s : State) : Z :=
  Z.min (pedidosPage s + 1) (totalPaginasVisibles s).

Definition resumenPedidos (s : State) : string :=
  if (0 <? pedidosTotalElements s) && negb (registrosInicio s =? 0)
     && negb (registrosFin s =? 0)
  then
    "Mostrando " ++ Js.String_of_Z (registrosInicio s) ++ "-"
      ++ Js.String_of_Z (registrosFin s) ++ " de "
      ++ Js.String_of_Z (pedidosTotalElements s) ++ " pedidos"
  else if 0 <? pedidosTotalElements s then
    "Total de pedidos: " ++ Js.String_of_Z (pedidosTotalElements s)
  else "".

End ProgramarSalidaDisponibles.

(* ===================================================================== *)
(** * views/monitoreo/PanelMonitoreo: the mapping of the response, the
      search and the loading *)
(* ===================================================================== *)

Module PanelMonitoreoDatos.
Import Effects.
Import PanelMonitoreo.
Import Valores.
Local Open Scope string_scope.
Local Open Scope Z_scope.
Local Open Scope handler_scope.

(** [formatDateForApi]: yyyy-MM-dd becomes dd-MM-yyyy. *)
Definition formatDateForApi (value : string) : string :=
  if negb (Js.truthy value) then ""
  else
    match split "-" value with
    | [year; month; day] =>
        if negb (Js.truthy year) || negb (Js.truthy month) || negb (Js.truthy day) then ""
        else day ++ "-" ++ month ++ "-" ++ year
    | _ => ""
    end.

(** [mapProgramacionEstado]: the label, the badge and the class. *)
Definition mapProgramacionEstado (estado : option Z) : string * string * string :=
  match estado with
  | Some 0 => ("En proceso", "lightwarning", "border-warning text-warning")
  | Some 2 => ("Entregado", "lightsuccess", "border-success text-success")
  | Some 3 => ("No entregado", "lightsecondary", "border-secondary text-secondary")
  | _ => ("Sin estado", "lightsecondary", "border-secondary text-secondary")
  end.

(** [canEdit], in the row of the table. *)
Definition canEdit (Number_ : string -> option Z) (programacion : ProgramacionItem) : bool :=
  negb (isEstadoEntregado Number_ (option_map Js.Num (estadoEntrega programacion))).

(** [normalizeIdValue] *)
Definition normalizeIdValue (value : option Json) : option string :=
  match value with
  | Some (JNum n) => Some (Js.String_of_Z n)
  | Some (JStr s) =>
      let trimmed := Js.trim s in
      if (0 <? String.length trimmed)%nat then Some trimmed else None
  | _ => None
  end.

(** [a?.name]: [undefined] when [a] is [null] or [undefined]. *)
Definition optional_field (name : string) (a : option Json) : option Json :=
  match a with
  | Some j => field name j
  | None => None
  end.

(** A value that is neither [null] nor [undefined]. *)
Definition presente (a : option Json) : option Json :=
  match a with
  | Some JNull | None => None
  | Some v => Some v
  end.

(** [a ?? b ?? null], as [None] for [null]. *)
Definition first_present (a b : option Json) : option Json :=
  match presente a with
  | Some v => Some v
  | None => presente b
  end.

(** The loop of [resolveProgramacionDispositivoId]: the first candidate
    with a normalized value that is not empty. *)
Fixpoint first_normalized (candidates : list (option Json)) : option string :=
  match candidates with
  | [] => None
  | candidate :: rest =>
      match normalizeIdValue candidate with
      | Some normalized => if Js.truthy normalized then Some normalized
                           else first_normalized rest
      | None => first_normalized rest
      end
  end.

Definition resolveProgramacionDispositivoId
    (programacion : Json) (vehiculo conductor : option Json) : option string :=
  first_normalized
    [optional_field "idDispositivoGps" conductor;
     field "idDispositivoGps" programacion;
     optional_field "idDispositivo" (presente (field "dispositivoGps" programacion));
     optional_field "idDispositivoGps" vehiculo;
     optional_field "idDispositivo" (presente (optional_field "dispositivoGps" vehiculo))].

(** [buildVehiculoDescripcion] *)
Definition buildVehiculoDescripcion (vehiculo : option Json) : JsError + string :=
  match vehiculo with
  | None => inr "Sin vehiculo asignado"
  | Some v =>
      if negb (json_truthy v) then inr "Sin vehiculo asignado"
      else
        match sanitize_value (field "placa" v),
              sanitize_value (field "marca" v),
              sanitize_value (field "modelo" v) with
        | inr placa, inr marca, inr modelo =>
            let parts := filter Js.truthy [placa; marca; modelo] in
            inr (if (0 <? List.length parts)%nat then String.concat " - " parts
                 else "Sin vehiculo asignado")
        | inl e, _, _ => inl e
        | _, inl e, _ => inl e
        | _, _, inl e => inl e
        end
  end.

Section Datos.

(** The built-in [Number] on a string ([None] is NaN); the text of
    [new Intl.DateTimeFormat('es-BO', ...).format(new Date(value))], [None]
    for an invalid date; the encoding of a value by
    [URLSearchParams.toString]; the token of [useAuthorizedApi]. *)
Variable Number_ : string -> option Z.
Variable Intl_format : string -> option string.
Variable urlencode : string -> string.
Variable token : option string.

(** [parseNumber] *)
Definition parseNumber (value : option Json) : option Z :=
  match value with
  | Some (JNum n) => Some n
  | Some (JStr s) =>
      let normalized := Js.trim s in
      if negb (Js.truthy normalized) then None else Number_ normalized
  | _ => None
  end.

(** [formatDateDisplay] *)
Definition formatDateDisplay (value : option string) : string :=
  match normalizeIsoDateString value with
  | None => "Sin fecha"
  | Some normalized =>
      if Js.is_iso_date normalized then normalized
      else match Intl_format normalized with
           | None => normalized
           | Some text => text
           end
  end.

(** [mapProgramacion]; reading a property of [null] throws. *)
Definition mapProgramacion (programacion : Json) : JsError + ProgramacionItem :=
  match programacion with
  | JNull => inl TypeError
  | _ =>
      let vehiculoRaw :=
        first_present (field "vehiculo" programacion) (field "vehiculoAsignado" programacion) in
      let conductorRaw :=
        first_present (field "conductor" programacion)
                      (field "conductorAsignado" programacion) in
      let dispositivoId :=
        resolveProgramacionDispositivoId programacion vehiculoRaw conductorRaw in
      let fechaEntregaNormalizada :=
        normalizeIsoDateString (as_string (field "fechaEntrega" programacion)) in
      match buildVehiculoDescripcion vehiculoRaw,
            sanitize_value (optional_field "nombreCompleto" conductorRaw) with
      | inr vehiculoDescripcion, inr conductorNombre =>
          inr (mkItem (String_json (field "idProgramacion" programacion))
                      fechaEntregaNormalizada
                      (parseNumber (field "estadoEntrega" programacion))
                      vehiculoDescripcion
                      conductorNombre
                      dispositivoId)
      | inl e, _ => inl e
      | _, inl e => inl e
      end
  end.

(** [query.toString()] for [{ nro, desde, hasta }]. *)
Definition query_string (s0 : State) : string :=
  "nro=" ++ urlencode (Js.trim (sp_nro (searchParams s0)))
    ++ "&desde=" ++ urlencode (formatDateForApi (sp_desde (searchParams s0)))
    ++ "&hasta=" ++ urlencode (formatDateForApi (sp_hasta (searchParams s0))).

Definition all_request (s0 : State) : Request :=
  mkRequest Backend GET ("/api/v1/programacion-distribucion/all?" ++ query_string s0) None.

(** [fetchProgramaciones], for the render with state [s0]; the component
    stays mounted and the request is not aborted. *)
Definition fetchProgramaciones (s0 : State) : M State unit :=
  set (set_loading true) ;;;
  set (set_error None) ;;;
  finally
    (try_catch
       (response <- fetch (all_request s0) ;;
        (if negb (ok response) then
           text <- await (Effects.text response) ;;
           throw (Error_ (or_else text
                            ("Error al obtener las programaciones ("
                               ++ Js.String_of_Z (Effects.status response) ++ ").")))
         else ret tt) ;;;
        json <- await (Effects.json response) ;;
        records <- await (match json with
                          | JNull => inl TypeError
                          | _ =>
                              match field "data" json with
                              | Some (JArr data) => map_throwing mapProgramacion data
                              | _ => inr []
                              end
                          end) ;;
        set (set_items records))
       (fun _ =>
          set (set_error (Some "No se pudieron cargar las programaciones. Intenta nuevamente.")) ;;;
          set (set_items [])))
    (set (set_loading false)).

(** The body of the [useEffect]: without a token nothing is requested. *)
Definition efecto_programaciones (s0 : State) : M State unit :=
  if negb (Js.truthy_opt token) then set (set_items [])
  else fetchProgramaciones s0.

Definition handleSearch (s0 : State) : M State unit :=
  set (set_searchParams (mkSearchParams (Js.trim (nro s0)) (desde s0) (hasta s0))).

Definition handleClear : M State unit :=
  set (set_nro "") ;;;
  set (set_desde "") ;;;
  set (set_hasta "") ;;;
  set (set_searchParams (mkSearchParams "" "" "")).

End Datos.

End PanelMonitoreoDatos.

(* ===================================================================== *)
(** * Theorems: Reportes *)
(* ===================================================================== *)

Module ReportesFacts.
Import Reportes.
Local Open Scope string_scope.

Lemma EstadoReporte_eqb_spec a b : reflect (a = b) (EstadoReporte_eqb a b).
Proof. destruct a, b; constructor; congruence. Qed.

Lemma filtro_cumple estado0 conductor r :
  filtro estado0 conductor r = true <-> cumple estado0 conductor r.
Proof.
  unfold filtro, cumple.
  destruct estado0 as [|e]; cbn.
  - destruct (String.eqb_spec conductor "todos") as [->|Hc]; cbn.
    + split; auto.
    + destruct (conductorId r) as [c|]; cbn.
      * destruct (String.eqb_spec c conductor) as [->|Hne]; cbn.
        -- split; auto.
        -- split; [discriminate|]. intros [_ [?|?]]; congruence.
      * split; [discriminate|]. intros [_ [?|?]]; congruence.
  - destruct (EstadoReporte_eqb_spec (estado r) e) as [->|He]; cbn.
    + destruct (String.eqb_spec conductor "todos") as [->|Hc]; cbn.
      * split; auto.
      * destruct (conductorId r) as [c|]; cbn.
        -- destruct (String.eqb_spec c conductor) as [->|Hne]; cbn.
           ++ split; auto.
           ++ split; [discriminate|]. intros [_ [?|?]]; congruence.
        -- split; [discriminate|]. intros [_ [?|?]]; congruence.
    + split; [discriminate|]. intros [[?|?] _]; congruence.
Qed.

Definition cumple_dec estado0 conductor r :
  {cumple estado0 conductor r} + {~ cumple estado0 conductor r}.
Proof.
  destruct (filtro estado0 conductor r) eqn:E.
  - left. now apply filtro_cumple.
  - right. intros H. apply filtro_cumple in H. congruence.
Defined.

(** Sublist in the original order: [sub] is obtained from [l] by
    deleting elements. *)
Inductive subsecuencia {A : Type} : list A -> list A -> Prop :=
| sub_nil : subsecuencia [] []
| sub_keep x s l : subsecuencia s l -> subsecuencia (x :: s) (x :: l)
| sub_drop x s l : subsecuencia s l -> subsecuencia s (x :: l).

Lemma filter_subsecuencia {A} (f : A -> bool) l : subsecuencia (filter f l) l.
Proof.
  induction l as [|x l IH]; cbn; [constructor|].
  destruct (f x); now constructor.
Qed.

(** C5. For every list of programaciones and every pair of filter values,
    [filteredProgramaciones] keeps exactly the records that satisfy
    (estado filter is 'todos' or the record's estado equals it) and
    (conductor filter is 'todos' or the record's conductorId equals it):
    it is the list of those records with their multiplicity and in their
    original order; in particular it is a subsequence of the input and a
    record belongs to it exactly when it belongs to the input and
    satisfies the condition. *)
Theorem filteredProgramaciones_exact
    (programaciones : list Programacion) (estado0 : Estado) (conductor : string) :
  filteredProgramaciones programaciones estado0 conductor
    = filter (fun r => if cumple_dec estado0 conductor r then true else false)
             programaciones
  /\ subsecuencia (filteredProgramaciones programaciones estado0 conductor) programaciones
  /\ (forall r, In r (filteredProgramaciones programaciones estado0 conductor)
                <-> In r programaciones /\ cumple estado0 conductor r).
Proof.
  unfold filteredProgramaciones. split; [|split].
  - apply filter_ext. intros r.
    destruct (cumple_dec estado0 conductor r) as [H|H].
    + now apply filtro_cumple.
    + destruct (filtro estado0 conductor r) eqn:E; [|reflexivity].
      exfalso. apply H. now apply filtro_cumple.
  - apply filter_subsecuencia.
  - intros r. rewrite filter_In, filtro_cumple. reflexivity.
Qed.

End ReportesFacts.

(* ===================================================================== *)
(** * Theorems: the role guard and the route table *)
(* ===================================================================== *)

Module RoleProtectedRouteFacts.
Import RoleProtectedRoute.
Local Open Scope string_scope.

Lemma includes_permitido allowedRoles r :
  includes allowedRoles r = true <-> rol_permitido allowedRoles (Some r).
Proof.
  unfold includes, rol_permitido. rewrite existsb_exists. split.
  - intros (a & Hin & Heq). apply String.eqb_eq in Heq. exists a. now subst.
  - intros (a & Hin & Heq). exists a. split; [assumption|].
    injection Heq as ->. apply String.eqb_refl.
Qed.

Lemma AllowedRole_name_truthy a : Js.truthy (AllowedRole_name a) = true.
Proof. now destruct a. Qed.

Lemma role_rejected_spec allowedRoles role :
  role_rejected allowedRoles role = true
  <-> rol_ausente role \/ ~ rol_permitido allowedRoles role.
Proof.
  unfold role_rejected, rol_ausente. destruct role as [r|].
  - rewrite orb_true_iff, !negb_true_iff. split.
    + intros [Hf | Hn].
      * left. right. unfold Js.truthy in Hf. apply negb_false_iff in Hf.
        apply String.eqb_eq in Hf. now subst.
      * right. intros Hp. apply includes_permitido in Hp. congruence.
    + intros [[Hnone | Hempty] | Hnot].
      * discriminate.
      * injection Hempty as ->. now left.
      * right. destruct (includes allowedRoles r) eqn:Hi; [|reflexivity].
        exfalso. apply Hnot. now apply includes_permitido.
  - split; [intros _|reflexivity]. now left; left.
Qed.

(** The role is the name of a member of [Object.prototype]. *)
Definition rol_heredado (role : option string) : Prop :=
  exists r, role = Some r /\ inherited r = true.

Lemma fallback_ruta_por_defecto role :
  ~ rol_heredado role -> fallback role = ToPath (ruta_por_defecto role).
Proof.
  intros Hh. unfold fallback, ruta_por_defecto, ROLE_DEFAULT_PATH_get.
  destruct role as [r|]; [|reflexivity].
  unfold Js.truthy. cbn [AllowedRole_name ROLE_DEFAULT_PATH].
  destruct (String.eqb_spec r "") as [->|Hne]; [reflexivity|]. cbn [negb].
  destruct (r =? "administrador"); [reflexivity|].
  destruct (r =? "conductor"); [reflexivity|].
  destruct (inherited r) eqn:Hi; [|reflexivity].
  exfalso. apply Hh. now exists r.
Qed.

Lemma fallback_heredado r : inherited r = true -> fallback (Some r) = ToMember r.
Proof.
  intros Hi. unfold fallback, ROLE_DEFAULT_PATH_get. rewrite Hi.
  assert (Hr : Js.truthy r = true /\ (r =? "administrador") = false
               /\ (r =? "conductor") = false).
  { unfold inherited in Hi. apply existsb_exists in Hi as (n & Hin & Hn).
    apply String.eqb_eq in Hn. subst n. cbn in Hin.
    repeat (destruct Hin as [<-|Hin]; [repeat split|]). contradiction. }
  destruct Hr as (-> & Ha & Hc). cbn [AllowedRole_name]. now rewrite Ha, Hc.
Qed.

(** [RoleProtectedRoute] is a total case split over the authentication
    state: not authenticated renders the session-closed message (never the
    child); authenticated with a non-empty [allowedRoles] and a role that is
    absent or not among them redirects (with [replace]): for a role that is
    not the name of a member of [Object.prototype], to the default path of
    the role ('/menu/reportes' for administrador, '/menu/entregas' for
    conductor, '/inicio' otherwise), and for a role that is such a name, to
    that member, which is not a path; every other state renders the child. *)
Lemma RoleProtectedRoute_cases
    (E : Type) (auth : AuthState) (allowedRoles : list AllowedRole) (children : E) :
  (isAuthenticated auth = false ->
     RoleProtectedRoute auth allowedRoles children = SessionClosedMessage
     /\ RoleProtectedRoute auth allowedRoles children <> Children children)
  /\ (isAuthenticated auth = true ->
      allowedRoles <> [] ->
      rol_ausente (roleName auth) \/ ~ rol_permitido allowedRoles (roleName auth) ->
      (~ rol_heredado (roleName auth) ->
       RoleProtectedRoute auth allowedRoles children
       = Navigate (ruta_por_defecto (roleName auth)) true)
      /\ (forall r, roleName auth = Some r -> inherited r = true ->
          RoleProtectedRoute auth allowedRoles children = NavigateMember r true))
  /\ (isAuthenticated auth = true ->
      ~ (allowedRoles <> []
         /\ (rol_ausente (roleName auth) \/ ~ rol_permitido allowedRoles (roleName auth))) ->
      RoleProtectedRoute auth allowedRoles children = Children children).
Proof.
  unfold RoleProtectedRoute. split; [|split].
  - intros ->. cbn. split; [reflexivity|discriminate].
  - intros -> Hne Hrej. cbn [negb].
    apply role_rejected_spec in Hrej. rewrite Hrej.
    destruct allowedRoles as [|a l]; [congruence|]. cbn. split.
    + intros Hh. now rewrite fallback_ruta_por_defecto.
    + intros r -> Hi. now rewrite fallback_heredado.
  - intros -> Hnot. cbn [negb].
    destruct allowedRoles as [|a l]; [reflexivity|].
    destruct (role_rejected (a :: l) (roleName auth)) eqn:Hr.
    + exfalso. apply Hnot. split; [discriminate|]. now apply role_rejected_spec.
    + now rewrite andb_false_r.
Qed.

(** A session whose role is a name every object inherits. *)
Definition sesion_toString : AuthState := mkAuth true (Some "toString") None.

(** C2.  For the signed-in role 'toString', which is neither administrador
    nor conductor, a page of the administrator does not redirect to
    '/inicio', the default path of an unknown role: the target of the
    redirect is [Object.prototype.toString], found by
    [ROLE_DEFAULT_PATH[role]] before [?? '/inicio'] is reached. *)
Theorem RoleProtectedRoute_inherited_role_target :
  RoleProtectedRoute sesion_toString [administrador] tt = NavigateMember "toString" true
  /\ RoleProtectedRoute sesion_toString [administrador] tt
     <> Navigate (ruta_por_defecto (roleName sesion_toString)) true
  /\ ruta_por_defecto (roleName sesion_toString) = "/inicio"
  /\ ~ rol_permitido [administrador] (roleName sesion_toString).
Proof.
  split; [reflexivity|]. split; [discriminate|]. split; [reflexivity|].
  intros (a & Hin & Heq). destruct a; discriminate.
Qed.

End RoleProtectedRouteFacts.

Module RouterFacts.
Import RoleProtectedRoute Router.
Local Open Scope string_scope.

(** The statement of the specification fails: the route '/inicio' renders [Home], which is
    imported eagerly and is not wrapped in the guard. *)
Lemma Router_not_every_route_guarded :
  ~ (forall r, In r (all_routes Router) -> lazy_behind_guard (element r)).
Proof.
  intros H.
  destruct (H (leaf "/inicio" (Some true) (El Home))) as (roles & p & Heq & _).
  - cbn. do 7 right. left. reflexivity.
  - discriminate Heq.
Qed.

Ltac route_case :=
  cbn; split; [|split];
  [ first [ discriminate
          | intros _; eexists; eexists; split; [reflexivity|discriminate] ]
  | split; [ first [discriminate | intros _; split; [reflexivity|discriminate]]
           | first [ reflexivity
                   | intros [Hm Hp]; first [discriminate Hm | exfalso; now apply Hp] ] ]
  | first [ discriminate | intros _; auto ] ].

(** C1, as amended.  Every route whose element is produced by
    [withRoleGuard] wraps a lazily-loaded page component,
    [Loadable(lazy(...))], with a non-empty role list; the guarded routes
    are exactly those whose path is under '/menu/' other than
    '/menu/perfil'; every route that is not guarded is still lazily loaded,
    except '/inicio' ([Home], imported eagerly) and '*' (a redirect). *)
Theorem Router_guarded_routes (r : RouteObject) :
  In r (all_routes Router) ->
  (is_guarded (element r) = true -> lazy_behind_guard (element r))
  /\ (is_guarded (element r) = true
      <-> under_menu (path r) = true /\ path r <> "/menu/perfil")
  /\ (is_guarded (element r) = false ->
      is_lazy (element r) = true \/ path r = "/inicio" \/ path r = "*").
Proof.
  intros Hin. cbn in Hin.
  repeat (destruct Hin as [<- | Hin]; [route_case|]).
  contradiction.
Qed.

Lemma Router_guarded_routes_witness :
  In (leaf "/menu/reportes" (Some true) (withRoleGuard (El Reportes) [administrador]))
     (all_routes Router)
  /\ lazy_behind_guard (withRoleGuard (El Reportes) [administrador]).
Proof.
  assert (Hin : In (leaf "/menu/reportes" (Some true)
                      (withRoleGuard (El Reportes) [administrador]))
                   (all_routes Router)).
  { cbn. do 28 right. left. reflexivity. }
  split; [exact Hin|].
  apply (Router_guarded_routes _ Hin). reflexivity.
Defined.

End RouterFacts.

(* ===================================================================== *)
(** * Theorems: the order of strings and the stable sort *)
(* ===================================================================== *)

Module StringOrder.

Lemma ascii_compare_refl a : Ascii.compare a a = Eq.
Proof. unfold Ascii.compare. apply N.compare_refl. Qed.

Lemma ascii_compare_eq a b : Ascii.compare a b = Eq <-> a = b.
Proof.
  split; [apply Ascii.compare_eq_iff|]. intros ->. apply ascii_compare_refl.
Qed.

Lemma ascii_compare_lt_trans a b c :
  Ascii.compare a b = Lt -> Ascii.compare b c = Lt -> Ascii.compare a c = Lt.
Proof.
  unfold Ascii.compare. rewrite !N.compare_lt_iff. apply N.lt_trans.
Qed.

Lemma compare_refl s : String.compare s s = Eq.
Proof.
  induction s as [|x s IH]; cbn; [reflexivity|].
  now rewrite ascii_compare_refl.
Qed.

Lemma compare_lt_trans a : forall b c,
  String.compare a b = Lt -> String.compare b c = Lt -> String.compare a c = Lt.
Proof.
  induction a as [|x a IH]; intros [|y b] [|z c]; cbn; try congruence.
  destruct (Ascii.compare x y) eqn:Hxy; try discriminate.
  - apply ascii_compare_eq in Hxy. subst y.
    destruct (Ascii.compare x z) eqn:Hxz; try congruence. apply IH.
  - intros _.
    destruct (Ascii.compare y z) eqn:Hyz; try discriminate.
    + apply ascii_compare_eq in Hyz. subst z. now rewrite Hxy.
    + intros _. now rewrite (ascii_compare_lt_trans _ _ _ Hxy Hyz).
Qed.

Lemma leb_refl s : String.leb s s = true.
Proof. unfold String.leb. now rewrite compare_refl. Qed.

Lemma leb_trans a b c :
  String.leb a b = true -> String.leb b c = true -> String.leb a c = true.
Proof.
  unfold String.leb.
  destruct (String.compare a b) eqn:Hab; try discriminate;
  destruct (String.compare b c) eqn:Hbc; try discriminate; intros _ _.
  - apply String.compare_eq_iff in Hab, Hbc. subst. now rewrite compare_refl.
  - apply String.compare_eq_iff in Hab. subst. now rewrite Hbc.
  - apply String.compare_eq_iff in Hbc. subst. now rewrite Hab.
  - now rewrite (compare_lt_trans _ _ _ Hab Hbc).
Qed.

Lemma ltb_leb a b : String.ltb a b = true -> String.leb a b = true.
Proof.
  unfold String.ltb, String.leb.
  destruct (String.compare a b); [reflexivity|reflexivity|discriminate].
Qed.

Lemma not_ltb_leb a b : String.ltb a b = false -> String.leb b a = true.
Proof.
  unfold String.ltb, String.leb. rewrite (String.compare_antisym b a).
  destruct (String.compare a b); cbn; [reflexivity|discriminate|reflexivity].
Qed.

End StringOrder.

(* ===================================================================== *)
(** * Lemmas: [trim] *)
(* ===================================================================== *)

Module TrimFacts.
Import Js.
Local Open Scope string_scope.

(** Induction over the three tails [trimStart] recurses on. *)
Lemma string_ind3 (P : string -> Prop) :
  (forall s,
      (forall c1 r1, s = String c1 r1 -> P r1) ->
      (forall c1 c2 r2, s = String c1 (String c2 r2) -> P r2) ->
      (forall c1 c2 c3 r3, s = String c1 (String c2 (String c3 r3)) -> P r3) ->
      P s) ->
  forall s, P s.
Proof.
  intros step.
  assert (H : forall n s, String.length s <= n -> P s).
  { induction n as [|n IH]; intros s Hs.
    - destruct s; [|cbn in Hs; lia].
      apply step; intros; discriminate.
    - apply step.
      + intros c1 r1 ->. apply IH. cbn in Hs. lia.
      + intros c1 c2 r2 ->. apply IH. cbn in Hs. lia.
      + intros c1 c2 c3 r3 ->. apply IH. cbn in Hs. lia. }
  intros s. now apply (H (String.length s)).
Qed.

(** The first byte of a white space of more than one byte. *)
Definition is_lead (c : ascii) : bool :=
  let n := nat_of_ascii c in
  ((n =? 194) || (n =? 225) || (n =? 226) || (n =? 227) || (n =? 239))%nat.

Lemma is_space2_lead c1 c2 : is_space2 c1 c2 = true -> is_lead c1 = true.
Proof.
  unfold is_space2, is_lead. cbv zeta.
  destruct (Nat.eqb_spec (nat_of_ascii c1) 194) as [->|]; [reflexivity|discriminate].
Qed.

Lemma is_space3_lead c1 c2 c3 : is_space3 c1 c2 c3 = true -> is_lead c1 = true.
Proof.
  unfold is_space3, is_lead. cbv zeta.
  destruct (Nat.eqb_spec (nat_of_ascii c1) 194); [reflexivity|].
  destruct (Nat.eqb_spec (nat_of_ascii c1) 225); [reflexivity|].
  destruct (Nat.eqb_spec (nat_of_ascii c1) 226); [reflexivity|].
  destruct (Nat.eqb_spec (nat_of_ascii c1) 227); [reflexivity|].
  destruct (Nat.eqb_spec (nat_of_ascii c1) 239); [reflexivity|]. discriminate.
Qed.

Lemma not_lead_space2 c1 c2 : is_lead c1 = false -> is_space2 c1 c2 = false.
Proof.
  intros H. destruct (is_space2 c1 c2) eqn:E; [|reflexivity].
  apply is_space2_lead in E. congruence.
Qed.

Lemma not_lead_space3 c1 c2 c3 : is_lead c1 = false -> is_space3 c1 c2 c3 = false.
Proof.
  intros H. destruct (is_space3 c1 c2 c3) eqn:E; [|reflexivity].
  apply is_space3_lead in E. congruence.
Qed.

(** A string that starts with a byte of text is not trimmed at its start. *)
Lemma trimStart_text (c : ascii) (r : string) :
  is_space c = false -> is_lead c = false -> trimStart (String c r) = String c r.
Proof.
  intros Hs Hl. cbn [trimStart]. rewrite Hs.
  destruct r as [|c2 r2]; [reflexivity|]. rewrite (not_lead_space2 c c2 Hl).
  destruct r2 as [|c3 r3]; [reflexivity|]. now rewrite (not_lead_space3 c c2 c3 Hl).
Qed.

Lemma blank_text (c : ascii) (r : string) :
  is_space c = false -> is_lead c = false -> blank (String c r) = false.
Proof. intros Hs Hl. unfold blank. now rewrite trimStart_text. Qed.

Lemma trimEnd_step (c : ascii) (r : string) :
  trimEnd (String c r) = if blank (String c r) then "" else String c (trimEnd r).
Proof. reflexivity. Qed.

Lemma trimEnd_text (c : ascii) (r : string) :
  is_space c = false -> is_lead c = false ->
  trimEnd (String c r) = String c (trimEnd r).
Proof. intros Hs Hl. now rewrite trimEnd_step, blank_text. Qed.

(** The start of a string is not white space. *)
Definition clean_start (s : string) : bool :=
  match s with
  | EmptyString => true
  | String c1 r1 =>
      negb (is_space c1)
      && match r1 with
         | EmptyString => true
         | String c2 r2 =>
             negb (is_space2 c1 c2)
             && match r2 with
                | EmptyString => true
                | String c3 _ => negb (is_space3 c1 c2 c3)
                end
         end
  end.

Lemma trimStart_fixed (s : string) : clean_start s = true -> trimStart s = s.
Proof.
  destruct s as [|c1 [|c2 [|c3 r3]]]; cbn; [reflexivity| | |].
  - now destruct (is_space c1).
  - destruct (is_space c1); [discriminate|]. now destruct (is_space2 c1 c2).
  - destruct (is_space c1); [discriminate|]. destruct (is_space2 c1 c2); [discriminate|].
    now destruct (is_space3 c1 c2 c3).
Qed.

Lemma trimStart_clean (s : string) : clean_start (trimStart s) = true.
Proof.
  induction s as [s IH1 IH2 IH3] using string_ind3.
  destruct s as [|c1 r1]; [reflexivity|]. cbn [trimStart].
  destruct (is_space c1) eqn:H1; [now apply (IH1 c1 r1)|].
  destruct r1 as [|c2 r2]; [cbn; now rewrite H1|].
  destruct (is_space2 c1 c2) eqn:H2; [now apply (IH2 c1 c2 r2)|].
  destruct r2 as [|c3 r3]; [cbn; now rewrite H1, H2|].
  destruct (is_space3 c1 c2 c3) eqn:H3; [now apply (IH3 c1 c2 c3 r3)|].
  cbn. now rewrite H1, H2, H3.
Qed.

Lemma trimStart_idempotent (s : string) : trimStart (trimStart s) = trimStart s.
Proof. apply trimStart_fixed, trimStart_clean. Qed.

(** White space at the start is skipped whatever follows it. *)
Lemma trimStart_app (a q : string) :
  blank a = true -> trimStart (a ++ q) = trimStart q.
Proof.
  unfold blank. induction a as [a IH1 IH2 IH3] using string_ind3.
  destruct a as [|c1 r1]; [reflexivity|]. cbn [trimStart append].
  destruct (is_space c1) eqn:H1; [now apply (IH1 c1 r1)|].
  destruct r1 as [|c2 r2]; [discriminate|]. cbn [append].
  destruct (is_space2 c1 c2) eqn:H2; [now apply (IH2 c1 c2 r2)|].
  destruct r2 as [|c3 r3]; [discriminate|]. cbn [append].
  destruct (is_space3 c1 c2 c3) eqn:H3; [now apply (IH3 c1 c2 c3 r3)|].
  discriminate.
Qed.

Lemma blank_app (a q : string) :
  blank a = true -> blank q = true -> blank (a ++ q) = true.
Proof. intros Ha Hq. unfold blank. now rewrite trimStart_app. Qed.

(** What [trimEnd] removes is white space. *)
Lemma trimEnd_split (s : string) : exists q, s = trimEnd s ++ q /\ blank q = true.
Proof.
  induction s as [|c r (q & Hq & Hb)]; [now exists ""|].
  rewrite trimEnd_step. destruct (blank (String c r)) eqn:E.
  - now exists (String c r).
  - exists q. split; [|exact Hb]. cbn [append]. now rewrite <- Hq.
Qed.

Lemma trimEnd_idempotent (s : string) : trimEnd (trimEnd s) = trimEnd s.
Proof.
  induction s as [|c r IH]; [reflexivity|].
  rewrite trimEnd_step. destruct (blank (String c r)) eqn:E; [reflexivity|].
  rewrite trimEnd_step, IH.
  destruct (blank (String c (trimEnd r))) eqn:E'; [|reflexivity].
  destruct (trimEnd_split r) as (q & Hq & Hb).
  assert (H : blank (String c (trimEnd r) ++ q) = true) by now apply blank_app.
  cbn [append] in H. rewrite <- Hq in H. congruence.
Qed.

Lemma clean_start_trimEnd (s : string) :
  clean_start s = true -> clean_start (trimEnd s) = true.
Proof.
  destruct s as [|c1 r1]; [reflexivity|]. intros H.
  rewrite trimEnd_step. destruct (blank (String c1 r1)); [reflexivity|].
  destruct r1 as [|c2 r2]; [exact H|].
  rewrite trimEnd_step. destruct (blank (String c2 r2)).
  { cbn in *. now destruct (is_space c1). }
  destruct r2 as [|c3 r3]; [exact H|].
  rewrite trimEnd_step. destruct (blank (String c3 r3)).
  { cbn in *. destruct (is_space c1); [discriminate|].
    now destruct (is_space2 c1 c2). }
  exact H.
Qed.

(** Trimming twice is trimming once. *)
Lemma trim_idempotent (s : string) : trim (trim s) = trim s.
Proof.
  unfold trim.
  rewrite (trimStart_fixed (trimEnd (trimStart s))).
  - apply trimEnd_idempotent.
  - apply clean_start_trimEnd, trimStart_clean.
Qed.

(** A string without white space around it is its own trim. *)
Lemma trim_fixed (s : string) :
  clean_start s = true -> trimEnd s = s -> trim s = s.
Proof. intros H1 H2. unfold trim. now rewrite trimStart_fixed. Qed.

(** The empty string apart, a trimmed string is not blank. *)
Lemma trim_empty_blank (s : string) : trim s = "" <-> blank s = true.
Proof.
  unfold trim, blank. destruct (trimStart s) as [|c r] eqn:E; [tauto|].
  split; [|discriminate]. rewrite trimEnd_step. unfold blank.
  pose proof (trimStart_idempotent s) as Hi. rewrite E in Hi. rewrite Hi. discriminate.
Qed.

(** ** [trim] and the white space of ECMAScript *)

Lemma ascii_of_byte (c : ascii) (n : nat) : nat_of_ascii c = n -> c = ascii_of_nat n.
Proof. intros <-. now rewrite ascii_nat_embedding. Qed.

Ltac in_list := repeat first [left; reflexivity | right].

Ltac one_byte :=
  match goal with
  | |- exists cp, _ /\ String (ascii_of_nat ?n) "" = _ =>
      exists (N.of_nat n); split; [in_list|reflexivity]
  end.

Ltac three_bytes :=
  match goal with
  | |- exists cp, _ /\ String (ascii_of_nat ?n1)
                          (String (ascii_of_nat ?n2) (String (ascii_of_nat ?n3) "")) = _ =>
      exists ((N.of_nat n1 - 224) * 4096 + (N.of_nat n2 - 128) * 64 + (N.of_nat n3 - 128))%N;
      split; [in_list|reflexivity]
  end.

Lemma is_space_cases (c : ascii) :
  is_space c = true -> exists cp, In cp WhiteSpace /\ String c "" = utf8 cp.
Proof.
  unfold is_space. cbv zeta. intros H.
  apply orb_true_iff in H.
  rewrite andb_true_iff, Nat.eqb_eq, !Nat.leb_le in H.
  assert (Hn : nat_of_ascii c = 9 \/ nat_of_ascii c = 10 \/ nat_of_ascii c = 11
               \/ nat_of_ascii c = 12 \/ nat_of_ascii c = 13 \/ nat_of_ascii c = 32)
    by lia.
  clear H.
  repeat (destruct Hn as [Hn|Hn]; [apply ascii_of_byte in Hn; subst c; one_byte|]).
  apply ascii_of_byte in Hn. subst c. one_byte.
Qed.

Lemma is_space2_cases (c1 c2 : ascii) :
  is_space2 c1 c2 = true ->
  exists cp, In cp WhiteSpace /\ String c1 (String c2 "") = utf8 cp.
Proof.
  unfold is_space2. intros H. apply andb_true_iff in H as [H1 H2].
  apply Nat.eqb_eq, ascii_of_byte in H1. apply Nat.eqb_eq, ascii_of_byte in H2.
  subst. exists 160%N. split; [in_list|reflexivity].
Qed.

Lemma is_space3_cases (c1 c2 c3 : ascii) :
  is_space3 c1 c2 c3 = true ->
  exists cp, In cp WhiteSpace /\ String c1 (String c2 (String c3 "")) = utf8 cp.
Proof.
  unfold is_space3. cbv zeta. intros H.
  repeat rewrite ?orb_true_iff, ?andb_true_iff, ?Nat.eqb_eq, ?Nat.leb_le in H.
  repeat match goal with
         | H : _ /\ _ |- _ => destruct H
         | H : _ \/ _ |- _ => destruct H
         end;
    repeat match goal with
           | H : nat_of_ascii ?c = _ |- _ => apply ascii_of_byte in H; subst c
           end;
    try three_bytes.
  assert (Hin : In (nat_of_ascii c3) (seq 128 11)) by (apply in_seq; lia).
  cbn in Hin.
  repeat (destruct Hin as [Hin|Hin];
          [symmetry in Hin; apply ascii_of_byte in Hin; subst c3; three_bytes|]).
  contradiction.
Qed.

Lemma trimStart_utf8 (cp : N) (r : string) :
  In cp WhiteSpace -> trimStart (utf8 cp ++ r) = trimStart r.
Proof.
  intros Hin. cbn in Hin.
  repeat (destruct Hin as [<-|Hin]; [reflexivity|]). contradiction.
Qed.

Lemma clean_start_utf8 (cp : N) (r : string) :
  In cp WhiteSpace -> clean_start (utf8 cp ++ r) = false.
Proof.
  intros Hin. cbn in Hin.
  repeat (destruct Hin as [<-|Hin]; [reflexivity|]). contradiction.
Qed.

Lemma utf8_not_empty (cp : N) : utf8 cp <> "".
Proof. unfold utf8. destruct (cp <? 128)%N; [|destruct (cp <? 2048)%N]; discriminate. Qed.

(** [blank] is white space only, by code point. *)
Lemma blank_espacios (s : string) : blank s = true <-> espacios s.
Proof.
  split.
  - induction s as [s IH1 IH2 IH3] using string_ind3.
    unfold blank. destruct s as [|c1 r1]; [constructor|]. cbn [trimStart].
    destruct (is_space c1) eqn:H1.
    { intros Hb. destruct (is_space_cases c1 H1) as (cp & Hin & Hu).
      change (String c1 r1) with (String c1 "" ++ r1). rewrite Hu.
      constructor; [exact Hin|]. now apply (IH1 c1 r1). }
    destruct r1 as [|c2 r2]; [discriminate|].
    destruct (is_space2 c1 c2) eqn:H2.
    { intros Hb. destruct (is_space2_cases c1 c2 H2) as (cp & Hin & Hu).
      change (String c1 (String c2 r2)) with (String c1 (String c2 "") ++ r2). rewrite Hu.
      constructor; [exact Hin|]. now apply (IH2 c1 c2 r2). }
    destruct r2 as [|c3 r3]; [discriminate|].
    destruct (is_space3 c1 c2 c3) eqn:H3; [|discriminate].
    intros Hb. destruct (is_space3_cases c1 c2 c3 H3) as (cp & Hin & Hu).
    change (String c1 (String c2 (String c3 r3)))
      with (String c1 (String c2 (String c3 "")) ++ r3).
    rewrite Hu. constructor; [exact Hin|]. now apply (IH3 c1 c2 c3 r3).
  - induction 1 as [|cp r Hin _ IH]; [reflexivity|].
    unfold blank in *. now rewrite trimStart_utf8.
Qed.

(** What [trimStart] removes is white space. *)
Lemma trimStart_split (s : string) : exists a, s = a ++ trimStart s /\ blank a = true.
Proof.
  induction s as [s IH1 IH2 IH3] using string_ind3.
  destruct s as [|c1 r1]; [now exists ""|]. cbn [trimStart].
  destruct (is_space c1) eqn:H1.
  { destruct (IH1 c1 r1 eq_refl) as (a & Ha & Hb). exists (String c1 a). split.
    - cbn [append]. now rewrite <- Ha.
    - unfold blank in *. cbn [trimStart]. now rewrite H1. }
  destruct r1 as [|c2 r2]; [now exists ""|].
  destruct (is_space2 c1 c2) eqn:H2.
  { destruct (IH2 c1 c2 r2 eq_refl) as (a & Ha & Hb). exists (String c1 (String c2 a)). split.
    - cbn [append]. now rewrite <- Ha.
    - unfold blank in *. cbn [trimStart]. now rewrite H1, H2. }
  destruct r2 as [|c3 r3]; [now exists ""|].
  destruct (is_space3 c1 c2 c3) eqn:H3; [|now exists ""].
  destruct (IH3 c1 c2 c3 r3 eq_refl) as (a & Ha & Hb).
  exists (String c1 (String c2 (String c3 a))). split.
  - cbn [append]. now rewrite <- Ha.
  - unfold blank in *. cbn [trimStart]. now rewrite H1, H2, H3.
Qed.

(** A string that [trimEnd] leaves alone does not end with white space. *)
Lemma trimEnd_fixed_end (r w : string) :
  blank w = true -> w <> "" -> trimEnd (r ++ w) <> r ++ w.
Proof.
  intros Hb Hw. induction r as [|c r IH].
  - cbn [append]. destruct w as [|c w]; [congruence|].
    rewrite trimEnd_step, Hb. discriminate.
  - cbn [append]. rewrite trimEnd_step.
    destruct (blank (String c (r ++ w))); [discriminate|].
    intros E. injection E as E. now apply IH.
Qed.

Lemma append_empty_r (s : string) : s ++ "" = s.
Proof. induction s as [|c s IH]; [reflexivity|]. cbn. now rewrite IH. Qed.

Lemma append_assoc (a b c : string) : (a ++ b) ++ c = a ++ (b ++ c).
Proof. induction a as [|x a IH]; [reflexivity|]. cbn. now rewrite IH. Qed.

Lemma espacios_utf8 (cp : N) : In cp WhiteSpace -> espacios (utf8 cp).
Proof.
  intros Hin. rewrite <- (append_empty_r (utf8 cp)). constructor; [exact Hin|constructor].
Qed.

(** White space that is not empty ends with a white space character. *)
Lemma espacios_last (b : string) :
  espacios b -> b <> "" -> exists r cp, In cp WhiteSpace /\ b = r ++ utf8 cp.
Proof.
  induction 1 as [|cp r Hin Hr IH]; [congruence|]. intros _.
  destruct r as [|c r'].
  - exists "", cp. split; [exact Hin|]. now rewrite append_empty_r.
  - destruct IH as (r0 & cp0 & Hin0 & E); [discriminate|].
    exists (utf8 cp ++ r0), cp0. split; [exact Hin0|]. now rewrite E, append_assoc.
Qed.

(** [trim] takes white space off both ends, and all of it. *)
Lemma trim_spec (s : string) :
  exists a b, s = a ++ trim s ++ b /\ espacios a /\ espacios b /\ recortado (trim s).
Proof.
  destruct (trimStart_split s) as (a & Ha & Hba).
  destruct (trimEnd_split (trimStart s)) as (b & Hb & Hbb).
  exists a, b. split; [|split; [|split]].
  - unfold trim. now rewrite <- Hb.
  - now apply blank_espacios.
  - now apply blank_espacios.
  - intros cp r Hin. split.
    + intros E. pose proof (clean_start_trimEnd _ (trimStart_clean s)) as Hc.
      fold (trim s) in Hc. rewrite E in Hc. now rewrite clean_start_utf8 in Hc.
    + intros E. apply (trimEnd_fixed_end r (utf8 cp)).
      * now apply blank_espacios, espacios_utf8.
      * apply utf8_not_empty.
      * rewrite <- E. unfold trim. apply trimEnd_idempotent.
Qed.

Lemma trim_recortado (t : string) : trim t = t <-> recortado t.
Proof.
  split.
  - intros E. destruct (trim_spec t) as (_ & _ & _ & _ & _ & H). now rewrite E in H.
  - intros H. destruct (trim_spec t) as (a & b & E & Ha & Hb & _).
    destruct Ha as [|cp r Hin Hr].
    2:{ exfalso. rewrite append_assoc in E. exact (proj1 (H cp _ Hin) E). }
    cbn [append] in E.
    destruct b as [|c b']; [now rewrite append_empty_r in E|].
    exfalso. destruct (espacios_last _ Hb) as (r0 & cp0 & Hin0 & E0); [discriminate|].
    rewrite E0, <- append_assoc in E. exact (proj2 (H cp0 _ Hin0) E).
Qed.

Lemma trim_empty_espacios (s : string) : trim s = "" <-> espacios s.
Proof. rewrite trim_empty_blank. apply blank_espacios. Qed.

End TrimFacts.

(* ===================================================================== *)
(** * Lemmas: [String] of a number *)
(* ===================================================================== *)

Module DecimalFacts.
Import Js.
Local Open Scope string_scope.
Local Open Scope Z_scope.

(** The number a sequence of decimal digits writes, after the digits of
    [acc]. *)
Fixpoint uint_value (d : Decimal.uint) (acc : Z) : Z :=
  match d with
  | Decimal.Nil => acc
  | Decimal.D0 l => uint_value l (10 * acc)
  | Decimal.D1 l => uint_value l (10 * acc + 1)
  | Decimal.D2 l => uint_value l (10 * acc + 2)
  | Decimal.D3 l => uint_value l (10 * acc + 3)
  | Decimal.D4 l => uint_value l (10 * acc + 4)
  | Decimal.D5 l => uint_value l (10 * acc + 5)
  | Decimal.D6 l => uint_value l (10 * acc + 6)
  | Decimal.D7 l => uint_value l (10 * acc + 7)
  | Decimal.D8 l => uint_value l (10 * acc + 8)
  | Decimal.D9 l => uint_value l (10 * acc + 9)
  end.

Lemma digits_value_string_of_uint (d : Decimal.uint) (acc : Z) :
  digits_value acc (DecimalString.NilEmpty.string_of_uint d) = Some (uint_value d acc).
Proof.
  revert acc. induction d; intros acc; cbn [DecimalString.NilEmpty.string_of_uint];
    [reflexivity|..];
    (cbn [digits_value uint_value]; change (is_digit _) with true; cbv iota;
     rewrite <- IHd; f_equal; cbn; lia).
Qed.

Lemma uint_value_pos (d : Decimal.uint) (acc : positive) :
  uint_value d (Z.pos acc) = Z.pos (Pos.of_uint_acc d acc).
Proof.
  revert acc. induction d; intros acc; cbn [uint_value Pos.of_uint_acc];
    [reflexivity|..];
    (rewrite <- IHd; f_equal; lia).
Qed.

Lemma uint_value_of_uint (d : Decimal.uint) : uint_value d 0 = Z.of_N (Pos.of_uint d).
Proof.
  induction d; cbn [uint_value Pos.of_uint];
    [reflexivity|exact IHd|..];
    (cbn [Z.mul Z.add Z.of_N]; apply uint_value_pos).
Qed.

(** [String(n)] for a number that is not negative is its decimal digits:
    read back, they give the number. *)
Lemma Number_decimal_String_of_Z (n : Z) :
  0 <= n -> Number_decimal (String_of_Z n) = Some n.
Proof.
  intros Hn. unfold Number_decimal, String_of_Z.
  destruct n as [|p|p]; [reflexivity| |lia].
  cbn [Z.to_int DecimalString.NilZero.string_of_int].
  unfold DecimalString.NilZero.string_of_uint.
  pose proof (DecimalPos.Unsigned.to_uint_nonnil p) as Hnil.
  assert (H : digits_value 0 (DecimalString.NilEmpty.string_of_uint (Pos.to_uint p))
              = Some (Z.pos p)).
  { rewrite digits_value_string_of_uint, uint_value_of_uint.
    now rewrite DecimalPos.Unsigned.of_to. }
  destruct (Pos.to_uint p); [contradiction|exact H..].
Qed.

End DecimalFacts.

(** On dates written yyyy-MM-dd the order of the strings is the order of
    the calendar. *)
Module IsoDateFacts.
Import Js.
Local Open Scope string_scope.

Lemma is_digit_bounds c :
  is_digit c = true -> (48 <= nat_of_ascii c <= 57)%nat.
Proof.
  unfold is_digit. cbv zeta. rewrite andb_true_iff, !Nat.leb_le. tauto.
Qed.

Lemma is_digit_not_space c : is_digit c = true -> is_space c = false.
Proof.
  intros H. apply is_digit_bounds in H. unfold is_space. cbv zeta.
  destruct (Nat.eqb_spec (nat_of_ascii c) 32); [lia|].
  destruct (Nat.leb_spec (nat_of_ascii c) 13); [lia|].
  now rewrite andb_false_r.
Qed.

Lemma is_digit_not_lead c : is_digit c = true -> TrimFacts.is_lead c = false.
Proof.
  intros H. apply is_digit_bounds in H. unfold TrimFacts.is_lead. cbv zeta.
  repeat match goal with
         | |- context [(?n =? ?k)%nat] => destruct (Nat.eqb_spec n k); [lia|]
         end.
  reflexivity.
Qed.

Lemma ascii_compare_nat a b :
  Ascii.compare a b = Nat.compare (nat_of_ascii a) (nat_of_ascii b).
Proof. unfold Ascii.compare, nat_of_ascii. now rewrite N2Nat.inj_compare. Qed.

(** The ten characters of a string that passes the test. *)
Lemma is_iso_date_inv s :
  is_iso_date s = true ->
  exists y1 y2 y3 y4 m1 m2 d1 d2,
    s = String y1 (String y2 (String y3 (String y4 (String "-"
          (String m1 (String m2 (String "-" (String d1 (String d2 "")))))))))
    /\ is_digit y1 = true /\ is_digit y2 = true /\ is_digit y3 = true
    /\ is_digit y4 = true /\ is_digit m1 = true /\ is_digit m2 = true
    /\ is_digit d1 = true /\ is_digit d2 = true.
Proof.
  unfold is_iso_date, iso_prefix.
  destruct s as [|y1 [|y2 [|y3 [|y4 [|h1 [|m1 [|m2 [|h2 [|d1 [|d2 r]]]]]]]]]];
    try discriminate.
  destruct (is_digit y1 && is_digit y2 && is_digit y3 && is_digit y4
            && Ascii.eqb h1 "-" && is_digit m1 && is_digit m2
            && Ascii.eqb h2 "-" && is_digit d1 && is_digit d2) eqn:H;
    [|discriminate].
  destruct r; [|discriminate]. intros _.
  do 9 (apply andb_true_iff in H as [H ?]).
  repeat match goal with
  | E : Ascii.eqb _ _ = true |- _ => apply Ascii.eqb_eq in E; subst
  end.
  exists y1, y2, y3, y4, m1, m2, d1, d2. repeat split; assumption.
Qed.

Lemma date_ltb_true y m d y' m' d' :
  date_ltb (y, m, d) (y', m', d') = true
  <-> (y < y' \/ (y = y' /\ (m < m' \/ (m = m' /\ d < d'))))%nat.
Proof.
  unfold date_ltb.
  rewrite orb_true_iff, andb_true_iff, orb_true_iff, andb_true_iff,
    !Nat.ltb_lt, !Nat.eqb_eq. reflexivity.
Qed.

Lemma date_ltb_false y m d y' m' d' :
  date_ltb (y, m, d) (y', m', d') = false
  <-> ~ (y < y' \/ (y = y' /\ (m < m' \/ (m = m' /\ d < d'))))%nat.
Proof.
  rewrite <- date_ltb_true. destruct (date_ltb (y, m, d) (y', m', d')); split;
    congruence.
Qed.

(** The code of a digit is 48 plus its value. *)
Lemma digit_code c :
  is_digit c = true ->
  exists v, nat_of_ascii c = (v + 48)%nat /\ digit_value c = v /\ (v <= 9)%nat.
Proof.
  intros H. apply is_digit_bounds in H. exists (nat_of_ascii c - 48)%nat.
  unfold digit_value. lia.
Qed.

(** One character of the comparison: a smaller or a larger digit decides,
    an equal one passes to the next character. *)
Local Ltac compare_digit v w :=
  destruct (Nat.compare_spec (v + 48) (w + 48)); cbv iota;
  [ | symmetry; apply date_ltb_true; lia
    | symmetry; apply date_ltb_false; lia ].

Lemma str_lt_chronological a b :
  is_iso_date a = true -> is_iso_date b = true ->
  (str_lt a b = true <-> fecha_anterior_a a b).
Proof.
  intros Ha Hb. unfold fecha_anterior_a, date_of_iso. rewrite Ha, Hb.
  destruct (is_iso_date_inv a Ha)
    as (y1 & y2 & y3 & y4 & m1 & m2 & d1 & d2 & -> & A1 & A2 & A3 & A4 & A5 & A6 & A7 & A8).
  destruct (is_iso_date_inv b Hb)
    as (z1 & z2 & z3 & z4 & n1 & n2 & e1 & e2 & -> & B1 & B2 & B3 & B4 & B5 & B6 & B7 & B8).
  assert (Hlt : str_lt
      (String y1 (String y2 (String y3 (String y4 (String "-"
         (String m1 (String m2 (String "-" (String d1 (String d2 ""))))))))))
      (String z1 (String z2 (String z3 (String z4 (String "-"
         (String n1 (String n2 (String "-" (String e1 (String e2 ""))))))))))
    = date_ltb
        (1000 * digit_value y1 + 100 * digit_value y2 + 10 * digit_value y3 + digit_value y4,
         10 * digit_value m1 + digit_value m2, 10 * digit_value d1 + digit_value d2)%nat
        (1000 * digit_value z1 + 100 * digit_value z2 + 10 * digit_value z3 + digit_value z4,
         10 * digit_value n1 + digit_value n2, 10 * digit_value e1 + digit_value e2)%nat).
  { unfold str_lt, String.ltb. cbn [String.compare].
    rewrite !ascii_compare_nat. rewrite Nat.compare_refl.
    destruct (digit_code y1 A1) as (a1 & -> & -> & ?).
    destruct (digit_code y2 A2) as (a2 & -> & -> & ?).
    destruct (digit_code y3 A3) as (a3 & -> & -> & ?).
    destruct (digit_code y4 A4) as (a4 & -> & -> & ?).
    destruct (digit_code m1 A5) as (a5 & -> & -> & ?).
    destruct (digit_code m2 A6) as (a6 & -> & -> & ?).
    destruct (digit_code d1 A7) as (a7 & -> & -> & ?).
    destruct (digit_code d2 A8) as (a8 & -> & -> & ?).
    destruct (digit_code z1 B1) as (b1 & -> & -> & ?).
    destruct (digit_code z2 B2) as (b2 & -> & -> & ?).
    destruct (digit_code z3 B3) as (b3 & -> & -> & ?).
    destruct (digit_code z4 B4) as (b4 & -> & -> & ?).
    destruct (digit_code n1 B5) as (b5 & -> & -> & ?).
    destruct (digit_code n2 B6) as (b6 & -> & -> & ?).
    destruct (digit_code e1 B7) as (b7 & -> & -> & ?).
    destruct (digit_code e2 B8) as (b8 & -> & -> & ?).
    compare_digit a1 b1. compare_digit a2 b2. compare_digit a3 b3. compare_digit a4 b4.
    compare_digit a5 b5. compare_digit a6 b6. compare_digit a7 b7. compare_digit a8 b8.
    symmetry. apply date_ltb_false. lia. }
  rewrite Hlt. split.
  - intros H. eexists _, _. split; [reflexivity|]. split; [reflexivity|exact H].
  - intros (da & db & [= <-] & [= <-] & H). exact H.
Qed.

(** A date written yyyy-MM-dd has nothing to trim and is its own prefix. *)
Lemma iso_date_trim_prefix s :
  is_iso_date s = true -> trim s = s /\ iso_prefix s = Some s.
Proof.
  intros Hs.
  destruct (is_iso_date_inv s Hs)
    as (y1 & y2 & y3 & y4 & m1 & m2 & d1 & d2 & -> & A1 & A2 & A3 & A4 & A5 & A6 & A7 & A8).
  split.
  - assert (Hh : is_space "-" = false /\ TrimFacts.is_lead "-" = false) by now split.
    destruct Hh as [Hsp Hld].
    pose proof (is_digit_not_space _ A1). pose proof (is_digit_not_lead _ A1).
    pose proof (is_digit_not_space _ A2). pose proof (is_digit_not_lead _ A2).
    pose proof (is_digit_not_space _ A3). pose proof (is_digit_not_lead _ A3).
    pose proof (is_digit_not_space _ A4). pose proof (is_digit_not_lead _ A4).
    pose proof (is_digit_not_space _ A5). pose proof (is_digit_not_lead _ A5).
    pose proof (is_digit_not_space _ A6). pose proof (is_digit_not_lead _ A6).
    pose proof (is_digit_not_space _ A7). pose proof (is_digit_not_lead _ A7).
    pose proof (is_digit_not_space _ A8). pose proof (is_digit_not_lead _ A8).
    unfold trim. rewrite TrimFacts.trimStart_text by assumption.
    now rewrite !TrimFacts.trimEnd_text by assumption.
  - unfold iso_prefix. rewrite A1, A2, A3, A4, A5, A6, A7, A8. reflexivity.
Qed.

End IsoDateFacts.

Module SortFacts.
Import Reportes.

Section Sorting.
Context {A : Type}.
Variable compare : A -> A -> Z.

Lemma sort_insert_perm x l : Permutation (sort_insert compare x l) (x :: l).
Proof.
  induction l as [|y t IH]; cbn; [reflexivity|].
  destruct (compare x y <=? 0)%Z; [reflexivity|].
  rewrite IH. apply perm_swap.
Qed.

Lemma js_sort_perm l : Permutation (js_sort compare l) l.
Proof.
  induction l as [|x l IH]; cbn; [reflexivity|].
  rewrite sort_insert_perm. now constructor.
Qed.

Lemma js_sort_length l : List.length (js_sort compare l) = List.length l.
Proof. apply Permutation_length, js_sort_perm. Qed.

(** Sortedness, for a comparison that decides a total preorder [le]. *)
Variable le : A -> A -> Prop.
Hypothesis le_trans : forall a b c, le a b -> le b c -> le a c.
Hypothesis compare_le : forall a b, (compare a b <= 0)%Z -> le a b.
Hypothesis compare_gt : forall a b, (0 < compare a b)%Z -> le b a.

Lemma sort_insert_sorted x l :
  StronglySorted le l -> StronglySorted le (sort_insert compare x l).
Proof.
  induction 1 as [|y t Hs IH Hall]; cbn.
  - repeat constructor.
  - destruct (Z.leb_spec (compare x y) 0) as [Hle|Hgt].
    + constructor; [now constructor|].
      constructor; [now apply compare_le|].
      eapply Forall_impl; [|exact Hall]. intros z Hz.
      eapply le_trans; [apply compare_le; exact Hle|exact Hz].
    + constructor; [exact IH|].
      eapply Permutation_Forall; [symmetry; apply sort_insert_perm|].
      constructor; [now apply compare_gt|exact Hall].
Qed.

Lemma js_sort_sorted l : StronglySorted le (js_sort compare l).
Proof.
  induction l as [|x l IH]; cbn; [constructor|]. now apply sort_insert_sorted.
Qed.

End Sorting.

(** The comparison of the date keys decides the order of the sort keys. *)
Definition sortKey_le (a b : string * DateBucket) : Prop :=
  String.leb (sortKey (snd a)) (sortKey (snd b)) = true.

Lemma sortedDateEntries_sorted acc : StronglySorted sortKey_le (sortedDateEntries acc).
Proof.
  unfold sortedDateEntries. apply js_sort_sorted; unfold sortKey_le, compare_sortKey.
  - intros a b c. apply StringOrder.leb_trans.
  - intros a b.
    destruct (String.eqb_spec (sortKey (snd a)) (sortKey (snd b))) as [->|Hne].
    + intros _. apply StringOrder.leb_refl.
    + unfold Js.str_lt. destruct (String.ltb _ _) eqn:Hlt; [|lia].
      intros _. now apply StringOrder.ltb_leb.
  - intros a b.
    destruct (String.eqb_spec (sortKey (snd a)) (sortKey (snd b))) as [->|Hne]; [lia|].
    unfold Js.str_lt. destruct (String.ltb _ _) eqn:Hlt; [lia|].
    intros _. now apply StringOrder.not_ltb_leb.
Qed.

End SortFacts.

(* ===================================================================== *)
(** * Theorems: the chart aggregation *)
(* ===================================================================== *)

Module AssocFacts.
Import Reportes.

Section Weights.
Context {V : Type}.
Variable w : V -> nat.

(** The sum of a weight over the values of an association list. *)
Fixpoint assoc_sum (l : list (string * V)) : nat :=
  match l with
  | [] => 0
  | (_, v) :: t => w v + assoc_sum t
  end.

Lemma assoc_sum_add k v l : assoc_sum (assoc_add k v l) = assoc_sum l + w v.
Proof.
  unfold assoc_add. induction l as [|[k' v'] t IH]; cbn; [lia|].
  rewrite IH. lia.
Qed.

Lemma assoc_sum_modify k f d l :
  (forall v, w (f v) = w v + d) ->
  assoc_get k l <> None ->
  assoc_sum (assoc_modify k f l) = assoc_sum l + d.
Proof.
  intros Hf.
  induction l as [|[k' v] t IH]; cbn; [congruence|].
  destruct (k' =? k)%string; cbn.
  - intros _. rewrite Hf. lia.
  - intros Hget. rewrite (IH Hget). lia.
Qed.

End Weights.

Section Keys.
Context {V : Type}.

Lemma assoc_get_add k v (l : list (string * V)) :
  assoc_get k (assoc_add k v l) <> None.
Proof.
  unfold assoc_add. induction l as [|[k' v'] t IH]; cbn.
  - rewrite String.eqb_refl. discriminate.
  - destruct (k' =? k)%string; [discriminate|exact IH].
Qed.

Lemma assoc_get_None k (l : list (string * V)) :
  assoc_get k l = None <-> ~ In k (map fst l).
Proof.
  induction l as [|[k' v'] t IH]; cbn; [tauto|].
  destruct (String.eqb_spec k' k) as [->|Hne].
  - split; [discriminate|]. intros H. exfalso. apply H. now left.
  - rewrite IH. split; [intros H [?|?]; [congruence|tauto]|tauto].
Qed.

Lemma assoc_modify_keys k f (l : list (string * V)) :
  map fst (assoc_modify k f l) = map fst l.
Proof.
  induction l as [|[k' v'] t IH]; cbn; [reflexivity|].
  destruct (k' =? k)%string; cbn; [reflexivity|]. now rewrite IH.
Qed.

Lemma assoc_add_keys k v (l : list (string * V)) :
  map fst (assoc_add k v l) = (map fst l ++ [k])%list.
Proof. unfold assoc_add. now rewrite map_app. Qed.

Lemma assoc_modify_Forall (Q : string * V -> Prop) k f (l : list (string * V)) :
  (forall k' v, Q (k', v) -> Q (k', f v)) ->
  Forall Q l -> Forall Q (assoc_modify k f l).
Proof.
  intros Hf. induction 1 as [|[k' v'] t Hq Ht IH]; cbn; [constructor|].
  destruct (k' =? k)%string; constructor; auto.
Qed.

End Keys.

End AssocFacts.

Module ChartsFacts.
Import Reportes AssocFacts SortFacts.
Local Open Scope string_scope.

Section Aggregation.
Variable formatShortDateLabel : string -> string.

Local Abbreviation aggregate := (Reportes.aggregate formatShortDateLabel).
Local Abbreviation forEach_body := (Reportes.forEach_body formatShortDateLabel).
Local Abbreviation charts := (Reportes.charts formatShortDateLabel).

Lemma aggregate_snoc l x : aggregate (l ++ [x]) = forEach_body (aggregate l) x.
Proof. unfold Reportes.aggregate. now rewrite fold_left_app. Qed.

Lemma count_estado_snoc e l x :
  count_estado e (l ++ [x])
  = count_estado e l + (if EstadoReporte_eqb (estado x) e then 1 else 0).
Proof.
  unfold count_estado. rewrite filter_app, length_app. cbn.
  now destruct (EstadoReporte_eqb (estado x) e).
Qed.

Lemma get_count_incr e' c e :
  get_count (incr_count e' c) e
  = get_count c e + (if EstadoReporte_eqb e' e then 1 else 0).
Proof. destruct e', e; cbn; lia. Qed.

Lemma statusTotals_count e l :
  get_count (acc_statusTotals (aggregate l)) e = count_estado e l.
Proof.
  induction l as [|x l IH] using rev_ind; [now destruct e|].
  rewrite aggregate_snoc, count_estado_snoc. cbn.
  rewrite get_count_incr, IH. reflexivity.
Qed.

(** The bucket of [dateKey] exists once the body has created it. *)
Lemma created_present (k : string) (b : DateBucket) (l : list (string * DateBucket)) :
  assoc_get k (match assoc_get k l with
               | Some _ => l
               | None => assoc_add k b l
               end) <> None.
Proof.
  destruct (assoc_get k l) eqn:Hget; [congruence|]. apply assoc_get_add.
Qed.

Lemma dateBuckets_count e l :
  assoc_sum (fun b => get_count (counts b) e) (acc_dateBuckets (aggregate l))
  = count_estado e l.
Proof.
  induction l as [|x l IH] using rev_ind; [reflexivity|].
  rewrite aggregate_snoc, count_estado_snoc. cbn.
  rewrite assoc_sum_modify with (d := if EstadoReporte_eqb (estado x) e then 1 else 0).
  - destruct (assoc_get (dateKey_of x) (acc_dateBuckets (aggregate l))).
    + now rewrite IH.
    + rewrite assoc_sum_add, IH. destruct e; cbn; lia.
  - intros v. cbn. apply get_count_incr.
  - apply created_present.
Qed.

Lemma count_estado_total l :
  count_estado entregado l + count_estado en_proceso l + count_estado no_entregado l
  = List.length l.
Proof.
  unfold count_estado. induction l as [|x l IH]; cbn; [reflexivity|].
  destruct (estado x); cbn; lia.
Qed.

Lemma dateBuckets_total l :
  assoc_sum (fun b => sum_counts (counts b)) (acc_dateBuckets (aggregate l))
  = List.length l.
Proof.
  rewrite <- count_estado_total, <- !dateBuckets_count.
  induction (acc_dateBuckets (aggregate l)) as [|[k b] t IH];
    cbn [assoc_sum]; [reflexivity|].
  rewrite IH. unfold sum_counts. cbn [get_count]. lia.
Qed.

Lemma driverTotals_total l :
  assoc_sum total (acc_driverTotals (aggregate l)) = List.length l.
Proof.
  induction l as [|x l IH] using rev_ind; [reflexivity|].
  rewrite aggregate_snoc, length_app. cbn.
  destruct (assoc_get (driverKey_of x) (acc_driverTotals (aggregate l))) eqn:Hget.
  - rewrite assoc_sum_modify with (d := 1); [now rewrite IH|reflexivity|congruence].
  - rewrite assoc_sum_add, IH. reflexivity.
Qed.

Lemma driverTotals_entregados l :
  assoc_sum entregados (acc_driverTotals (aggregate l)) = count_estado entregado l.
Proof.
  induction l as [|x l IH] using rev_ind; [reflexivity|].
  rewrite aggregate_snoc, count_estado_snoc. cbn.
  destruct (assoc_get (driverKey_of x) (acc_driverTotals (aggregate l))) eqn:Hget.
  - rewrite assoc_sum_modify with (d := deliveredIncrement x);
      [now rewrite IH|reflexivity|congruence].
  - rewrite assoc_sum_add, IH. reflexivity.
Qed.

(** The keys of [dateBuckets] are the date keys of the records, each once. *)
Lemma dateBuckets_keys l :
  NoDup (map fst (acc_dateBuckets (aggregate l)))
  /\ forall k, In k (map fst (acc_dateBuckets (aggregate l)))
               <-> exists r, In r l /\ dateKey_of r = k.
Proof.
  induction l as [|x l [IHnd IHin]] using rev_ind.
  - cbn. split; [constructor|]. intros k. split; [tauto|]. now intros (r & [] & _).
  - rewrite aggregate_snoc. cbn. rewrite assoc_modify_keys.
    destruct (assoc_get (dateKey_of x) (acc_dateBuckets (aggregate l))) eqn:Hget.
    + split; [exact IHnd|]. intros k. rewrite IHin. split.
      * intros (r & Hr & Hk). exists r. split; [|exact Hk].
        apply in_or_app. now left.
      * intros (r & Hr & Hk). apply in_app_or in Hr as [Hr|[<-|[]]].
        -- now exists r.
        -- apply IHin. subst k.
           destruct (in_dec string_dec (dateKey_of x)
                       (map fst (acc_dateBuckets (aggregate l)))) as [Hin|Hout];
             [exact Hin|].
           apply assoc_get_None in Hout. congruence.
    + rewrite assoc_add_keys. apply assoc_get_None in Hget. split.
      * apply NoDup_app; [exact IHnd|repeat constructor; tauto|].
        intros k Hk [<-|[]]. contradiction.
      * intros k. rewrite in_app_iff, IHin. cbn. split.
        -- intros [(r & Hr & Hk)|[<-|[]]].
           ++ exists r. split; [apply in_or_app; now left|exact Hk].
           ++ exists x. split; [apply in_or_app; right; now left|reflexivity].
        -- intros (r & Hr & Hk). apply in_app_or in Hr as [Hr|[<-|[]]].
           ++ left. now exists r.
           ++ right. now left.
Qed.

(** Each bucket carries the label and the sort key of a record of its key. *)
Definition bucket_of_record (l : list Programacion) (kb : string * DateBucket) : Prop :=
  exists r, In r l /\ dateKey_of r = fst kb
            /\ sortKey (snd kb) = sortKey_of r
            /\ label (snd kb) = label_of formatShortDateLabel r.

Lemma dateBuckets_meta l : Forall (bucket_of_record l) (acc_dateBuckets (aggregate l)).
Proof.
  induction l as [|x l IH] using rev_ind; [constructor|].
  rewrite aggregate_snoc. cbn.
  assert (Hmono : Forall (bucket_of_record (l ++ [x])) (acc_dateBuckets (aggregate l))).
  { eapply Forall_impl; [|exact IH]. intros kb (r & Hr & H).
    exists r. split; [apply in_or_app; now left|exact H]. }
  apply assoc_modify_Forall.
  - intros k' v (r & Hr & H). now exists r.
  - destruct (assoc_get (dateKey_of x) (acc_dateBuckets (aggregate l))); [exact Hmono|].
    unfold assoc_add. apply Forall_app. split; [exact Hmono|].
    constructor; [|constructor].
    exists x. cbn. split; [apply in_or_app; right; now left|auto].
Qed.

Lemma iso_not_sin_fecha d : Js.is_iso_date d = true -> d <> "sin-fecha".
Proof. intros H ->. discriminate H. Qed.

Lemma dateBuckets_sortKey l k b :
  fechas_iso l ->
  In (k, b) (acc_dateBuckets (aggregate l)) ->
  sortKey b = (if k =? "sin-fecha" then "9999-12-31" else k)
  /\ (k = "sin-fecha" <-> exists r, In r l /\ fechaEntrega r = None /\ dateKey_of r = k).
Proof.
  intros Hiso Hin.
  pose proof (dateBuckets_meta l) as Hmeta.
  rewrite Forall_forall in Hmeta.
  destruct (Hmeta _ Hin) as (r & Hr & Hk & Hs & _). cbn in Hk, Hs.
  unfold dateKey_of, sortKey_of in *.
  destruct (fechaEntrega r) as [d|] eqn:Hd.
  - subst k. pose proof (iso_not_sin_fecha _ (Hiso _ _ Hr Hd)) as Hne.
    apply String.eqb_neq in Hne. rewrite Hne. split; [exact Hs|].
    apply String.eqb_neq in Hne. split; [contradiction|].
    intros (r' & Hr' & Hnone & Hk'). rewrite Hnone in Hk'. congruence.
  - subst k. cbn. split; [exact Hs|]. split; [|reflexivity].
    intros _. exists r. now rewrite Hd.
Qed.

Lemma dateBuckets_nonempty l : l <> [] -> acc_dateBuckets (aggregate l) <> [].
Proof.
  intros Hl Hb. pose proof (dateBuckets_total l) as Ht. rewrite Hb in Ht.
  destruct l; [congruence|discriminate Ht].
Qed.

End Aggregation.

(** The percentage of the memo against the exact one, as a test. *)
Definition porcentaje_cercano (part totalRegistros : nat) : bool :=
  let exact := porcentaje_spec part totalRegistros in
  if Number.number_eq_dec (porcentaje part totalRegistros) (Number.of_Z exact) then true
  else if Number.number_eq_dec (porcentaje part totalRegistros) (Number.of_Z (exact - 1))
       then true
       else false.

(** For up to a hundred records the percentage shown is the exact
    percentage rounded to the nearest integer, or one less. *)
Lemma porcentaje_within_one (part totalRegistros : nat) :
  (part <= totalRegistros)%nat -> (totalRegistros <= 100)%nat ->
  porcentaje part totalRegistros = Number.of_Z (porcentaje_spec part totalRegistros)
  \/ porcentaje part totalRegistros
     = Number.of_Z (porcentaje_spec part totalRegistros - 1).
Proof.
  intros Hle Hmax.
  assert (Hall : forallb (fun t => forallb (fun e => porcentaje_cercano e t) (seq 0 (t + 1)))
                         (seq 0 101) = true) by (vm_compute; reflexivity).
  rewrite forallb_forall in Hall.
  assert (Ht : In totalRegistros (seq 0 101)) by (apply in_seq; lia).
  specialize (Hall _ Ht). rewrite forallb_forall in Hall.
  assert (He : In part (seq 0 (totalRegistros + 1))) by (apply in_seq; lia).
  specialize (Hall _ He). unfold porcentaje_cercano in Hall.
  destruct (Number.number_eq_dec _ _) as [E|_]; [now left|].
  destruct (Number.number_eq_dec _ _) as [E|_]; [now right|discriminate].
Qed.

Lemma count_estado_le e (l : list Programacion) : (count_estado e l <= List.length l)%nat.
Proof. unfold count_estado. apply filter_length_le. Qed.

(** Forty records, twenty-three of them delivered. *)
Definition registros_23_de_40 : list Programacion :=
  (repeat (mkProgramacion "1" entregado (Some "7") "Ana" (Some "2025-03-10")) 23
   ++ repeat (mkProgramacion "2" en_proceso (Some "8") "Luis" (Some "2025-03-11")) 17)%list.

(** The statement of the specification fails on the percentage: with 23 delivered records
    out of 40 the exact percentage 57.5 rounds to 58, while the memo computes
    [(23 / 40) * 100] in doubles, which is 57.49999999999999, and shows 57. *)
Lemma porcentajeEntregado_not_exact_rounding :
  List.length registros_23_de_40 = 40
  /\ count_estado entregado registros_23_de_40 = 23
  /\ porcentajeEntregado (charts (fun d => d) registros_23_de_40) = Number.of_Z 57
  /\ porcentaje_spec 23 40 = 58%Z
  /\ porcentajeEntregado (charts (fun d => d) registros_23_de_40)
     <> Number.of_Z (porcentaje_spec (count_estado entregado registros_23_de_40)
                                     (List.length registros_23_de_40)).
Proof.
  repeat split; try (vm_compute; reflexivity).
  vm_compute. discriminate.
Qed.

(** C4, as amended.  For every list of filtered records the memo groups
    consistently by status, date and driver: each entry of [statusTotals] is
    the number of records with that estado; [totalRegistros] is the length
    of the list and the sum of the three status totals; over the date
    buckets, the counts of each estado add up to the number of records with
    that estado and all counts add up to the length of the list, and so do
    the totals and the deliveries over the drivers; [porcentajeEntregado] is
    0 for an empty list and otherwise [Math.round] of the double
    [(entregado / totalRegistros) * 100], which for up to a hundred records
    is the exact percentage rounded to the nearest integer or one less; the
    date categories are the
    buckets in ascending order of their sort key, and, for dates of the
    form yyyy-MM-dd, the sort key of a bucket is its date, or '9999-12-31'
    for the bucket 'sin-fecha' of the records lacking a date. *)
Theorem charts_aggregation
    (formatShortDateLabel : string -> string) (l : list Programacion) :
  let c := charts formatShortDateLabel l in
  let acc := aggregate formatShortDateLabel l in
  (forall e, get_count (statusTotals c) e = count_estado e l)
  /\ totalRegistros c = List.length l
  /\ totalRegistros c
     = n_entregado (statusTotals c) + n_en_proceso (statusTotals c)
       + n_no_entregado (statusTotals c)
  /\ (forall e, assoc_sum (fun b => get_count (counts b) e) (acc_dateBuckets acc)
                = count_estado e l)
  /\ assoc_sum (fun b => sum_counts (counts b)) (acc_dateBuckets acc) = List.length l
  /\ assoc_sum total (acc_driverTotals acc) = List.length l
  /\ assoc_sum entregados (acc_driverTotals acc) = count_estado entregado l
  /\ porcentajeEntregado c
     = (if (List.length l =? 0)%nat then Number.of_Z 0
        else Number.Math_round
               (Number.mul
                  (Number.div (Number.of_nat (count_estado entregado l))
                              (Number.of_nat (List.length l)))
                  (Number.of_Z 100)))
  /\ (l = [] -> porcentajeEntregado c = Number.of_Z 0)
  /\ ((List.length l <= 100)%nat ->
      let exact := porcentaje_spec (count_estado entregado l) (List.length l) in
      porcentajeEntregado c = Number.of_Z exact
      \/ porcentajeEntregado c = Number.of_Z (exact - 1))
  /\ Permutation (sortedDateEntries acc) (acc_dateBuckets acc)
  /\ StronglySorted sortKey_le (sortedDateEntries acc)
  /\ (l <> [] ->
      stackedCategories c = map (fun kb => label (snd kb)) (sortedDateEntries acc))
  /\ (fechas_iso l ->
      forall k b, In (k, b) (acc_dateBuckets acc) ->
                  sortKey b = (if k =? "sin-fecha" then "9999-12-31" else k)).
Proof.
  intros c acc.
  assert (Hst : forall e, get_count (statusTotals c) e = count_estado e l).
  { intros e. apply statusTotals_count. }
  assert (Htot : totalRegistros c = List.length l).
  { rewrite <- count_estado_total, <- !statusTotals_count with
      (formatShortDateLabel := formatShortDateLabel). reflexivity. }
  assert (Hpct : porcentajeEntregado c
                 = porcentaje (count_estado entregado l) (List.length l)).
  { rewrite <- Htot, <- (Hst entregado). reflexivity. }
  split; [exact Hst|]. split; [exact Htot|]. split; [reflexivity|].
  split; [intros e; apply dateBuckets_count|].
  split; [apply dateBuckets_total|].
  split; [apply driverTotals_total|].
  split; [apply driverTotals_entregados|].
  split; [exact Hpct|].
  split; [intros ->; reflexivity|].
  split; [intros Hlen; cbv zeta; rewrite Hpct;
          apply porcentaje_within_one; [apply count_estado_le|exact Hlen]|].
  split; [apply js_sort_perm|].
  split; [apply sortedDateEntries_sorted|].
  split.
  - intros Hl. subst c. unfold Reportes.charts. cbn [stackedCategories].
    fold acc. unfold sortedDateEntries at 1. rewrite js_sort_length.
    pose proof (dateBuckets_nonempty formatShortDateLabel l Hl) as Hne. fold acc in Hne.
    destruct (acc_dateBuckets acc); [congruence|reflexivity].
  - intros Hiso k b Hin. now apply (dateBuckets_sortKey formatShortDateLabel l k b Hiso).
Qed.

End ChartsFacts.

(* ===================================================================== *)
(** * Theorems: registering a GPS device *)
(* ===================================================================== *)

Module DispositivosFacts.
Import Effects Dispositivos.
Local Open Scope string_scope.

(** Unfold the operations of a handler down to the answers of the world. *)
Ltac handler_unfold :=
  cbv beta iota zeta delta
    [run final_state trace_of bind ret throw try_catch finally
     set fetch await await_catch confirm alert navigate] in *.

(** Case analysis on the answers of the world a run is waiting for. *)
Ltac run_cases :=
  repeat (cbn [negb];
    match goal with
    | |- _ = _ => reflexivity
    | |- context [fetch_answer ?w ?t ?r] => destruct (fetch_answer w t r)
    | |- context [json ?r] => destruct (json r)
    | |- context [text ?r] => destruct (text r)
    | |- context [ok ?r] => destruct (ok r)
    | |- context [Valores.map_throwing ?f ?l] => destruct (Valores.map_throwing f l)
    | |- context [if ?c then _ else _] => destruct c
    end).

Section Guardar.
Variable encodeURIComponent : string -> string.
Variable token : option string.

Local Abbreviation handleGuardarNuevo :=
  (Dispositivos.handleGuardarNuevo encodeURIComponent token).
Local Abbreviation traccar_delete := (Dispositivos.traccar_delete encodeURIComponent).

(** The value the local [traccarDeviceId] gets: [Some] once Traccar has
    answered the POST with an ok response whose JSON could be read. *)
Definition assigned_id (w : World) (codigo modelo : string) : option Id :=
  match fetch_answer w [] (traccar_post codigo modelo) with
  | inr resp =>
      if ok resp then
        match json resp with
        | inr traccarDevice => Some (id_of_field (field "id" traccarDevice))
        | inl _ => None
        end
      else None
  | inl _ => None
  end.

(** The backend accepted the device. *)
Definition backend_ok (w : World) (i : Id) (codigo modelo : string) : bool :=
  match fetch_answer w [EvRequest (traccar_post codigo modelo)]
                     (backend_post i codigo modelo) with
  | inr resp => ok resp
  | inl _ => false
  end.

Definition form_reset (s : State) : Prop :=
  nuevoCodigo s = "" /\ nuevoModelo s = "".

Definition form_kept (s0 s : State) : Prop :=
  nuevoCodigo s = nuevoCodigo s0 /\ nuevoModelo s = nuevoModelo s0.

Lemma handleGuardarNuevo_run (w : World) (s0 : State) :
  Js.truthy_opt token = true ->
  Js.truthy (Js.sanitize (Some (nuevoCodigo s0))) = true ->
  Js.truthy (Js.sanitize (Some (nuevoModelo s0))) = true ->
  let codigo := Js.sanitize (Some (nuevoCodigo s0)) in
  let modelo := Js.sanitize (Some (nuevoModelo s0)) in
  let tr := requests (trace_of (handleGuardarNuevo s0) w s0) in
  let s' := final_state (handleGuardarNuevo s0) w s0 in
  match assigned_id w codigo modelo with
  | None =>
      tr = [traccar_post codigo modelo]
      /\ submitSuccess s' = None /\ submitError s' <> None /\ form_kept s0 s'
  | Some i =>
      if id_missing i then
        (tr = traccar_post codigo modelo
              :: match i with IdStr _ => [traccar_delete i] | _ => [] end)
        /\ submitSuccess s' = None
        /\ submitError s'
           = Some "Traccar no devolvio un identificador para el dispositivo registrado."
        /\ form_kept s0 s'
      else if backend_ok w i codigo modelo then
        tr = [traccar_post codigo modelo; backend_post i codigo modelo]
        /\ submitSuccess s' = Some "Dispositivo registrado correctamente."
        /\ submitError s' = None /\ form_reset s'
      else
        tr = [traccar_post codigo modelo; backend_post i codigo modelo; traccar_delete i]
        /\ submitSuccess s' = None /\ submitError s' <> None /\ form_kept s0 s'
  end.
Proof.
  intros Htok Hc Hm. cbv zeta. unfold Dispositivos.handleGuardarNuevo.
  rewrite Htok, Hc, Hm. cbn [negb orb].
  generalize (Js.sanitize (Some (nuevoCodigo s0))) as codigo.
  generalize (Js.sanitize (Some (nuevoModelo s0))) as modelo.
  clear Hc Hm. intros modelo codigo.
  unfold assigned_id, backend_ok, registrar_en_traccar, registrar_en_backend,
    guardar_catch, resetForm, form_kept, form_reset.
  handler_unfold.
  destruct (fetch_answer w [] (traccar_post codigo modelo)) as [e|resp].
  { cbn. repeat split; discriminate. }
  destruct (ok resp); cbn [negb].
  2:{ destruct (text resp); cbn; repeat split; discriminate. }
  destruct (json resp) as [e|dev].
  { cbn. repeat split; discriminate. }
  destruct (id_of_field (field "id" dev)) as [| |n|s|j]; cbn [id_missing].
  - cbn. repeat split.
  - cbn. repeat split.
  - cbn [app].
    destruct (fetch_answer w _ (backend_post (IdNum n) codigo modelo)) as [e|resp2].
    + destruct (fetch_answer w _ (traccar_delete (IdNum n))); cbn;
        repeat split; discriminate.
    + destruct (ok resp2); cbn [negb]; [cbn; repeat split|].
      destruct (text resp2);
        destruct (fetch_answer w _ (traccar_delete (IdNum n))); cbn;
        repeat split; discriminate.
  - destruct (String.eqb_spec s "") as [->|Hs].
    + destruct (fetch_answer w _ (traccar_delete (IdStr ""))); cbn; repeat split.
    + cbn [app].
      destruct (fetch_answer w _ (backend_post (IdStr s) codigo modelo)) as [e|resp2].
      * destruct (fetch_answer w _ (traccar_delete (IdStr s))); cbn;
          repeat split; discriminate.
      * destruct (ok resp2); cbn [negb]; [cbn; repeat split|].
        destruct (text resp2);
          destruct (fetch_answer w _ (traccar_delete (IdStr s))); cbn;
          repeat split; discriminate.
  - cbn [app].
    destruct (fetch_answer w _ (backend_post (IdOther j) codigo modelo)) as [e|resp2].
    + destruct (fetch_answer w _ (traccar_delete (IdOther j))); cbn;
        repeat split; discriminate.
    + destruct (ok resp2); cbn [negb]; [cbn; repeat split|].
      destruct (text resp2);
        destruct (fetch_answer w _ (traccar_delete (IdOther j))); cbn;
        repeat split; discriminate.
Qed.


End Guardar.

(** The text of an identifier Traccar returned: the decimal digits of a
    number, a string as it is. *)
Definition texto_del_id (i : Id) : option string :=
  match i with
  | IdNum n => Some (Js.String_of_Z n)
  | IdStr s => Some s
  | _ => None
  end.

(** C8.  Creating a GPS device talks to Traccar first and to the backend
    second.  With a token, a code and a model (both as typed, without the
    white space around them), the first request of [handleGuardarNuevo] is
    the POST of [{name: codigo, uniqueId: codigo, category: modelo}] to
    Traccar's /api/devices; when the answer of Traccar lacks a non-empty id
    the handler fails with its own message and the backend is not called; a
    request to the backend is only ever the second request, after Traccar
    returned an id, and it POSTs the device with [codigo] the Traccar id as
    a string (the decimal digits of a number, a string as it is), [modelo]
    the original code followed by ', ' and the model, and [activo] and
    [status] 1; the success message and the reset of the form happen
    exactly when both calls succeed. *)
Theorem handleGuardarNuevo_traccar_then_backend
    (encodeURIComponent : string -> string) (token : option string)
    (w : World) (s0 : State) :
  Js.truthy_opt token = true ->
  Js.truthy (Js.sanitize (Some (nuevoCodigo s0))) = true ->
  Js.truthy (Js.sanitize (Some (nuevoModelo s0))) = true ->
  let codigo := Js.sanitize (Some (nuevoCodigo s0)) in
  let modelo := Js.sanitize (Some (nuevoModelo s0)) in
  let handler := handleGuardarNuevo encodeURIComponent token s0 in
  let tr := requests (trace_of handler w s0) in
  let s' := final_state handler w s0 in
  (exists rest, tr = traccar_post codigo modelo :: rest)
  /\ (api (traccar_post codigo modelo) = Traccar
      /\ method (traccar_post codigo modelo) = POST
      /\ url (traccar_post codigo modelo) = "/api/devices"
      /\ body (traccar_post codigo modelo)
         = Some (JObj [("name", JStr codigo); ("uniqueId", JStr codigo);
                       ("category", JStr modelo)]))
  /\ (forall i, assigned_id w codigo modelo = Some i -> id_missing i = true ->
      (forall r, In r tr -> api r <> Backend)
      /\ submitSuccess s' = None
      /\ submitError s'
         = Some "Traccar no devolvio un identificador para el dispositivo registrado.")
  /\ (forall r, In r tr -> api r = Backend ->
      exists i rest,
        assigned_id w codigo modelo = Some i /\ id_missing i = false
        /\ r = backend_post i codigo modelo
        /\ tr = traccar_post codigo modelo :: r :: rest)
  /\ (forall i id,
      texto_del_id i = Some id ->
      api (backend_post i codigo modelo) = Backend
      /\ method (backend_post i codigo modelo) = POST
      /\ url (backend_post i codigo modelo) = "/api/v1/dispositivosGps/add"
      /\ body (backend_post i codigo modelo)
         = Some (JObj [("idDispositivo", JNull);
                       ("codigo", JStr id);
                       ("modelo", JStr (codigo ++ ", " ++ modelo));
                       ("activo", JNum 1);
                       ("status", JNum 1)]))
  /\ (forall n, 0 <= n -> Js.Number_decimal (Js.String_of_Z n) = Some n)%Z
  /\ ((submitSuccess s' <> None \/ form_reset s')
      <-> exists i, assigned_id w codigo modelo = Some i /\ id_missing i = false
                    /\ backend_ok w i codigo modelo = true)
  /\ (submitSuccess s' <> None ->
      submitSuccess s' = Some "Dispositivo registrado correctamente." /\ form_reset s').
Proof.
  intros Htok Hc Hm. cbv zeta.
  pose proof (handleGuardarNuevo_run encodeURIComponent token w s0 Htok Hc Hm) as Hrun.
  cbv zeta in Hrun.
  assert (Hcod : nuevoCodigo s0 <> "").
  { intros E. rewrite E in Hc. discriminate Hc. }
  assert (Hpay : forall i id,
      texto_del_id i = Some id ->
      body (backend_post i (Js.sanitize (Some (nuevoCodigo s0)))
                           (Js.sanitize (Some (nuevoModelo s0))))
      = Some (JObj [("idDispositivo", JNull);
                    ("codigo", JStr id);
                    ("modelo", JStr (Js.sanitize (Some (nuevoCodigo s0)) ++ ", "
                                       ++ Js.sanitize (Some (nuevoModelo s0))));
                    ("activo", JNum 1);
                    ("status", JNum 1)])).
  { intros i id Hid. unfold backend_post, backend_payload, modeloAlmacenado.
    rewrite Hm. cbn [body].
    destruct i; cbn in Hid; try discriminate; injection Hid as <-; reflexivity. }
  assert (Htra :
      body (traccar_post (Js.sanitize (Some (nuevoCodigo s0)))
                         (Js.sanitize (Some (nuevoModelo s0))))
      = Some (JObj [("name", JStr (Js.sanitize (Some (nuevoCodigo s0))));
                    ("uniqueId", JStr (Js.sanitize (Some (nuevoCodigo s0))));
                    ("category", JStr (Js.sanitize (Some (nuevoModelo s0))))])).
  { unfold traccar_post, traccarDevicePayload. now rewrite Hm. }
  clear Hc Hm.
  generalize dependent (Js.sanitize (Some (nuevoCodigo s0))). intros codigo.
  generalize dependent (Js.sanitize (Some (nuevoModelo s0))). intros modelo.
  generalize dependent
    (requests (trace_of (handleGuardarNuevo encodeURIComponent token s0) w s0)).
  intros tr.
  generalize dependent (final_state (handleGuardarNuevo encodeURIComponent token s0) w s0).
  intros s' Hrun Hpay Htra.
  split; [|split; [|split; [|split; [|split; [|split; [|split]]]]]].
  - destruct (assigned_id w codigo modelo) as [i|].
    + destruct (id_missing i); [|destruct (backend_ok w i codigo modelo)];
        destruct Hrun as [-> _]; eexists; reflexivity.
    + destruct Hrun as [-> _]. eexists; reflexivity.
  - split; [reflexivity|]. split; [reflexivity|]. split; [reflexivity|exact Htra].
  - intros i Hi Hmiss. rewrite Hi, Hmiss in Hrun.
    destruct Hrun as (-> & Hs & He & _). split; [|split; assumption].
    intros r [<-|Hin]; [discriminate|].
    destruct i; cbn in Hin; try contradiction; destruct Hin as [<-|[]]; discriminate.
  - intros r Hin Hapi.
    destruct (assigned_id w codigo modelo) as [i|].
    + destruct (id_missing i) eqn:Hmiss.
      * destruct Hrun as (-> & _).
        destruct Hin as [<-|Hin]; [discriminate Hapi|].
        destruct i; cbn in Hin; try contradiction;
          destruct Hin as [<-|[]]; discriminate Hapi.
      * destruct (backend_ok w i codigo modelo); destruct Hrun as (-> & _).
        -- destruct Hin as [<-|[<-|[]]]; [discriminate Hapi|].
           exists i; eexists; split; [reflexivity|split; [exact Hmiss|split; reflexivity]].
        -- destruct Hin as [<-|[<-|[<-|[]]]]; [discriminate Hapi| |discriminate Hapi].
           exists i; eexists; split; [reflexivity|split; [exact Hmiss|split; reflexivity]].
    + destruct Hrun as (-> & _).
      destruct Hin as [<-|[]]. discriminate Hapi.
  - intros i id Hid. split; [reflexivity|]. split; [reflexivity|].
    split; [reflexivity|now apply Hpay].
  - exact DecimalFacts.Number_decimal_String_of_Z.
  - split.
    + intros Hsucc.
      destruct (assigned_id w codigo modelo) as [i|].
      * destruct (id_missing i) eqn:Hmiss.
        -- destruct Hrun as (_ & Hs & _ & Hk & _).
           destruct Hsucc as [Hsucc|[Hr _]]; congruence.
        -- destruct (backend_ok w i codigo modelo) eqn:Hok.
           ++ exists i. repeat split; assumption || reflexivity.
           ++ destruct Hrun as (_ & Hs & _ & Hk & _).
              destruct Hsucc as [Hsucc|[Hr _]]; congruence.
      * destruct Hrun as (_ & Hs & _ & Hk & _).
        destruct Hsucc as [Hsucc|[Hr _]]; congruence.
    + intros (i & Hi & Hmiss & Hok). rewrite Hi, Hmiss, Hok in Hrun.
      destruct Hrun as (_ & Hs & _ & Hr). right. exact Hr.
  - intros Hsucc.
    destruct (assigned_id w codigo modelo) as [i|].
    + destruct (id_missing i); [destruct Hrun as (_ & Hs & _); congruence|].
      destruct (backend_ok w i codigo modelo).
      * destruct Hrun as (_ & Hs & _ & Hr). split; assumption.
      * destruct Hrun as (_ & Hs & _); congruence.
    + destruct Hrun as (_ & Hs & _); congruence.
Qed.

(** A world in which Traccar registers the device as 77 and the backend
    accepts it. *)
Definition todo_bien : World :=
  mkWorld (fun _ _ => true)
          (fun _ r =>
             match api r with
             | Traccar => inr (mkResponse true 200 (inr "") (inr (JObj [("id", JNum 77)])))
             | Backend => inr (mkResponse true 200 (inr "") (inr JNull))
             end).

Definition formulario_gps : State :=
  set_nuevoModelo "TK103" (set_nuevoCodigo " GPS-01 " initial_state).

Lemma handleGuardarNuevo_traccar_then_backend_witness :
  Js.truthy (Js.sanitize (Some (nuevoCodigo formulario_gps))) = true
  /\ requests (trace_of (handleGuardarNuevo (fun s => s) (Some "t") formulario_gps)
                        todo_bien formulario_gps)
     = [mkRequest Traccar POST "/api/devices"
          (Some (JObj [("name", JStr "GPS-01"); ("uniqueId", JStr "GPS-01");
                       ("category", JStr "TK103")]));
        mkRequest Backend POST "/api/v1/dispositivosGps/add"
          (Some (JObj [("idDispositivo", JNull);
                       ("codigo", JStr "77");
                       ("modelo", JStr "GPS-01, TK103");
                       ("activo", JNum 1);
                       ("status", JNum 1)]))]
  /\ exists rest,
       requests (trace_of (handleGuardarNuevo (fun s => s) (Some "t") formulario_gps)
                          todo_bien formulario_gps)
       = traccar_post "GPS-01" "TK103" :: rest.
Proof.
  split; [reflexivity|]. split; [reflexivity|].
  apply (handleGuardarNuevo_traccar_then_backend (fun s => s) (Some "t")
           todo_bien formulario_gps eq_refl eq_refl eq_refl).
Defined.

(** The claim as it was stated fails on a device GPS-01 of model TK103 that
    Traccar registers as 77: the body sent to Traccar is not
    [{name: codigo, uniqueId: codigo}], it carries the model as category as
    well, and the [modelo] stored in the backend is not the code
    concatenated with the model, the two are joined by ', '. *)
Lemma handleGuardarNuevo_not_as_stated :
  ~ (map body (requests (trace_of (handleGuardarNuevo (fun s => s) (Some "t")
                                     formulario_gps)
                                  todo_bien formulario_gps))
     = [Some (JObj [("name", JStr "GPS-01"); ("uniqueId", JStr "GPS-01")]);
        Some (JObj [("idDispositivo", JNull);
                    ("codigo", JStr "77");
                    ("modelo", JStr ("GPS-01" ++ "TK103"));
                    ("activo", JNum 1);
                    ("status", JNum 1)])]).
Proof. cbn. discriminate. Qed.

(** A form whose code is a no-break space and nothing else: the code is
    blank, and nothing is sent. *)
Definition formulario_en_blanco : State :=
  set_nuevoModelo "TK103"
    (set_nuevoCodigo (String (ascii_of_nat 194) (String (ascii_of_nat 160) ""))
       initial_state).

Lemma handleGuardarNuevo_blank_code :
  run (handleGuardarNuevo (fun s => s) (Some "t") formulario_en_blanco)
      todo_bien formulario_en_blanco
  = (inr tt,
     set_submitError (Some "Completa el codigo y el modelo del dispositivo.")
       formulario_en_blanco,
     []).
Proof. reflexivity. Qed.

(** A code or a model made of white space characters of ECMAScript only
    is blank: the form is refused and nothing is sent. *)
Lemma handleGuardarNuevo_blank
    (encodeURIComponent : string -> string) (token : option string)
    (w : World) (s0 : State) :
  Js.truthy_opt token = true ->
  Js.espacios (nuevoCodigo s0) \/ Js.espacios (nuevoModelo s0) ->
  run (handleGuardarNuevo encodeURIComponent token s0) w s0
  = (inr tt,
     set_submitError (Some "Completa el codigo y el modelo del dispositivo.")
       (set_submitSuccess None (set_submitError None s0)),
     []).
Proof.
  intros Htok H. unfold handleGuardarNuevo, Js.sanitize. rewrite Htok. cbn [negb].
  assert (Hb : negb (Js.truthy (Js.trim (nuevoCodigo s0)))
               || negb (Js.truthy (Js.trim (nuevoModelo s0))) = true).
  { destruct H as [H|H]; apply TrimFacts.trim_empty_espacios in H; rewrite H;
      [reflexivity|apply orb_true_r]. }
  handler_unfold. now rewrite Hb.
Qed.

(** After Traccar returned an id, a failure of the backend is compensated
    by a DELETE of that id in Traccar before the error is shown; when
    Traccar's POST itself failed there is nothing to delete. *)
Lemma handleGuardarNuevo_compensation
    (encodeURIComponent : string -> string) (token : option string)
    (w : World) (s0 : State) :
  Js.truthy_opt token = true ->
  Js.truthy (Js.sanitize (Some (nuevoCodigo s0))) = true ->
  Js.truthy (Js.sanitize (Some (nuevoModelo s0))) = true ->
  let codigo := Js.sanitize (Some (nuevoCodigo s0)) in
  let modelo := Js.sanitize (Some (nuevoModelo s0)) in
  let handler := handleGuardarNuevo encodeURIComponent token s0 in
  (forall i, assigned_id w codigo modelo = Some i -> id_missing i = false ->
             backend_ok w i codigo modelo = false ->
             requests (trace_of handler w s0)
             = [traccar_post codigo modelo; backend_post i codigo modelo;
                traccar_delete encodeURIComponent i]
             /\ submitError (final_state handler w s0) <> None)
  /\ (assigned_id w codigo modelo = None ->
      requests (trace_of handler w s0) = [traccar_post codigo modelo]).
Proof.
  intros Htok Hc Hm. cbv zeta.
  pose proof (handleGuardarNuevo_run encodeURIComponent token w s0 Htok Hc Hm) as Hrun.
  cbv zeta in Hrun. split.
  - intros i Hi Hmiss Hok. rewrite Hi, Hmiss, Hok in Hrun. tauto.
  - intros Hi. rewrite Hi in Hrun. tauto.
Qed.

(** A world in which Traccar answers the POST with an empty id. *)
Definition traccar_sin_id : World :=
  mkWorld (fun _ _ => true)
          (fun _ _ => inr (mkResponse true 200 (inr "") (inr (JObj [("id", JStr "")])))).

(** C9, at the failing input.  When Traccar's answer carries the empty
    string as id, the handler reports that Traccar returned no identifier,
    and yet it sends a DELETE, to '/api/devices/' with nothing after the
    slash: the [catch] block tests the id against [undefined] and [null]
    only, while the check that throws also takes '' as missing. *)
Theorem handleGuardarNuevo_empty_id_sends_delete :
  requests (trace_of (handleGuardarNuevo (fun s => s) (Some "t") formulario_gps)
                     traccar_sin_id formulario_gps)
  = [traccar_post "GPS-01" "TK103"; mkRequest Traccar DELETE "/api/devices/" None]
  /\ submitError (final_state (handleGuardarNuevo (fun s => s) (Some "t") formulario_gps)
                              traccar_sin_id formulario_gps)
     = Some "Traccar no devolvio un identificador para el dispositivo registrado.".
Proof. split; reflexivity. Qed.

End DispositivosFacts.

(* ===================================================================== *)
(** * Theorems: scheduling a delivery run *)
(* ===================================================================== *)

Module ProgramarSalidaFacts.
Import Effects ProgramarSalida.
Import DispositivosFacts.
Local Open Scope string_scope.

Lemma filter_length_zero {A : Type} (f : A -> bool) (l : list A) :
  (List.length (filter f l) =? 0)%nat = negb (existsb f l).
Proof.
  induction l as [|x l IH]; cbn; [reflexivity|].
  destruct (f x); cbn; [reflexivity|exact IH].
Qed.

Section Guardar.
Variable Number_ : string -> option Z.
Variable auth : RoleProtectedRoute.AuthState.
Variable token : option string.
Variable today : string.
Variable now : string.

Local Abbreviation guardarProgramacion :=
  (ProgramarSalida.guardarProgramacion Number_ auth token today now).

(** The preconditions of a programacion: a delivery date that is not
    earlier than today, a vehicle, a driver, at least one selected pedido,
    and a chosen location for every selected pedido. *)
Definition precondiciones (s0 : State) : Prop :=
  fechaEntrega s0 <> ""
  /\ Js.str_lt (fechaEntrega s0) today = false
  /\ vehiculoId s0 <> ""
  /\ conductorId s0 <> ""
  /\ pedidosSeleccionados s0 <> []
  /\ (forall p, In p (pedidosSeleccionados s0) ->
                exists u, ubicacionSeleccionada p = Some u /\ u <> "").

(** The error of the first precondition that fails, in the order above. *)
Definition primer_error (s0 : State) : option string :=
  if fechaEntrega s0 =? "" then Some "Selecciona una fecha de entrega."
  else if Js.str_lt (fechaEntrega s0) today
  then Some "La fecha de entrega no puede ser anterior a hoy."
  else if vehiculoId s0 =? "" then Some "Selecciona un vehiculo."
  else if conductorId s0 =? "" then Some "Selecciona un conductor."
  else match pedidosSeleccionados s0 with
       | [] => Some "Selecciona al menos un pedido para programar."
       | _ :: _ =>
           if existsb (fun p => negb (Js.truthy_opt (ubicacionSeleccionada p)))
                      (pedidosSeleccionados s0)
           then Some "Selecciona una ubicacion para cada pedido marcado."
           else None
       end.

Lemma truthy_opt_spec (o : option string) :
  Js.truthy_opt o = true <-> exists u, o = Some u /\ u <> "".
Proof.
  destruct o as [u|]; cbn; unfold Js.truthy.
  - destruct (String.eqb_spec u "") as [->|Hne]; cbn.
    + split; [discriminate|]. intros (u & [= <-] & H). congruence.
    + split; [|reflexivity]. intros _. now exists u.
  - split; [discriminate|]. now intros (u & H & _).
Qed.

Lemma primer_error_None (s0 : State) :
  primer_error s0 = None <-> precondiciones s0.
Proof.
  clear Number_ auth token now.
  unfold primer_error, precondiciones.
  destruct (String.eqb_spec (fechaEntrega s0) "") as [Hf|Hf];
    [split; [discriminate|tauto]|].
  destruct (Js.str_lt (fechaEntrega s0) today);
    [split; [discriminate|intros (_ & H & _); discriminate]|].
  destruct (String.eqb_spec (vehiculoId s0) "") as [Hv|Hv];
    [split; [discriminate|tauto]|].
  destruct (String.eqb_spec (conductorId s0) "") as [Hc|Hc];
    [split; [discriminate|tauto]|].
  destruct (pedidosSeleccionados s0) as [|p l] eqn:Hsel;
    [split; [discriminate|tauto]|].
  destruct (existsb _ (p :: l)) eqn:Hex.
  - split; [discriminate|]. intros (_ & _ & _ & _ & _ & Hall).
    apply existsb_exists in Hex as (q & Hq & Hneg).
    apply negb_true_iff in Hneg. apply Hall, truthy_opt_spec in Hq. congruence.
  - split; [|reflexivity]. intros _. repeat (split; [assumption || reflexivity || discriminate|]).
    intros q Hq. apply truthy_opt_spec.
    destruct (Js.truthy_opt (ubicacionSeleccionada q)) eqn:Ht; [reflexivity|].
    assert (existsb (fun p => negb (Js.truthy_opt (ubicacionSeleccionada p))) (p :: l) = true)
      as Hcontra; [|congruence].
    apply existsb_exists. exists q. split; [exact Hq|]. now rewrite Ht.
Qed.

(** A failed precondition: nothing is asked or requested, the error is
    set and the success message cleared. *)
Lemma guardarProgramacion_rejects (w : World) (s0 : State) (msg : string) :
  isSubmitting s0 = false ->
  primer_error s0 = Some msg ->
  run (guardarProgramacion s0) w s0
  = (inr tt, set_submitError (Some msg) (set_submitSuccess None s0), []).
Proof.
  intros Hsub Herr. unfold ProgramarSalida.guardarProgramacion, primer_error in *.
  rewrite Hsub. unfold Js.truthy.
  destruct (fechaEntrega s0 =? ""); [injection Herr as <-; reflexivity|]. cbn [negb].
  destruct (Js.str_lt (fechaEntrega s0) today); [injection Herr as <-; reflexivity|].
  destruct (vehiculoId s0 =? ""); [injection Herr as <-; reflexivity|]. cbn [negb].
  destruct (conductorId s0 =? ""); [injection Herr as <-; reflexivity|]. cbn [negb].
  rewrite filter_length_zero.
  destruct (pedidosSeleccionados s0) as [|p l]; [injection Herr as <-; reflexivity|].
  cbn [List.length Nat.eqb].
  destruct (existsb _ (p :: l)); [injection Herr as <-; reflexivity|discriminate].
Qed.

Definition confirm_message : string := "Estas seguro de crear la nueva programacion?".

(** The checks that follow the preconditions: numeric identifiers, the
    administrator and the token. *)
Definition identificadores (s0 : State) : option (Z * Z * Js.Scalar) :=
  match Number_ (vehiculoId s0), Number_ (conductorId s0), RoleProtectedRoute.userId auth with
  | Some idVehiculo, Some idConductor, Some idAdministrador =>
      if Js.truthy_opt token then Some (idVehiculo, idConductor, idAdministrador) else None
  | _, _, _ => None
  end.

(** Every run of the handler issues no request, or the POST of the
    programacion alone, or that POST followed by the POST of the selected
    salidas; a request is issued only from a state that is not submitting,
    meets the preconditions and the further checks, and after the user has
    confirmed. *)
Lemma guardarProgramacion_requests (w : World) (s0 : State) :
  let tr := trace_of (guardarProgramacion s0) w s0 in
  requests tr = []
  \/ exists idVehiculo idConductor idAdministrador,
       isSubmitting s0 = false
       /\ primer_error s0 = None
       /\ identificadores s0 = Some (idVehiculo, idConductor, idAdministrador)
       /\ confirm_answer w [] confirm_message = true
       /\ (requests tr = [programacion_post now idVehiculo idConductor idAdministrador s0]
           \/ exists programacionId payload,
               salidasPayload (pedidosSeleccionados s0) = inr payload
               /\ requests tr
                  = [programacion_post now idVehiculo idConductor idAdministrador s0;
                     salidas_post programacionId payload]).
Proof.
  cbv zeta. unfold ProgramarSalida.guardarProgramacion, primer_error, identificadores,
    confirm_message, coerceStringIdToNumber, registrar.
  destruct (isSubmitting s0); [now left|]. unfold Js.truthy.
  destruct (fechaEntrega s0 =? ""); [now left|]. cbn [negb].
  destruct (Js.str_lt (fechaEntrega s0) today); [now left|].
  destruct (vehiculoId s0 =? ""); [now left|]. cbn [negb].
  destruct (conductorId s0 =? ""); [now left|]. cbn [negb].
  rewrite filter_length_zero.
  destruct (pedidosSeleccionados s0) as [|p l] eqn:Hsel; [now left|].
  cbn [List.length Nat.eqb].
  destruct (existsb _ (p :: l)); [now left|]. cbn [negb].
  destruct (Number_ (vehiculoId s0)) as [idV|]; [|now left].
  destruct (Number_ (conductorId s0)) as [idC|]; [|now left].
  destruct (RoleProtectedRoute.userId auth) as [idA|]; [|now left].
  destruct (Js.truthy_opt token); [|now left]. cbn [negb].
  handler_unfold.
  destruct (confirm_answer w [] _) eqn:Hconf; [|now left]. cbn [negb app].
  right. exists idV, idC, idA. repeat (split; [reflexivity|]).
  destruct (fetch_answer w _ (programacion_post now idV idC idA s0)) as [e|resp];
    [now left|].
  destruct (ok resp); cbn [negb].
  2:{ destruct (text resp); now left. }
  assert (Hj : exists j, match json resp with inr a => a | inl _ => JNull end = j)
    by (now eexists).
  destruct Hj as [j Hj].
  destruct (json resp) as [e|j0]; subst j;
    (destruct (extractProgramacionId Number_ _) as [pid|]; [|now left]);
    (destruct (salidasPayload (p :: l)) as [e1|payload]; [now left|]);
    cbn [app];
    (destruct (fetch_answer w _ (salidas_post pid payload)) as [e2|resp2];
       [right; exists pid, payload; split; reflexivity|]);
    (destruct (ok resp2); cbn [negb];
       [right; exists pid, payload; split; reflexivity|]);
    destruct (text resp2); right; exists pid, payload; split; reflexivity.
Qed.

(** When the user declines, nothing is requested and only the two
    messages have been cleared. *)
Lemma guardarProgramacion_declined (w : World) (s0 : State) :
  confirm_answer w [] confirm_message = false ->
  requests (trace_of (guardarProgramacion s0) w s0) = []
  /\ (final_state (guardarProgramacion s0) w s0 = s0
      \/ exists e, final_state (guardarProgramacion s0) w s0
                   = set_submitError e (set_submitSuccess None s0)).
Proof.
  intros Hconf.
  unfold ProgramarSalida.guardarProgramacion, confirm_message, coerceStringIdToNumber in *.
  destruct (isSubmitting s0); [split; [reflexivity|now left]|].
  repeat match goal with
  | |- context [if ?c then set _ else _] =>
      destruct c; [split; [reflexivity|right; eexists; reflexivity]|]
  | |- context [match ?c with Some _ => _ | None => set _ end] =>
      destruct c; [|split; [reflexivity|right; eexists; reflexivity]]
  end.
  handler_unfold. rewrite Hconf. cbn.
  split; [reflexivity|right; eexists; reflexivity].
Qed.

End Guardar.

(** The six messages of the preconditions. *)
Definition mensajes_de_validacion : list string :=
  ["Selecciona una fecha de entrega.";
   "La fecha de entrega no puede ser anterior a hoy.";
   "Selecciona un vehiculo.";
   "Selecciona un conductor.";
   "Selecciona al menos un pedido para programar.";
   "Selecciona una ubicacion para cada pedido marcado."].

Lemma primer_error_mensaje today s0 msg :
  primer_error today s0 = Some msg -> In msg mensajes_de_validacion.
Proof.
  unfold primer_error, mensajes_de_validacion.
  repeat match goal with
  | |- context [if ?c then _ else _] => destruct c
  | |- context [match ?c with [] => _ | _ :: _ => _ end] => destruct c
  end; intros [= <-]; cbn; tauto.
Qed.

(** The statement of the specification: a failed precondition sets an error and leaves
    the rest of the state as it was. *)
Definition rejects_leaving_state_unchanged : Prop :=
  forall Number_ auth token today now (w : World) (s0 : State),
    ~ precondiciones today s0 ->
    requests (trace_of (guardarProgramacion Number_ auth token today now s0) w s0) = []
    /\ exists msg,
         final_state (guardarProgramacion Number_ auth token today now s0) w s0
         = set_submitError (Some msg) s0.

(** A form without a date that still shows the success of the previous
    programacion. *)
Definition tras_un_exito : State :=
  mkState "" "" "" [] [] [] 0 8 0 0 false None true false None
          (Some "Programacion registrada correctamente.").

Definition sin_red : World :=
  mkWorld (fun _ _ => true) (fun _ _ => inl (Error_ "Failed to fetch")).

(** That statement fails: rejecting the missing date also clears the
    success message that was shown. *)
Lemma guardarProgramacion_clears_success :
  ~ rejects_leaving_state_unchanged.
Proof.
  intros H.
  destruct (H Js.Number_decimal (RoleProtectedRoute.mkAuth true (Some "administrador") None)
              (Some "t") "2025-03-10" "2025-03-10T08:00:00" sin_red tras_un_exito)
    as [_ [msg Hmsg]].
  - intros (Hf & _). now apply Hf.
  - apply (f_equal submitSuccess) in Hmsg. discriminate Hmsg.
Qed.

(** C3, as amended.  [guardarProgramacion] does nothing while a submission
    is in progress.  Otherwise, whenever the delivery date is missing or
    earlier than today, no vehicle is selected, no driver is selected, zero
    pedidos are selected, or some selected pedido lacks a chosen location,
    it asks nothing and performs no HTTP request, sets [submitError] to the
    message of the first of these that fails, clears [submitSuccess], and
    leaves every other field of the state unchanged.  Only when all these
    preconditions hold (and the identifiers, the administrator and the token
    are there, and the user confirms) does it POST the programacion, followed
    at most by the POST of the selected salidas.  Dates are compared as
    strings, which for dates written yyyy-MM-dd is the order of the
    calendar. *)
Theorem guardarProgramacion_preconditions
    (Number_ : string -> option Z) (auth : RoleProtectedRoute.AuthState)
    (token : option string) (today now : string) (w : World) (s0 : State) :
  let handler := guardarProgramacion Number_ auth token today now s0 in
  (isSubmitting s0 = true -> run handler w s0 = (inr tt, s0, []))
  /\ (isSubmitting s0 = false ->
      ~ precondiciones today s0 ->
      exists msg,
        primer_error today s0 = Some msg
        /\ In msg mensajes_de_validacion
        /\ run handler w s0
           = (inr tt, set_submitError (Some msg) (set_submitSuccess None s0), []))
  /\ (requests (trace_of handler w s0) <> [] ->
      isSubmitting s0 = false
      /\ precondiciones today s0
      /\ confirm_answer w [] confirm_message = true
      /\ exists idVehiculo idConductor idAdministrador,
           identificadores Number_ auth token s0
           = Some (idVehiculo, idConductor, idAdministrador)
           /\ (requests (trace_of handler w s0)
                = [programacion_post now idVehiculo idConductor idAdministrador s0]
               \/ exists programacionId payload,
                   salidasPayload (pedidosSeleccionados s0) = inr payload
                   /\ requests (trace_of handler w s0)
                      = [programacion_post now idVehiculo idConductor idAdministrador s0;
                         salidas_post programacionId payload]))
  /\ (Js.is_iso_date (fechaEntrega s0) = true ->
      Js.is_iso_date today = true ->
      (Js.str_lt (fechaEntrega s0) today = true
       <-> Js.fecha_anterior_a (fechaEntrega s0) today)).
Proof.
  cbv zeta. split; [|split; [|split]]; [| | |apply IsoDateFacts.str_lt_chronological].
  - intros Hsub. unfold guardarProgramacion. now rewrite Hsub.
  - intros Hsub Hpre.
    destruct (primer_error today s0) as [msg|] eqn:Herr.
    + exists msg. split; [reflexivity|]. split; [now apply primer_error_mensaje with today s0|].
      now apply guardarProgramacion_rejects.
    + exfalso. apply Hpre. now apply primer_error_None.
  - intros Hreq.
    destruct (guardarProgramacion_requests Number_ auth token today now w s0)
      as [Hnone | (idV & idC & idA & Hsub & Herr & Hids & Hconf & Hshape)];
      [contradiction|].
    split; [exact Hsub|]. split; [now apply primer_error_None|]. split; [exact Hconf|].
    exists idV, idC, idA. split; [exact Hids|exact Hshape].
Qed.

End ProgramarSalidaFacts.

(* ===================================================================== *)
(** * Theorems: the monitoring panel *)
(* ===================================================================== *)

Module PanelMonitoreoFacts.
Import Effects PanelMonitoreo.
Import DispositivosFacts.
Local Open Scope string_scope.

Section Panel.
Variable Number_ : string -> option Z.
Variable todayIsoDate : string.

Local Abbreviation openEditForm := (PanelMonitoreo.openEditForm Number_ todayIsoDate).
Local Abbreviation handleEditSubmit := (PanelMonitoreo.handleEditSubmit todayIsoDate).

(** A delivered programacion does not open the edit form. *)
Lemma openEditForm_entregado (w : World) (programacion : ProgramacionItem) (s0 : State) :
  estadoEntrega programacion = Some 2%Z ->
  run (openEditForm programacion s0) w s0 = (inr tt, s0, []).
Proof.
  intros H. unfold PanelMonitoreo.openEditForm. rewrite H. reflexivity.
Qed.

(** Whatever item the form is opened on, it never ends up editing a
    delivered one that it was not editing before. *)
Lemma openEditForm_never_edits_entregado
    (w : World) (programacion : ProgramacionItem) (s0 : State) :
  let s' := final_state (openEditForm programacion s0) w s0 in
  editingProgramacion s' = editingProgramacion s0
  \/ editingProgramacion s' = None
  \/ (editingProgramacion s' = Some programacion
      /\ estadoEntrega programacion <> Some 2%Z).
Proof.
  cbv zeta. unfold PanelMonitoreo.openEditForm.
  destruct (estadoEntrega programacion) as [n|] eqn:He; cbn.
  - destruct (Z.eqb_spec n 2) as [->|Hn]; [now left|].
    destruct (is_editing s0 programacion); [right; now left|].
    right; right. split; [reflexivity|congruence].
  - destruct (is_editing s0 programacion); [right; now left|].
    right; right. split; [reflexivity|discriminate].
Qed.

(** The date of the form is the one the handler calls invalid: nothing is
    left of it after trimming.  No other text is refused for its form. *)
Definition fecha_invalida (editFecha0 : string) : Prop :=
  normalizeIsoDateString (Some editFecha0) = None.

(** The date of the form is earlier than today. *)
Definition fecha_anterior (editFecha0 : string) : Prop :=
  exists d, normalizeIsoDateString (Some editFecha0) = Some d
            /\ Js.str_lt d todayIsoDate = true.

Lemma fecha_invalida_blank (editFecha0 : string) :
  fecha_invalida editFecha0 <-> Js.trim editFecha0 = "".
Proof.
  clear Number_ todayIsoDate.
  unfold fecha_invalida, normalizeIsoDateString, Js.truthy.
  destruct (String.eqb_spec (Js.trim editFecha0) "") as [H|H]; cbn.
  - tauto.
  - destruct (Js.iso_prefix (Js.trim editFecha0)); split; congruence.
Qed.

(** An invalid or past date is rejected without a request: only the
    error of the form changes. *)
Lemma handleEditSubmit_rejects (w : World) (s0 : State) :
  fecha_invalida (editFecha s0) \/ fecha_anterior (editFecha s0) ->
  trace_of (handleEditSubmit s0) w s0 = []
  /\ (final_state (handleEditSubmit s0) w s0 = s0
      \/ exists msg, final_state (handleEditSubmit s0) w s0
                     = set_mutationError (Some msg) s0).
Proof.
  unfold fecha_invalida, fecha_anterior, PanelMonitoreo.handleEditSubmit.
  intros H. destruct (editingProgramacion s0) as [editing|];
    [|split; [reflexivity|now left]].
  destruct H as [-> | (d & -> & ->)];
    (split; [reflexivity|right; eexists; reflexivity]).
Qed.

(** For the values of a date input, '' or a date written yyyy-MM-dd, the
    two rejections are the empty date and the dates of the calendar before
    today. *)
Lemma fecha_anterior_chronological (editFecha0 : string) :
  Js.is_iso_date editFecha0 = true ->
  Js.is_iso_date todayIsoDate = true ->
  (fecha_anterior editFecha0 <-> Js.fecha_anterior_a editFecha0 todayIsoDate).
Proof.
  clear Number_.
  intros Hd Ht. unfold fecha_anterior, normalizeIsoDateString.
  destruct (IsoDateFacts.iso_date_trim_prefix editFecha0 Hd) as [-> ->].
  assert (Htr : Js.truthy editFecha0 = true).
  { destruct editFecha0; [discriminate Hd|reflexivity]. }
  rewrite Htr. cbn [negb].
  rewrite <- (IsoDateFacts.str_lt_chronological editFecha0 todayIsoDate Hd Ht). split.
  - intros (d & [= <-] & H). exact H.
  - intros H. now exists editFecha0.
Qed.

(** The list after a successful update of the date. *)
Definition items_con_fecha (editing : ProgramacionItem) (d : string)
    (l : list ProgramacionItem) : list ProgramacionItem :=
  map (fun item => if id item =? id editing then with_fechaEntrega d item else item) l.

Lemma handleEditSubmit_success
    (w : World) (s0 : State) (editing : ProgramacionItem) (d : string) (resp : Response) :
  editingProgramacion s0 = Some editing ->
  normalizeIsoDateString (Some (editFecha s0)) = Some d ->
  Js.str_lt d todayIsoDate = false ->
  fetch_answer w [] (update_request editing d) = inr resp ->
  ok resp = true ->
  trace_of (handleEditSubmit s0) w s0 = [EvRequest (update_request editing d)]
  /\ items (final_state (handleEditSubmit s0) w s0) = items_con_fecha editing d (items s0).
Proof.
  intros He Hd Hlt Hresp Hok. unfold PanelMonitoreo.handleEditSubmit, closeEditForm.
  rewrite He, Hd, Hlt. handler_unfold. rewrite Hresp, Hok. cbn. split; reflexivity.
Qed.

(** In [items_con_fecha] an item with another id is untouched, and an item
    with the id of the edited one changes in its [fechaEntrega] only. *)
Lemma items_con_fecha_frame (editing : ProgramacionItem) (d : string)
    (l : list ProgramacionItem) :
  List.length (items_con_fecha editing d l) = List.length l
  /\ forall i item, nth_error l i = Some item ->
       exists item', nth_error (items_con_fecha editing d l) i = Some item'
         /\ id item' = id item
         /\ estadoEntrega item' = estadoEntrega item
         /\ vehiculoDescripcion item' = vehiculoDescripcion item
         /\ conductorNombre item' = conductorNombre item
         /\ dispositivoId item' = dispositivoId item
         /\ (id item <> id editing -> item' = item)
         /\ (id item = id editing -> fechaEntrega item' = Some d).
Proof.
  unfold items_con_fecha. split; [apply length_map|].
  intros i item Hnth. rewrite nth_error_map, Hnth. cbn.
  destruct (String.eqb_spec (id item) (id editing)) as [Heq|Hne].
  - exists (with_fechaEntrega d item). cbn. repeat split; congruence.
  - exists item. repeat split; congruence.
Qed.

End Panel.

(** The panel with two items, the first one in edition with the text
    [editFecha0] as its new date. *)
Definition items_del_panel : list ProgramacionItem :=
  [mkItem "31" (Some "2025-03-12") (Some 0%Z) "1234ABC - Volvo" "Ana" None;
   mkItem "32" (Some "2025-03-09") (Some 2%Z) "5678DEF - Nissan" "Luis" None].

Definition panel_en_edicion (editFecha0 : string) : State :=
  mkState "" "" "" (mkSearchParams "" "" "") items_del_panel
    false None (nth_error items_del_panel 0) editFecha0 false None None None.

(** A backend that answers every request with 200 and an empty body. *)
Definition backend_que_acepta : World :=
  mkWorld (fun _ _ => true) (fun _ _ => inr (mkResponse true 200 (inr "") (inr JNull))).

(** C10, the claim as stated fails.  The handler tests the text of the date
    for being blank and for coming before today in the order of strings,
    and for nothing else: with '31/12/2025' in the form, which is not a
    date written yyyy-MM-dd, and today 2025-03-10, the PUT is sent with
    that text in its path and the item stores it.  So it is not true that
    every text that is not a date is rejected without a request. *)
Lemma handleEditSubmit_sends_unchecked_text :
  let s0 := panel_en_edicion "31/12/2025" in
  let handler := handleEditSubmit "2025-03-10" s0 in
  Js.is_iso_date (Js.trim (editFecha s0)) = false
  /\ map (fun r => (method r, url r)) (requests (trace_of handler backend_que_acepta s0))
     = [(PUT, "/api/v1/programacion-distribucion/updateFecha/31/31/12/2025")]
  /\ map fechaEntrega (items (final_state handler backend_que_acepta s0))
     = [Some "31/12/2025"; Some "2025-03-09"]
  /\ ~ (forall todayIsoDate w s,
          Js.is_iso_date (Js.trim (editFecha s)) = false ->
          requests (trace_of (handleEditSubmit todayIsoDate s) w s) = []).
Proof.
  cbv zeta. split; [reflexivity|]. split; [reflexivity|]. split; [reflexivity|].
  intros H.
  specialize (H "2025-03-10" backend_que_acepta (panel_en_edicion "31/12/2025") eq_refl).
  vm_compute in H. discriminate H.
Qed.

(** C10, as amended.  In the monitoring panel a programacion whose
    [estadoEntrega] is 2 (delivered) never enters edit mode: [openEditForm]
    returns without changing the state.  [handleEditSubmit] rejects,
    without sending any request, a date that is blank (nothing is left of
    it after trimming: it is made of white space characters of ECMAScript
    only) or that comes before today in the order of strings;
    for dates written yyyy-MM-dd, as a date input yields them, that order
    is the order of the calendar.  On a
    successful update of the date the only request is the PUT, and in the
    list every item with another id is unchanged while an item with the
    edited id changes in its [fechaEntrega] alone. *)
Theorem edit_date_frame
    (Number_ : string -> option Z) (todayIsoDate : string) (w : World) (s0 : State) :
  (forall programacion,
      estadoEntrega programacion = Some 2%Z ->
      run (openEditForm Number_ todayIsoDate programacion s0) w s0 = (inr tt, s0, []))
  /\ (forall programacion,
      let s' := final_state (openEditForm Number_ todayIsoDate programacion s0) w s0 in
      editingProgramacion s' = editingProgramacion s0
      \/ editingProgramacion s' = None
      \/ (editingProgramacion s' = Some programacion
          /\ estadoEntrega programacion <> Some 2%Z))
  /\ (fecha_invalida (editFecha s0) \/ fecha_anterior todayIsoDate (editFecha s0) ->
      requests (trace_of (handleEditSubmit todayIsoDate s0) w s0) = []
      /\ items (final_state (handleEditSubmit todayIsoDate s0) w s0) = items s0)
  /\ (fecha_invalida (editFecha s0) <-> Js.trim (editFecha s0) = "")
  /\ (Js.is_iso_date (editFecha s0) = true ->
      Js.is_iso_date todayIsoDate = true ->
      (fecha_anterior todayIsoDate (editFecha s0)
       <-> Js.fecha_anterior_a (editFecha s0) todayIsoDate))
  /\ (forall editing d resp,
      editingProgramacion s0 = Some editing ->
      normalizeIsoDateString (Some (editFecha s0)) = Some d ->
      Js.str_lt d todayIsoDate = false ->
      fetch_answer w [] (update_request editing d) = inr resp ->
      ok resp = true ->
      let s' := final_state (handleEditSubmit todayIsoDate s0) w s0 in
      requests (trace_of (handleEditSubmit todayIsoDate s0) w s0)
      = [update_request editing d]
      /\ List.length (items s') = List.length (items s0)
      /\ forall i item, nth_error (items s0) i = Some item ->
           exists item', nth_error (items s') i = Some item'
             /\ id item' = id item
             /\ estadoEntrega item' = estadoEntrega item
             /\ vehiculoDescripcion item' = vehiculoDescripcion item
             /\ conductorNombre item' = conductorNombre item
             /\ dispositivoId item' = dispositivoId item
             /\ (id item <> id editing -> item' = item)
             /\ (id item = id editing -> fechaEntrega item' = Some d))
  /\ (fecha_invalida (editFecha s0) <-> Js.espacios (editFecha s0)).
Proof.
  split; [|split; [|split; [|split; [|split; [|split]]]]].
  7:{ rewrite fecha_invalida_blank. apply TrimFacts.trim_empty_espacios. }
  - intros programacion H. now apply openEditForm_entregado.
  - intros programacion. apply openEditForm_never_edits_entregado.
  - intros H.
    destruct (handleEditSubmit_rejects todayIsoDate w s0 H) as [Htr [Hs | [msg Hs]]];
      rewrite Htr, Hs; split; reflexivity.
  - apply fecha_invalida_blank.
  - apply fecha_anterior_chronological.
  - intros editing d resp He Hd Hlt Hresp Hok. cbv zeta.
    destruct (handleEditSubmit_success todayIsoDate w s0 editing d resp He Hd Hlt Hresp Hok)
      as [Htr Hitems].
    rewrite Htr, Hitems. split; [reflexivity|].
    apply items_con_fecha_frame.
Qed.

(** The amended C10 at the panel with item 31 in edition: a form of
    no-break spaces only and one with yesterday's date send nothing, and
    2025-03-20 is stored in item 31 alone. *)
Lemma edit_date_frame_witness :
  (let s0 := panel_en_edicion (String (ascii_of_nat 194) (String (ascii_of_nat 160) "")) in
   requests (trace_of (handleEditSubmit "2025-03-10" s0) backend_que_acepta s0) = []
   /\ items (final_state (handleEditSubmit "2025-03-10" s0) backend_que_acepta s0) = items s0)
  /\ (let s0 := panel_en_edicion "2025-03-09" in
      requests (trace_of (handleEditSubmit "2025-03-10" s0) backend_que_acepta s0) = []
      /\ items (final_state (handleEditSubmit "2025-03-10" s0) backend_que_acepta s0) = items s0)
  /\ (let s0 := panel_en_edicion "2025-03-20" in
      requests (trace_of (handleEditSubmit "2025-03-10" s0) backend_que_acepta s0)
      = [update_request (mkItem "31" (Some "2025-03-12") (Some 0%Z) "1234ABC - Volvo" "Ana" None)
           "2025-03-20"]).
Proof.
  split; [|split].
  - refine (proj1 (proj2 (proj2 (edit_date_frame Js.Number_decimal "2025-03-10"
              backend_que_acepta (panel_en_edicion _)))) _).
    left. reflexivity.
  - refine (proj1 (proj2 (proj2 (edit_date_frame Js.Number_decimal "2025-03-10"
              backend_que_acepta (panel_en_edicion _)))) _).
    right. exists "2025-03-09". split; reflexivity.
  - refine (proj1 (proj1 (proj2 (proj2 (proj2 (proj2 (proj2
              (edit_date_frame Js.Number_decimal "2025-03-10"
                 backend_que_acepta (panel_en_edicion "2025-03-20")))))))
              _ "2025-03-20" (mkResponse true 200 (inr "") (inr JNull))
              eq_refl eq_refl eq_refl eq_refl eq_refl)).
Defined.

End PanelMonitoreoFacts.

(* ===================================================================== *)
(** * Theorems: the confirm dialogs *)
(* ===================================================================== *)

Module ConfirmFacts.
Import Effects.
Import DispositivosFacts.
Local Open Scope string_scope.

Definition observacion_message : string := "Esta seguro de registrar la observacion?".

Definition delete_message (programacion : PanelMonitoreo.ProgramacionItem) : string :=
  "¿Deseas eliminar la programación " ++ PanelMonitoreo.id programacion
    ++ "? Esta acción no se puede deshacer.".

(** Declining the dialog of the observation form: nothing is sent and the
    state is as before. *)
Lemma onSubmit_declined
    (Number_ : string -> option Z) (conductorId : option Js.Scalar)
    (productoId notaId : option string) (w : World) (s0 : EntregaObservacion.State) :
  confirm_answer w [] observacion_message = false ->
  requests (trace_of (EntregaObservacion.onSubmit Number_ conductorId productoId notaId s0)
                     w s0) = []
  /\ final_state (EntregaObservacion.onSubmit Number_ conductorId productoId notaId s0) w s0
     = s0.
Proof.
  intros Hconf. unfold EntregaObservacion.onSubmit, observacion_message in *.
  destruct (negb _ || _); [split; reflexivity|].
  handler_unfold. rewrite Hconf. split; reflexivity.
Qed.

(** Declining the dialog of the delete action of the panel. *)
Lemma handleDelete_declined
    (programacion : PanelMonitoreo.ProgramacionItem) (w : World) (s0 : PanelMonitoreo.State) :
  confirm_answer w [] (delete_message programacion) = false ->
  requests (trace_of (PanelMonitoreo.handleDelete programacion s0) w s0) = []
  /\ final_state (PanelMonitoreo.handleDelete programacion s0) w s0 = s0.
Proof.
  intros Hconf. unfold PanelMonitoreo.handleDelete, delete_message in *.
  handler_unfold. rewrite Hconf. split; reflexivity.
Qed.

(** The statement of the specification, for the form of the programacion: the dialog is
    shown, the user declines, and the state is as before. *)
Definition declined_leaves_state_unchanged : Prop :=
  forall Number_ auth token today now (w : World) (s0 : ProgramarSalida.State),
    trace_of (ProgramarSalida.guardarProgramacion Number_ auth token today now s0) w s0
    = [EvConfirm ProgramarSalidaFacts.confirm_message] ->
    confirm_answer w [] ProgramarSalidaFacts.confirm_message = false ->
    requests (trace_of (ProgramarSalida.guardarProgramacion Number_ auth token today now s0)
                       w s0) = []
    /\ final_state (ProgramarSalida.guardarProgramacion Number_ auth token today now s0) w s0
       = s0.

(** A complete form, shown after a successful registration. *)
Definition pedido_listo : ProgramarSalida.Pedido :=
  ProgramarSalida.mkPedido "41" "1007" "2210" "Ferreteria Sur" None
    [ProgramarSalida.mkPedidoUbicacion "9" "Almacen central"
       (Some (JObj [("idUbicacionCliente", JNum 9)]))]
    (Some "9") (Some true)
    (JObj [("idNotaSalida", JNum 41)]).

Definition formulario_completo : ProgramarSalida.State :=
  ProgramarSalida.mkState "2025-03-12" "3" "5" [] [] [pedido_listo] 0 8 1 1 false None true
    false None (Some "Programacion registrada correctamente.").

Definition usuario_declina : World :=
  mkWorld (fun _ _ => false) (fun _ _ => inl (Error_ "Failed to fetch")).

(** That statement fails for the form of the programacion: the two
    messages are cleared before the dialog is shown, so a declined dialog
    leaves the form without the success message it showed. *)
Lemma guardarProgramacion_declined_clears_messages :
  ~ declined_leaves_state_unchanged.
Proof.
  intros H.
  destruct (H Js.Number_decimal
              (RoleProtectedRoute.mkAuth true (Some "administrador") (Some (Js.Num 1)))
              (Some "t") "2025-03-10" "2025-03-10T08:00:00"
              usuario_declina formulario_completo eq_refl eq_refl) as [_ Hs].
  apply (f_equal ProgramarSalida.submitSuccess) in Hs. vm_compute in Hs. discriminate Hs.
Qed.

(** C6, as amended.  The observation form, the form of the programacion
    and the delete action of the monitoring panel ask for confirmation
    before they send anything: if the user declines the dialog, no HTTP
    request is issued; the observation form and the panel are left in the
    state they were in, and the form of the programacion is left as it was
    except for [submitError] and [submitSuccess], which it clears before
    validating. *)
Theorem declined_confirm_sends_nothing (w : World) :
  (forall Number_ conductorId productoId notaId (s0 : EntregaObservacion.State),
      confirm_answer w [] observacion_message = false ->
      requests (trace_of (EntregaObservacion.onSubmit Number_ conductorId productoId notaId s0)
                         w s0) = []
      /\ final_state (EntregaObservacion.onSubmit Number_ conductorId productoId notaId s0)
                     w s0 = s0)
  /\ (forall Number_ auth token today now (s0 : ProgramarSalida.State),
      confirm_answer w [] ProgramarSalidaFacts.confirm_message = false ->
      requests (trace_of (ProgramarSalida.guardarProgramacion Number_ auth token today now s0)
                         w s0) = []
      /\ (final_state (ProgramarSalida.guardarProgramacion Number_ auth token today now s0)
                      w s0 = s0
          \/ exists e,
               final_state (ProgramarSalida.guardarProgramacion Number_ auth token today now s0)
                           w s0
               = ProgramarSalida.set_submitError e
                   (ProgramarSalida.set_submitSuccess None s0)))
  /\ (forall programacion (s0 : PanelMonitoreo.State),
      confirm_answer w [] (delete_message programacion) = false ->
      requests (trace_of (PanelMonitoreo.handleDelete programacion s0) w s0) = []
      /\ final_state (PanelMonitoreo.handleDelete programacion s0) w s0 = s0).
Proof.
  split; [|split].
  - intros. now apply onSubmit_declined.
  - intros. now apply ProgramarSalidaFacts.guardarProgramacion_declined.
  - intros. now apply handleDelete_declined.
Qed.

End ConfirmFacts.

(* ===================================================================== *)
(** * Theorems: the paginated lists *)
(* ===================================================================== *)

Module PaginationFacts.
Import Effects.
Import DispositivosFacts.
Local Open Scope string_scope.
Local Open Scope Z_scope.

(** [Math.ceil(a / b)] is the least number of pages of [b] that hold [a]. *)
Lemma ceil_div_spec (a b c : Z) :
  0 < b -> c = - ((- a) / b) -> (c - 1) * b < a <= c * b.
Proof.
  intros Hb ->.
  pose proof (Z.mul_div_le (- a) b Hb).
  pose proof (Z.mul_succ_div_gt (- a) b Hb).
  nia.
Qed.

(** The answer of the list request is a page object, read without error:
    the response is ok and its body has no code, a falsy one, or 200. *)
Definition page_response (w : World) (r : Request) (fields : list (string * Json)) : Prop :=
  exists resp j,
    fetch_answer w [] r = inr resp
    /\ ok resp = true
    /\ json resp = inr j
    /\ code_rejected j = false
    /\ field "data" j = Some (JObj fields).

Module D := Dispositivos.
Module P := ProgramarSalida.

Section Devices.
Variable encodeURIComponent : string -> string.
Variable token : option string.

Lemma devices_one_request (w : World) (s0 : D.State) :
  Js.truthy_opt token = true ->
  requests (trace_of (D.efecto_lista encodeURIComponent token s0) w s0)
  = [D.list_request encodeURIComponent s0].
Proof.
  intros Htok. unfold D.efecto_lista, D.obtenerDispositivos. rewrite Htok.
  cbn [negb]. handler_unfold. run_cases.
Qed.

Lemma devices_reset (w : World) (s0 : D.State) (fields : list (string * Json)) (tp : Z) :
  Js.truthy_opt token = true ->
  page_response w (D.list_request encodeURIComponent s0) fields ->
  as_number (field "totalPages" (JObj fields)) = Some tp ->
  0 < tp -> tp <= D.page s0 ->
  let s' := final_state (D.efecto_lista encodeURIComponent token s0) w s0 in
  D.page s' = tp - 1 /\ D.dispositivos s' = D.dispositivos s0.
Proof.
  intros Htok (resp & j & Hresp & Hok & Hj & Hcode & Hdata) Htp Hpos Hle.
  cbv zeta. unfold D.efecto_lista, D.obtenerDispositivos. rewrite Htok.
  cbn [negb]. handler_unfold. rewrite Hresp, Hj, Hok. cbn [negb].
  rewrite Hcode, Hdata. unfold D.leer_pagina. rewrite Htp. cbn [D.totalPaginas].
  unfold D.safePage_of.
  replace ((0 <? tp) && (tp <=? Z.max (D.page s0) 0)) with true
    by (symmetry; apply andb_true_iff; split; [apply Z.ltb_lt|apply Z.leb_le]; lia).
  cbn. split; [lia|reflexivity].
Qed.

Lemma devices_derived (fields : list (string * Json)) (safePage size0 te : Z) :
  as_number (field "totalPages" (JObj fields)) = None ->
  as_number (field "totalElements" (JObj fields)) = Some te ->
  0 < te -> 0 < size0 ->
  let n := D.totalPaginas (D.leer_pagina (Some (JObj fields)) safePage size0) in
  n = D.Math_ceil_div te size0 /\ (n - 1) * size0 < te <= n * size0.
Proof.
  intros Htp Hte Hpos Hsize. cbv zeta.
  unfold D.leer_pagina. rewrite Htp, Hte. cbn [D.totalPaginas].
  replace ((0 <? te) && (0 <? size0)) with true
    by (symmetry; apply andb_true_iff; split; apply Z.ltb_lt; lia).
  split; [reflexivity|]. now apply ceil_div_spec.
Qed.

End Devices.

Section Orders.
Variable token : option string.

Lemma orders_one_request (w : World) (s0 : P.State) :
  Js.truthy_opt token = true ->
  requests (trace_of (P.efecto_pedidos token s0) w s0) = [P.notas_request s0].
Proof.
  intros Htok. unfold P.efecto_pedidos, P.obtenerNotasSalida. rewrite Htok.
  cbn [negb]. handler_unfold. run_cases.
Qed.

Lemma orders_reset (w : World) (s0 : P.State) (fields : list (string * Json)) (tp : Z) :
  Js.truthy_opt token = true ->
  page_response w (P.notas_request s0) fields ->
  as_number (field "totalPages" (JObj fields)) = Some tp ->
  0 < tp -> tp <= P.pedidosPage s0 ->
  let s' := final_state (P.efecto_pedidos token s0) w s0 in
  P.pedidosPage s' = tp - 1 /\ P.pedidos s' = P.pedidos s0.
Proof.
  intros Htok (resp & j & Hresp & Hok & Hj & Hcode & Hdata) Htp Hpos Hle.
  cbv zeta. unfold P.efecto_pedidos, P.obtenerNotasSalida. rewrite Htok.
  cbn [negb]. handler_unfold. rewrite Hresp, Hj, Hok. cbn [negb].
  rewrite Hcode, Hdata. unfold P.leer_pagina. rewrite Htp. cbn [P.totalPaginas].
  replace ((0 <? tp) && (tp <=? Z.max 0 (P.pedidosPage s0))) with true
    by (symmetry; apply andb_true_iff; split; [apply Z.ltb_lt|apply Z.leb_le]; lia).
  cbn. split; [lia|reflexivity].
Qed.

End Orders.

(** The derivation of the page count, stated for the page of the orders: a
    response without [totalPages] leaves [ceil(totalElements / size)] as
    the number of pages. *)
Definition orders_total_pages_derived : Prop :=
  forall token (w : World) (s0 : P.State) fields te,
    Js.truthy_opt token = true ->
    page_response w (P.notas_request s0) fields ->
    as_number (field "totalPages" (JObj fields)) = None ->
    as_number (field "totalElements" (JObj fields)) = Some te ->
    0 < te -> 0 < P.pedidosSize s0 ->
    P.pedidosTotalPages (final_state (P.efecto_pedidos token s0) w s0)
    = P.Math_ceil_div te (P.pedidosSize s0).

(** The first page of twenty orders, eight to a page, in a response that
    does not carry [totalPages]. *)
Definition primera_pagina : list (string * Json) :=
  [("content", JArr (map (fun k => JObj [("idNotaSalida", JNum k)]) [1; 2; 3; 4; 5; 6; 7; 8]));
   ("totalElements", JNum 20)].

Definition backend_sin_totalPages : World :=
  mkWorld (fun _ _ => true)
          (fun _ _ => inr (mkResponse true 200 (inr "")
                             (inr (JObj [("code", JNum 200);
                                         ("data", JObj primera_pagina)])))).

Definition pedidos_inicial : P.State :=
  P.mkState "2025-03-10" "" "" [] [] [] 0 8 0 0 false None true false None None.

(** That statement fails on the page of the orders: without
    [totalPages] the effect stores 1 page for any non-empty content, where
    twenty orders at eight to a page make 3. *)
Lemma orders_total_pages_not_derived : ~ orders_total_pages_derived.
Proof.
  intros H.
  specialize (H (Some "t") backend_sin_totalPages pedidos_inicial primera_pagina 20
                eq_refl).
  assert (Hresp : page_response backend_sin_totalPages (P.notas_request pedidos_inicial)
                                primera_pagina).
  { eexists _, _. repeat split; reflexivity. }
  specialize (H Hresp eq_refl eq_refl eq_refl eq_refl).
  vm_compute in H. discriminate H.
Qed.

(** What holds of the two paginated lists.  On the devices page and on the
    page of the orders: the effect requests the page [Math.max(page, 0)],
    which is at least 0; the Previous handler leaves a page that is at
    least 0 and none below 0; the Next handler does nothing on the last
    page; and after a fetch whose response reports [totalPages > 0] with
    the current page at or beyond it, the page is reset to
    [totalPages - 1] and the list is left as it was.  On the devices page
    a response without [totalPages] gives [ceil(totalElements / size)]
    pages for positive totals. *)
Lemma pagination_in_range (w : World) :
  (forall encodeURIComponent token (s0 : D.State),
      Js.truthy_opt token = true ->
      requests (trace_of (D.efecto_lista encodeURIComponent token s0) w s0)
      = [D.list_request encodeURIComponent s0]
      /\ (exists term,
            url (D.list_request encodeURIComponent s0)
            = "/api/v1/dispositivosGps/" ++ encodeURIComponent term
                ++ "?page=" ++ Js.String_of_Z (Z.max (D.page s0) 0)
                ++ "&size=" ++ Js.String_of_Z (D.size s0))
      /\ 0 <= Z.max (D.page s0) 0)
  /\ (forall (s0 : D.State),
      let s' := final_state (D.handlePreviousPage s0) w s0 in
      (D.page s' = D.page s0 \/ D.page s' = Z.max (D.page s0 - 1) 0)
      /\ (0 <= D.page s0 -> 0 <= D.page s'))
  /\ (forall (s0 : D.State),
      D.isLastPage s0 = true -> run (D.handleNextPage s0) w s0 = (inr tt, s0, []))
  /\ (forall encodeURIComponent token (s0 : D.State) fields tp,
      Js.truthy_opt token = true ->
      page_response w (D.list_request encodeURIComponent s0) fields ->
      as_number (field "totalPages" (JObj fields)) = Some tp ->
      0 < tp -> tp <= D.page s0 ->
      let s' := final_state (D.efecto_lista encodeURIComponent token s0) w s0 in
      D.page s' = tp - 1 /\ D.dispositivos s' = D.dispositivos s0)
  /\ (forall fields safePage size0 te,
      as_number (field "totalPages" (JObj fields)) = None ->
      as_number (field "totalElements" (JObj fields)) = Some te ->
      0 < te -> 0 < size0 ->
      let n := D.totalPaginas (D.leer_pagina (Some (JObj fields)) safePage size0) in
      n = D.Math_ceil_div te size0 /\ (n - 1) * size0 < te <= n * size0)
  /\ (forall token (s0 : P.State),
      Js.truthy_opt token = true ->
      requests (trace_of (P.efecto_pedidos token s0) w s0) = [P.notas_request s0]
      /\ url (P.notas_request s0)
         = "/api/v1/notas-salidas/obtener?page="
             ++ Js.String_of_Z (Z.max 0 (P.pedidosPage s0))
             ++ "&size=" ++ Js.String_of_Z (P.pedidosSize s0)
      /\ 0 <= Z.max 0 (P.pedidosPage s0))
  /\ (forall (s0 : P.State),
      let s' := final_state (P.handlePreviousPedidosPage s0) w s0 in
      (P.pedidosPage s' = P.pedidosPage s0
       \/ P.pedidosPage s' = Z.max (P.pedidosPage s0 - 1) 0)
      /\ (0 <= P.pedidosPage s0 -> 0 <= P.pedidosPage s'))
  /\ (forall (s0 : P.State),
      (P.isLastPedidosPage s0 = true ->
       run (P.handleNextPedidosPage s0) w s0 = (inr tt, s0, []))
      /\ (0 < P.pedidosTotalPages s0 ->
          P.pedidosTotalPages s0 - 1 <= P.pedidosPage s0 ->
          P.isLastPedidosPage s0 = true))
  /\ (forall token (s0 : P.State) fields tp,
      Js.truthy_opt token = true ->
      page_response w (P.notas_request s0) fields ->
      as_number (field "totalPages" (JObj fields)) = Some tp ->
      0 < tp -> tp <= P.pedidosPage s0 ->
      let s' := final_state (P.efecto_pedidos token s0) w s0 in
      P.pedidosPage s' = tp - 1 /\ P.pedidos s' = P.pedidos s0).
Proof.
  repeat match goal with |- _ /\ _ => split end.
  - intros enc token s0 Htok. split; [now apply devices_one_request|].
    split; [eexists; reflexivity|lia].
  - intros s0. cbv zeta. unfold D.handlePreviousPage.
    destruct (D.isFirstPage s0 || D.loading s0); cbn; split; auto; lia.
  - intros s0 Hlast. unfold D.handleNextPage. now rewrite Hlast.
  - intros enc token s0 fields tp. apply devices_reset.
  - intros fields safePage size0 te. apply devices_derived.
  - intros token s0 Htok. split; [now apply orders_one_request|].
    split; [reflexivity|lia].
  - intros s0. cbv zeta. unfold P.handlePreviousPedidosPage.
    destruct (P.isFirstPedidosPage s0 || P.isLoadingPedidos s0); cbn; split; auto; lia.
  - intros s0. split.
    + intros Hlast. unfold P.handleNextPedidosPage. now rewrite Hlast.
    + intros Hpos Hle. unfold P.isLastPedidosPage.
      apply Z.ltb_lt in Hpos. rewrite Hpos. now apply Z.leb_le.
  - intros token s0 fields tp. apply orders_reset.
Qed.

(** C7.  The page of the orders does not derive the number of pages.  The
    backend answers the first page of twenty orders, eight to a page,
    without [totalPages].  The devices page reads 3 pages from that page
    object, which is [ceil(20 / 8)]; the effect of the orders stores 1.
    The page count shown, which falls back on [ceil] of the stored total
    only when the stored count is not positive, is then 1 as well, and the
    Next handler takes the first page for the last and does nothing: the
    twelve other orders cannot be reached. *)
Theorem orders_total_pages_stored_as_one :
  let s' := final_state (P.efecto_pedidos (Some "t") pedidos_inicial)
                        backend_sin_totalPages pedidos_inicial in
  as_number (field "totalPages" (JObj primera_pagina)) = None
  /\ as_number (field "totalElements" (JObj primera_pagina)) = Some 20
  /\ P.pedidosSize pedidos_inicial = 8
  /\ P.Math_ceil_div 20 8 = 3
  /\ D.totalPaginas (D.leer_pagina (Some (JObj primera_pagina)) 0 8) = 3
  /\ requests (trace_of (P.efecto_pedidos (Some "t") pedidos_inicial)
                 backend_sin_totalPages pedidos_inicial)
     = [P.notas_request pedidos_inicial]
  /\ P.pedidosTotalPages s' = 1
  /\ P.pedidosTotalElements s' = 20
  /\ List.length (P.pedidos s') = 8%nat
  /\ P.pedidosPage s' = 0
  /\ P.totalPaginasVisibles s' = 1
  /\ P.isLastPedidosPage s' = true
  /\ run (P.handleNextPedidosPage s') backend_sin_totalPages s' = (inr tt, s', []).
Proof. vm_compute. repeat split. Qed.

End PaginationFacts.

(* ===================================================================== *)
(** * Lemmas: values read from a response, [split] and [||] *)
(* ===================================================================== *)

Module ValoresFacts.
Import Effects Valores.
Local Open Scope string_scope.

Lemma or_else_not_empty (s fallback : string) : fallback <> "" -> or_else s fallback <> "".
Proof.
  intros Hf. unfold or_else, Js.truthy.
  destruct (String.eqb_spec s ""); cbn; assumption.
Qed.

Lemma truthy_iff_not_empty (s : string) : Js.truthy s = true <-> s <> "".
Proof.
  unfold Js.truthy. destruct (String.eqb_spec s ""); cbn; split; congruence.
Qed.

Lemma ltb_irrefl (x : string) : String.ltb x x = false.
Proof. unfold String.ltb. now rewrite StringOrder.compare_refl. Qed.

Lemma map_throwing_Forall {A : Type} (f : Json -> JsError + A) (P : A -> Prop)
    (items : list Json) (l : list A) :
  (forall item a, f item = inr a -> P a) ->
  map_throwing f items = inr l -> Forall P l.
Proof.
  intros Hf. revert l. induction items as [|item rest IH]; cbn; intros l H.
  - injection H as <-. constructor.
  - destruct (f item) as [e|a] eqn:Ha; [discriminate|].
    destruct (map_throwing f rest) as [e|l'] eqn:Hl; [discriminate|].
    injection H as <-. constructor; [eapply Hf; eassumption|now apply IH].
Qed.

(** The characters of a string differ from [sep]. *)
Fixpoint without (sep : ascii) (s : string) : bool :=
  match s with
  | EmptyString => true
  | String c rest => negb (Ascii.eqb c sep) && without sep rest
  end.

Lemma split_not_nil (sep : ascii) (value : string) : split sep value <> [].
Proof.
  destruct value as [|c rest]; cbn; [discriminate|].
  destruct (Ascii.eqb c sep); [discriminate|]. destruct (split sep rest); discriminate.
Qed.

Lemma split_cons (sep c : ascii) (rest : string) :
  Ascii.eqb c sep = false ->
  split sep (String c rest)
  = String c (hd "" (split sep rest)) :: tl (split sep rest).
Proof.
  intros H. cbn. rewrite H.
  destruct (split sep rest) eqn:E; [now apply split_not_nil in E|reflexivity].
Qed.

Lemma hd_split_cons (sep c : ascii) (rest : string) :
  Ascii.eqb c sep = false ->
  hd "" (split sep (String c rest)) = String c (hd "" (split sep rest)).
Proof. intros H. now rewrite split_cons. Qed.

Lemma split_whole (sep : ascii) (a : string) :
  without sep a = true -> split sep a = [a].
Proof.
  induction a as [|c a IH]; cbn [without]; [reflexivity|].
  intros H. apply andb_true_iff in H as [Hc Ha]. apply negb_true_iff in Hc.
  rewrite split_cons by exact Hc. now rewrite IH.
Qed.

Lemma split_app (sep : ascii) (a rest : string) :
  without sep a = true -> split sep (a ++ String sep rest) = a :: split sep rest.
Proof.
  induction a as [|c a IH]; cbn [without append].
  - intros _. cbn. now rewrite Ascii.eqb_refl.
  - intros H. apply andb_true_iff in H as [Hc Ha]. apply negb_true_iff in Hc.
    rewrite split_cons by exact Hc. now rewrite IH.
Qed.

Lemma hd_split_whole (sep : ascii) (a : string) :
  without sep a = true -> hd "" (split sep a) = a.
Proof. intros H. now rewrite split_whole. Qed.

Lemma hd_split_app (sep : ascii) (a rest : string) :
  without sep a = true -> hd "" (split sep (a ++ String sep rest)) = a.
Proof. intros H. now rewrite split_app. Qed.

(** The parts of a split hold no separator, and joined by it they give the
    string back. *)
Lemma split_without (sep : ascii) (value : string) :
  forallb (without sep) (split sep value) = true.
Proof.
  induction value as [|c rest IH]; [reflexivity|].
  destruct (Ascii.eqb c sep) eqn:Hc.
  - cbn [split]. rewrite Hc. cbn. exact IH.
  - rewrite split_cons by exact Hc.
    destruct (split sep rest) as [|p ps] eqn:E; [now apply split_not_nil in E|].
    cbn in *. now rewrite Hc.
Qed.

Lemma concat_split (sep : ascii) (value : string) :
  String.concat (String sep "") (split sep value) = value.
Proof.
  induction value as [|c rest IH]; [reflexivity|].
  pose proof (split_not_nil sep rest) as Hnil.
  destruct (Ascii.eqb_spec c sep) as [->|Hc].
  - cbn [split]. rewrite Ascii.eqb_refl.
    destruct (split sep rest) as [|p ps]; [contradiction|].
    change (String.concat (String sep "") ("" :: p :: ps))
      with (String sep (String.concat (String sep "") (p :: ps))).
    now rewrite IH.
  - apply Ascii.eqb_neq in Hc. rewrite split_cons by exact Hc.
    destruct (split sep rest) as [|p ps]; [contradiction|].
    cbn [hd tl]. destruct ps as [|q qs].
    + cbn in *. now rewrite IH.
    + change (String.concat (String sep "") (String c p :: q :: qs))
        with (String c (String.concat (String sep "") (p :: q :: qs))).
      now rewrite IH.
Qed.

End ValoresFacts.

(* ===================================================================== *)
(** * The route table under the guard *)
(* ===================================================================== *)

Module GuardedRouterFacts.
Import RoleProtectedRoute Router.
Local Open Scope string_scope.

(** What a route of the table shows to a user: the guard decides for a
    guarded element, any other element is rendered as it is. *)
Definition render (auth : AuthState) (e : Element) : Rendered Element :=
  match e with
  | Guarded allowedRoles child => RoleProtectedRoute auth allowedRoles child
  | El _ => Children e
  end.

(** The routes of the table with a given path. *)
Definition routes_at (target : string) : list RouteObject :=
  filter (fun r => path r =? target) (all_routes Router).

Definition is_navigate (x : Rendered Element) : bool :=
  match x with
  | Navigate _ _ | NavigateMember _ _ => true
  | _ => false
  end.

Lemma inherited_not_role (name : string) :
  inherited name = true ->
  Js.truthy name = true /\ (name =? "administrador") = false
  /\ (name =? "conductor") = false.
Proof.
  intros Hi. unfold inherited in Hi. apply existsb_exists in Hi as (n & Hin & Hn).
  apply String.eqb_eq in Hn. subst n. cbn in Hin.
  repeat (destruct Hin as [<-|Hin]; [repeat split|]). contradiction.
Qed.

Lemma fallback_cases (role : option string) :
  (fallback role = ToPath "/menu/reportes" /\ role = Some "administrador")
  \/ (fallback role = ToPath "/menu/entregas" /\ role = Some "conductor")
  \/ (fallback role = ToPath "/inicio" /\ role <> Some "administrador"
      /\ role <> Some "conductor")
  \/ (exists name, role = Some name /\ inherited name = true
                   /\ fallback role = ToMember name).
Proof.
  destruct role as [r|]; cbn -[inherited].
  - destruct (Js.truthy r) eqn:Ht.
    + unfold ROLE_DEFAULT_PATH_get. cbn -[inherited].
      destruct (String.eqb_spec r "administrador") as [->|Ha]; [now left|].
      destruct (String.eqb_spec r "conductor") as [->|Hc]; [right; now left|].
      destruct (inherited r) eqn:Hi.
      * right; right; right. now exists r.
      * right; right; left. repeat split; congruence.
    + unfold Js.truthy in Ht. apply negb_false_iff, String.eqb_eq in Ht. subst r.
      right; right; left. repeat split; congruence.
  - right; right; left. repeat split; congruence.
Qed.

Lemma includes_inherited (roles : list AllowedRole) (name : string) :
  inherited name = true -> includes roles name = false.
Proof.
  intros Hi. destruct (inherited_not_role name Hi) as (_ & Ha & Hc).
  unfold includes. induction roles as [|a roles IH]; [reflexivity|].
  cbn [existsb]. rewrite IH, orb_false_r.
  destruct a; cbn [AllowedRole_name]; now rewrite String.eqb_sym.
Qed.

(** A guard with roles sends a role of an inherited name to that member. *)
Lemma guard_inherited
    (auth : AuthState) (roles : list AllowedRole) (child : Element) (name : string) :
  isAuthenticated auth = true -> roleName auth = Some name -> inherited name = true ->
  roles <> [] ->
  render auth (Guarded roles child) = NavigateMember name true.
Proof.
  intros Hauth Hr Hi Hne. destruct (inherited_not_role name Hi) as (Ht & Ha & Hc).
  cbn [render]. unfold RoleProtectedRoute.RoleProtectedRoute, role_rejected, fallback,
    ROLE_DEFAULT_PATH_get.
  rewrite Hauth, Hr, Ht, Hi, (includes_inherited roles name Hi).
  cbn [AllowedRole_name negb orb]. rewrite Ha, Hc.
  destruct roles; [contradiction|reflexivity].
Qed.

(** What the guard renders for a redirect. *)
Lemma render_redirect (auth : AuthState) (e : Element) :
  is_navigate (render auth e) = true ->
  isAuthenticated auth = true
  /\ match fallback (roleName auth) with
     | ToPath to => render auth e = Navigate to true
     | ToMember name => render auth e = NavigateMember name true
     end.
Proof.
  destruct e as [c|roles child]; cbn; [discriminate|].
  unfold RoleProtectedRoute.RoleProtectedRoute.
  destruct (isAuthenticated auth); cbn; [|discriminate].
  destruct (_ && _); [|discriminate]. intros _. split; [reflexivity|].
  now destruct (fallback (roleName auth)).
Qed.

(** X1.  A redirect of the guard to a path lands on a page that opens.
    Whenever a route of the table sends a user to a path, the target is the
    path of exactly one route of the table, and that route renders its page
    for the same user: the guard never redirects twice.  The one redirect
    that is not to a path is that of a signed-in user whose role is the name
    of a member of [Object.prototype]: every guarded route sends such a
    user to that member, and no other user is sent there. *)
Theorem redirect_lands_on_open_route (auth : AuthState) (r : RouteObject) :
  In r (all_routes Router) ->
  (forall target replace,
      render auth (element r) = Navigate target replace ->
      exists r', routes_at target = [r']
                 /\ is_navigate (render auth (element r')) = false
                 /\ render auth (element r') <> SessionClosedMessage)
  /\ (forall name replace,
         render auth (element r) = NavigateMember name replace ->
         roleName auth = Some name /\ inherited name = true /\ replace = true)
  /\ (forall name,
         isAuthenticated auth = true -> roleName auth = Some name ->
         inherited name = true -> is_guarded (element r) = true ->
         render auth (element r) = NavigateMember name true).
Proof.
  intros Hin. split; [|split].
  - intros target replace Hnav.
    destruct (render_redirect auth (element r)) as [Hauth Hfb];
      [now rewrite Hnav|].
    destruct (fallback_cases (roleName auth))
      as [[Hf Hr]|[[Hf Hr]|[[Hf [Hna Hnc]]|(name & Hr & Hi & Hf)]]];
      rewrite Hf in Hfb; rewrite Hfb in Hnav.
    + exfalso. clear Hnav. cbn in Hin.
      repeat (destruct Hin as [<-|Hin];
              [cbn in Hfb; unfold RoleProtectedRoute.RoleProtectedRoute in Hfb;
               rewrite ?Hauth, ?Hr in Hfb; cbn in Hfb; discriminate|]).
      contradiction.
    + injection Hnav as <- _. eexists. split; [reflexivity|].
      cbn. unfold RoleProtectedRoute.RoleProtectedRoute. rewrite Hauth, Hr. cbn.
      split; [reflexivity|discriminate].
    + injection Hnav as <- _. eexists. split; [reflexivity|].
      cbn. split; [reflexivity|discriminate].
    + discriminate.
  - intros name replace Hnav.
    destruct (render_redirect auth (element r)) as [Hauth Hfb];
      [now rewrite Hnav|].
    destruct (fallback_cases (roleName auth))
      as [[Hf Hr]|[[Hf Hr]|[[Hf [Hna Hnc]]|(name' & Hr & Hi & Hf)]]];
      rewrite Hf in Hfb; rewrite Hfb in Hnav; try discriminate.
    injection Hnav as <- <-. now repeat split.
  - intros name Hauth Hr Hi Hg. cbn in Hin.
    repeat (destruct Hin as [<-|Hin];
            [first [discriminate Hg
                   | apply guard_inherited; [assumption..|discriminate]]|]).
    contradiction.
Qed.

Definition sesion_de_conductor : AuthState :=
  mkAuth true (Some "conductor") (Some (Js.Num 5)).

Definition ruta_reportes : RouteObject :=
  leaf "/menu/reportes" (Some true) (withRoleGuard (El Reportes) [administrador]).

Lemma redirect_lands_on_open_route_witness :
  exists r', routes_at "/menu/entregas" = [r']
             /\ is_navigate (render sesion_de_conductor (element r')) = false
             /\ render sesion_de_conductor (element r') <> SessionClosedMessage.
Proof.
  refine (proj1 (redirect_lands_on_open_route sesion_de_conductor ruta_reportes _)
            "/menu/entregas" true eq_refl).
  cbn. repeat (try (left; reflexivity); right).
Defined.

(** X2.  Who opens what.  A signed-in administrator opens every route of the
    table.  A signed-in driver opens the routes that are not guarded and
    the guarded ones under /menu/entregas, and is sent to /menu/entregas by
    every other guarded route. *)
Theorem access_by_role (userId0 : option Js.Scalar) (r : RouteObject) :
  In r (all_routes Router) ->
  (exists e, render (mkAuth true (Some "administrador") userId0) (element r) = Children e)
  /\ (if is_guarded (element r) && negb (String.prefix "/menu/entregas" (path r))
      then render (mkAuth true (Some "conductor") userId0) (element r)
           = Navigate "/menu/entregas" true
      else exists e,
             render (mkAuth true (Some "conductor") userId0) (element r) = Children e).
Proof.
  intros Hin. cbn in Hin.
  repeat (destruct Hin as [<-|Hin];
          [split; [eexists; reflexivity|cbn; try reflexivity; eexists; reflexivity]|]).
  contradiction.
Qed.

Lemma access_by_role_witness :
  (exists e, render (mkAuth true (Some "administrador") None) (element ruta_reportes)
             = Children e)
  /\ render (mkAuth true (Some "conductor") None) (element ruta_reportes)
     = Navigate "/menu/entregas" true.
Proof.
  apply (access_by_role None ruta_reportes).
  cbn. repeat (try (left; reflexivity); right).
Defined.

End GuardedRouterFacts.

(* ===================================================================== *)
(** * The bars of the charts *)
(* ===================================================================== *)

Module ChartsBarsFacts.
Import Reportes AssocFacts SortFacts ChartsFacts.
Local Open Scope string_scope.

Section Lookup.
Context {V : Type}.

Lemma assoc_get_modify k k' (f : V -> V) (l : list (string * V)) :
  assoc_get k (assoc_modify k' f l)
  = if k' =? k then option_map f (assoc_get k l) else assoc_get k l.
Proof.
  induction l as [|[k0 v] t IH]; cbn; [now destruct (k' =? k)|].
  destruct (String.eqb_spec k0 k') as [->|Hne]; cbn.
  - destruct (String.eqb_spec k' k); reflexivity.
  - rewrite IH. destruct (String.eqb_spec k0 k) as [->|Hne'].
    + destruct (String.eqb_spec k' k); [congruence|reflexivity].
    + reflexivity.
Qed.

Lemma assoc_get_add_other k k' (v : V) (l : list (string * V)) :
  assoc_get k (assoc_add k' v l)
  = match assoc_get k l with
    | Some x => Some x
    | None => if k' =? k then Some v else None
    end.
Proof.
  unfold assoc_add. induction l as [|[k0 v0] t IH]; cbn; [reflexivity|].
  destruct (k0 =? k); [reflexivity|exact IH].
Qed.

Lemma assoc_sum_pos (w : V -> nat) (l : list (string * V)) :
  (0 < assoc_sum w l)%nat <-> exists kv, In kv l /\ (0 < w (snd kv))%nat.
Proof.
  induction l as [|[k v] t IH]; cbn.
  - split; [lia|]. now intros (kv & [] & _).
  - split.
    + intros H. destruct (Nat.eq_dec (w v) 0) as [Hz|Hnz].
      * destruct IH as [IH _]. destruct IH as (kv & Hin & Hpos); [lia|].
        exists kv. split; [now right|exact Hpos].
      * exists (k, v). split; [now left|cbn; lia].
    + intros (kv & [<-|Hin] & Hpos); cbn in *; [lia|].
      assert (0 < assoc_sum w t)%nat by (apply IH; now exists kv). lia.
Qed.

End Lookup.

Section Bars.
Variable formatShortDateLabel : string -> string.

Local Abbreviation aggregate := (Reportes.aggregate formatShortDateLabel).
Local Abbreviation charts := (Reportes.charts formatShortDateLabel).

(** The records of a driver key and of a date key, in the order of the
    list. *)
Definition de_conductor (k : string) (l : list Programacion) : list Programacion :=
  filter (fun r => driverKey_of r =? k) l.

Definition de_fecha (k : string) (l : list Programacion) : list Programacion :=
  filter (fun r => dateKey_of r =? k) l.

Definition counts_of (l : list Programacion) : Counts :=
  mkCounts (count_estado entregado l) (count_estado en_proceso l)
           (count_estado no_entregado l).

Lemma count_estado_app e l1 l2 :
  count_estado e (l1 ++ l2) = count_estado e l1 + count_estado e l2.
Proof. unfold count_estado. now rewrite filter_app, length_app. Qed.

Lemma incr_counts_of x l :
  incr_count (estado x) (counts_of l) = counts_of (l ++ [x]).
Proof.
  unfold counts_of. rewrite !count_estado_app. unfold count_estado. cbn.
  destruct (estado x); cbn; f_equal; lia.
Qed.

(** X3.  The bar of a driver.  The entry of [driverTotals] under a key
    exists exactly when some record has that driver key; it carries the
    name of the first such record, the number of such records and the
    number of them that are delivered. *)
Theorem driverTotals_entry (l : list Programacion) (k : string) :
  assoc_get k (acc_driverTotals (aggregate l))
  = match de_conductor k l with
    | [] => None
    | first :: _ =>
        Some (mkDriverTotal (conductorNombre first)
                            (List.length (de_conductor k l))
                            (count_estado entregado (de_conductor k l)))
    end.
Proof.
  induction l as [|x l IH] using rev_ind; [reflexivity|].
  rewrite aggregate_snoc. unfold de_conductor in *. rewrite filter_app. cbn.
  destruct (assoc_get (driverKey_of x) (acc_driverTotals (aggregate l))) eqn:Hget.
  - rewrite assoc_get_modify.
    destruct (String.eqb_spec (driverKey_of x) k) as [He|Hne].
    + rewrite He in Hget. rewrite IH in Hget |- *.
      destruct (filter _ l) as [|first rest] eqn:Hf; [discriminate|].
      rewrite length_app, count_estado_app.
      assert (Hx : count_estado entregado [x] = deliveredIncrement x).
      { unfold count_estado, deliveredIncrement. cbn.
        now destruct (EstadoReporte_eqb (estado x) entregado). }
      rewrite Hx. reflexivity.
    + rewrite app_nil_r. exact IH.
  - rewrite assoc_get_add_other.
    destruct (String.eqb_spec (driverKey_of x) k) as [He|Hne].
    + rewrite He in Hget. rewrite IH in Hget |- *.
      destruct (filter _ l) as [|first rest] eqn:Hf; [|discriminate].
      cbn. unfold deliveredIncrement, count_estado. cbn.
      now destruct (EstadoReporte_eqb (estado x) entregado).
    + rewrite app_nil_r, IH. now destruct (filter _ l).
Qed.

(** The bucket of [dateBuckets] under a key exists exactly when some record
    has that date key; it carries the label and the sort key of the first
    such record, and for each estado the number of such records with that
    estado. *)
Lemma dateBuckets_lookup (l : list Programacion) (k : string) :
  assoc_get k (acc_dateBuckets (aggregate l))
  = match de_fecha k l with
    | [] => None
    | first :: _ =>
        Some (mkDateBucket (label_of formatShortDateLabel first) (sortKey_of first)
                           (counts_of (de_fecha k l)))
    end.
Proof.
  induction l as [|x l IH] using rev_ind; [reflexivity|].
  rewrite aggregate_snoc. unfold de_fecha in *. rewrite filter_app. cbn.
  rewrite assoc_get_modify.
  destruct (String.eqb_spec (dateKey_of x) k) as [He|Hne].
  - rewrite He.
    destruct (filter _ l) as [|first rest] eqn:Hf; rewrite IH.
    + rewrite assoc_get_add_other, IH, String.eqb_refl.
      cbn. f_equal. f_equal. unfold counts_of, count_estado. cbn.
      now destruct (estado x).
    + rewrite IH, <- incr_counts_of. reflexivity.
  - rewrite app_nil_r.
    destruct (assoc_get (dateKey_of x) (acc_dateBuckets (aggregate l))) eqn:Hget.
    + exact IH.
    + rewrite assoc_get_add_other, IH.
      destruct (String.eqb_spec (dateKey_of x) k); [congruence|].
      now destruct (filter _ l).
Qed.


Lemma assoc_get_In {V : Type} (k : string) (v : V) (l : list (string * V)) :
  NoDup (map fst l) -> In (k, v) l -> assoc_get k l = Some v.
Proof.
  induction l as [|[k0 v0] t IH]; cbn; [tauto|].
  intros Hnd [Heq|Hin].
  - injection Heq as -> ->. now rewrite String.eqb_refl.
  - inversion Hnd as [|? ? Hnotin Hnd']; subst.
    destruct (String.eqb_spec k0 k) as [->|Hne].
    + exfalso. apply Hnotin. apply in_map_iff. now exists (k, v).
    + now apply IH.
Qed.

Lemma existsb_Permutation {A : Type} (f : A -> bool) (l l' : list A) :
  Permutation l l' -> existsb f l = existsb f l'.
Proof.
  intros Hp. destruct (existsb f l) eqn:H1; symmetry.
  - apply existsb_exists in H1 as (x & Hin & Hx). apply existsb_exists.
    exists x. split; [eapply Permutation_in; eassumption|exact Hx].
  - destruct (existsb f l') eqn:H2; [|reflexivity].
    apply existsb_exists in H2 as (x & Hin & Hx).
    assert (existsb f l = true); [|congruence].
    apply existsb_exists. exists x.
    split; [eapply Permutation_in; [symmetry|]; eassumption|exact Hx].
Qed.

(** The order of the productivity chart: more deliveries first and, among
    equal deliveries, more programaciones first. *)
Definition ranked_before (a b : DriverTotal) : Prop :=
  (entregados b < entregados a)%nat
  \/ (entregados a = entregados b /\ (total b <= total a)%nat).

Definition driverEntries (l : list Programacion) : list DriverTotal :=
  js_sort compare_driver (map snd (acc_driverTotals (aggregate l))).

Lemma driverEntries_sorted l : StronglySorted ranked_before (driverEntries l).
Proof.
  apply js_sort_sorted; unfold ranked_before, compare_driver.
  - intros a b c [Hab|[Hab Hab']] [Hbc|[Hbc Hbc']]; lia.
  - intros a b. destruct (Nat.eqb_spec (entregados b) (entregados a)); cbn; lia.
  - intros a b. destruct (Nat.eqb_spec (entregados b) (entregados a)); cbn; lia.
Qed.

Lemma hasDeliveredData_spec l :
  existsb (fun entry => (0 <? entregados entry)%nat) (driverEntries l)
  = (0 <? count_estado entregado l)%nat.
Proof.
  unfold driverEntries.
  rewrite (existsb_Permutation _ _ _ (js_sort_perm compare_driver _)).
  rewrite <- (driverTotals_entregados formatShortDateLabel l).
  destruct (0 <? assoc_sum entregados _)%nat eqn:Hs.
  - apply Nat.ltb_lt, assoc_sum_pos in Hs as ([k v] & Hin & Hpos).
    apply existsb_exists. exists v.
    split; [apply in_map_iff; now exists (k, v)|now apply Nat.ltb_lt].
  - destruct (existsb _ _) eqn:He; [|reflexivity].
    apply existsb_exists in He as (v & Hin & Hpos).
    apply in_map_iff in Hin as ([k v'] & <- & Hin).
    assert (0 < assoc_sum entregados (acc_driverTotals (aggregate l)))%nat.
    { apply assoc_sum_pos. exists (k, v'). split; [exact Hin|now apply Nat.ltb_lt]. }
    apply Nat.ltb_ge in Hs. lia.
Qed.

Lemma driverEntries_nonempty l : l <> [] -> driverEntries l <> [].
Proof.
  intros Hl He.
  assert (Hlen : List.length (driverEntries l)
                 = List.length (acc_driverTotals (aggregate l))).
  { unfold driverEntries. now rewrite js_sort_length, length_map. }
  rewrite He in Hlen. cbn in Hlen.
  pose proof (driverTotals_total formatShortDateLabel l) as Ht.
  destruct (acc_driverTotals (aggregate l)); [|discriminate Hlen].
  cbn in Ht. destruct l; [congruence|discriminate Ht].
Qed.

(** X4.  The productivity chart.  Its drivers are the entries of
    [driverTotals], ranked by deliveries and then by programaciones, most
    first.  The bars show deliveries as soon as one record of the list is
    delivered, and the numbers of programaciones otherwise; the series is
    named accordingly.  A list without records shows the placeholder. *)
Theorem productividad_ranking (l : list Programacion) :
  let c := charts l in
  let entries := driverEntries l in
  let delivered := (0 <? count_estado entregado l)%nat in
  Permutation entries (map snd (acc_driverTotals (aggregate l)))
  /\ StronglySorted ranked_before entries
  /\ fst (productividadSeries c)
     = (if delivered then "Entregas completadas" else "Programaciones registradas")
  /\ (l <> [] ->
      driverCategories c = map nombre entries
      /\ snd (productividadSeries c)
         = map (fun entry => if delivered then entregados entry else total entry) entries)
  /\ (l = [] ->
      driverCategories c = ["Sin registros"] /\ snd (productividadSeries c) = [0%nat]).
Proof.
  cbv zeta.
  split; [apply js_sort_perm|].
  split; [apply driverEntries_sorted|].
  pose proof (hasDeliveredData_spec l) as Hd.
  pose proof (driverEntries_nonempty l) as Hne.
  unfold driverEntries in *. unfold Reportes.charts.
  cbn [productividadSeries driverCategories fst snd].
  rewrite Hd.
  split; [reflexivity|].
  split.
  - intros Hl. specialize (Hne Hl).
    destruct (js_sort compare_driver _); [congruence|]. split; reflexivity.
  - intros ->. split; reflexivity.
Qed.

(** X5.  The stacked chart.  For a list with records, there is one column per
    date key of the records, in ascending order of the sort keys; a column
    carries the label and the sort key of the first record of its date key;
    and the series of each estado, in the order Entregado, En proceso, No
    entregado, gives for each column the number of records of that date key
    with that estado. *)
Theorem stacked_chart_cells (l : list Programacion) :
  l <> [] ->
  let c := charts l in
  let sorted := sortedDateEntries (aggregate l) in
  NoDup (map fst sorted)
  /\ (forall k, In k (map fst sorted) <-> exists r, In r l /\ dateKey_of r = k)
  /\ StronglySorted sortKey_le sorted
  /\ (forall k b, In (k, b) sorted ->
      exists first rest,
        de_fecha k l = first :: rest
        /\ label b = label_of formatShortDateLabel first
        /\ sortKey b = sortKey_of first)
  /\ stackedCategories c = map (fun kb => label (snd kb)) sorted
  /\ stackedSeries c
     = map (fun e =>
              (ESTADO_INFO_label e,
               map (fun kb => count_estado e (de_fecha (fst kb) l)) sorted))
           ESTADO_ORDER.
Proof.
  intros Hl. cbv zeta.
  pose proof (dateBuckets_keys formatShortDateLabel l) as [Hnd Hkeys].
  assert (Hperm : Permutation (sortedDateEntries (aggregate l))
                              (acc_dateBuckets (aggregate l)))
    by apply js_sort_perm.
  split; [eapply Permutation_NoDup; [symmetry; apply Permutation_map; exact Hperm|exact Hnd]|].
  split.
  { intros k. rewrite <- Hkeys. split; apply Permutation_in;
      [apply Permutation_map; exact Hperm|symmetry; apply Permutation_map; exact Hperm]. }
  split; [apply sortedDateEntries_sorted|].
  assert (Hget : forall k b, In (k, b) (sortedDateEntries (aggregate l)) ->
                             assoc_get k (acc_dateBuckets (aggregate l)) = Some b).
  { intros k b Hin. apply assoc_get_In; [exact Hnd|].
    eapply Permutation_in; [exact Hperm|exact Hin]. }
  split.
  { intros k b Hin. apply Hget in Hin. rewrite dateBuckets_lookup in Hin.
    destruct (de_fecha k l) as [|first others]; [discriminate|].
    injection Hin as <-. exists first, others. repeat split. }
  assert (Hne : sortedDateEntries (aggregate l) <> []).
  { intros He. rewrite He in Hperm. apply Permutation_nil in Hperm.
    now apply (dateBuckets_nonempty formatShortDateLabel l Hl). }
  unfold Reportes.charts. cbn [stackedCategories stackedSeries].
  destruct (sortedDateEntries (aggregate l)) as [|kb0 rest] eqn:Hs; [congruence|].
  cbn [List.length Nat.ltb Nat.leb].
  split; [reflexivity|].
  apply map_ext. intros e. f_equal.
  apply map_ext_in. intros [k b] Hin. cbn [fst snd].
  apply Hget in Hin. rewrite dateBuckets_lookup in Hin.
  destruct (de_fecha k l) as [|first others] eqn:Hf; [discriminate|].
  injection Hin as <-. now destruct e.
Qed.

End Bars.

(** Seven programaciones over three dates, not in the order of the dates,
    with the three estados, and one without a date. *)
Definition siete_registros : list Programacion :=
  [mkProgramacion "1" entregado (Some "7") "Ana" (Some "2025-03-11");
   mkProgramacion "2" en_proceso (Some "8") "Luis" None;
   mkProgramacion "3" entregado (Some "7") "Ana" (Some "2025-03-10");
   mkProgramacion "4" no_entregado (Some "8") "Luis" (Some "2025-03-11");
   mkProgramacion "5" entregado (Some "8") "Luis" (Some "2025-03-11");
   mkProgramacion "6" en_proceso None "Sin asignar" (Some "2025-03-09");
   mkProgramacion "7" no_entregado (Some "7") "Ana" (Some "2025-03-10")].

(** On those seven: the four columns come in the order of the dates with
    the records without a date last, and each cell counts the records of
    its date and estado. *)
Lemma stacked_chart_cells_witness :
  let l := siete_registros in
  let c := Reportes.charts (fun d => d) l in
  let sorted := sortedDateEntries (Reportes.aggregate (fun d => d) l) in
  (NoDup (map fst sorted)
   /\ (forall k, In k (map fst sorted) <-> exists r, In r l /\ dateKey_of r = k)
   /\ StronglySorted sortKey_le sorted
   /\ (forall k b, In (k, b) sorted ->
       exists first rest,
         de_fecha k l = first :: rest
         /\ label b = label_of (fun d => d) first
         /\ sortKey b = sortKey_of first)
   /\ stackedCategories c = map (fun kb => label (snd kb)) sorted
   /\ stackedSeries c
      = map (fun e =>
               (ESTADO_INFO_label e,
                map (fun kb => count_estado e (de_fecha (fst kb) l)) sorted))
            ESTADO_ORDER)
  /\ map fst sorted = ["2025-03-09"; "2025-03-10"; "2025-03-11"; "sin-fecha"]
  /\ map (fun kb => sortKey (snd kb)) sorted
     = ["2025-03-09"; "2025-03-10"; "2025-03-11"; "9999-12-31"]
  /\ map id (de_fecha "2025-03-11" l) = ["1"; "4"; "5"]
  /\ stackedCategories c = ["2025-03-09"; "2025-03-10"; "2025-03-11"; "Sin fecha"]
  /\ stackedSeries c
     = [("Entregado", [0; 1; 2; 0]); ("En proceso", [1; 0; 0; 1]);
        ("No entregado", [0; 1; 1; 0])]%nat.
Proof.
  cbv zeta. split.
  - apply (stacked_chart_cells (fun d => d) siete_registros). discriminate.
  - vm_compute. repeat split.
Defined.

End ChartsBarsFacts.

(* ===================================================================== *)
(** * Theorems: the loading of the report *)
(* ===================================================================== *)

Module ReportesDatosFacts.
Import Effects ReportesDatos DispositivosFacts ValoresFacts.
Local Open Scope string_scope.

(** The range passes the checks of [fetchReport]. *)
Definition rango_valido (range : Range) : Prop :=
  r_desde range <> "" /\ r_hasta range <> ""
  /\ Js.str_lt (r_hasta range) (r_desde range) = false.

Lemma rango_valido_tests (range : Range) :
  rango_valido range ->
  negb (Js.truthy (r_desde range)) || negb (Js.truthy (r_hasta range)) = false
  /\ Js.str_lt (r_hasta range) (r_desde range) = false.
Proof.
  intros (Hd & Hh & Hlt). split; [|exact Hlt]. unfold Js.truthy.
  destruct (String.eqb_spec (r_desde range) ""); [contradiction|].
  destruct (String.eqb_spec (r_hasta range) ""); [contradiction|]. reflexivity.
Qed.

(** ** The month ranges *)

Definition four_digits (s : string) : bool :=
  match s with
  | String a (String b (String c (String d EmptyString))) =>
      Js.is_digit a && Js.is_digit b && Js.is_digit c && Js.is_digit d
  | _ => false
  end.

Definition two_digits (s : string) : bool :=
  match s with
  | String a (String b EmptyString) => Js.is_digit a && Js.is_digit b
  | _ => false
  end.

Definition digits10 : list Z := [0; 1; 2; 3; 4; 5; 6; 7; 8; 9]%Z.

Lemma in_digits10 (d : Z) : (0 <= d <= 9)%Z -> In d digits10.
Proof.
  intros Hd.
  assert (H : (d = 0 \/ d = 1 \/ d = 2 \/ d = 3 \/ d = 4 \/ d = 5 \/ d = 6 \/ d = 7
               \/ d = 8 \/ d = 9)%Z) by lia.
  unfold digits10. cbn. intuition auto.
Qed.

Lemma four_decimal_digits (y : Z) :
  (1000 <= y <= 9999)%Z ->
  exists a b c d,
    (1 <= a <= 9 /\ 0 <= b <= 9 /\ 0 <= c <= 9 /\ 0 <= d <= 9
     /\ y = 1000 * a + 100 * b + 10 * c + d)%Z.
Proof.
  intros Hy.
  exists (y / 1000)%Z, ((y / 100) mod 10)%Z, ((y / 10) mod 10)%Z, (y mod 10)%Z.
  Z.to_euclidean_division_equations. lia.
Qed.

Lemma year_four_digits (y : Z) :
  (1000 <= y <= 9999)%Z -> four_digits (Js.String_of_Z y) = true.
Proof.
  intros Hy.
  destruct (four_decimal_digits y Hy) as (a & b & c & d & Ha & Hb & Hc & Hd & ->).
  clear Hy.
  assert (Ha' : (0 <= a <= 9)%Z) by lia.
  apply in_digits10 in Ha', Hb, Hc, Hd.
  assert (Hall : forallb (fun a => forallb (fun b => forallb (fun c => forallb (fun d =>
                   (a =? 0)%Z
                   || four_digits (Js.String_of_Z (1000 * a + 100 * b + 10 * c + d)))
                   digits10) digits10) digits10) digits10 = true)
    by (vm_compute; reflexivity).
  rewrite forallb_forall in Hall. specialize (Hall _ Ha').
  rewrite forallb_forall in Hall. specialize (Hall _ Hb).
  rewrite forallb_forall in Hall. specialize (Hall _ Hc).
  rewrite forallb_forall in Hall. specialize (Hall _ Hd).
  apply orb_true_iff in Hall as [Hz|H]; [|exact H].
  apply Z.eqb_eq in Hz. lia.
Qed.

Lemma month_two_digits (m : Z) :
  (0 <= m <= 11)%Z -> two_digits (padStart2 (Js.String_of_Z (m + 1))) = true.
Proof.
  intros Hm.
  assert (H : (m = 0 \/ m = 1 \/ m = 2 \/ m = 3 \/ m = 4 \/ m = 5 \/ m = 6 \/ m = 7
               \/ m = 8 \/ m = 9 \/ m = 10 \/ m = 11)%Z) by lia.
  repeat (destruct H as [-> | H]; [reflexivity|]). now subst m.
Qed.

Lemma days_in_month_cases (y m : Z) :
  (days_in_month y m = 28 \/ days_in_month y m = 29
   \/ days_in_month y m = 30 \/ days_in_month y m = 31)%Z.
Proof.
  unfold days_in_month.
  destruct (m =? 1)%Z; [destruct (is_leap_year y); tauto|].
  destruct (_ || _); tauto.
Qed.

Lemma iso_date_of_parts (y m d : string) :
  four_digits y = true -> two_digits m = true -> two_digits d = true ->
  Js.is_iso_date (y ++ "-" ++ m ++ "-" ++ d) = true.
Proof.
  intros Hy Hm Hd.
  destruct y as [|y1 [|y2 [|y3 [|y4 [|? ?]]]]]; try discriminate Hy.
  destruct m as [|m1 [|m2 [|? ?]]]; try discriminate Hm.
  destruct d as [|d1 [|d2 [|? ?]]]; try discriminate Hd.
  cbn in Hy, Hm, Hd.
  repeat match goal with
         | H : _ && _ = true |- _ => apply andb_true_iff in H as [? ?]
         end.
  unfold Js.is_iso_date, Js.iso_prefix. cbn.
  repeat match goal with H : Js.is_digit _ = true |- _ => rewrite H; clear H end.
  reflexivity.
Qed.

Lemma ltb_common_prefix (p a b : string) :
  String.ltb (p ++ a) (p ++ b) = String.ltb a b.
Proof.
  unfold String.ltb. induction p as [|c p IH]; cbn; [reflexivity|].
  rewrite StringOrder.ascii_compare_refl. exact IH.
Qed.

Lemma ltb_cons (c : ascii) (a b : string) :
  String.ltb (String c a) (String c b) = String.ltb a b.
Proof. unfold String.ltb. cbn. now rewrite StringOrder.ascii_compare_refl. Qed.

Lemma new_Date_first (y m : Z) : new_Date y m 1 = mkDate (y + m / 12) (m mod 12) 1.
Proof. reflexivity. Qed.

Lemma new_Date_last (y m : Z) :
  (0 <= m <= 11)%Z -> new_Date y (m + 1) 0 = mkDate y m (days_in_month y m).
Proof.
  intros Hm. unfold new_Date. cbn [Z.eqb].
  destruct (Z.eq_dec m 11) as [->|H11].
  - cbn. replace (y + 1 - 1)%Z with y by lia. reflexivity.
  - rewrite Z.div_small, Z.mod_small by lia. rewrite Z.add_0_r.
    replace (m + 1 =? 0)%Z with false by (symmetry; apply Z.eqb_neq; lia).
    replace (m + 1 - 1)%Z with m by lia. reflexivity.
Qed.

Lemma getMonthRangeForOffset_eq (today : Date) (offsetMonths : Z) :
  let year := (getFullYear today + (getMonth today + offsetMonths) / 12)%Z in
  let month := ((getMonth today + offsetMonths) mod 12)%Z in
  getMonthRangeForOffset today offsetMonths
  = mkRange (formatDateInput (mkDate year month 1))
            (formatDateInput (mkDate year month (days_in_month year month))).
Proof.
  intros year month.
  assert (Hm : (0 <= month <= 11)%Z)
    by (pose proof (Z.mod_pos_bound (getMonth today + offsetMonths) 12); lia).
  unfold getMonthRangeForOffset. rewrite (new_Date_first (getFullYear today)).
  cbn [getFullYear getMonth]. fold year month.
  rewrite new_Date_last by exact Hm. rewrite new_Date_first.
  rewrite Z.div_small, Z.mod_small by lia. now rewrite Z.add_0_r.
Qed.

(** The two dates of a month range, and their order as strings. *)
Lemma month_range_strings (today : Date) (offsetMonths : Z) :
  let year := (getFullYear today + (getMonth today + offsetMonths) / 12)%Z in
  let month := ((getMonth today + offsetMonths) mod 12)%Z in
  let range := getMonthRangeForOffset today offsetMonths in
  let yyyy := Js.String_of_Z year in
  let MM := padStart2 (Js.String_of_Z (month + 1)) in
  r_desde range = yyyy ++ "-" ++ MM ++ "-01"
  /\ r_hasta range = yyyy ++ "-" ++ MM ++ "-" ++ Js.String_of_Z (days_in_month year month)
  /\ Js.str_lt (r_desde range) (r_hasta range) = true
  /\ Js.str_lt (r_hasta range) (r_desde range) = false.
Proof.
  intros year month range yyyy MM.
  assert (Hd : padStart2 (Js.String_of_Z (days_in_month year month))
               = Js.String_of_Z (days_in_month year month)).
  { destruct (days_in_month_cases year month) as [-> | [-> | [-> | ->]]]; reflexivity. }
  assert (Hdesde : r_desde range = yyyy ++ "-" ++ MM ++ "-01").
  { subst range. now rewrite getMonthRangeForOffset_eq. }
  assert (Hhasta : r_hasta range
                   = yyyy ++ "-" ++ MM ++ "-" ++ Js.String_of_Z (days_in_month year month)).
  { subst range. rewrite getMonthRangeForOffset_eq. fold year month.
    cbn [r_hasta]. unfold formatDateInput. cbn [getFullYear getMonth getDate].
    now rewrite Hd. }
  split; [exact Hdesde|]. split; [exact Hhasta|].
  rewrite Hdesde, Hhasta. unfold Js.str_lt.
  repeat first [rewrite ltb_common_prefix | rewrite ltb_cons | progress cbn [append]].
  destruct (days_in_month_cases year month) as [-> | [-> | [-> | ->]]];
    split; reflexivity.
Qed.

Lemma month_range_valido (today : Date) (offsetMonths : Z) :
  (1000 <= getFullYear today + (getMonth today + offsetMonths) / 12 <= 9999)%Z ->
  rango_valido (getMonthRangeForOffset today offsetMonths).
Proof.
  intros Hy.
  destruct (month_range_strings today offsetMonths) as (Hdesde & Hhasta & _ & Hlt).
  pose proof (year_four_digits _ Hy) as Hy4.
  repeat split; [rewrite Hdesde|rewrite Hhasta|exact Hlt];
    destruct (Js.String_of_Z _); discriminate.
Qed.

(** X6.  The shortcuts of the filter give a range that [fetchReport] accepts.
    For a month offset that stays within the years 1000 to 9999, the range
    of [getMonthRangeForOffset] runs from the first day of the month that
    lies [offsetMonths] months from today to a day 28 to 31 of the same
    month; both dates have the form yyyy-MM-dd, the first is the earlier
    one, and the range passes the checks of [fetchReport]. *)
Theorem getMonthRangeForOffset_valid (today : Date) (offsetMonths : Z) :
  let year := (getFullYear today + (getMonth today + offsetMonths) / 12)%Z in
  let month := ((getMonth today + offsetMonths) mod 12)%Z in
  (1000 <= year <= 9999)%Z ->
  let range := getMonthRangeForOffset today offsetMonths in
  let yyyy := Js.String_of_Z year in
  let MM := padStart2 (Js.String_of_Z (month + 1)) in
  r_desde range = yyyy ++ "-" ++ MM ++ "-01"
  /\ (exists last, (28 <= last <= 31)%Z
                   /\ r_hasta range = yyyy ++ "-" ++ MM ++ "-" ++ Js.String_of_Z last)
  /\ Js.is_iso_date (r_desde range) = true
  /\ Js.is_iso_date (r_hasta range) = true
  /\ Js.fecha_anterior_a (r_desde range) (r_hasta range)
  /\ rango_valido range.
Proof.
  intros year month Hy range yyyy MM.
  assert (Hm : (0 <= month <= 11)%Z)
    by (pose proof (Z.mod_pos_bound (getMonth today + offsetMonths) 12); lia).
  pose proof (year_four_digits year Hy) as Hy4.
  pose proof (month_two_digits month Hm) as Hm2.
  destruct (month_range_strings today offsetMonths) as (Hdesde & Hhasta & Hlt & _).
  fold year month range yyyy MM in Hdesde, Hhasta, Hlt.
  assert (Hiso1 : Js.is_iso_date (r_desde range) = true).
  { rewrite Hdesde. now apply (iso_date_of_parts yyyy MM "01"). }
  assert (Hiso2 : Js.is_iso_date (r_hasta range) = true).
  { rewrite Hhasta. apply iso_date_of_parts; [assumption|assumption|].
    destruct (days_in_month_cases year month) as [-> | [-> | [-> | ->]]]; reflexivity. }
  split; [exact Hdesde|].
  split.
  { exists (days_in_month year month). split; [|exact Hhasta].
    destruct (days_in_month_cases year month) as [-> | [-> | [-> | ->]]]; lia. }
  split; [exact Hiso1|]. split; [exact Hiso2|].
  split; [apply IsoDateFacts.str_lt_chronological; assumption|].
  now apply month_range_valido.
Qed.

Lemma getMonthRangeForOffset_valid_witness :
  getLastMonthRange (mkDate 2025 0 15) = mkRange "2024-12-01" "2024-12-31"
  /\ rango_valido (getLastMonthRange (mkDate 2025 0 15)).
Proof.
  split; [reflexivity|].
  apply (getMonthRangeForOffset_valid (mkDate 2025 0 15) (-1)). cbn. lia.
Defined.

(** ** The records of the response *)

Lemma is_digit_not_T (c : ascii) : Js.is_digit c = true -> Ascii.eqb c "T" = false.
Proof.
  intros H. apply IsoDateFacts.is_digit_bounds in H.
  destruct (Ascii.eqb_spec c "T") as [->|]; [cbn in H; lia|reflexivity].
Qed.

Lemma iso_date_without_T (d : string) : Js.is_iso_date d = true -> without "T" d = true.
Proof.
  intros H. apply IsoDateFacts.is_iso_date_inv in H
    as (y1 & y2 & y3 & y4 & m1 & m2 & d1 & d2 & -> & H).
  cbn [without].
  repeat match goal with
         | H : _ /\ _ |- _ => destruct H as [? ?]
         end.
  repeat match goal with
         | H : Js.is_digit _ = true |- _ => apply is_digit_not_T in H; rewrite H; clear H
         end.
  reflexivity.
Qed.

Lemma iso_date_truthy (d : string) : Js.is_iso_date d = true -> Js.truthy d = true.
Proof. intros H. destruct d; [discriminate H|reflexivity]. Qed.


Section FetchReport.
Variable Date_parse : string -> option Date.
Variable generated : nat -> string.
Variable token : option string.

Local Abbreviation fetchReport := (ReportesDatos.fetchReport Date_parse generated token).

(** X7.  The checks of [fetchReport].  Without a token the list is emptied;
    with a missing date, or with a first date after the last one, only the
    error changes; in the three cases nothing is requested.  A request is
    sent only for a range that passes the checks, and it is the one request
    of that range. *)
Theorem fetchReport_checks (range : Range) (w : World) (s0 : State) :
  (Js.truthy_opt token = false ->
   run (fetchReport range) w s0
   = (inr tt,
      set_reportError (Some "No se encontro la sesion de usuario.")
                      (set_programaciones [] s0), []))
  /\ (Js.truthy_opt token = true ->
      r_desde range = "" \/ r_hasta range = "" ->
      run (fetchReport range) w s0
      = (inr tt,
         set_reportError (Some "Debes seleccionar la fecha inicial y final.") s0, []))
  /\ (Js.truthy_opt token = true ->
      r_desde range <> "" -> r_hasta range <> "" ->
      Js.str_lt (r_hasta range) (r_desde range) = true ->
      run (fetchReport range) w s0
      = (inr tt,
         set_reportError (Some "La fecha inicial no puede ser mayor a la final.") s0, []))
  /\ (requests (trace_of (fetchReport range) w s0) <> [] ->
      Js.truthy_opt token = true /\ rango_valido range
      /\ requests (trace_of (fetchReport range) w s0) = [report_request range])
  /\ (Js.is_iso_date (r_desde range) = true -> Js.is_iso_date (r_hasta range) = true ->
      (Js.str_lt (r_hasta range) (r_desde range) = true
       <-> Js.fecha_anterior_a (r_hasta range) (r_desde range))).
Proof.
  split; [|split; [|split; [|split]]].
  - intros Ht. unfold ReportesDatos.fetchReport. rewrite Ht. reflexivity.
  - intros Ht Hempty. unfold ReportesDatos.fetchReport. rewrite Ht. cbn [negb].
    replace (negb (Js.truthy (r_desde range)) || negb (Js.truthy (r_hasta range)))
      with true; [reflexivity|].
    symmetry. apply orb_true_iff. unfold Js.truthy.
    destruct Hempty as [-> | ->]; [left|right]; reflexivity.
  - intros Ht Hd Hh Hlt. unfold ReportesDatos.fetchReport. rewrite Ht. cbn [negb].
    unfold Js.truthy.
    destruct (String.eqb_spec (r_desde range) ""); [contradiction|].
    destruct (String.eqb_spec (r_hasta range) ""); [contradiction|].
    cbn [negb orb]. rewrite Hlt. reflexivity.
  - unfold ReportesDatos.fetchReport.
    destruct (Js.truthy_opt token) eqn:Ht; cbn [negb]; [|intros H; now contradiction H].
    unfold Js.truthy.
    destruct (String.eqb_spec (r_desde range) "") as [|Hd];
      [intros H; now contradiction H|].
    destruct (String.eqb_spec (r_hasta range) "") as [|Hh];
      [intros H; now contradiction H|].
    cbn [negb orb].
    destruct (Js.str_lt (r_hasta range) (r_desde range)) eqn:Hlt;
      [intros H; now contradiction H|].
    intros _. split; [reflexivity|]. split; [now repeat split|].
    handler_unfold. run_cases.
  - intros Hd Hh. apply IsoDateFacts.str_lt_chronological; assumption.
Qed.


(** X8.  The date of a record is the date as written.  A value of the form
    yyyy-MM-dd, alone or followed by 'T' and a time, gives that date
    without being parsed, whatever the time zone; a missing or empty value
    gives no date; any other value gives the local date it parses to, or
    no date when it does not parse. *)
Theorem toDateOnly_cases (value : option string) :
  (forall d rest,
      Js.is_iso_date d = true ->
      value = Some d \/ value = Some (d ++ "T" ++ rest) ->
      toDateOnly Date_parse value = Some d)
  /\ (value = None \/ value = Some "" -> toDateOnly Date_parse value = None)
  /\ (forall r, toDateOnly Date_parse value = Some r ->
      Js.is_iso_date r = true
      \/ exists v parsed, value = Some v /\ Date_parse v = Some parsed
                          /\ r = formatDateInput parsed)
  /\ (forall r, toDateOnly Date_parse value = Some r -> Js.is_iso_date r = true ->
      toDateOnly Date_parse (Some r) = Some r).
Proof.
  assert (Hiso : forall d, Js.is_iso_date d = true ->
                           toDateOnly Date_parse (Some d) = Some d).
  { intros d Hd. unfold toDateOnly.
    rewrite (iso_date_truthy d Hd). cbn [negb].
    rewrite hd_split_whole by now apply iso_date_without_T.
    now rewrite (iso_date_truthy d Hd), Hd. }
  split; [|split; [|split]].
  - intros d rest Hd [-> | ->]; [now apply Hiso|].
    unfold toDateOnly.
    assert (Ht : Js.truthy (d ++ "T" ++ rest) = true).
    { destruct d; [discriminate Hd|reflexivity]. }
    rewrite Ht. cbn [negb]. cbn [append].
    rewrite hd_split_app by now apply iso_date_without_T.
    now rewrite (iso_date_truthy d Hd), Hd.
  - intros [-> | ->]; reflexivity.
  - intros r. unfold toDateOnly. destruct value as [v|]; [|discriminate].
    destruct (negb (Js.truthy v)); [discriminate|].
    destruct (Js.truthy _ && Js.is_iso_date _) eqn:Hd.
    + intros H. injection H as <-. left. now apply andb_true_iff in Hd.
    + destruct (Date_parse v) as [parsed|] eqn:Hp; [|discriminate].
      intros H. injection H as <-. right. now exists v, parsed.
  - intros r _ Hr. now apply Hiso.
Qed.

(** X9.  A record of the report.  The estado is entregado exactly for the
    code 2 and no_entregado exactly for the code 3; the name of the driver
    is never empty ('Sin asignar' stands for a missing or blank name); the
    driver id is present exactly when the record has a driver with an
    [idUsuario]; the date is the one [toDateOnly] gives.  A blank name is
    one made of white space characters of ECMAScript only (the no-break
    space and the other space separators among them), and the name kept
    has none of them first or last. *)
Theorem mapProgramacion_record (n : nat) (item : Json) :
  let r := mapProgramacion Date_parse generated n item in
  (Reportes.estado r = Reportes.entregado
   <-> as_number (field "estadoEntrega" item) = Some 2%Z)
  /\ (Reportes.estado r = Reportes.no_entregado
      <-> as_number (field "estadoEntrega" item) = Some 3%Z)
  /\ Reportes.conductorNombre r <> ""
  /\ (forall name,
      match field "conductor" item with
      | Some c => as_string (field "nombreCompleto" c)
      | None => None
      end = Some name ->
      Js.trim name <> "" -> Reportes.conductorNombre r = Js.trim name)
  /\ (Reportes.conductorId r <> None
      <-> exists c idUsuario, field "conductor" item = Some c /\ json_truthy c = true
                              /\ field "idUsuario" c = Some idUsuario)
  /\ Reportes.fechaEntrega r = toDateOnly Date_parse (as_string (field "fechaEntrega" item))
  /\ (forall name,
      match field "conductor" item with
      | Some c => as_string (field "nombreCompleto" c)
      | None => None
      end = Some name ->
      (Js.espacios name -> Reportes.conductorNombre r = "Sin asignar")
      /\ (~ Js.espacios name ->
          Reportes.conductorNombre r = Js.trim name
          /\ Js.recortado (Reportes.conductorNombre r)
          /\ exists a b, name = a ++ Reportes.conductorNombre r ++ b
                         /\ Js.espacios a /\ Js.espacios b)).
Proof.
  cbv zeta. unfold mapProgramacion.
  cbn [Reportes.estado Reportes.conductorNombre Reportes.conductorId Reportes.fechaEntrega].
  split; [|split; [|split; [|split; [|split; [|split]]]]].
  7:{ intros name Hn. rewrite Hn. unfold or_else, Js.sanitize, Js.truthy.
      destruct (TrimFacts.trim_spec name) as (a & b & E & Ha & Hb & Hr).
      split.
      - intros Hesp. apply TrimFacts.trim_empty_espacios in Hesp. now rewrite Hesp.
      - intros Hesp.
        destruct (String.eqb_spec (Js.trim name) "") as [He|He].
        + exfalso. now apply Hesp, TrimFacts.trim_empty_espacios.
        + cbn [negb]. split; [reflexivity|]. split; [exact Hr|]. now exists a, b. }
  - unfold Reportes.getEstadoFromApi.
    destruct (as_number (field "estadoEntrega" item)) as [[|[[q|q|]|[q|q|]|]|p]|];
      split; intros H; first [discriminate H | reflexivity].
  - unfold Reportes.getEstadoFromApi.
    destruct (as_number (field "estadoEntrega" item)) as [[|[[q|q|]|[q|q|]|]|p]|];
      split; intros H; first [discriminate H | reflexivity].
  - apply or_else_not_empty. discriminate.
  - intros name Hn Ht. rewrite Hn. unfold or_else, Js.sanitize, Js.truthy.
    destruct (String.eqb_spec (Js.trim name) ""); [contradiction|reflexivity].
  - destruct (field "conductor" item) as [c|].
    + destruct (json_truthy c) eqn:Hc.
      * destruct (field "idUsuario" c) as [i|] eqn:Hi.
        -- split; [intros _; now exists c, i|discriminate].
        -- split; [congruence|]. intros (c' & i & Hc' & _ & Hi').
           injection Hc' as <-. congruence.
      * split; [congruence|]. intros (c' & i & Hc' & Ht & _).
        injection Hc' as <-. congruence.
    + split; [congruence|]. now intros (c' & i & Hc' & _).
  - reflexivity.
Qed.

(** The text has a hyphen. *)
Fixpoint has_hyphen (s : string) : bool :=
  match s with
  | "" => false
  | String c r => Ascii.eqb c "-" || has_hyphen r
  end.

Lemma has_hyphen_app (a b : string) : has_hyphen (a ++ b) = has_hyphen a || has_hyphen b.
Proof.
  induction a as [|c a IH]; [reflexivity|].
  cbn. rewrite IH. now rewrite orb_assoc.
Qed.

Lemma inherited_cases (name : string) :
  Js.inherited name = true -> In name Js.Object_prototype_names.
Proof.
  unfold Js.inherited. intros H. apply existsb_exists in H as (x & Hin & Heq).
  apply String.eqb_eq in Heq. now subst.
Qed.

(** No name inherited from [Object.prototype] has a hyphen, and none is
    'sin-fecha'. *)
Lemma inherited_no_hyphen (name : string) :
  Js.inherited name = true -> has_hyphen name = false.
Proof.
  intros H. apply inherited_cases in H. cbn in H.
  repeat (destruct H as [<- | H]; [reflexivity|]). contradiction.
Qed.

Lemma iso_date_has_hyphen (d : string) : Js.is_iso_date d = true -> has_hyphen d = true.
Proof.
  intros H.
  destruct (IsoDateFacts.is_iso_date_inv d H)
    as (y1 & y2 & y3 & y4 & m1 & m2 & d1 & d2 & -> & _).
  cbn. now rewrite !orb_true_r.
Qed.

(** The date of a record of the report is never a name inherited from
    [Object.prototype]: it is written yyyy-MM-dd or made by
    [formatDateInput], and has a hyphen either way. *)
Lemma toDateOnly_not_inherited (value : option string) (d : string) :
  toDateOnly Date_parse value = Some d -> Js.inherited d = false.
Proof.
  unfold toDateOnly. destruct value as [v|]; [|discriminate].
  destruct (negb (Js.truthy v)); [discriminate|].
  assert (Hh : has_hyphen d = true -> Js.inherited d = false).
  { intros Hh. destruct (Js.inherited d) eqn:Hi; [|reflexivity].
    apply inherited_no_hyphen in Hi. congruence. }
  destruct (Js.truthy _ && Js.is_iso_date _) eqn:Hd.
  - intros H. injection H as <-. apply andb_true_iff in Hd as [_ Hd].
    apply Hh. now apply iso_date_has_hyphen.
  - destruct (Date_parse v) as [parsed|]; [|discriminate].
    intros H. injection H as <-. apply Hh.
    unfold formatDateInput. cbv zeta. rewrite has_hyphen_app. cbn.
    now rewrite orb_true_r.
Qed.

Lemma mapProgramacion_does_not_throw (n : nat) (item : Json) :
  Reportes.forEach_throws (mapProgramacion Date_parse generated n item) = false.
Proof.
  unfold Reportes.forEach_throws, Reportes.dateKey_of, mapProgramacion.
  cbn [Reportes.fechaEntrega].
  destruct (toDateOnly Date_parse (as_string (field "fechaEntrega" item))) as [d|] eqn:Hd;
    [now apply toDateOnly_not_inherited in Hd|reflexivity].
Qed.

(** On the records of a response the memo of the charts does not throw;
    on a record whose date is the text 'constructor', which no response
    gives, it does. *)
Lemma charts_memo_of_response
    (formatShortDateLabel : string -> string) (n : nat) (data : list Json) :
  Reportes.charts_memo formatShortDateLabel (map_mapProgramacion Date_parse generated n data)
  = inr (Reportes.charts formatShortDateLabel
           (map_mapProgramacion Date_parse generated n data)).
Proof.
  unfold Reportes.charts_memo.
  replace (existsb Reportes.forEach_throws (map_mapProgramacion Date_parse generated n data))
    with false; [reflexivity|].
  symmetry. revert n. induction data as [|item rest IH]; intros n; [reflexivity|].
  cbn [map_mapProgramacion existsb].
  now rewrite mapProgramacion_does_not_throw, IH.
Qed.

Lemma charts_memo_inherited_key (formatShortDateLabel : string -> string) :
  Reportes.charts_memo formatShortDateLabel
    [Reportes.mkProgramacion "1" Reportes.entregado (Some "7") "Ana" (Some "constructor")]
  = inl Valores.TypeError.
Proof. reflexivity. Qed.





End FetchReport.

(** The backend answers with one delivered programacion of driver 7. *)
Definition reporte_de_marzo : World :=
  mkWorld (fun _ _ => true)
          (fun _ _ =>
             inr (mkResponse true 200 (inr "")
                    (inr (JObj [("code", JNum 200);
                                ("data",
                                 JArr [JObj [("idProgramacion", JNum 31);
                                             ("estadoEntrega", JNum 2);
                                             ("fechaEntrega", JStr "2025-03-10T00:00:00");
                                             ("conductor",
                                              JObj [("idUsuario", JNum 7);
                                                    ("nombreCompleto", JStr " Ana ")])]])])))).

Definition marzo : Range := mkRange "2025-03-01" "2025-03-31".


(** X11.  A click on a shortcut asks for its month.  While the month lies in the
    years 1000 to 9999 and there is a token, [handleApplyShortcutRange] on
    the range of a month offset stores the two dates in the filter and
    sends exactly one request, the one of that month, whatever dates the
    filter held before. *)
Theorem shortcut_requests_its_month
    (Date_parse : string -> option Date) (generated : nat -> string)
    (token : option string) (today : Date) (offsetMonths : Z) (w : World) (s0 : State) :
  Js.truthy_opt token = true ->
  (1000 <= getFullYear today + (getMonth today + offsetMonths) / 12 <= 9999)%Z ->
  let range := getMonthRangeForOffset today offsetMonths in
  let handler := handleApplyShortcutRange Date_parse generated token range in
  requests (trace_of handler w s0) = [report_request range]
  /\ desde (final_state handler w s0) = r_desde range
  /\ hasta (final_state handler w s0) = r_hasta range
  /\ isLoadingReport (final_state handler w s0) = false.
Proof.
  intros Ht Hy range handler.
  pose proof (month_range_valido today offsetMonths Hy) as Hv.
  apply rango_valido_tests in Hv as [Hv1 Hv2]. fold range in Hv1, Hv2.
  subst handler. unfold handleApplyShortcutRange, ReportesDatos.fetchReport.
  rewrite Ht, Hv1, Hv2. cbn [negb]. handler_unfold.
  destruct (fetch_answer w [] (report_request range)) as [e|resp].
  - destruct (err_name e =? "AbortError"); cbn; repeat split.
  - destruct (ok resp); cbn [negb orb];
      destruct (json resp) as [e|j]; cbn; try (repeat split; fail);
      destruct (code_not_200 j); cbn; repeat split.
Qed.

Lemma shortcut_requests_its_month_witness :
  requests (trace_of (handleSelectPreviousMonth (fun _ => None) (fun _ => "") (Some "t")
                        (mkDate 2025 0 15))
                     reporte_de_marzo (initial_state marzo))
  = [report_request (mkRange "2024-12-01" "2024-12-31")].
Proof.
  apply (shortcut_requests_its_month (fun _ => None) (fun _ => "") (Some "t")
           (mkDate 2025 0 15) (-1) reporte_de_marzo (initial_state marzo)).
  - reflexivity.
  - cbn. lia.
Defined.

(** ** The drivers of the filter *)

Section Conductores.
Variable localeCompare : string -> string -> Z.
Variable token : option string.







End Conductores.





End ReportesDatosFacts.

(* ===================================================================== *)
(** * Theorems: the devices page *)
(* ===================================================================== *)

Module DispositivosTablaFacts.
Import Effects Dispositivos DispositivosTabla DispositivosFacts ValoresFacts.
Local Open Scope string_scope.
Local Open Scope Z_scope.

(** The end of a case of a run: the conjuncts are split and each is closed
    by computation, by a contradiction among the hypotheses or by the
    response at hand. *)
Ltac fin :=
  cbn;
  repeat match goal with |- _ /\ _ => split end;
  intros;
  repeat match goal with
         | H : _ \/ _ |- _ => destruct H
         | H : _ /\ _ |- _ => destruct H
         | H : In _ _ |- _ => cbn in H
         | H : False |- _ => contradiction
         end;
  try discriminate; try congruence; try tauto;
  try (eexists; split; [reflexivity|assumption]).

Section Eliminar.
Variable encodeURIComponent : string -> string.
Variable token : option string.

Local Abbreviation handleEliminarDispositivo :=
  (DispositivosTabla.handleEliminarDispositivo encodeURIComponent token).
Local Abbreviation traccar_delete_request :=
  (DispositivosTabla.traccar_delete_request encodeURIComponent).
Local Abbreviation backend_delete_request :=
  (DispositivosTabla.backend_delete_request encodeURIComponent).

(** Traccar confirmed the removal of the device. *)
Definition traccar_removed (w : World) (dispositivo : Dispositivo) : Prop :=
  exists resp,
    fetch_answer w [EvConfirm (confirmMessage dispositivo)]
                 (traccar_delete_request (Js.sanitize (Some (d_codigo dispositivo))))
    = inr resp
    /\ ok resp = true.

(** X13.  The removal of a device goes to Traccar first.  The handler sends
    nothing without a token, for a device whose code is blank, or when the
    user declines the dialog (without a token or a code the dialog is not
    even shown).  Otherwise it sends the DELETE to Traccar for the trimmed
    code of the device, and the DELETE to the backend, for the id of the
    device, only after Traccar answered ok; nothing else is ever sent, so a
    device removed from Traccar whose removal from the backend fails is not
    registered in Traccar again. *)
Theorem handleEliminarDispositivo_order (dispositivo : Dispositivo) (w : World) (s0 : State) :
  let traccarId := Js.sanitize (Some (d_codigo dispositivo)) in
  let tr := trace_of (handleEliminarDispositivo dispositivo) w s0 in
  (Js.truthy_opt token = false \/ traccarId = "" -> tr = [])
  /\ (Js.truthy_opt token = true -> traccarId <> "" ->
      confirm_answer w [] (confirmMessage dispositivo) = false ->
      tr = [EvConfirm (confirmMessage dispositivo)]
      /\ final_state (handleEliminarDispositivo dispositivo) w s0 = s0)
  /\ (requests tr = []
      \/ requests tr = [traccar_delete_request traccarId]
      \/ requests tr = [traccar_delete_request traccarId; backend_delete_request dispositivo])
  /\ (requests tr <> [] ->
      Js.truthy_opt token = true /\ traccarId <> ""
      /\ confirm_answer w [] (confirmMessage dispositivo) = true)
  /\ (In (backend_delete_request dispositivo) (requests tr) ->
      traccar_removed w dispositivo)
  /\ (api (traccar_delete_request traccarId) = Traccar
      /\ method (traccar_delete_request traccarId) = DELETE
      /\ url (traccar_delete_request traccarId)
         = "/api/devices/" ++ encodeURIComponent traccarId
      /\ api (backend_delete_request dispositivo) = Backend
      /\ method (backend_delete_request dispositivo) = DELETE
      /\ url (backend_delete_request dispositivo)
         = "/api/v1/dispositivosGps/delete/" ++ encodeURIComponent (d_id dispositivo)).
Proof.
  cbv zeta. unfold DispositivosTabla.handleEliminarDispositivo, traccar_removed.
  destruct (Js.truthy_opt token) eqn:Ht; cbn [negb]; [|solve [handler_unfold; fin]].
  set (traccarId := Js.sanitize (Some (d_codigo dispositivo))) in *.
  destruct (Js.truthy traccarId) eqn:Hcod; cbn [negb].
  2:{ assert (He : traccarId = "")
        by (unfold Js.truthy in Hcod; now apply negb_false_iff, String.eqb_eq in Hcod).
      solve [handler_unfold; fin]. }
  assert (Hne : traccarId <> "").
  { intros He. rewrite He in Hcod. discriminate Hcod. }
  handler_unfold. cbn [app].
  destruct (confirm_answer w [] (confirmMessage dispositivo)) eqn:Hc; cbn [negb]; [|solve [fin]].
  destruct (fetch_answer w [EvConfirm (confirmMessage dispositivo)]
                         (traccar_delete_request traccarId)) as [e|tresp] eqn:Htr; [solve [fin]|].
  destruct (ok tresp) eqn:Hok; cbn [negb]; [|solve [destruct (text tresp); fin]].
  destruct (fetch_answer w _ (backend_delete_request dispositivo)) as [e|bresp]; [solve [fin]|].
  destruct (json bresp) as [e|j]; cbn;
    destruct (ok bresp); cbn;
    try destruct (code_rejected j); fin.
Qed.


(** [setSelectedDispositivo((prev) => prev && prev.id === dispositivo.id ? null : prev)] *)
Definition sin_el_eliminado (dispositivo : Dispositivo) (prev : option Dispositivo)
    : option Dispositivo :=
  match prev with
  | Some p => if (d_id p =? d_id dispositivo)%string then None else Some p
  | None => None
  end.

(** X14.  The outcome of a confirmed removal.  At the end no removal is in
    progress and a message is shown; the list and the page are untouched.
    The message is one of success only when both services were asked, and
    then the list is asked to reload and the detail panel is closed if it
    showed the removed device.  A failure shows an error that is not empty
    and changes neither the reload key nor the detail panel. *)
Theorem handleEliminarDispositivo_outcome
    (dispositivo : Dispositivo) (w : World) (s0 : State) :
  let traccarId := Js.sanitize (Some (d_codigo dispositivo)) in
  Js.truthy_opt token = true ->
  traccarId <> ""%string ->
  confirm_answer w [] (confirmMessage dispositivo) = true ->
  let s' := final_state (handleEliminarDispositivo dispositivo) w s0 in
  let tr := requests (trace_of (handleEliminarDispositivo dispositivo) w s0) in
  deletingId s' = None
  /\ dispositivos s' = dispositivos s0
  /\ page s' = page s0
  /\ exists fb,
       deleteFeedback s' = Some fb
       /\ match fb_type fb with
          | success =>
              tr = [traccar_delete_request traccarId; backend_delete_request dispositivo]
              /\ reloadKey s' = reloadKey s0 + 1
              /\ selectedDispositivo s'
                 = sin_el_eliminado dispositivo (selectedDispositivo s0)
          | error_ =>
              fb_message fb <> ""%string
              /\ reloadKey s' = reloadKey s0
              /\ selectedDispositivo s' = selectedDispositivo s0
          end.
Proof.
  intros traccarId Ht Hne Hc. cbv zeta.
  unfold DispositivosTabla.handleEliminarDispositivo. rewrite Ht. cbn [negb].
  fold traccarId.
  assert (Hcod : Js.truthy traccarId = true).
  { unfold Js.truthy. now apply negb_true_iff, String.eqb_neq. }
  rewrite Hcod. cbn [negb]. handler_unfold. rewrite Hc. cbn [negb app].
  assert (Herr : forall e,
             or_else (err_message e)
               "Hubo un problema al eliminar el dispositivo. Intenta nuevamente."
             <> ""%string) by (intros; apply or_else_not_empty; discriminate).
  destruct (fetch_answer w [EvConfirm (confirmMessage dispositivo)]
                         (traccar_delete_request traccarId)) as [e|tresp].
  { cbn. repeat split. eexists. split; [reflexivity|]. cbn. repeat split. apply Herr. }
  destruct (ok tresp); cbn [negb].
  2:{ destruct (text tresp); cbn; repeat split; eexists; (split; [reflexivity|]);
        cbn; repeat split;
        first [discriminate | apply Herr | apply or_else_not_empty; discriminate]. }
  destruct (fetch_answer w _ (backend_delete_request dispositivo)) as [e|bresp].
  { cbn. repeat split. eexists. split; [reflexivity|]. cbn. repeat split. apply Herr. }
  destruct (json bresp) as [e|j]; cbn;
    destruct (ok bresp); cbn;
    try destruct (code_rejected j); cbn;
    repeat split; eexists; (split; [reflexivity|]); cbn; repeat split;
    first [discriminate | apply or_else_not_empty; discriminate].
Qed.

End Eliminar.


Definition gps_77 : Dispositivo :=
  mkDispositivo "5" " 77 " "GPS-01, TK103" (Some 1) (Some 1).

Lemma handleEliminarDispositivo_outcome_witness :
  requests (trace_of (DispositivosTabla.handleEliminarDispositivo (fun s => s) (Some "t"%string)
                        gps_77)
                     todo_bien (set_selectedDispositivo (Some gps_77) initial_state))
  = [mkRequest Traccar DELETE "/api/devices/77" None;
     mkRequest Backend DELETE "/api/v1/dispositivosGps/delete/5" None]
  /\ deletingId
       (final_state (DispositivosTabla.handleEliminarDispositivo (fun s => s)
                       (Some "t"%string) gps_77)
                    todo_bien (set_selectedDispositivo (Some gps_77) initial_state))
     = None.
Proof.
  split; [reflexivity|].
  apply (handleEliminarDispositivo_outcome (fun s => s) (Some "t"%string) gps_77 todo_bien
           (set_selectedDispositivo (Some gps_77) initial_state)).
  - reflexivity.
  - discriminate.
  - reflexivity.
Defined.

(** ** The list effect *)

Section Lista.
Variable encodeURIComponent : string -> string.
Variable token : option string.





End Lista.

(** ** The footer of the table *)

Lemma computedTotalPages_pos (s : State) : 1 <= computedTotalPages s.
Proof.
  unfold computedTotalPages.
  destruct (Z.ltb_spec 0 (totalPages s)); [lia|].
  destruct (Z.ltb_spec 0 (totalElements s)); cbn [andb]; [|lia].
  destruct (Z.ltb_spec 0 (size s)); [|lia].
  pose proof (PaginationFacts.ceil_div_spec (totalElements s) (size s)
                (Math_ceil_div (totalElements s) (size s)) ltac:(lia) eq_refl) as Hc.
  destruct (Z.eqb_spec (Math_ceil_div (totalElements s) (size s)) 0); [lia|]. nia.
Qed.

(** X16.  The footer of the table.  The number of pages shown is at least 1; it
    is the stored number of pages when that is positive, and otherwise the
    least number of pages of the stored size that hold the stored total.
    For a page index that is not negative the page shown lies between 1 and
    the number of pages shown.  With rows in the table, the summary counts
    them from [page * size + 1] on, and the summary is empty exactly when
    the stored total is not positive. *)
Theorem footer_labels (s : State) :
  1 <= computedTotalPages s
  /\ (0 < totalPages s -> computedTotalPages s = totalPages s)
  /\ (totalPages s <= 0 -> 0 < totalElements s -> 0 < size s ->
      (computedTotalPages s - 1) * size s < totalElements s
      <= computedTotalPages s * size s)
  /\ (0 <= page s -> 1 <= currentPageLabel s <= computedTotalPages s)
  /\ (dispositivos s <> [] ->
      startIndex s = page s * size s + 1
      /\ endIndex s - startIndex s + 1 = Z.of_nat (List.length (dispositivos s)))
  /\ (resumen s = ""%string <-> totalElements s <= 0).
Proof.
  pose proof (computedTotalPages_pos s) as Hpos.
  split; [exact Hpos|].
  split.
  { intros H. unfold computedTotalPages. now destruct (Z.ltb_spec 0 (totalPages s)); [|lia]. }
  split.
  { intros Htp Hte Hsz. unfold computedTotalPages.
    destruct (Z.ltb_spec 0 (totalPages s)); [lia|].
    destruct (Z.ltb_spec 0 (totalElements s)); [|lia].
    destruct (Z.ltb_spec 0 (size s)); [|lia]. cbn [andb].
    pose proof (PaginationFacts.ceil_div_spec (totalElements s) (size s)
                  (Math_ceil_div (totalElements s) (size s)) ltac:(lia) eq_refl) as Hc.
    destruct (Z.eqb_spec (Math_ceil_div (totalElements s) (size s)) 0); [nia|exact Hc]. }
  split; [unfold currentPageLabel; lia|].
  split.
  { intros Hne. unfold endIndex, startIndex.
    destruct (dispositivos s) as [|d l]; [congruence|]. cbn [List.length Nat.ltb Nat.leb].
    split; lia. }
  unfold resumen.
  destruct (Z.ltb_spec 0 (totalElements s)) as [Hte|Hte]; cbn [andb].
  - split; [|lia]. destruct (negb _ && negb _); discriminate.
  - split; [lia|reflexivity].
Qed.

(** ** What the user can do on the page *)

(** The events of the page: the list effect, the buttons and the inputs.
    A row is named by its position in the table. *)
Inductive Accion : Type :=
| Cargar
| Buscar
| Limpiar
| Siguiente
| Anterior
| CambiarTamano (value : string)
| Escribir (query0 codigo modelo : string)
| VerDetalle (fila : nat)
| CerrarDetalle
| Guardar
| Eliminar (fila : nat).

Section Pagina.
Variable encodeURIComponent : string -> string.
Variable Number_ : string -> option Z.
Variable token : option string.

(** The handler of an event, for the render with state [s0]. *)
Definition handler_of (a : Accion) (s0 : State) : M State unit :=
  match a with
  | Cargar => efecto_lista encodeURIComponent token s0
  | Buscar => handleSearch s0
  | Limpiar => handleClear s0
  | Siguiente => handleNextPage s0
  | Anterior => handlePreviousPage s0
  | CambiarTamano value => handlePageSizeChange Number_ value s0
  | Escribir query0 codigo modelo =>
      bind (set (set_query query0))
           (fun _ => bind (set (set_nuevoCodigo codigo))
                          (fun _ => set (set_nuevoModelo modelo)))
  | VerDetalle fila =>
      match nth_error (dispositivos s0) fila with
      | Some dispositivo => toggleDetalle dispositivo
      | None => ret tt
      end
  | CerrarDetalle => set (set_selectedDispositivo None)
  | Guardar => handleGuardarNuevo encodeURIComponent token s0
  | Eliminar fila =>
      match nth_error (dispositivos s0) fila with
      | Some dispositivo =>
          DispositivosTabla.handleEliminarDispositivo encodeURIComponent token dispositivo
      | None => ret tt
      end
  end.

(** One event, handled to its end in a world. *)
Definition paso (s : State) (wa : World * Accion) : State :=
  final_state (handler_of (snd wa) s) (fst wa) s.

(** The state after a sequence of events, from the first render. *)
Definition tras (pasos : list (World * Accion)) : State :=
  fold_left paso pasos initial_state.

(** The device of the detail panel is a row of the table. *)
Definition seleccion_en_tabla (s : State) : Prop :=
  match selectedDispositivo s with
  | Some p => existsb (fun item => d_id item =? d_id p)%string (dispositivos s) = true
  | None => True
  end.

Definition estable (s : State) : Prop :=
  0 <= page s /\ 0 < size s
  /\ loading s = false /\ isSubmitting s = false /\ deletingId s = None
  /\ seleccion_en_tabla s.

Lemma mantener_seleccion_en_tabla (items : list Dispositivo) (prev : option Dispositivo) :
  match mantener_seleccion items prev with
  | Some p => existsb (fun item => d_id item =? d_id p)%string items = true
  | None => True
  end.
Proof.
  unfold mantener_seleccion. destruct prev as [p|]; [|exact I].
  destruct (existsb _ items) eqn:He; [exact He|exact I].
Qed.

Lemma nth_error_existsb (l : list Dispositivo) (fila : nat) (d : Dispositivo) :
  nth_error l fila = Some d ->
  existsb (fun item => d_id item =? d_id d)%string l = true.
Proof.
  intros H. apply existsb_exists. exists d.
  split; [eapply nth_error_In; eassumption|apply String.eqb_refl].
Qed.

(** A case of a run of a handler is closed by computation and linear
    arithmetic. *)
Ltac estable_fin :=
  cbn;
  repeat match goal with |- _ /\ _ => split end;
  try reflexivity; try assumption; try lia; try exact I.

Lemma paso_estable (s : State) (wa : World * Accion) : estable s -> estable (paso s wa).
Proof.
  intros (Hp & Hs & Hl & Hsub & Hdel & Hsel).
  destruct wa as [w a]. unfold paso, estable, seleccion_en_tabla in *.
  cbn [fst snd]. destruct a; cbn [handler_of].
  - (* Cargar *)
    unfold efecto_lista, obtenerDispositivos.
    destruct (Js.truthy_opt token); cbn [negb]; [|handler_unfold; estable_fin].
    generalize (list_request encodeURIComponent s). intros request.
    handler_unfold.
    destruct (fetch_answer w [] request) as [e|resp]; [estable_fin|].
    destruct (json resp) as [e|j]; destruct (ok resp);
      cbn -[leer_pagina mantener_seleccion code_rejected]; try solve [estable_fin].
    + change (code_rejected JNull) with false. cbv iota.
      cbn -[mantener_seleccion].
      repeat match goal with |- _ /\ _ => split end;
        try reflexivity; try assumption; try lia.
      apply (mantener_seleccion_en_tabla []).
    + destruct (code_rejected j); [estable_fin|].
      destruct (_ && _); [estable_fin|].
      destruct (Valores.map_throwing mapDispositivo _) as [e|items];
        cbn -[mantener_seleccion];
        repeat match goal with |- _ /\ _ => split end;
        try reflexivity; try assumption; try lia; try exact I.
      apply mantener_seleccion_en_tabla.
  - handler_unfold. estable_fin.
  - handler_unfold. estable_fin.
  - unfold handleNextPage. rewrite Hl.
    destruct (isLastPage s); handler_unfold; estable_fin.
  - unfold handlePreviousPage. rewrite Hl.
    destruct (isFirstPage s); handler_unfold; estable_fin.
  - unfold handlePageSizeChange.
    destruct (Number_ value) as [parsed|]; [|handler_unfold; estable_fin].
    destruct (Z.leb_spec parsed 0); handler_unfold; estable_fin.
  - handler_unfold. estable_fin.
  - destruct (nth_error (dispositivos s) fila) as [d|] eqn:Hn;
      [|handler_unfold; estable_fin].
    unfold toggleDetalle. handler_unfold. cbn.
    repeat split; try assumption.
    destruct (selectedDispositivo s) as [prev|].
    + destruct (d_id prev =? d_id d)%string; [exact I|].
      eapply nth_error_existsb; eassumption.
    + eapply nth_error_existsb; eassumption.
  - handler_unfold. estable_fin.
  - (* Guardar *)
    unfold handleGuardarNuevo, registrar_en_traccar, registrar_en_backend, guardar_catch,
      resetForm.
    destruct (Js.truthy_opt token); cbn [negb]; [|handler_unfold; estable_fin].
    destruct (negb (Js.truthy (Js.sanitize (Some (nuevoCodigo s))))
              || negb (Js.truthy (Js.sanitize (Some (nuevoModelo s)))));
      [handler_unfold; estable_fin|].
    generalize (Js.sanitize (Some (nuevoCodigo s))) (Js.sanitize (Some (nuevoModelo s))).
    intros codigo modelo.
    generalize (traccar_post codigo modelo). intros treq.
    handler_unfold.
    destruct (fetch_answer w [] treq) as [e|tresp]; [estable_fin|].
    destruct (ok tresp); cbn [negb]; [|destruct (text tresp); estable_fin].
    destruct (json tresp) as [e|traccarDevice]; [estable_fin|].
    cbn -[id_missing backend_post traccar_delete].
    generalize (id_of_field (field "id" traccarDevice)). intros i.
    destruct (id_missing i).
    + destruct i; cbn -[traccar_delete]; try solve [estable_fin];
        destruct (fetch_answer w _ _); estable_fin.
    + generalize (backend_post i codigo modelo). intros breq.
      destruct (fetch_answer w _ breq) as [e|bresp].
      * destruct i; cbn -[traccar_delete]; try solve [estable_fin];
          destruct (fetch_answer w _ _); estable_fin.
      * destruct (ok bresp); cbn [negb]; [estable_fin|].
        destruct (text bresp); destruct i; cbn -[traccar_delete];
          try solve [estable_fin]; destruct (fetch_answer w _ _); estable_fin.
  - (* Eliminar *)
    destruct (nth_error (dispositivos s) fila) as [d|] eqn:Hn;
      [|handler_unfold; estable_fin].
    unfold DispositivosTabla.handleEliminarDispositivo.
    destruct (Js.truthy_opt token); cbn [negb]; [|handler_unfold; estable_fin].
    destruct (Js.truthy (Js.sanitize (Some (d_codigo d)))); cbn [negb];
      [|handler_unfold; estable_fin].
    generalize (confirmMessage d)
               (DispositivosTabla.traccar_delete_request encodeURIComponent
                  (Js.sanitize (Some (d_codigo d))))
               (DispositivosTabla.backend_delete_request encodeURIComponent d).
    intros msg treq breq.
    assert (Hkeep : match sin_el_eliminado d (selectedDispositivo s) with
                    | Some p => existsb (fun item => d_id item =? d_id p)%string
                                        (dispositivos s) = true
                    | None => True
                    end).
    { unfold sin_el_eliminado. destruct (selectedDispositivo s) as [prev|]; [|exact I].
      destruct (d_id prev =? d_id d)%string; [exact I|exact Hsel]. }
    fold (sin_el_eliminado d (selectedDispositivo s)).
    handler_unfold.
    destruct (confirm_answer w [] msg); cbn [negb app]; [|estable_fin].
    destruct (fetch_answer w _ treq) as [e|tresp]; [estable_fin|].
    destruct (ok tresp); cbn [negb]; [|destruct (text tresp); estable_fin].
    destruct (fetch_answer w _ breq) as [e|bresp]; [estable_fin|].
    destruct (json bresp) as [e|j]; cbn -[sin_el_eliminado];
      destruct (ok bresp); cbn -[sin_el_eliminado];
      try destruct (code_rejected j); cbn -[sin_el_eliminado];
      repeat split; assumption.
Qed.


Lemma initial_estable : estable initial_state.
Proof. unfold estable, seleccion_en_tabla. cbn. repeat split; lia. Qed.

Lemma tras_estable (pasos : list (World * Accion)) : estable (tras pasos).
Proof.
  unfold tras. induction pasos as [|wa pasos IH] using rev_ind; [apply initial_estable|].
  rewrite fold_left_app. cbn. now apply paso_estable.
Qed.

(** X17.  The page stays in order.  After any sequence of events of the page,
    each handled to its end, from the first render: the page index is not
    negative and the page size is positive, so the list request asks for
    the page of the state; no spinner is left on (loading, submitting,
    deleting); and the device of the detail panel, if any, is a row of the
    table. *)
Theorem pagina_estable (pasos : list (World * Accion)) :
  let s := tras pasos in
  0 <= page s /\ 0 < size s
  /\ safePage_of s = page s
  /\ loading s = false /\ isSubmitting s = false /\ deletingId s = None
  /\ match selectedDispositivo s with
     | Some p => exists item, In item (dispositivos s) /\ d_id item = d_id p
     | None => True
     end.
Proof.
  cbv zeta. destruct (tras_estable pasos) as (Hp & Hs & Hl & Hsub & Hdel & Hsel).
  repeat split; try assumption.
  - unfold safePage_of. lia.
  - unfold seleccion_en_tabla in Hsel.
    destruct (selectedDispositivo (tras pasos)) as [p|]; [|exact I].
    apply existsb_exists in Hsel as (item & Hin & He).
    exists item. split; [exact Hin|now apply String.eqb_eq].
Qed.

End Pagina.

End DispositivosTablaFacts.

(* ===================================================================== *)
(** * Theorems: the page of the programaciones *)
(* ===================================================================== *)

Module ProgramarSalidaMasFacts.
Import Effects ProgramarSalida ProgramarSalidaDisponibles Valores DispositivosFacts ValoresFacts.
Local Open Scope string_scope.
Local Open Scope Z_scope.

(** ** The identifier of the new programacion *)

Section Identificador.
Variable Number_ : string -> option Z.

(** [parseMaybeNumber(record.idProgramacion ?? record.id_programacion)] *)
Definition directId (fields : list (string * Json)) : option Z :=
  parseMaybeNumber Number_
    (match field "idProgramacion" (JObj fields) with
     | Some JNull | None => field "id_programacion" (JObj fields)
     | v => v
     end).

(** [record[name] ? extractProgramacionId(record[name]) : null] *)
Definition nested (name : string) (fields : list (string * Json)) : option Z :=
  match field name (JObj fields) with
  | Some v => if json_truthy v then extractProgramacionId Number_ v else None
  | None => None
  end.

Lemma extractProgramacionId_eq (fields : list (string * Json)) :
  extractProgramacionId Number_ (JObj fields)
  = match directId fields with
    | Some n => Some n
    | None =>
        match nested "data" fields with
        | Some n => Some n
        | None => nested "programacion" fields
        end
    end.
Proof.
  assert (Hn : forall name l,
             (fix find (l : list (string * Json)) : option Z :=
                match l with
                | [] => None
                | (k, v) :: t =>
                    if (k =? name)%string
                    then (if json_truthy v then extractProgramacionId Number_ v else None)
                    else find t
                end) l
             = nested name l).
  { intros name l. unfold nested. induction l as [|[k v] t IH]; [reflexivity|].
    cbn. destruct (k =? name)%string; [reflexivity|]. exact IH. }
  cbn [extractProgramacionId]. fold (directId fields). rewrite !Hn. reflexivity.
Qed.

Lemma extract_falsy (v : Json) :
  json_truthy v = false -> extractProgramacionId Number_ v = None.
Proof. destruct v; cbn; try reflexivity; discriminate. Qed.

(** X18.  Where the identifier is looked for.  In an object, the identifier
    is its own [idProgramacion] (or [id_programacion], when the first is
    missing or null), a number or a numeric string; failing that, the
    identifier found in its [data]; failing that, the one found in its
    [programacion].  A value that is not an object has none, and a wrapper
    with only [data], or only [programacion], has the identifier of what it
    wraps. *)
Theorem extractProgramacionId_search (fields : list (string * Json)) :
  let payload := JObj fields in
  (forall n, directId fields = Some n -> extractProgramacionId Number_ payload = Some n)
  /\ (directId fields = None ->
      forall p n, field "data" payload = Some p ->
                  extractProgramacionId Number_ p = Some n ->
                  extractProgramacionId Number_ payload = Some n)
  /\ (directId fields = None ->
      (forall p, field "data" payload = Some p -> extractProgramacionId Number_ p = None) ->
      forall q, field "programacion" payload = Some q ->
                extractProgramacionId Number_ payload = extractProgramacionId Number_ q)
  /\ (directId fields = None ->
      field "data" payload = None -> field "programacion" payload = None ->
      extractProgramacionId Number_ payload = None)
  /\ (forall p, extractProgramacionId Number_ (JObj [("data", p)])
                = extractProgramacionId Number_ p)
  /\ (forall q, extractProgramacionId Number_ (JObj [("programacion", q)])
                = extractProgramacionId Number_ q)
  /\ (forall n, extractProgramacionId Number_ (JObj [("idProgramacion", JNum n)]) = Some n)
  /\ (forall j, match j with JObj _ => True
                        | _ => extractProgramacionId Number_ j = None end).
Proof.
  cbv zeta.
  split; [intros n Hd; rewrite extractProgramacionId_eq, Hd; reflexivity|].
  split.
  { intros Hd p n Hp He. rewrite extractProgramacionId_eq, Hd. unfold nested. rewrite Hp.
    destruct (json_truthy p) eqn:Ht; [now rewrite He|].
    rewrite extract_falsy in He by exact Ht. discriminate. }
  split.
  { intros Hd Hdata q Hq. rewrite extractProgramacionId_eq, Hd. unfold nested.
    destruct (field "data" (JObj fields)) as [p|] eqn:Hp.
    - rewrite (Hdata p eq_refl). destruct (json_truthy p); rewrite Hq;
        (destruct (json_truthy q) eqn:Ht; [reflexivity|now rewrite extract_falsy]).
    - rewrite Hq. destruct (json_truthy q) eqn:Ht; [reflexivity|now rewrite extract_falsy]. }
  split.
  { intros Hd Hp Hq. rewrite extractProgramacionId_eq, Hd. unfold nested.
    now rewrite Hp, Hq. }
  split.
  { intros p. rewrite extractProgramacionId_eq. unfold directId, nested. cbn.
    destruct (json_truthy p) eqn:Ht; [now destruct (extractProgramacionId Number_ p)|].
    now rewrite extract_falsy. }
  split.
  { intros q. rewrite extractProgramacionId_eq. unfold directId, nested. cbn.
    destruct (json_truthy q) eqn:Ht; [reflexivity|now rewrite extract_falsy]. }
  split; [reflexivity|].
  intros j. destruct j; first [reflexivity | exact I].
Qed.

End Identificador.


(** ** The orders and their locations *)

(** [{ ...p, ubicacionSeleccionada: ubicacionId }] *)
Definition elegir (ubicacionId : string) (p : Pedido) : Pedido :=
  mkPedido (p_id p) (nroSalida p) (nroPedido p) (cliente p) (clienteInfo p)
           (ubicaciones p) (Some ubicacionId) (seleccionado p) (rawNota p).

(** [{ ...p, seleccionado: !p.seleccionado }] *)
Definition marcar (p : Pedido) : Pedido :=
  mkPedido (p_id p) (nroSalida p) (nroPedido p) (cliente p) (clienteInfo p)
           (ubicaciones p) (ubicacionSeleccionada p) (Some (negb (esta_seleccionado p)))
           (rawNota p).

Lemma ubicaciones_mapNota (nota : Json) (u : PedidoUbicacion) :
  In u (ubicaciones (mapNota nota)) ->
  exists raw,
    In raw (ubicaciones_de nota) /\ isUbicacionValida raw = true
    /\ u = mkPedidoUbicacion
             (String_json (field "idUbicacionCliente" raw))
             (or_else (Js.sanitize (as_string (field "nombreDireccion" raw)))
                      "Sin direccion")
             (Some raw).
Proof.
  unfold mapNota. cbn [ubicaciones]. intros Hin.
  apply in_map_iff in Hin as (raw & <- & Hraw). apply filter_In in Hraw as [Hin Hv].
  now exists raw.
Qed.

Lemma ubicacion_valida_truthy (raw : Json) :
  isUbicacionValida raw = true -> json_truthy raw = true.
Proof. destruct raw; cbn; congruence. Qed.

(** X19.  What was received is sent back.  An order of the table has the id of
    its note, a client name that is not empty, no location chosen and no
    mark; each of its locations is a location of the note with an
    [idUbicacionCliente] and has a name that is not empty.  Once one of
    these locations is chosen, the element of the payload for the order
    does not throw: it carries that location as it was received (the first
    of the note with that id) and the fields of the note as they were
    received, [null] standing for a missing one. *)
Theorem salida_de_mapNota (nota : Json) :
  let pedido := mapNota nota in
  p_id pedido = String_json (field "idNotaSalida" nota)
  /\ cliente pedido <> ""
  /\ ubicacionSeleccionada pedido = None
  /\ esta_seleccionado pedido = false
  /\ (forall u, In u (ubicaciones pedido) ->
      u_nombre u <> ""
      /\ exists raw,
           In raw (ubicaciones_de nota) /\ isUbicacionValida raw = true
           /\ String_json (field "idUbicacionCliente" raw) = u_id u
           /\ salida_de (elegir (u_id u) pedido)
              = inr (JObj (opt_field "idNotaSalida" (field "idNotaSalida" nota)
                           ++ [("cliente", nullish_or (field "cliente" nota) JNull);
                               ("ubicaciones", raw);
                               ("nroSalida", nullish_or (field "nroSalida" nota) JNull);
                               ("codigoPedido", nullish_or (field "codigoPedido" nota) JNull);
                               ("fechaSalidaAprobada",
                                nullish_or (field "fechaSalidaAprobada" nota) JNull);
                               ("fechaSalida",
                                nullish_or (field "fechaSalida" nota) JNull)])%list)).
Proof.
  cbv zeta. split; [reflexivity|].
  split.
  { unfold mapNota. cbn [cliente]. unfold or_else.
    destruct (Js.truthy _) eqn:Ht; [|discriminate].
    unfold Js.truthy in Ht. apply negb_true_iff in Ht. now apply String.eqb_neq. }
  split; [reflexivity|]. split; [reflexivity|].
  intros u Hu. split.
  { apply ubicaciones_mapNota in Hu as (raw & _ & _ & ->). cbn [u_nombre].
    unfold or_else. destruct (Js.truthy _) eqn:Ht; [|discriminate].
    unfold Js.truthy in Ht. apply negb_true_iff in Ht. now apply String.eqb_neq. }
  unfold salida_de, elegir. cbn [ubicacionSeleccionada ubicaciones nroPedido rawNota].
  destruct (find (fun u0 => (u_id u0 =? u_id u)%string) (ubicaciones (mapNota nota)))
    as [u'|] eqn:Hfind.
  - apply find_some in Hfind as [Hin' Heq]. apply String.eqb_eq in Heq.
    apply ubicaciones_mapNota in Hin' as (raw & Hraw & Hv & ->).
    cbn [u_id] in Heq. exists raw.
    rewrite (ubicacion_valida_truthy raw Hv).
    repeat split; assumption.
  - exfalso. apply (find_none _ _ Hfind) in Hu. now rewrite String.eqb_refl in Hu.
Qed.

Lemma seleccionados_map (g : Pedido -> Pedido) (l : list Pedido) :
  (forall p, esta_seleccionado (g p) = esta_seleccionado p) ->
  filter esta_seleccionado (map g l) = map g (filter esta_seleccionado l).
Proof.
  intros Hg. induction l as [|p l IH]; [reflexivity|]. cbn. rewrite Hg.
  destruct (esta_seleccionado p); cbn; now rewrite IH.
Qed.

Lemma toggleSeleccion_pedidos (id : string) (w : World) (s : State) :
  pedidos (final_state (toggleSeleccion id) w s)
  = map (fun p => if (p_id p =? id)%string then marcar p else p) (pedidos s).
Proof. reflexivity. Qed.

(** X20.  A mark and a choice touch the order they name and nothing else.
    [toggleSeleccion] inverts the mark of the orders with the given id and
    [actualizarUbicacion] stores the location for them; the other orders
    and the other fields are as before, in the same positions.  Marking
    twice leaves the same orders marked. *)
Theorem toggleSeleccion_frame (id ubicacionId : string) (w : World) (s : State) :
  pedidos (final_state (toggleSeleccion id) w s)
  = map (fun p => if (p_id p =? id)%string then marcar p else p) (pedidos s)
  /\ pedidos (final_state (actualizarUbicacion id ubicacionId) w s)
     = map (fun p => if (p_id p =? id)%string then elegir ubicacionId p else p) (pedidos s)
  /\ map esta_seleccionado (pedidos (final_state (toggleSeleccion id) w s))
     = map (fun p => xorb (esta_seleccionado p) (p_id p =? id)%string) (pedidos s)
  /\ map p_id (pedidosSeleccionados
                 (final_state (toggleSeleccion id) w
                    (final_state (toggleSeleccion id) w s)))
     = map p_id (pedidosSeleccionados s)
  /\ pedidosSeleccionados (final_state (actualizarUbicacion id ubicacionId) w s)
     = map (fun p => if (p_id p =? id)%string then elegir ubicacionId p else p)
           (pedidosSeleccionados s).
Proof.
  split; [reflexivity|]. split; [reflexivity|].
  split.
  { rewrite toggleSeleccion_pedidos, map_map. apply map_ext. intros p.
    destruct (p_id p =? id)%string; cbn; [now destruct (esta_seleccionado p)|].
    now rewrite xorb_false_r. }
  split.
  { unfold pedidosSeleccionados. rewrite !toggleSeleccion_pedidos, map_map.
    set (g := fun p : Pedido => _).
    assert (Hg : forall p, esta_seleccionado (g p) = esta_seleccionado p
                           /\ p_id (g p) = p_id p).
    { intros p. subst g. cbn beta.
      destruct (p_id p =? id)%string eqn:Hid; cbn [marcar p_id]; rewrite Hid;
        [|now split].
      split; [|reflexivity]. unfold esta_seleccionado at 1. cbn.
      unfold esta_seleccionado at 1. cbn. apply negb_involutive. }
    rewrite seleccionados_map by (intros p; apply Hg).
    rewrite map_map. apply map_ext. intros p. apply Hg. }
  unfold pedidosSeleccionados.
  change (pedidos (final_state (actualizarUbicacion id ubicacionId) w s))
    with (map (fun p => if (p_id p =? id)%string then elegir ubicacionId p else p)
              (pedidos s)).
  apply seleccionados_map. intros p. now destruct (p_id p =? id)%string.
Qed.


(** ** The submission *)

Section Resultado.
Variable Number_ : string -> option Z.
Variable auth : RoleProtectedRoute.AuthState.
Variable token : option string.
Variable today : string.
Variable now : string.

Local Abbreviation guardarProgramacion :=
  (ProgramarSalida.guardarProgramacion Number_ auth token today now).

(** [{ ...pedido, seleccionado: false, ubicacionSeleccionada: undefined }] *)
Definition deseleccionar (pedido : Pedido) : Pedido :=
  mkPedido (p_id pedido) (nroSalida pedido) (nroPedido pedido) (cliente pedido)
           (clienteInfo pedido) (ubicaciones pedido) None (Some false) (rawNota pedido).

Lemma truthy_not_empty (x : string) : x <> "" -> Js.truthy x = true.
Proof. intros H. unfold Js.truthy. now apply negb_true_iff, String.eqb_neq. Qed.

(** The body of a response as [response.json().catch(() => null)] reads
    it. *)
Definition cuerpo (resp : Response) : Json :=
  match json resp with inr a => a | inl _ => JNull end.

(** The end of a case of a run of the submission. *)
Ltac leaf :=
  cbn -[programacion_post salidas_post extractProgramacionId];
  split; [reflexivity|];
  split; [intros r Hr; cbn in Hr;
          repeat (destruct Hr as [<-|Hr]; [split; reflexivity|]); contradiction|];
  split; [eexists; reflexivity|];
  split; [repeat split|];
  first [ right; repeat split; discriminate
        | left; split; [reflexivity|]; split; [reflexivity|]; split; [reflexivity|];
          eexists _, _, _, _;
          split; [first [eassumption | reflexivity]|]; split; [assumption|];
          split; [unfold cuerpo;
                  match goal with H : json _ = _ |- _ => rewrite H end; eassumption|];
          repeat split; first [eassumption | reflexivity] ].

(** X21.  The outcome of a confirmed submission.  From a form that passes every
    check, once the user has confirmed: the handler sends only POST
    requests to the backend, the programacion first; it ends with the
    submitting flag down and leaves the date, the vehicle and the driver of
    the form.  Either both requests were answered with ok, the second one
    carries in its path the id that [extractProgramacionId] reads in the
    body of the answer to the first and in its body the orders marked, the
    success message is shown, without error, and every order of the table
    is unmarked and has no location chosen; or there is no success message,
    an error is shown, the orders stay as they are, and nothing is sent to
    undo a programacion already registered. *)
Theorem guardarProgramacion_outcome
    (w : World) (s0 : State) (idVehiculo idConductor : Z) (idAdministrador : Js.Scalar) :
  isSubmitting s0 = false ->
  ProgramarSalidaFacts.primer_error today s0 = None ->
  ProgramarSalidaFacts.identificadores Number_ auth token s0
  = Some (idVehiculo, idConductor, idAdministrador) ->
  confirm_answer w [] ProgramarSalidaFacts.confirm_message = true ->
  let s' := final_state (guardarProgramacion s0) w s0 in
  let tr := requests (trace_of (guardarProgramacion s0) w s0) in
  isSubmitting s' = false
  /\ (forall r, In r tr -> api r = Backend /\ method r = POST)
  /\ (exists rest,
        tr = programacion_post now idVehiculo idConductor idAdministrador s0 :: rest)
  /\ (fechaEntrega s' = fechaEntrega s0 /\ vehiculoId s' = vehiculoId s0
      /\ conductorId s' = conductorId s0)
  /\ ((submitSuccess s' = Some "Programacion registrada correctamente."
       /\ submitError s' = None
       /\ pedidos s' = map deseleccionar (pedidos s0)
       /\ exists resp programacionId payload resp2,
            fetch_answer w [EvConfirm ProgramarSalidaFacts.confirm_message]
              (programacion_post now idVehiculo idConductor idAdministrador s0)
            = inr resp
            /\ ok resp = true
            /\ extractProgramacionId Number_ (cuerpo resp) = Some programacionId
            /\ salidasPayload (pedidosSeleccionados s0) = inr payload
            /\ tr = [programacion_post now idVehiculo idConductor idAdministrador s0;
                     salidas_post programacionId payload]
            /\ url (salidas_post programacionId payload)
               = ("/api/v1/salidas-programadas/add/" ++ Js.String_of_Z programacionId)%string
            /\ body (salidas_post programacionId payload) = Some (JArr payload)
            /\ fetch_answer w
                 [EvConfirm ProgramarSalidaFacts.confirm_message;
                  EvRequest (programacion_post now idVehiculo idConductor idAdministrador s0)]
                 (salidas_post programacionId payload)
               = inr resp2
            /\ ok resp2 = true)
      \/ (submitSuccess s' = None /\ submitError s' <> None
          /\ pedidos s' = pedidos s0)).
Proof.
  intros Hsub Hpe Hid Hconf.
  apply ProgramarSalidaFacts.primer_error_None in Hpe
    as (Hf & Hlt & Hv & Hc & Hsel & Hubi).
  cbv zeta. unfold ProgramarSalida.guardarProgramacion, coerceStringIdToNumber, registrar.
  unfold ProgramarSalidaFacts.identificadores in Hid.
  unfold ProgramarSalidaFacts.confirm_message in Hconf.
  rewrite Hsub, (truthy_not_empty _ Hf), Hlt, (truthy_not_empty _ Hv),
    (truthy_not_empty _ Hc). cbn [negb].
  rewrite ProgramarSalidaFacts.filter_length_zero.
  destruct (pedidosSeleccionados s0) as [|p l] eqn:Hs; [congruence|].
  cbn [List.length Nat.eqb].
  replace (existsb (fun p0 => negb (Js.truthy_opt (ubicacionSeleccionada p0))) (p :: l))
    with false.
  2:{ symmetry. destruct (existsb _ (p :: l)) eqn:Hex; [|reflexivity].
      apply existsb_exists in Hex as (q & Hq & Hneg). apply negb_true_iff in Hneg.
      apply Hubi, ProgramarSalidaFacts.truthy_opt_spec in Hq. congruence. }
  cbn [negb].
  destruct (Number_ (vehiculoId s0)) as [idV|]; [|discriminate].
  destruct (Number_ (conductorId s0)) as [idC|]; [|discriminate].
  destruct (RoleProtectedRoute.userId auth) as [idA|]; [|discriminate].
  destruct (Js.truthy_opt token); [|discriminate]. injection Hid as -> -> ->.
  cbn [negb]. generalize (p :: l). intros seleccionados.
  handler_unfold. rewrite Hconf. cbn [negb app].
  unfold ProgramarSalidaFacts.confirm_message.
  destruct (fetch_answer w _ (programacion_post now idVehiculo idConductor
                                idAdministrador s0)) as [e|resp] eqn:Hresp; [leaf|].
  destruct (ok resp) eqn:Hok; cbn [negb]; [|destruct (text resp); leaf].
  destruct (json resp) as [e|j0] eqn:Hjson;
    (destruct (extractProgramacionId Number_ _) as [pid|] eqn:Hext; [|leaf]);
    (destruct (salidasPayload seleccionados) as [e1|payload] eqn:Hpay; [leaf|]);
    cbn [app];
    (destruct (fetch_answer w _ (salidas_post pid payload)) as [e2|resp2] eqn:Hresp2;
       [leaf|]);
    (destruct (ok resp2) eqn:Hok2; cbn [negb]; [leaf|]);
    destruct (text resp2); leaf.
Qed.

End Resultado.


(** A form ready to be sent, and a backend that registers it as the
    programacion 12. *)
Definition pedido_marcado : Pedido :=
  elegir "9" (marcar (mapNota (JObj [("idNotaSalida", JNum 41);
                                     ("codigoPedido", JNum 2210);
                                     ("ubicaciones",
                                      JArr [JObj [("idUbicacionCliente", JNum 9);
                                                  ("nombreDireccion", JStr "Almacen")]])]))).

Definition formulario : State :=
  mkState "2025-03-12" "3" "5" [] [] [pedido_marcado] 0 8 1 1 false None true false None None.

Definition backend_registra : World :=
  mkWorld (fun _ _ => true)
          (fun _ r =>
             if (url r =? "/api/v1/programacion-distribucion/add")%string
             then inr (mkResponse true 200 (inr "")
                         (inr (JObj [("data", JObj [("idProgramacion", JStr "12")])])))
             else inr (mkResponse true 200 (inr "") (inr JNull))).

Definition administrador_1 : RoleProtectedRoute.AuthState :=
  RoleProtectedRoute.mkAuth true (Some "administrador") (Some (Js.Num 1)).

Lemma guardarProgramacion_outcome_witness :
  map url (requests (trace_of (ProgramarSalida.guardarProgramacion Js.Number_decimal
                                 administrador_1 (Some "t") "2025-03-10"
                                 "2025-03-10T08:00:00" formulario)
                              backend_registra formulario))
  = ["/api/v1/programacion-distribucion/add"; "/api/v1/salidas-programadas/add/12"]
  /\ isSubmitting (final_state (ProgramarSalida.guardarProgramacion Js.Number_decimal
                                  administrador_1 (Some "t") "2025-03-10"
                                  "2025-03-10T08:00:00" formulario)
                               backend_registra formulario)
     = false
  /\ extractProgramacionId Js.Number_decimal
       (JObj [("data", JObj [("idProgramacion", JStr "12")])])
     = Some 12%Z.
Proof.
  split; [reflexivity|]. split; [|reflexivity].
  apply (guardarProgramacion_outcome Js.Number_decimal administrador_1 (Some "t")
           "2025-03-10" "2025-03-10T08:00:00" backend_registra formulario 3 5 (Js.Num 1));
    reflexivity.
Defined.

(** ** The loading of the orders *)

Section Pedidos.
Variable token : option string.

(** X22.  Marks do not survive a load.  After the effect that loads the orders,
    the loading flag is down (with a token), and either the orders are the
    ones of before, or no order is marked and none has a location chosen:
    a new page, a reload or a failure starts from an empty selection. *)
Theorem efecto_pedidos_clears_selection (w : World) (s0 : State) :
  let s' := final_state (efecto_pedidos token s0) w s0 in
  (Js.truthy_opt token = true -> isLoadingPedidos s' = false)
  /\ (pedidos s' = pedidos s0
      \/ (pedidosSeleccionados s' = []
          /\ Forall (fun p => ubicacionSeleccionada p = None) (pedidos s')))
  /\ (pedidosError s' <> None -> pedidos s' = [])
  /\ vehiculoId s' = vehiculoId s0 /\ conductorId s' = conductorId s0
  /\ fechaEntrega s' = fechaEntrega s0.
Proof.
  cbv zeta. unfold efecto_pedidos, obtenerNotasSalida.
  assert (Hmap : forall notas,
             filter esta_seleccionado (map mapNota notas) = []
             /\ Forall (fun p => ubicacionSeleccionada p = None) (map mapNota notas)).
  { intros notas. induction notas as [|n l [IH1 IH2]]; [split; [reflexivity|constructor]|].
    cbn [map filter]. split; [exact IH1|constructor; [reflexivity|exact IH2]]. }
  assert (Hcb : forall notas l,
             Valores.map_throwing mapNota_callback notas = inr l -> l = map mapNota notas).
  { induction notas as [|n notas IH]; cbn; intros l Hl; [now injection Hl as <-|].
    unfold mapNota_callback in Hl at 1.
    destruct (mapNota_throws n); [discriminate|].
    destruct (Valores.map_throwing mapNota_callback notas) as [e|l']; [discriminate|].
    injection Hl as <-. now rewrite (IH l' eq_refl). }
  destruct (Js.truthy_opt token); cbn [negb].
  2:{ handler_unfold. cbn. split; [discriminate|]. split; [right; split; [reflexivity|constructor]|].
      repeat split. }
  generalize (notas_request s0). intros request.
  handler_unfold.
  repeat match goal with
         | |- context [fetch_answer ?w ?t ?r] => destruct (fetch_answer w t r)
         | |- context [json ?r] => destruct (json r)
         | |- context [ok ?r] => destruct (ok r)
         | |- context [code_rejected ?j] => destruct (code_rejected j)
         | |- context [Valores.map_throwing mapNota_callback ?l] =>
             let Hm := fresh "Hm" in
             destruct (Valores.map_throwing mapNota_callback l) eqn:Hm
         | |- context [if ?c then _ else _] => destruct c
         | _ => progress cbn -[leer_pagina mapNota mapNota_callback code_rejected]
         end;
    (split; [reflexivity|]);
    (split; [first [ left; reflexivity
                   | right; split; [reflexivity|constructor]
                   | right; unfold pedidosSeleccionados;
                     cbn -[leer_pagina mapNota mapNota_callback];
                     match goal with
                     | Hm : Valores.map_throwing _ _ = inr _ |- _ =>
                         apply Hcb in Hm; subst; apply Hmap
                     end ]|]);
    repeat split; try congruence; try discriminate.
Qed.

End Pedidos.


(** ** The vehicles and drivers on offer *)

Lemma options_of_Forall {A : Type} (f : Json -> JsError + A) (P : A -> Prop)
    (json : Json) (l : list A) :
  (forall item a, f item = inr a -> P a) ->
  options_of f json = inr l -> Forall P l.
Proof.
  intros Hf H. unfold options_of in H.
  assert (Hd : match field "data" json with
               | Some (JArr data) => map_throwing f data
               | _ => inr []
               end = inr l -> Forall P l).
  { destruct (field "data" json) as [[| | | |data|]|]; intros H';
      try (injection H' as <-; constructor).
    eapply map_throwing_Forall; eassumption. }
  destruct json; try discriminate; now apply Hd.
Qed.

Lemma vehiculo_option_descripcion (vehiculo : Json) (v : VehiculoOption) :
  vehiculo_option vehiculo = inr v -> descripcion v <> "".
Proof.
  unfold vehiculo_option.
  assert (H : forall o, match sanitize_value (field "marca" vehiculo),
                              sanitize_value (field "modelo" vehiculo),
                              sanitize_value (field "placa" vehiculo) with
                        | inr marca, inr modelo, inr placa =>
                            inr (mkVehiculoOption
                                   (String_json (field "idVehiculo" vehiculo))
                                   (or_else (join_truthy [marca; modelo; placa])
                                      ("Vehiculo "
                                         ++ String_json (field "idVehiculo" vehiculo))))
                        | inl e, _, _ => inl e
                        | _, inl e, _ => inl e
                        | _, _, inl e => inl e
                        end = inr o -> descripcion o <> "").
  { intros o.
    destruct (sanitize_value (field "marca" vehiculo)); [discriminate|].
    destruct (sanitize_value (field "modelo" vehiculo)); [discriminate|].
    destruct (sanitize_value (field "placa" vehiculo)); [discriminate|].
    intros Ho. injection Ho as <-. cbn [descripcion].
    apply or_else_not_empty. discriminate. }
  destruct vehiculo; try discriminate; apply H.
Qed.

Lemma conductor_option_nombre (conductor : Json) (c : ConductorOption) :
  conductor_option conductor = inr c -> c_nombre c <> "".
Proof.
  unfold conductor_option.
  assert (H : forall o, match sanitize_value (field "nombreCompleto" conductor) with
                        | inr nombre =>
                            inr (mkConductorOption
                                   (String_json (field "idUsuario" conductor))
                                   (or_else nombre "Sin nombre"))
                        | inl e => inl e
                        end = inr o -> c_nombre o <> "").
  { intros o. destruct (sanitize_value _); [discriminate|].
    intros Ho. injection Ho as <-. apply or_else_not_empty. discriminate. }
  destruct conductor; try discriminate; apply H.
Qed.

Section Disponibles.
Variable token : option string.
Variable today : string.

(** Both services answered ok. *)
Definition ambas_ok (w : World) (s0 : State) : bool :=
  match fetch_answer w [] (vehiculos_request today s0),
        fetch_answer w [EvRequest (vehiculos_request today s0)]
                     (conductores_request today s0) with
  | inr vehiculosResp, inr conductoresResp => ok vehiculosResp && ok conductoresResp
  | _, _ => false
  end.

(** X23.  The vehicles and the drivers on offer.  Without a token the effect
    does nothing.  With one, it asks for the vehicles and then for the
    drivers available on one and the same date, which is the date of the
    form unless that is empty or before today, and then today: never a date
    before today.  Afterwards every vehicle and driver on offer has a
    description that is not empty, and the vehicle and the driver of the
    form are either still the ones chosen, and then on offer, or cleared.
    If a service does not answer ok, nothing is on offer and both choices
    are cleared.  The orders and the date of the form are untouched. *)
Theorem efecto_disponibles_offer (w : World) (s0 : State) :
  let handler := efecto_disponibles token today s0 in
  let s' := final_state handler w s0 in
  (Js.truthy_opt token = false -> run handler w s0 = (inr tt, s0, []))
  /\ (Js.str_lt (fechaConsulta today s0) today = false
      /\ (fechaConsulta today s0 = fechaEntrega s0 \/ fechaConsulta today s0 = today)
      /\ (fechaEntrega s0 <> "" -> Js.str_lt (fechaEntrega s0) today = false ->
          fechaConsulta today s0 = fechaEntrega s0))
  /\ (Js.truthy_opt token = true ->
      requests (trace_of handler w s0)
      = [vehiculos_request today s0; conductores_request today s0]
      /\ Forall (fun v => descripcion v <> "") (vehiculos s')
      /\ Forall (fun c => c_nombre c <> "") (conductores s')
      /\ (vehiculoId s' = ""
          \/ (vehiculoId s' = vehiculoId s0
              /\ exists v, In v (vehiculos s') /\ v_id v = vehiculoId s0))
      /\ (conductorId s' = ""
          \/ (conductorId s' = conductorId s0
              /\ exists c, In c (conductores s') /\ c_id c = conductorId s0))
      /\ (ambas_ok w s0 = false ->
          vehiculos s' = [] /\ conductores s' = []
          /\ vehiculoId s' = "" /\ conductorId s' = "")
      /\ pedidos s' = pedidos s0 /\ fechaEntrega s' = fechaEntrega s0).
Proof.
  cbv zeta. unfold efecto_disponibles.
  split; [intros Ht; now rewrite Ht|].
  split.
  { unfold fechaConsulta, Js.str_ge, Js.str_lt.
    destruct (Js.truthy (fechaEntrega s0)) eqn:Hf; cbn [andb].
    - destruct (String.ltb (fechaEntrega s0) today) eqn:Hlt; cbn [negb].
      + split; [apply ltb_irrefl|]. split; [now right|]. congruence.
      + split; [exact Hlt|]. split; [now left|]. reflexivity.
    - split; [apply ltb_irrefl|]. split; [now right|].
      intros Hne. unfold Js.truthy in Hf. apply negb_false_iff, String.eqb_eq in Hf.
      contradiction. }
  intros Ht. rewrite Ht. cbn [negb].
  unfold obtenerDisponibles, ambas_ok, fetch_promise, await_all.
  generalize (vehiculos_request today s0) (conductores_request today s0).
  intros vreq creq. handler_unfold. cbn [app].
  assert (Hfail : forall s, vehiculos s = [] -> conductores s = [] ->
                            vehiculoId s = "" -> conductorId s = "" ->
                            pedidos s = pedidos s0 -> fechaEntrega s = fechaEntrega s0 ->
             Forall (fun v => descripcion v <> "") (vehiculos s)
             /\ Forall (fun c => c_nombre c <> "") (conductores s)
             /\ (vehiculoId s = ""
                 \/ (vehiculoId s = vehiculoId s0
                     /\ exists v, In v (vehiculos s) /\ v_id v = vehiculoId s0))
             /\ (conductorId s = ""
                 \/ (conductorId s = conductorId s0
                     /\ exists c, In c (conductores s) /\ c_id c = conductorId s0))).
  { intros s Hv Hc Hvi Hci _ _. rewrite Hv, Hc.
    split; [constructor|]. split; [constructor|]. split; now left. }
  destruct (fetch_answer w [] vreq) as [e|vresp];
    destruct (fetch_answer w [EvRequest vreq] creq) as [e'|cresp]; cbn;
    try (split; [reflexivity|];
         repeat (split; [first [constructor | now left | reflexivity]|]);
         repeat split; fail).
  destruct (ok vresp); cbn;
    [|split; [reflexivity|];
      repeat (split; [first [constructor | now left | reflexivity]|]);
      repeat split].
  destruct (ok cresp); cbn;
    [|split; [reflexivity|];
      repeat (split; [first [constructor | now left | reflexivity]|]);
      repeat split].
  destruct (json vresp) as [e|vjson]; destruct (json cresp) as [e'|cjson]; cbn;
    try (split; [reflexivity|];
         repeat (split; [first [constructor | now left | reflexivity]|]);
         repeat split; discriminate).
  destruct (options_of vehiculo_option vjson) as [e|vs] eqn:Hvs; cbn;
    [split; [reflexivity|];
     repeat (split; [first [constructor | now left | reflexivity]|]);
     repeat split; discriminate|].
  destruct (options_of conductor_option cjson) as [e|cs] eqn:Hcs; cbn;
    [split; [reflexivity|];
     repeat (split; [first [constructor | now left | reflexivity]|]);
     repeat split; discriminate|].
  split; [reflexivity|].
  split; [eapply options_of_Forall; [apply vehiculo_option_descripcion|exact Hvs]|].
  split; [eapply options_of_Forall; [apply conductor_option_nombre|exact Hcs]|].
  split.
  { destruct (existsb _ vs) eqn:Hex; [|now left]. right. split; [reflexivity|].
    apply existsb_exists in Hex as (v & Hin & Hv). exists v.
    split; [exact Hin|now apply String.eqb_eq]. }
  split.
  { destruct (existsb _ cs) eqn:Hex; [|now left]. right. split; [reflexivity|].
    apply existsb_exists in Hex as (c & Hin & Hc). exists c.
    split; [exact Hin|now apply String.eqb_eq]. }
  split; [discriminate|]. split; reflexivity.
Qed.

End Disponibles.

End ProgramarSalidaMasFacts.

(* ===================================================================== *)
(** * Theorems: the records and the search of the monitoring panel *)
(* ===================================================================== *)

Module PanelMonitoreoDatosFacts.
Import Effects PanelMonitoreo PanelMonitoreoDatos Valores DispositivosFacts ValoresFacts.
Import TrimFacts.
Local Open Scope string_scope.

(** ** Dates *)

(** A part of a date: not empty and without a hyphen. *)
Definition parte (s : string) : Prop := s <> "" /\ without "-" s = true.

Lemma formatDateForApi_parts (year month day : string) :
  parte year -> parte month -> parte day ->
  formatDateForApi (year ++ "-" ++ month ++ "-" ++ day)
  = day ++ "-" ++ month ++ "-" ++ year.
Proof.
  intros [Hy Hy'] [Hm Hm'] [Hd Hd']. unfold formatDateForApi.
  assert (Hv : Js.truthy (year ++ "-" ++ month ++ "-" ++ day) = true).
  { destruct year; [contradiction|reflexivity]. }
  rewrite Hv. cbn [negb].
  change (year ++ "-" ++ month ++ "-" ++ day)
    with (year ++ String "-" (month ++ String "-" day)).
  rewrite split_app by exact Hy'. rewrite split_app by exact Hm'.
  rewrite split_whole by exact Hd'.
  apply truthy_iff_not_empty in Hy, Hm, Hd. now rewrite Hy, Hm, Hd.
Qed.

Lemma formatDateForApi_inv (value : string) :
  formatDateForApi value <> "" ->
  exists year month day,
    parte year /\ parte month /\ parte day
    /\ value = year ++ "-" ++ month ++ "-" ++ day.
Proof.
  unfold formatDateForApi. intros H.
  destruct (Js.truthy value); cbn [negb] in H; [|contradiction].
  pose proof (split_without "-" value) as Hw.
  pose proof (concat_split "-" value) as Hc.
  destruct (split "-" value) as [|year [|month [|day [|x l]]]]; try contradiction.
  destruct (Js.truthy year) eqn:Hy; cbn in H; [|contradiction].
  destruct (Js.truthy month) eqn:Hm; cbn in H; [|contradiction].
  destruct (Js.truthy day) eqn:Hd; cbn in H; [|contradiction].
  cbn in Hw. apply andb_true_iff in Hw as [Hwy Hw].
  apply andb_true_iff in Hw as [Hwm Hw]. apply andb_true_iff in Hw as [Hwd _].
  apply truthy_iff_not_empty in Hy, Hm, Hd.
  exists year, month, day. repeat split; try assumption.
  symmetry. exact Hc.
Qed.

Lemma is_digit_not_hyphen (c : ascii) : Js.is_digit c = true -> Ascii.eqb c "-" = false.
Proof.
  intros H. apply IsoDateFacts.is_digit_bounds in H.
  destruct (Ascii.eqb_spec c "-") as [->|]; [cbn in H; lia|reflexivity].
Qed.

(** X24.  What the date filters send.  A value of three parts that are not empty,
    separated by hyphens, is sent with the first and the last part
    exchanged; every other value is sent as the empty string.  So a date
    yyyy-MM-dd of a date field is sent as dd-MM-yyyy, and the conversion
    applied twice gives the value back. *)
Theorem formatDateForApi_swap :
  (forall year month day,
      parte year -> parte month -> parte day ->
      formatDateForApi (year ++ "-" ++ month ++ "-" ++ day)
      = day ++ "-" ++ month ++ "-" ++ year)
  /\ (forall value,
         formatDateForApi value <> "" ->
         exists year month day,
           parte year /\ parte month /\ parte day
           /\ value = year ++ "-" ++ month ++ "-" ++ day)
  /\ (forall d,
         Js.is_iso_date d = true ->
         formatDateForApi d
         = substring 8 2 d ++ "-" ++ substring 5 2 d ++ "-" ++ substring 0 4 d)
  /\ (forall value,
         formatDateForApi value <> "" ->
         formatDateForApi (formatDateForApi value) = value).
Proof.
  split; [exact formatDateForApi_parts|].
  split; [exact formatDateForApi_inv|].
  split.
  - intros d Hd.
    apply IsoDateFacts.is_iso_date_inv in Hd
      as (y1 & y2 & y3 & y4 & m1 & m2 & d1 & d2 & -> & A1 & A2 & A3 & A4 & A5 & A6 & A7 & A8).
    apply is_digit_not_hyphen in A1, A2, A3, A4, A5, A6, A7, A8.
    change (String y1 (String y2 (String y3 (String y4 (String "-"
              (String m1 (String m2 (String "-" (String d1 (String d2 ""))))))))))
      with (String y1 (String y2 (String y3 (String y4 ""))) ++ "-"
              ++ String m1 (String m2 "") ++ "-" ++ String d1 (String d2 "")).
    rewrite formatDateForApi_parts.
    + reflexivity.
    + split; [discriminate|]. cbn. now rewrite A1, A2, A3, A4.
    + split; [discriminate|]. cbn. now rewrite A5, A6.
    + split; [discriminate|]. cbn. now rewrite A7, A8.
  - intros value H.
    destruct (formatDateForApi_inv value H) as (year & month & day & Hy & Hm & Hd & ->).
    rewrite (formatDateForApi_parts year month day Hy Hm Hd).
    now apply formatDateForApi_parts.
Qed.

Lemma iso_prefix_is_iso_date (s ymd : string) :
  Js.iso_prefix s = Some ymd -> Js.is_iso_date ymd = true.
Proof.
  unfold Js.iso_prefix.
  destruct s as [|y1 [|y2 [|y3 [|y4 [|h1 [|m1 [|m2 [|h2 [|d1 [|d2 r]]]]]]]]]];
    try discriminate.
  destruct (_ && _) eqn:H; [|discriminate].
  intros E. injection E as <-.
  do 9 (apply andb_true_iff in H; destruct H as [H ?]).
  cbn [substring].
  replace (substring 0 0 r) with "" by now destruct r.
  unfold Js.is_iso_date, Js.iso_prefix.
  repeat match goal with
         | H : _ = true |- _ => rewrite H; clear H
         end.
  reflexivity.
Qed.

Lemma iso_prefix_app (d rest : string) :
  Js.is_iso_date d = true -> Js.iso_prefix (d ++ rest) = Some d.
Proof.
  intros Hd.
  apply IsoDateFacts.is_iso_date_inv in Hd
    as (y1 & y2 & y3 & y4 & m1 & m2 & d1 & d2 & -> & A1 & A2 & A3 & A4 & A5 & A6 & A7 & A8).
  cbn [append]. unfold Js.iso_prefix.
  rewrite A1, A2, A3, A4, A5, A6, A7, A8. cbn. now destruct rest.
Qed.

Lemma trim_iso_app (d rest : string) :
  Js.is_iso_date d = true -> exists rest', Js.trim (d ++ rest) = d ++ rest'.
Proof.
  intros Hd.
  apply IsoDateFacts.is_iso_date_inv in Hd
    as (y1 & y2 & y3 & y4 & m1 & m2 & d1 & d2 & -> & A1 & A2 & A3 & A4 & A5 & A6 & A7 & A8).
  assert (Hh : Js.is_space "-" = false /\ is_lead "-" = false) by now split.
  destruct Hh as [Hsp Hld].
  pose proof (IsoDateFacts.is_digit_not_space _ A1).
  pose proof (IsoDateFacts.is_digit_not_lead _ A1).
  pose proof (IsoDateFacts.is_digit_not_space _ A2).
  pose proof (IsoDateFacts.is_digit_not_lead _ A2).
  pose proof (IsoDateFacts.is_digit_not_space _ A3).
  pose proof (IsoDateFacts.is_digit_not_lead _ A3).
  pose proof (IsoDateFacts.is_digit_not_space _ A4).
  pose proof (IsoDateFacts.is_digit_not_lead _ A4).
  pose proof (IsoDateFacts.is_digit_not_space _ A5).
  pose proof (IsoDateFacts.is_digit_not_lead _ A5).
  pose proof (IsoDateFacts.is_digit_not_space _ A6).
  pose proof (IsoDateFacts.is_digit_not_lead _ A6).
  pose proof (IsoDateFacts.is_digit_not_space _ A7).
  pose proof (IsoDateFacts.is_digit_not_lead _ A7).
  pose proof (IsoDateFacts.is_digit_not_space _ A8).
  pose proof (IsoDateFacts.is_digit_not_lead _ A8).
  exists (Js.trimEnd rest). unfold Js.trim. cbn [append].
  rewrite trimStart_text by assumption.
  now rewrite !trimEnd_text by assumption.
Qed.

Lemma normalizeIsoDateString_result (value : option string) (r : string) :
  normalizeIsoDateString value = Some r ->
  r <> "" /\ Js.trim r = r
  /\ (Js.is_iso_date r = true \/ exists v, value = Some v /\ r = Js.trim v)
  /\ normalizeIsoDateString (Some r) = Some r.
Proof.
  destruct value as [v|]; [|discriminate]. cbn.
  destruct (Js.truthy (Js.trim v)) eqn:Ht; cbn [negb]; [|discriminate].
  destruct (Js.iso_prefix (Js.trim v)) as [ymd|] eqn:Hp; intros H; injection H as <-.
  - apply iso_prefix_is_iso_date in Hp.
    destruct (IsoDateFacts.iso_date_trim_prefix _ Hp) as [Htrim Hpre].
    split; [destruct ymd; [discriminate Hp|discriminate]|].
    split; [exact Htrim|]. split; [now left|].
    rewrite Htrim, Hpre.
    assert (Hy : Js.truthy ymd = true) by (destruct ymd; [discriminate Hp|reflexivity]).
    now rewrite Hy.
  - split; [now apply truthy_iff_not_empty|].
    split; [apply trim_idempotent|].
    split; [right; now exists v|].
    now rewrite trim_idempotent, Ht, Hp.
Qed.

(** X25.  The date of a record.  The result is missing exactly for a missing or
    blank value; otherwise it is a text that is not empty, has no white
    space around it and is either a date yyyy-MM-dd or the trimmed value,
    and normalizing it again changes nothing.  A value that starts with a
    date yyyy-MM-dd, such as a timestamp, gives that date.  Blank is: made
    of the white space characters of ECMAScript only (the no-break space
    and the other space separators among them); no white space around is:
    no such character first or last; and the trimmed value is the value
    less the white space at its two ends. *)
Theorem normalizeIsoDateString_normal (value : option string) :
  (normalizeIsoDateString value = None
   <-> match value with
       | None => True
       | Some v => Js.trim v = ""
       end)
  /\ (forall r,
         normalizeIsoDateString value = Some r ->
         r <> "" /\ Js.trim r = r
         /\ (Js.is_iso_date r = true
             \/ exists v, value = Some v /\ r = Js.trim v)
         /\ normalizeIsoDateString (Some r) = Some r)
  /\ (forall d rest,
         Js.is_iso_date d = true ->
         normalizeIsoDateString (Some (d ++ rest)) = Some d)
  /\ (forall v, normalizeIsoDateString (Some v) = None <-> Js.espacios v)
  /\ (forall r, normalizeIsoDateString value = Some r -> Js.recortado r)
  /\ (forall v, exists a b,
         v = a ++ Js.trim v ++ b /\ Js.espacios a /\ Js.espacios b).
Proof.
  assert (Hnone : forall v, normalizeIsoDateString (Some v) = None <-> Js.trim v = "").
  { intros v. cbn.
    destruct (Js.truthy (Js.trim v)) eqn:Ht; cbn [negb].
    + apply truthy_iff_not_empty in Ht.
      destruct (Js.iso_prefix (Js.trim v)); split; intros H;
        first [discriminate | contradiction].
    + split; [intros _|reflexivity].
      unfold Js.truthy in Ht. now apply negb_false_iff, String.eqb_eq in Ht. }
  split; [|split; [|split; [|split; [|split]]]].
  4:{ intros v. rewrite Hnone. apply trim_empty_espacios. }
  4:{ intros r Hr. apply trim_recortado.
      now destruct (normalizeIsoDateString_result value r Hr) as (_ & H & _). }
  4:{ intros v. destruct (trim_spec v) as (a & b & E & Ha & Hb & _). now exists a, b. }
  - destruct value as [v|]; cbn; [|tauto].
    destruct (Js.truthy (Js.trim v)) eqn:Ht; cbn [negb].
    + apply truthy_iff_not_empty in Ht.
      destruct (Js.iso_prefix (Js.trim v)); split; intros H;
        first [discriminate | contradiction].
    + split; [intros _|reflexivity].
      unfold Js.truthy in Ht. now apply negb_false_iff, String.eqb_eq in Ht.
  - apply normalizeIsoDateString_result.
  - intros d rest Hd. cbn.
    destruct (trim_iso_app d rest Hd) as [rest' ->].
    assert (Ht : Js.truthy (d ++ rest') = true) by (destruct d; [discriminate Hd|reflexivity]).
    rewrite Ht. cbn [negb]. now rewrite iso_prefix_app.
Qed.


(** ** The records *)

Lemma sanitize_value_trimmed (value : option Json) (text : string) :
  sanitize_value value = inr text -> Js.trim text = text.
Proof.
  destruct value as [[| | |v| |]|]; cbn; intros H; try discriminate;
    injection H as <-; first [apply trim_idempotent | reflexivity].
Qed.

Lemma concat_not_empty (sep first : string) (rest : list string) :
  first <> "" -> String.concat sep (first :: rest) <> "".
Proof.
  intros H. destruct first as [|c r]; [contradiction|].
  destruct rest; cbn; discriminate.
Qed.

Lemma buildVehiculoDescripcion_not_empty (vehiculo : option Json) (text : string) :
  buildVehiculoDescripcion vehiculo = inr text -> text <> "".
Proof.
  unfold buildVehiculoDescripcion.
  destruct vehiculo as [v|]; [|intros H; injection H as <-; discriminate].
  destruct (negb (json_truthy v)); [intros H; injection H as <-; discriminate|].
  destruct (sanitize_value (field "placa" v)) as [e|placa]; [discriminate|].
  destruct (sanitize_value (field "marca" v)) as [e|marca]; [discriminate|].
  destruct (sanitize_value (field "modelo" v)) as [e|modelo]; [discriminate|].
  set (parts := filter Js.truthy [placa; marca; modelo]).
  assert (Hparts : forall p, In p parts -> p <> "").
  { intros p Hp. apply filter_In in Hp as [_ Hp]. now apply truthy_iff_not_empty. }
  clearbody parts. intros H. injection H as <-.
  destruct parts as [|first rest]; [cbn; discriminate|].
  cbn [List.length Nat.ltb Nat.leb]. apply concat_not_empty.
  apply Hparts. now left.
Qed.

Lemma first_normalized_not_empty (candidates : list (option Json)) (d : string) :
  first_normalized candidates = Some d -> d <> "".
Proof.
  induction candidates as [|candidate rest IH]; cbn; [discriminate|].
  destruct (normalizeIdValue candidate) as [normalized|]; [|exact IH].
  destruct (Js.truthy normalized) eqn:Ht; [|exact IH].
  intros H. injection H as <-. now apply truthy_iff_not_empty.
Qed.

Section Datos.
Variable Number_ : string -> option Z.
Variable urlencode : string -> string.
Variable token : option string.

Local Abbreviation mapProgramacion := (PanelMonitoreoDatos.mapProgramacion Number_).
Local Abbreviation efecto_programaciones :=
  (PanelMonitoreoDatos.efecto_programaciones Number_ urlencode token).
Local Abbreviation all_request := (PanelMonitoreoDatos.all_request urlencode).

(** The conductor of a record of the response. *)
Definition conductor_de (programacion : Json) : option Json :=
  first_present (field "conductor" programacion) (field "conductorAsignado" programacion).

(** The fields of a row built from a record of the response. *)
Lemma mapProgramacion_fields (programacion : Json) (item : ProgramacionItem) :
  mapProgramacion programacion = inr item ->
  id item = String_json (field "idProgramacion" programacion)
  /\ vehiculoDescripcion item <> ""
  /\ Js.trim (conductorNombre item) = conductorNombre item
  /\ (forall f, fechaEntrega item = Some f -> f <> "" /\ Js.trim f = f)
  /\ (forall d, dispositivoId item = Some d -> d <> "")
  /\ (forall d,
         normalizeIdValue (optional_field "idDispositivoGps" (conductor_de programacion))
         = Some d ->
         d <> "" -> dispositivoId item = Some d).
Proof.
  unfold PanelMonitoreoDatos.mapProgramacion, conductor_de.
  set (vehiculoRaw := first_present (field "vehiculo" programacion) _).
  set (conductorRaw := first_present (field "conductor" programacion) _).
  assert (H : match buildVehiculoDescripcion vehiculoRaw,
                    sanitize_value (optional_field "nombreCompleto" conductorRaw) with
              | inr vehiculoDescripcion, inr conductorNombre =>
                  inr (mkItem (String_json (field "idProgramacion" programacion))
                         (normalizeIsoDateString
                            (as_string (field "fechaEntrega" programacion)))
                         (parseNumber Number_ (field "estadoEntrega" programacion))
                         vehiculoDescripcion conductorNombre
                         (resolveProgramacionDispositivoId programacion vehiculoRaw
                            conductorRaw))
              | inl e, _ => inl e
              | _, inl e => inl e
              end = inr item ->
              id item = String_json (field "idProgramacion" programacion)
              /\ vehiculoDescripcion item <> ""
              /\ Js.trim (conductorNombre item) = conductorNombre item
              /\ (forall f, fechaEntrega item = Some f -> f <> "" /\ Js.trim f = f)
              /\ (forall d, dispositivoId item = Some d -> d <> "")
              /\ (forall d,
                     normalizeIdValue (optional_field "idDispositivoGps" conductorRaw)
                     = Some d ->
                     d <> "" -> dispositivoId item = Some d)).
  { destruct (buildVehiculoDescripcion vehiculoRaw) as [e|descripcion] eqn:Hv;
      [discriminate|].
    destruct (sanitize_value (optional_field "nombreCompleto" conductorRaw))
      as [e|nombre] eqn:Hc; [discriminate|].
    intros H. injection H as <-. cbn [id vehiculoDescripcion conductorNombre
                                       fechaEntrega dispositivoId].
    split; [reflexivity|].
    split; [eapply buildVehiculoDescripcion_not_empty; exact Hv|].
    split; [eapply sanitize_value_trimmed; exact Hc|].
    split.
    { intros f Hf.
      destruct (normalizeIsoDateString_result _ f Hf) as (A & B & _).
      now split. }
    split.
    { intros d. unfold resolveProgramacionDispositivoId.
      apply first_normalized_not_empty. }
    intros d Hd Hne. unfold resolveProgramacionDispositivoId.
    cbn [first_normalized]. rewrite Hd.
    apply truthy_iff_not_empty in Hne. now rewrite Hne. }
  destruct programacion; try exact H. discriminate.
Qed.

Lemma mapProgramacion_dispositivo (programacion : Json) (item : ProgramacionItem) :
  mapProgramacion programacion = inr item ->
  dispositivoId item
  = resolveProgramacionDispositivoId programacion
      (first_present (field "vehiculo" programacion) (field "vehiculoAsignado" programacion))
      (conductor_de programacion).
Proof.
  unfold PanelMonitoreoDatos.mapProgramacion, conductor_de.
  set (vehiculoRaw := first_present (field "vehiculo" programacion) _).
  set (conductorRaw := first_present (field "conductor" programacion) _).
  assert (H : match buildVehiculoDescripcion vehiculoRaw,
                    sanitize_value (optional_field "nombreCompleto" conductorRaw) with
              | inr vehiculoDescripcion, inr conductorNombre =>
                  inr (mkItem (String_json (field "idProgramacion" programacion))
                         (normalizeIsoDateString
                            (as_string (field "fechaEntrega" programacion)))
                         (parseNumber Number_ (field "estadoEntrega" programacion))
                         vehiculoDescripcion conductorNombre
                         (resolveProgramacionDispositivoId programacion vehiculoRaw
                            conductorRaw))
              | inl e, _ => inl e
              | _, inl e => inl e
              end = inr item ->
              dispositivoId item
              = resolveProgramacionDispositivoId programacion vehiculoRaw conductorRaw).
  { destruct (buildVehiculoDescripcion vehiculoRaw) as [e|descripcion]; [discriminate|].
    destruct (sanitize_value (optional_field "nombreCompleto" conductorRaw))
      as [e|nombre]; [discriminate|].
    intros H. injection H as <-. reflexivity. }
  destruct programacion; try exact H. discriminate.
Qed.

(** A text id is passed over exactly when it is white space only. *)
Lemma normalizeIdValue_blank (d : string) :
  normalizeIdValue (Some (JStr d)) = None <-> Js.espacios d.
Proof.
  clear Number_. rewrite <- trim_empty_espacios. cbn.
  destruct (Js.trim d) as [|c r]; cbn; split; intros H;
    first [reflexivity | discriminate].
Qed.

(** X26.  A row of the table built from a record of the response.  Its id is the
    text of the record's identifier; the description of the vehicle is
    never empty; the name of the conductor has no white space around it;
    the date, when there is one, is not empty and has no white space around
    it; the device, when there is one, is not the empty text, and it is the
    device of the conductor whenever the conductor has one.  No white space
    around is: trimming changes nothing, and none of the white space
    characters of ECMAScript (the no-break space and the other space
    separators among them) comes first or last.  A device id that is a text
    of such characters only is no id, so that the next candidate is
    taken. *)
Theorem mapProgramacion_item (programacion : Json) (item : ProgramacionItem) :
  mapProgramacion programacion = inr item ->
  id item = String_json (field "idProgramacion" programacion)
  /\ vehiculoDescripcion item <> ""
  /\ Js.trim (conductorNombre item) = conductorNombre item
  /\ (forall f, fechaEntrega item = Some f -> f <> "" /\ Js.trim f = f)
  /\ (forall d, dispositivoId item = Some d -> d <> "")
  /\ (forall d,
         normalizeIdValue (optional_field "idDispositivoGps" (conductor_de programacion))
         = Some d ->
         d <> "" -> dispositivoId item = Some d)
  /\ Js.recortado (conductorNombre item)
  /\ (forall f, fechaEntrega item = Some f -> Js.recortado f)
  /\ (forall d, normalizeIdValue (Some (JStr d)) = None <-> Js.espacios d)
  /\ (forall d,
         optional_field "idDispositivoGps" (conductor_de programacion) = Some (JStr d) ->
         Js.espacios d ->
         dispositivoId item
         = first_normalized
             [field "idDispositivoGps" programacion;
              optional_field "idDispositivo" (presente (field "dispositivoGps" programacion));
              optional_field "idDispositivoGps"
                (first_present (field "vehiculo" programacion)
                               (field "vehiculoAsignado" programacion));
              optional_field "idDispositivo"
                (presente (optional_field "dispositivoGps"
                             (first_present (field "vehiculo" programacion)
                                            (field "vehiculoAsignado" programacion))))]).
Proof.
  intros H.
  destruct (mapProgramacion_fields programacion item H) as (A & B & C & D & E & F).
  repeat (split; [assumption|]).
  split; [now apply trim_recortado|].
  split; [intros f Hf; now apply trim_recortado, D|].
  split; [apply normalizeIdValue_blank|].
  intros d Hd Hesp. apply normalizeIdValue_blank in Hesp.
  rewrite (mapProgramacion_dispositivo programacion item H).
  unfold resolveProgramacionDispositivoId. cbn [first_normalized].
  now rewrite Hd, Hesp.
Qed.

End Datos.


(** A record of the response and the row made of it. *)
Definition registro_7 : Json :=
  JObj [("idProgramacion", JNum 7);
        ("fechaEntrega", JStr "2024-05-01T08:00:00");
        ("estadoEntrega", JStr " 0 ");
        ("vehiculoAsignado", JObj [("placa", JStr " 1234-ABC "); ("marca", JStr "Volvo")]);
        ("conductor", JObj [("nombreCompleto", JStr "Ana Rojas ");
                            ("idDispositivoGps", JNum 15)]);
        ("idDispositivoGps", JStr "99")].

Definition fila_7 : ProgramacionItem :=
  mkItem "7" (Some "2024-05-01") (Some 0%Z) "1234-ABC - Volvo" "Ana Rojas" (Some "15").

(** The same record with no-break spaces (U+00A0) around the name of the
    conductor and as the device of the conductor: the name is trimmed and
    the device is the one of the programacion. *)
Definition registro_8 : Json :=
  JObj [("idProgramacion", JNum 8);
        ("fechaEntrega", JStr (Js.utf8 160 ++ "2024-05-01" ++ Js.utf8 8195));
        ("conductor", JObj [("nombreCompleto", JStr (Js.utf8 160 ++ "Ana Rojas" ++ Js.utf8 160));
                            ("idDispositivoGps", JStr (Js.utf8 160))]);
        ("idDispositivoGps", JStr "99")].

Definition fila_8 : ProgramacionItem :=
  mkItem "8" (Some "2024-05-01") None "Sin vehiculo asignado" "Ana Rojas" (Some "99").

Lemma mapProgramacion_item_witness :
  (PanelMonitoreoDatos.mapProgramacion Js.Number_decimal registro_7 = inr fila_7
   /\ vehiculoDescripcion fila_7 <> "")
  /\ (PanelMonitoreoDatos.mapProgramacion Js.Number_decimal registro_8 = inr fila_8
      /\ Js.recortado (conductorNombre fila_8)
      /\ dispositivoId fila_8 = Some "99").
Proof.
  split.
  - split; [reflexivity|].
    exact (proj1 (proj2 (mapProgramacion_item Js.Number_decimal registro_7 fila_7 eq_refl))).
  - split; [reflexivity|]. split; [|reflexivity].
    exact (proj1 (proj2 (proj2 (proj2 (proj2 (proj2 (proj2
             (mapProgramacion_item Js.Number_decimal registro_8 fila_8 eq_refl)))))))).
Defined.

(** ** The loading of the table *)

Section Carga.
Variable Number_ : string -> option Z.
Variable urlencode : string -> string.
Variable token : option string.

Local Abbreviation efecto_programaciones :=
  (PanelMonitoreoDatos.efecto_programaciones Number_ urlencode token).
Local Abbreviation all_request := (PanelMonitoreoDatos.all_request urlencode).

(** The rows of a body of the response. *)
Definition filas_de (body : Json) : JsError + list ProgramacionItem :=
  match body with
  | JNull => inl TypeError
  | _ =>
      match field "data" body with
      | Some (JArr data) => map_throwing (PanelMonitoreoDatos.mapProgramacion Number_) data
      | _ => inr []
      end
  end.

(** The rows the backend answered for the search of [s0], if the answer
    was ok and could be read. *)
Definition filas_respondidas (w : World) (s0 : State) : option (list ProgramacionItem) :=
  match fetch_answer w [] (all_request s0) with
  | inr response =>
      if ok response then
        match json response with
        | inr body => match filas_de body with
                      | inr records => Some records
                      | inl _ => None
                      end
        | inl _ => None
        end
      else None
  | inl _ => None
  end.

(** X27.  The loading of the table.  Without a token nothing is requested and
    the table is emptied.  With a token exactly one request is sent, for the
    search in force, and the effect never throws and ends with the loading
    mark off.  When the answer is ok and can be read, the table holds the
    rows of its records and no error is shown; in every other case the
    table is empty and the error message is shown.  The form of the search
    and the edit form are not touched. *)
Theorem efecto_programaciones_outcome (w : World) (s0 : State) :
  let handler := efecto_programaciones s0 in
  let s' := final_state handler w s0 in
  (Js.truthy_opt token = false -> run handler w s0 = (inr tt, set_items [] s0, []))
  /\ (Js.truthy_opt token = true ->
      fst (fst (run handler w s0)) = inr tt
      /\ trace_of handler w s0 = [EvRequest (all_request s0)]
      /\ loading s' = false
      /\ match filas_respondidas w s0 with
         | Some records => items s' = records /\ error s' = None
         | None =>
             items s' = []
             /\ error s'
                = Some "No se pudieron cargar las programaciones. Intenta nuevamente."
         end)
  /\ nro s' = nro s0 /\ desde s' = desde s0 /\ hasta s' = hasta s0
  /\ searchParams s' = searchParams s0
  /\ editingProgramacion s' = editingProgramacion s0 /\ editFecha s' = editFecha s0
  /\ actionStatus s' = actionStatus s0.
Proof.
  cbv zeta. unfold PanelMonitoreoDatos.efecto_programaciones, filas_respondidas.
  destruct (Js.truthy_opt token); cbn [negb].
  2:{ split; [reflexivity|]. split; [discriminate|]. repeat split. }
  split; [discriminate|].
  unfold PanelMonitoreoDatos.fetchProgramaciones.
  fold (filas_de).
  generalize (all_request s0). intros request.
  handler_unfold. cbn [app].
  destruct (fetch_answer w [] request) as [e|response]; cbn; [repeat split|].
  destruct (ok response); cbn [negb].
  2:{ destruct (text response); cbn; repeat split. }
  cbn. destruct (json response) as [e|body]; cbn; [repeat split|].
  change (match body with
          | JNull => inl TypeError
          | _ => match field "data" body with
                 | Some (JArr data) =>
                     map_throwing (PanelMonitoreoDatos.mapProgramacion Number_) data
                 | _ => inr []
                 end
          end) with (filas_de body).
  destruct (filas_de body) as [e|records]; cbn; repeat split.
Qed.

(** X28.  What a search asks for.  After the search button the request carries
    the number as typed without the white space around it and the two
    dates converted by [formatDateForApi]; after the clear button the three
    parameters are empty, and so are the three fields of the form.  Neither
    button touches the table.  The number without the white space around
    it is: the number as typed less a run of white space characters of
    ECMAScript (the no-break space and the other space separators among
    them) at each end, with no such character left first or last. *)
Theorem handleSearch_query (w : World) (s0 : State) :
  let buscado := final_state (handleSearch s0) w s0 in
  let limpio := final_state handleClear w s0 in
  url (all_request buscado)
  = "/api/v1/programacion-distribucion/all?nro=" ++ urlencode (Js.trim (nro s0))
      ++ "&desde=" ++ urlencode (formatDateForApi (desde s0))
      ++ "&hasta=" ++ urlencode (formatDateForApi (hasta s0))
  /\ url (all_request limpio)
     = "/api/v1/programacion-distribucion/all?nro=" ++ urlencode ""
         ++ "&desde=" ++ urlencode "" ++ "&hasta=" ++ urlencode ""
  /\ nro limpio = "" /\ desde limpio = "" /\ hasta limpio = ""
  /\ nro buscado = nro s0 /\ desde buscado = desde s0 /\ hasta buscado = hasta s0
  /\ items buscado = items s0 /\ items limpio = items s0
  /\ trace_of (handleSearch s0) w s0 = [] /\ trace_of handleClear w s0 = []
  /\ (exists a b, nro s0 = a ++ Js.trim (nro s0) ++ b /\ Js.espacios a /\ Js.espacios b)
  /\ Js.recortado (Js.trim (nro s0)).
Proof.
  cbv zeta. unfold handleSearch, handleClear, PanelMonitoreoDatos.all_request, query_string.
  handler_unfold. cbn -[Js.trim formatDateForApi append].
  rewrite trim_idempotent.
  destruct (trim_spec (nro s0)) as (a & b & E & Ha & Hb & Hr).
  repeat (split; [reflexivity|]). split; [now exists a, b|exact Hr].
Qed.

End Carga.

(** ** The removal of a programacion *)

Local Abbreviation delete_message := ConfirmFacts.delete_message.

(** The backend answered ok to the removal. *)
Definition eliminada (w : World) (programacion : ProgramacionItem) : bool :=
  match fetch_answer w [EvConfirm (delete_message programacion)]
                     (delete_request programacion) with
  | inr response => ok response
  | inl _ => false
  end.

(** X29.  The removal of a programacion, once confirmed.  One DELETE request is
    sent, the handler never throws and the mark of the removal in progress
    ends cleared.  When the backend answers ok the rows of that id leave
    the table, the others stay in their order, the success message is
    shown, and the edit form is closed if it was open on that programacion
    and untouched otherwise.  In every other case the table and the edit
    form are as before and the error message is shown. *)
Theorem handleDelete_outcome (w : World) (programacion : ProgramacionItem) (s0 : State) :
  confirm_answer w [] (delete_message programacion) = true ->
  let handler := handleDelete programacion s0 in
  let s' := final_state handler w s0 in
  fst (fst (run handler w s0)) = inr tt
  /\ requests (trace_of handler w s0) = [delete_request programacion]
  /\ deleteInProgress s' = None
  /\ (eliminada w programacion = true ->
      items s' = filter (fun item => negb (id item =? id programacion)) (items s0)
      /\ (forall item, In item (items s')
                       <-> In item (items s0) /\ id item <> id programacion)
      /\ actionStatus s'
         = Some (mkActionStatus success "Programación eliminada correctamente.")
      /\ (is_editing s0 programacion = true ->
          editingProgramacion s' = None /\ editFecha s' = "" /\ mutationError s' = None)
      /\ (is_editing s0 programacion = false ->
          editingProgramacion s' = editingProgramacion s0
          /\ editFecha s' = editFecha s0 /\ mutationError s' = mutationError s0))
  /\ (eliminada w programacion = false ->
      items s' = items s0
      /\ actionStatus s'
         = Some (mkActionStatus error_
                   "No se pudo eliminar la programación seleccionada. Intenta nuevamente.")
      /\ editingProgramacion s' = editingProgramacion s0
      /\ editFecha s' = editFecha s0 /\ mutationError s' = mutationError s0).
Proof.
  intros Hc. cbv zeta. unfold handleDelete, eliminada, closeEditForm.
  fold (ConfirmFacts.delete_message programacion).
  generalize dependent (delete_message programacion). intros message Hc.
  generalize (delete_request programacion). intros request.
  handler_unfold. cbn [app]. rewrite Hc. cbn [negb app].
  destruct (fetch_answer w [EvConfirm message] request) as [e|response]; cbn;
    [repeat split; discriminate|].
  destruct (ok response); cbn [negb].
  2:{ destruct (text response); cbn; repeat split; discriminate. }
  cbn.
  assert (Hin : forall item,
             In item (filter (fun item => negb (id item =? id programacion)) (items s0))
             <-> In item (items s0) /\ id item <> id programacion).
  { intros item. rewrite filter_In.
    destruct (String.eqb_spec (id item) (id programacion)); cbn; intuition congruence. }
  destruct (is_editing s0 programacion); cbn;
    (split; [reflexivity|]); (split; [reflexivity|]); (split; [reflexivity|]);
    (split; [|discriminate]); intros _;
    (split; [reflexivity|]); (split; [exact Hin|]); (split; [reflexivity|]);
    split; intros H; first [discriminate H | repeat split].
Qed.

Definition dos_filas : list ProgramacionItem :=
  [mkItem "7" (Some "2024-05-01") (Some 0%Z) "1234-ABC" "Ana" None;
   mkItem "8" (Some "2024-05-02") (Some 0%Z) "5678-DEF" "Luis" None].

Definition panel_con_dos_filas : State :=
  mkState "" "" "" (mkSearchParams "" "" "") dos_filas false None None "" false None None None.

Definition backend_elimina : World :=
  mkWorld (fun _ _ => true) (fun _ _ => inr (mkResponse true 200 (inr "") (inr JNull))).

Lemma handleDelete_outcome_witness :
  confirm_answer backend_elimina [] (delete_message (mkItem "7" None None "" "" None)) = true
  /\ deleteInProgress
       (final_state (handleDelete (mkItem "7" None None "" "" None) panel_con_dos_filas)
                    backend_elimina panel_con_dos_filas)
     = None.
Proof.
  split; [reflexivity|].
  exact (proj1 (proj2 (proj2
           (handleDelete_outcome backend_elimina (mkItem "7" None None "" "" None)
              panel_con_dos_filas eq_refl)))).
Defined.

End PanelMonitoreoDatosFacts.

(* ===================================================================== *)
(** * Theorems: the observation of a delivery *)
(* ===================================================================== *)

Module EntregaObservacionFacts.
Import Effects EntregaObservacion DispositivosFacts ValoresFacts.
Local Open Scope string_scope.

Section Observacion.
Variable Number_ : string -> option Z.
Variable conductorId : option Js.Scalar.
Variable productoId : option string.
Variable notaId : option string.

Local Abbreviation onSubmit :=
  (EntregaObservacion.onSubmit Number_ conductorId productoId notaId).
Local Abbreviation canSubmit := (EntregaObservacion.canSubmit conductorId productoId notaId).
Local Abbreviation payload :=
  (EntregaObservacion.payload Number_ conductorId productoId notaId).
Local Abbreviation observacion_post :=
  (EntregaObservacion.observacion_post Number_ conductorId productoId notaId).

(** The backend answered ok to the observation. *)
Definition registrada (w : World) (s0 : State) : bool :=
  match fetch_answer w [EvConfirm ConfirmFacts.observacion_message] (observacion_post s0) with
  | inr response => ok response
  | inl _ => false
  end.

(** X30.  The submission of an observation.  While the form cannot be submitted
    (no conductor, no id of the delivery or an observation of blanks only)
    or a submission is running, nothing happens.  Once confirmed, the
    handler asks, sends one POST and then either goes back one page, when
    the backend answers ok, or shows the alert, in every other case: never
    both, never neither.  It never throws, ends with the mark of the
    submission off and keeps the text and the state chosen.  The
    observation sent is the text without the white space around it and is
    never empty, the state sent is 1 or 2, and the conductor sent is the
    user of the session.  Blanks are the white space characters of
    ECMAScript (the no-break space and the other space separators among
    them): an observation made of them only cannot be submitted, and the
    observation sent is the text less a run of them at each end, with none
    of them left first or last. *)
Theorem onSubmit_outcome (w : World) (s0 : State) :
  let handler := onSubmit s0 in
  let s' := final_state handler w s0 in
  (canSubmit s0 = false \/ isSubmitting s0 = true -> run handler w s0 = (inr tt, s0, []))
  /\ (canSubmit s0 = true -> isSubmitting s0 = false ->
      confirm_answer w [] ConfirmFacts.observacion_message = true ->
      fst (fst (run handler w s0)) = inr tt
      /\ trace_of handler w s0
         = [EvConfirm ConfirmFacts.observacion_message;
            EvRequest (observacion_post s0);
            if registrada w s0 then EvNavigate (-1)
            else EvAlert "No se pudo registrar la observación. Intente nuevamente."]
      /\ isSubmitting s' = false
      /\ observacion s' = observacion s0 /\ estado s' = estado s0)
  /\ (canSubmit s0 = true ->
      exists c,
        conductorId = Some c
        /\ field "idConductor" (payload s0) = Some (json_of_scalar c)
        /\ field "observacion" (payload s0) = Some (JStr (Js.trim (observacion s0)))
        /\ Js.trim (observacion s0) <> ""
        /\ (field "estadoEntrega" (payload s0) = Some (JNum 1)
            \/ field "estadoEntrega" (payload s0) = Some (JNum 2))
        /\ field "status" (payload s0) = Some (JNum 1))
  /\ (Js.espacios (observacion s0) ->
      canSubmit s0 = false /\ run handler w s0 = (inr tt, s0, []))
  /\ (exists a b,
        observacion s0 = a ++ Js.trim (observacion s0) ++ b
        /\ Js.espacios a /\ Js.espacios b)
  /\ Js.recortado (Js.trim (observacion s0)).
Proof.
  cbv zeta. split; [|split; [|split; [|split; [|split]]]].
  4:{ intros Hesp. apply TrimFacts.trim_empty_espacios in Hesp.
      assert (Hcan : canSubmit s0 = false).
      { unfold EntregaObservacion.canSubmit. rewrite Hesp. cbn. apply andb_false_r. }
      split; [exact Hcan|].
      unfold EntregaObservacion.onSubmit. now rewrite Hcan. }
  4:{ destruct (TrimFacts.trim_spec (observacion s0)) as (a & b & E & Ha & Hb & _).
      now exists a, b. }
  4:{ now destruct (TrimFacts.trim_spec (observacion s0)) as (a & b & _ & _ & _ & Hr). }
  - unfold EntregaObservacion.onSubmit. intros [H | H]; rewrite H; cbn;
      [reflexivity|now rewrite orb_true_r].
  - intros Hcan Hsub Hconf. unfold EntregaObservacion.onSubmit, registrada.
    rewrite Hcan, Hsub. cbn [negb orb].
    fold ConfirmFacts.observacion_message.
    generalize dependent ConfirmFacts.observacion_message. intros message Hconf.
    generalize (observacion_post s0). intros request.
    handler_unfold. cbn [app]. rewrite Hconf. cbn [negb app].
    destruct (fetch_answer w [EvConfirm message] request) as [e|response]; cbn;
      [repeat split|].
    destruct (ok response); cbn [negb]; [cbn; repeat split|].
    destruct (text response); cbn; repeat split.
  - intros Hcan. unfold EntregaObservacion.canSubmit in Hcan.
    apply andb_true_iff in Hcan as [Hcan Hobs].
    apply andb_true_iff in Hcan as [Hcond _].
    destruct conductorId as [c|] eqn:Hc; [|discriminate Hcond].
    exists c. unfold EntregaObservacion.payload.
    split; [reflexivity|]. split; [reflexivity|]. split; [reflexivity|].
    split; [now apply truthy_iff_not_empty|].
    split; [|reflexivity].
    destruct (estado s0); [right|left]; reflexivity.
Qed.

End Observacion.

Definition observacion_escrita : State := mkState " Cliente ausente " No_Entregado false.

Definition backend_registra_observacion : World :=
  mkWorld (fun _ _ => true) (fun _ _ => inr (mkResponse true 200 (inr "") (inr JNull))).

(** An observation of a no-break space (U+00A0) and an em space (U+2003). *)
Definition observacion_de_espacios : State :=
  mkState (Js.utf8 160 ++ Js.utf8 8195) Entregado false.

Lemma onSubmit_outcome_witness :
  (EntregaObservacion.canSubmit (Some (Js.Num 4)) (Some "12") None observacion_de_espacios
   = false
   /\ run (EntregaObservacion.onSubmit Js.Number_decimal (Some (Js.Num 4)) (Some "12")
             None observacion_de_espacios)
          backend_registra_observacion observacion_de_espacios
      = (inr tt, observacion_de_espacios, []))
  /\ EntregaObservacion.canSubmit (Some (Js.Num 4)) (Some "12") None observacion_escrita = true
  /\ trace_of (EntregaObservacion.onSubmit Js.Number_decimal (Some (Js.Num 4)) (Some "12")
                 None observacion_escrita)
              backend_registra_observacion observacion_escrita
     = [EvConfirm ConfirmFacts.observacion_message;
        EvRequest
          (mkRequest Backend POST "/api/v1/observacion-entregas/add"
             (Some (JObj [("idConductor", JNum 4);
                          ("idSalidasProgramadasDetalle", JNum 12);
                          ("observacion", JStr "Cliente ausente");
                          ("estadoEntrega", JNum 1);
                          ("status", JNum 1)])));
        EvNavigate (-1)].
Proof.
  split; [|split; [reflexivity|]].
  - refine (proj1 (proj2 (proj2 (proj2
             (onSubmit_outcome Js.Number_decimal (Some (Js.Num 4)) (Some "12") None
                backend_registra_observacion observacion_de_espacios)))) _).
    refine (Js.espacios_cons 160 (Js.utf8 8195) _ (Js.espacios_cons 8195 "" _ Js.espacios_nil));
      cbn; tauto.
  - exact (proj1 (proj2 (proj1 (proj2
             (onSubmit_outcome Js.Number_decimal (Some (Js.Num 4)) (Some "12") None
                backend_registra_observacion observacion_escrita))
             eq_refl eq_refl eq_refl))).
Defined.

End EntregaObservacionFacts.

(* ===================================================================== *)
(** * The pages at work: runs on concrete inputs *)
(* ===================================================================== *)

Module Examples.
Import Effects.
Local Open Scope string_scope.

(** A driver who opens a page of the administrator is sent to the
    deliveries; an administrator sees the page. *)
Example conductor_redirected :
  RoleProtectedRoute.RoleProtectedRoute
    (RoleProtectedRoute.mkAuth true (Some "conductor") (Some (Js.Num 5)))
    [RoleProtectedRoute.administrador] "Reportes"
  = RoleProtectedRoute.Navigate "/menu/entregas" true.
Proof. reflexivity. Qed.

Example administrador_allowed :
  RoleProtectedRoute.RoleProtectedRoute
    (RoleProtectedRoute.mkAuth true (Some "administrador") (Some (Js.Num 1)))
    [RoleProtectedRoute.administrador] "Reportes"
  = RoleProtectedRoute.Children "Reportes".
Proof. reflexivity. Qed.

(** Four programaciones of two drivers over two days and one without a
    date. *)
Definition cuatro : list Reportes.Programacion :=
  [Reportes.mkProgramacion "1" Reportes.entregado (Some "7") "Ana" (Some "2025-03-11");
   Reportes.mkProgramacion "2" Reportes.en_proceso (Some "8") "Luis" None;
   Reportes.mkProgramacion "3" Reportes.entregado (Some "7") "Ana" (Some "2025-03-10");
   Reportes.mkProgramacion "4" Reportes.no_entregado (Some "8") "Luis" (Some "2025-03-11")].

Example filter_by_driver :
  map Reportes.id (Reportes.filteredProgramaciones cuatro Reportes.todos "8") = ["2"; "4"].
Proof. reflexivity. Qed.

Example filter_by_both :
  map Reportes.id
      (Reportes.filteredProgramaciones cuatro (Reportes.solo Reportes.entregado) "7")
  = ["1"; "3"].
Proof. reflexivity. Qed.

Example charts_of_cuatro :
  let c := Reportes.charts (fun d => d) cuatro in
  Reportes.donutSeries c = [2; 1; 1]%nat
  /\ Reportes.totalRegistros c = 4%nat
  /\ Reportes.porcentajeEntregado c = Number.of_Z 50
  /\ Reportes.porcentajeAtrasos c = Number.of_Z 25
  /\ Reportes.stackedCategories c = ["2025-03-10"; "2025-03-11"; "Sin fecha"]
  /\ Reportes.stackedSeries c
     = [("Entregado", [1; 1; 0]); ("En proceso", [0; 0; 1]); ("No entregado", [0; 1; 0])]%nat
  /\ Reportes.driverCategories c = ["Ana"; "Luis"]
  /\ Reportes.productividadSeries c = ("Entregas completadas", [2; 0]%nat).
Proof. vm_compute. repeat split. Qed.

(** The backend registers the programacion as number 12 and accepts the
    salidas. *)
Definition backend_acepta : World :=
  mkWorld (fun _ _ => true)
          (fun _ r =>
             if url r =? "/api/v1/programacion-distribucion/add"
             then inr (mkResponse true 200 (inr "")
                         (inr (JObj [("code", JNum 200);
                                     ("data", JObj [("idProgramacion", JNum 12)])])))
             else inr (mkResponse true 200 (inr "") (inr JNull))).

Example guardarProgramacion_registers :
  let handler :=
    ProgramarSalida.guardarProgramacion Js.Number_decimal
      (RoleProtectedRoute.mkAuth true (Some "administrador") (Some (Js.Num 1)))
      (Some "t") "2025-03-10" "2025-03-10T08:00:00" ConfirmFacts.formulario_completo in
  map (fun r => (method r, url r))
      (requests (trace_of handler backend_acepta ConfirmFacts.formulario_completo))
  = [(POST, "/api/v1/programacion-distribucion/add");
     (POST, "/api/v1/salidas-programadas/add/12")]
  /\ ProgramarSalida.submitSuccess
       (final_state handler backend_acepta ConfirmFacts.formulario_completo)
     = Some "Programacion registrada correctamente."
  /\ map ProgramarSalida.seleccionado
         (ProgramarSalida.pedidos
            (final_state handler backend_acepta ConfirmFacts.formulario_completo))
     = [Some false]
  /\ ProgramarSalida.isSubmitting
       (final_state handler backend_acepta ConfirmFacts.formulario_completo) = false.
Proof. vm_compute. repeat split. Qed.

(** The list of devices asked for page 5 when there are two pages. *)
Definition backend_dos_paginas : World :=
  mkWorld (fun _ _ => true)
          (fun _ _ =>
             inr (mkResponse true 200 (inr "")
                    (inr (JObj [("code", JNum 200);
                                ("data", JObj [("content", JArr []);
                                               ("totalElements", JNum 12);
                                               ("totalPages", JNum 2)])])))).

Example devices_page_reset :
  let s0 := Dispositivos.set_page 5 Dispositivos.initial_state in
  let handler := Dispositivos.efecto_lista (fun s => s) (Some "t") s0 in
  map url (requests (trace_of handler backend_dos_paginas s0))
  = ["/api/v1/dispositivosGps/all?page=5&size=10"]
  /\ Dispositivos.page (final_state handler backend_dos_paginas s0) = 1%Z
  /\ Dispositivos.loading (final_state handler backend_dos_paginas s0) = false.
Proof. vm_compute. repeat split. Qed.

(** Twenty devices at eight to a page, in a response without [totalPages]. *)
Example devices_pages_derived :
  Dispositivos.totalPaginas
    (Dispositivos.leer_pagina (Some (JObj PaginationFacts.primera_pagina)) 0 8) = 3%Z.
Proof. reflexivity. Qed.

(** An edit of the date in the panel. *)
Definition dos_items : list PanelMonitoreo.ProgramacionItem :=
  [PanelMonitoreo.mkItem "31" (Some "2025-03-12") (Some 0%Z) "1234ABC - Volvo" "Ana" None;
   PanelMonitoreo.mkItem "32" (Some "2025-03-09") (Some 2%Z) "5678DEF - Nissan" "Luis" None].

Definition panel (editing : option PanelMonitoreo.ProgramacionItem) (editFecha : string)
    : PanelMonitoreo.State :=
  PanelMonitoreo.mkState "" "" "" (PanelMonitoreo.mkSearchParams "" "" "") dos_items
    false None editing editFecha false None None None.

Definition backend_ok_vacio : World :=
  mkWorld (fun _ _ => true) (fun _ _ => inr (mkResponse true 200 (inr "") (inr JNull))).

Example edit_date_example :
  let s0 := panel (nth_error dos_items 0) "2025-03-20" in
  let handler := PanelMonitoreo.handleEditSubmit "2025-03-10" s0 in
  map (fun r => (method r, url r)) (requests (trace_of handler backend_ok_vacio s0))
  = [(PUT, "/api/v1/programacion-distribucion/updateFecha/31/2025-03-20")]
  /\ map PanelMonitoreo.fechaEntrega
         (PanelMonitoreo.items (final_state handler backend_ok_vacio s0))
     = [Some "2025-03-20"; Some "2025-03-09"]
  /\ PanelMonitoreo.editingProgramacion (final_state handler backend_ok_vacio s0) = None.
Proof. vm_compute. repeat split. Qed.

Example edit_past_date_rejected :
  let s0 := panel (nth_error dos_items 0) "2025-03-01" in
  let handler := PanelMonitoreo.handleEditSubmit "2025-03-10" s0 in
  trace_of handler backend_ok_vacio s0 = []
  /\ PanelMonitoreo.mutationError (final_state handler backend_ok_vacio s0)
     = Some "Selecciona una fecha igual o posterior a la fecha actual.".
Proof. vm_compute. repeat split. Qed.

Example delivered_not_editable :
  let s0 := panel None "" in
  final_state (PanelMonitoreo.openEditForm Js.Number_decimal "2025-03-10"
                 (PanelMonitoreo.mkItem "32" (Some "2025-03-09") (Some 2%Z)
                    "5678DEF - Nissan" "Luis" None) s0)
              backend_ok_vacio s0
  = s0.
Proof. reflexivity. Qed.

(** White space that is not ASCII: a no-break space (U+00A0) and an em space
    (U+2003), in their UTF-8 bytes. *)
Definition nbsp : string := String (ascii_of_nat 194) (String (ascii_of_nat 160) "").

Definition em_space : string :=
  String (ascii_of_nat 226) (String (ascii_of_nat 128) (String (ascii_of_nat 131) "")).

(** A zero-width space (U+200B) and an e with acute accent are not white
    space. *)
Definition zero_width_space : string :=
  String (ascii_of_nat 226) (String (ascii_of_nat 128) (String (ascii_of_nat 139) "")).

Example trim_unicode_space :
  Js.trim (nbsp ++ " 12" ++ em_space ++ nbsp) = "12"
  /\ Js.trim (nbsp ++ em_space) = ""
  /\ Js.trim (nbsp ++ "a" ++ nbsp ++ "b" ++ nbsp) = "a" ++ nbsp ++ "b"
  /\ Js.trim (zero_width_space ++ "12" ++ zero_width_space)
     = zero_width_space ++ "12" ++ zero_width_space
  /\ Js.trim (" caf" ++ String (ascii_of_nat 195) (String (ascii_of_nat 169) "") ++ " ")
     = "caf" ++ String (ascii_of_nat 195) (String (ascii_of_nat 169) "").
Proof. vm_compute. repeat split. Qed.

(** A date of no-break spaces only is no date, and one wrapped in such
    spaces is the date. *)
Example normalizeIsoDateString_unicode_space :
  PanelMonitoreo.normalizeIsoDateString (Some nbsp) = None
  /\ PanelMonitoreo.normalizeIsoDateString (Some (nbsp ++ "2025-03-10" ++ em_space))
     = Some "2025-03-10".
Proof. vm_compute. repeat split. Qed.

(** A driver whose name is a no-break space is shown as 'Sin asignar' in
    the report. *)
Example mapProgramacion_blank_name :
  Reportes.conductorNombre
    (ReportesDatos.mapProgramacion (fun _ => None) (fun _ => "generado") 0
       (JObj [("idProgramacion", JNum 3);
              ("conductor", JObj [("idUsuario", JNum 7); ("nombreCompleto", JStr nbsp)])]))
  = "Sin asignar".
Proof. reflexivity. Qed.

(** In the panel a device id of a no-break space is passed over for the
    next candidate, and the name of the driver loses the spaces around
    it. *)
Example panel_row_unicode_space :
  PanelMonitoreoDatos.mapProgramacion Js.Number_decimal
    (JObj [("idProgramacion", JNum 3);
           ("idDispositivoGps", JStr "gps-9");
           ("conductor", JObj [("idDispositivoGps", JStr nbsp);
                               ("nombreCompleto", JStr (nbsp ++ "Ana" ++ em_space))])])
  = inr (PanelMonitoreo.mkItem "3" None None "Sin vehiculo asignado" "Ana" (Some "gps-9")).
Proof. vm_compute. reflexivity. Qed.

(** The search for '12' followed by a no-break space asks for 12. *)
Example search_unicode_space :
  let s0 := PanelMonitoreo.set_nro ("12" ++ nbsp) (panel None "") in
  url (PanelMonitoreoDatos.all_request (fun text => text)
         (final_state (PanelMonitoreoDatos.handleSearch s0) backend_ok_vacio s0))
  = "/api/v1/programacion-distribucion/all?nro=12&desde=&hasta=".
Proof. vm_compute. reflexivity. Qed.

(** An observation of no-break spaces only cannot be submitted: nothing is
    asked and nothing is sent. *)
Example observacion_blank_not_submitted :
  let s0 := EntregaObservacion.mkState (nbsp ++ em_space) EntregaObservacion.Entregado false in
  EntregaObservacion.canSubmit (Some (Js.Num 5)) (Some "41") None s0 = false
  /\ run (EntregaObservacion.onSubmit Js.Number_decimal (Some (Js.Num 5)) (Some "41") None s0)
         backend_ok_vacio s0
     = (inr tt, s0, []).
Proof. vm_compute. repeat split. Qed.

(** The list of devices: a body whose code is the text '500', or whose
    content has a null element, ends in the error of the page with an
    empty table. *)
Definition backend_con_cuerpo (body : Json) : World :=
  mkWorld (fun _ _ => true) (fun _ _ => inr (mkResponse true 200 (inr "") (inr body))).

Example devices_textual_code :
  let s0 := Dispositivos.initial_state in
  let body := JObj [("code", JStr "500");
                    ("data", JObj [("content", JArr []); ("totalPages", JNum 1)])] in
  let s' := final_state (Dispositivos.efecto_lista (fun text => text) (Some "t") s0)
                        (backend_con_cuerpo body) s0 in
  Dispositivos.error s' <> None /\ Dispositivos.dispositivos s' = [].
Proof. vm_compute. split; [discriminate|reflexivity]. Qed.

Example devices_null_element :
  let s0 := Dispositivos.initial_state in
  let body := JObj [("code", JNum 200);
                    ("data", JObj [("content", JArr [JNull]); ("totalPages", JNum 1)])] in
  let s' := final_state (Dispositivos.efecto_lista (fun text => text) (Some "t") s0)
                        (backend_con_cuerpo body) s0 in
  Dispositivos.error s' <> None /\ Dispositivos.dispositivos s' = [].
Proof. vm_compute. split; [discriminate|reflexivity]. Qed.

(** [String] of an array joins its elements. *)
Example String_of_array :
  String_json (Some (JArr [JNum 1; JNum 2])) = "1,2"
  /\ String_json (Some (JArr [JNull; JStr "a"; JArr [JNum 3; JNum 4]])) = ",a,3,4".
Proof. vm_compute. repeat split. Qed.

End Examples.
